(** * Here2Run: the run-tracking session controller

    A shallow embedding of the tracking screen ([TrackingScreen]), the
    background location task, the location service, the storage service's
    "current tracking" slot and [coordinatesToSegments], followed by the
    properties of the session state machine.

    Conventions.
    - JavaScript numbers that hold times, indices and counters are integers
      in the program ([Date.now()], segment indices, seconds) and are
      modelled in [Z]; latitude, longitude, altitude and accuracy are
      modelled in [Q].  [Math.floor (x / 1000)] is [x / 1000] on [Z].
    - A value that may be [null]/[undefined] is an [option]; truthiness
      tests ([if (x)], [x || d], [!x]) are written out with the helpers of
      module [Js].
    - A distance is a sum of Haversine lengths; it is kept as the list of
      legs that the program sums, so no floating point is involved.
    - React state is a record; [setX] calls of a handler are collected in
      the state the next render sees, while the handler itself keeps
      reading the values of the render it was created in.  The [useRef]
      mirrors are fields of their own; the [useEffect]s that copy state
      into them are [syncRefs].
    - A handler runs to completion before the next event is delivered, and
      the [Date.now()] readings of one handler run are one instant.
    - Storage and platform calls that the program wraps in [try]/[catch]
      are taken on their normal path, apart from the two calls that start
      the watchers, whose failure is an input ([Platform]). *)

From Stdlib Require Import ZArith QArith List String Bool Lia.
From Stdlib Require Import Qabs Sorted Permutation DecimalString.
Import ListNotations.

Local Open Scope Z_scope.

(* ------------------------------------------------------------------ *)
(** ** JavaScript truthiness *)

Module Js.

(** [if (x)] for [x : number | null | undefined]. *)
Definition truthyZ (o : option Z) : bool :=
  match o with
  | Some 0 => false
  | Some _ => true
  | None => false
  end.

(** [x || d] for numbers. *)
Definition orZ (o : option Z) (d : Z) : Z :=
  match o with
  | Some 0 => d
  | Some v => v
  | None => d
  end.

Definition isZeroQ (q : Q) : bool := Qeq_bool q 0.

Definition truthyQ (o : option Q) : bool :=
  match o with
  | Some q => negb (isZeroQ q)
  | None => false
  end.

(** [a || b] where [b] may itself be missing. *)
Definition orOptZ (a b : option Z) : option Z :=
  if truthyZ a then a else b.

(** [x || undefined] for numbers. *)
Definition orUndefinedQ (o : option Q) : option Q :=
  if truthyQ o then o else None.

(** [a > b] on numbers. *)
Definition gtQ (a b : Q) : bool := negb (Qle_bool a b).

Definition absQ (q : Q) : Q := Qabs q.

(** [if (s)] for [s : string | null]. *)
Definition truthyStr (o : option string) : bool :=
  match o with
  | Some s => negb (String.eqb s EmptyString)
  | None => false
  end.

(** [Math.floor(ms / 1000)]. *)
Definition floorSeconds (ms : Z) : Z := ms / 1000.

(** [`${n}`] for an integer. *)
Definition showZ (n : Z) : string := NilZero.string_of_int (Z.to_int n).

End Js.

(* ------------------------------------------------------------------ *)
(** ** types/run.ts, types/gps.ts *)

Inductive Source := foreground | background.

Module RouteCoordinate.
(** [altitudeAccuracy] and [heading] are never written by the tracking
    code and are left out. *)
Record t := mk {
  latitude : Q;
  longitude : Q;
  altitude : option Q;
  accuracy : option Q;
  timestamp : option Z;
  source : option Source;
  segmentIndex : option Z
}.
End RouteCoordinate.
Abbreviation RouteCoordinate := RouteCoordinate.t.

(** One Haversine leg [calculateDistance(lat1, lon1, lat2, lon2)]; a
  distance in meters is the sum of the legs of the list. *)
Definition Leg : Type := (Q * Q) * (Q * Q).
Definition Meters : Type := list Leg.

Module RouteSegment.
Record t := mk {
  segmentIndex : Z;
  coordinates : list RouteCoordinate;
  distance : Meters;
  duration : Z;
  startTime : Z;
  endTime : Z
}.
End RouteSegment.
Abbreviation RouteSegment := RouteSegment.t.

Inductive Permission := granted | denied | not_requested.

Module GPSStatus.
Record t := mk {
  permission : Permission;
  servicesEnabled : bool;
  canAskAgain : bool
}.
End GPSStatus.
Abbreviation GPSStatus := GPSStatus.t.

Definition isGranted (p : Permission) : bool :=
  match p with granted => true | _ => false end.

(* ------------------------------------------------------------------ *)
(** ** utils/metrics.ts *)

Module Metrics.

Definition calculateDistance (lat1 lon1 lat2 lon2 : Q) : Meters :=
  [((lat1, lon1), (lat2, lon2))].

(** The loop [for (i = 1; i < length; i++)] over consecutive pairs. *)
Fixpoint legsFrom (prev : RouteCoordinate) (rest : list RouteCoordinate)
  : Meters :=
  match rest with
  | [] => []
  | curr :: rest' =>
      calculateDistance
        (RouteCoordinate.latitude prev) (RouteCoordinate.longitude prev)
        (RouteCoordinate.latitude curr) (RouteCoordinate.longitude curr)
      ++ legsFrom curr rest'
  end.

Definition calculateTotalDistance (coordinates : list RouteCoordinate)
  : Meters :=
  match coordinates with
  | [] => []
  | c :: rest => legsFrom c rest
  end.

Definition calculateTotalDistanceFromSegments (segments : list RouteSegment)
  : Meters :=
  fold_left
    (fun total seg =>
       total ++ calculateTotalDistance (RouteSegment.coordinates seg))
    segments [].

(** The [Map<number, Array>] of [coordinatesToSegments]: keys in
    insertion order, as [Map.entries()] yields them. *)
Definition SegmentMap : Type := list (Z * list RouteCoordinate).

(** [if (!m.has(k)) m.set(k, []); m.get(k).push(c)]. *)
Fixpoint mapPush (k : Z) (c : RouteCoordinate) (m : SegmentMap)
  : SegmentMap :=
  match m with
  | [] => [(k, [c])]
  | (k', cs) :: m' =>
      if k =? k' then (k', cs ++ [c]) :: m'
      else (k', cs) :: mapPush k c m'
  end.

Definition coordKey (c : RouteCoordinate) : Z :=
  Js.orZ (RouteCoordinate.segmentIndex c) 0.

Definition buildSegmentMap (coordinates : list RouteCoordinate)
  : SegmentMap :=
  fold_left (fun m c => mapPush (coordKey c) c m) coordinates [].

(** [Math.min(...xs)] and [Math.max(...xs)] on a non-empty list. *)
Definition minOf (x : Z) (xs : list Z) : Z := fold_left Z.min xs x.
Definition maxOf (x : Z) (xs : list Z) : Z := fold_left Z.max xs x.

(** [segmentCoords.filter((c) => c.timestamp).map((c) => c.timestamp!)]. *)
Fixpoint truthyTimestamps (cs : list RouteCoordinate) : list Z :=
  match cs with
  | [] => []
  | c :: cs' =>
      match RouteCoordinate.timestamp c with
      | Some ts =>
          if ts =? 0 then truthyTimestamps cs'
          else ts :: truthyTimestamps cs'
      | None => truthyTimestamps cs'
      end
  end.

Definition makeSegment (entry : Z * list RouteCoordinate) : RouteSegment :=
  let (index, segmentCoords) := entry in
  let distance := calculateTotalDistance segmentCoords in
  match truthyTimestamps segmentCoords with
  | [] => RouteSegment.mk index segmentCoords distance 0 0 0
  | ts :: tss =>
      let startTime := minOf ts tss in
      let endTime := maxOf ts tss in
      RouteSegment.mk index segmentCoords distance
        (Js.floorSeconds (endTime - startTime)) startTime endTime
  end.

(** [segments.sort((a, b) => a.segmentIndex - b.segmentIndex)]: a stable
    sort on the index. *)
Fixpoint insertSegment (s : RouteSegment) (l : list RouteSegment)
  : list RouteSegment :=
  match l with
  | [] => [s]
  | s' :: l' =>
      if RouteSegment.segmentIndex s <? RouteSegment.segmentIndex s'
      then s :: s' :: l'
      else s' :: insertSegment s l'
  end.

Definition sortSegments (l : list RouteSegment) : list RouteSegment :=
  fold_right insertSegment [] l.

Definition coordinatesToSegments (coordinates : list RouteCoordinate)
  : list RouteSegment :=
  sortSegments (map makeSegment (buildSegmentMap coordinates)).

Definition segmentIndices (segs : list RouteSegment) : list Z :=
  map RouteSegment.segmentIndex segs.

End Metrics.

(* ------------------------------------------------------------------ *)
(** ** The platform: expo-location objects and the answers of the OS *)

Module LocationObject.
(** [Location.LocationObject]: [coords] flattened, [timestamp] a number. *)
Record t := mk {
  latitude : Q;
  longitude : Q;
  altitude : option Q;
  accuracy : option Q;
  speed : option Q;
  heading : option Q;
  timestamp : Z
}.
End LocationObject.
Abbreviation LocationObject := LocationObject.t.

Module UserLocation.
Record t := mk {
  latitude : Q;
  longitude : Q;
  accuracy : option Q;
  altitude : option Q;
  timestamp : option Z;
  speed : option Q;
  heading : option Q
}.
End UserLocation.
Abbreviation UserLocation := UserLocation.t.

Module Platform.
(** What the operating system answers while one handler runs. *)
Record t := mk {
  foregroundPermission : bool;
  backgroundPermission : bool;
  servicesEnabled : bool;
  canAskAgain : bool;
  requestForegroundGrants : bool;
  requestBackgroundGrants : bool;
  watchPositionThrows : bool;
  startLocationUpdatesThrows : bool
}.
End Platform.
Abbreviation Platform := Platform.t.

(** [!lat || !lon || Math.abs(lat) > 90 || Math.abs(lon) > 180]. *)
Definition invalidCoordinates (lat lon : Q) : bool :=
  Js.isZeroQ lat || Js.isZeroQ lon
  || Js.gtQ (Js.absQ lat) (90 # 1) || Js.gtQ (Js.absQ lon) (180 # 1).

(** [accuracy && accuracy > limit]. *)
Definition poorAccuracy (accuracy : option Q) (limit : Q) : bool :=
  match accuracy with
  | Some a => negb (Js.isZeroQ a) && Js.gtQ a limit
  | None => false
  end.

(* ------------------------------------------------------------------ *)
(** ** services/storageService.ts: the "current tracking" slot *)

Module TrackingData.
(** The object handed to [saveCurrentTrackingData] and returned by
    [getCurrentTrackingData]; the optional [segments] is never passed.
    [startTime] is an option because the periodic save passes
    [startTime!]. *)
Record t := mk {
  id : string;
  startTime : option Z;
  route : list RouteCoordinate;
  isTracking : bool;
  isPaused : bool;
  currentSegmentIndex : option Z;
  totalPausedTime : option Z;
  pauseStartTime : option Z;
  currentSegmentStartTime : option Z;
  elapsedTime : option Z;
  lastBackgroundUpdate : option Z
}.

Definition withRoute (d : t) (r : list RouteCoordinate) (upd : option Z) : t :=
  mk (id d) (startTime d) r (isTracking d) (isPaused d)
     (currentSegmentIndex d) (totalPausedTime d) (pauseStartTime d)
     (currentSegmentStartTime d) (elapsedTime d) upd.
End TrackingData.
Abbreviation TrackingData := TrackingData.t.

Module StorageService.

(** [isWatermelonAvailable()]: the database, or the in-memory fallback. *)
Inductive Backend := Fallback | Watermelon.

Record t := mk {
  backend : Backend;
  currentTracking : option TrackingData
}.

(** A [route_coordinates] row as [saveCurrentTrackingData] creates it. *)
Definition writeRouteRow (c : RouteCoordinate) : RouteCoordinate :=
  RouteCoordinate.mk
    (RouteCoordinate.latitude c) (RouteCoordinate.longitude c)
    (RouteCoordinate.altitude c) (RouteCoordinate.accuracy c)
    (RouteCoordinate.timestamp c) (RouteCoordinate.source c)
    (Some (Js.orZ (RouteCoordinate.segmentIndex c) 0)).

(** The [current_tracking] row and its route rows, in [order_index]
    order. *)
Definition writeRecord (d : TrackingData) : TrackingData :=
  TrackingData.mk
    (TrackingData.id d) (TrackingData.startTime d)
    (map writeRouteRow (TrackingData.route d))
    (TrackingData.isTracking d) (TrackingData.isPaused d)
    (Some (Js.orZ (TrackingData.currentSegmentIndex d) 0))
    (Some (Js.orZ (TrackingData.totalPausedTime d) 0))
    (Some (Js.orZ (TrackingData.pauseStartTime d) 0))
    (Js.orOptZ (TrackingData.currentSegmentStartTime d)
               (TrackingData.startTime d))
    (Some (Js.orZ (TrackingData.elapsedTime d) 0))
    None.

(** [Math.max(...route.map((r) => r.segmentIndex || 0), 0)]. *)
Definition maxSegmentIndex (route : list RouteCoordinate) : Z :=
  fold_left Z.max (map Metrics.coordKey route) 0.

(** What [getCurrentTrackingData] builds from the stored row. *)
Definition readRecord (r : TrackingData) : TrackingData :=
  TrackingData.mk
    (TrackingData.id r) (TrackingData.startTime r)
    (TrackingData.route r)
    (TrackingData.isTracking r) (TrackingData.isPaused r)
    (Some (Js.orZ (TrackingData.currentSegmentIndex r)
                  (maxSegmentIndex (TrackingData.route r))))
    (Some (Js.orZ (TrackingData.totalPausedTime r) 0))
    (match TrackingData.pauseStartTime r with
     | Some p => if p >? 0 then Some p else None
     | None => None
     end)
    (Js.orOptZ (TrackingData.currentSegmentStartTime r)
               (TrackingData.startTime r))
    (Some (Js.orZ (TrackingData.elapsedTime r) 0))
    None.

Definition saveCurrentTrackingData (data : TrackingData) (st : t) : t :=
  match backend st with
  | Fallback => mk Fallback (Some data)
  | Watermelon => mk Watermelon (Some (writeRecord data))
  end.

Definition getCurrentTrackingData (st : t) : option TrackingData :=
  match backend st with
  | Fallback => currentTracking st
  | Watermelon => option_map readRecord (currentTracking st)
  end.

Definition clearCurrentTrackingData (st : t) : t :=
  mk (backend st) None.

End StorageService.

(* ------------------------------------------------------------------ *)
(** ** services/backgroundTask.ts *)

Module BackgroundTask.

Definition MAX_CONSECUTIVE_ERRORS : Z := 5.

(** The module-level variables, and whether the task is registered with
    the task manager ([TaskManager.isTaskRegisteredAsync]). *)
Record t := mk {
  isTaskDefined : bool;
  lastProcessedTimestamp : Z;
  consecutiveErrors : Z;
  registered : bool
}.

Definition initial : t := mk false 0 0 false.

(** The argument [{ data, error }] of the task body. *)
Inductive TaskInput :=
| TaskError
| TaskNoData
| TaskLocations (locations : list LocationObject).

(** The predicate of [locations.filter] ("Enhanced location filtering"). *)
Definition keepLocation (now lastProcessed : Z) (location : LocationObject)
  : bool :=
  let timestamp := LocationObject.timestamp location in
  if poorAccuracy (LocationObject.accuracy location) (25 # 1) then false
  else if negb (timestamp =? 0) && (now - timestamp >? 15000) then false
  else if negb (timestamp =? 0) && (timestamp <=? lastProcessed) then false
  else if invalidCoordinates (LocationObject.latitude location)
                             (LocationObject.longitude location) then false
  else true.

Definition processedTimestamp (now : Z) (location : LocationObject) : Z :=
  Js.orZ (Some (LocationObject.timestamp location)) now.

(** The object built by [filteredLocations.map]; it carries no
    [segmentIndex]. *)
Definition processedPoint (now : Z) (location : LocationObject)
  : RouteCoordinate :=
  RouteCoordinate.mk
    (LocationObject.latitude location) (LocationObject.longitude location)
    (Js.orUndefinedQ (LocationObject.altitude location))
    (Js.orUndefinedQ (LocationObject.accuracy location))
    (Some (processedTimestamp now location))
    (Some background)
    None.

(** The side effect of the [map]: [lastProcessedTimestamp] becomes the
    largest timestamp seen. *)
Definition advanceLastProcessed (now : Z) (filtered : list LocationObject)
  (lastProcessed : Z) : Z :=
  fold_left
    (fun lp location =>
       let timestamp := processedTimestamp now location in
       if timestamp >? lp then timestamp else lp)
    filtered lastProcessed.

(** [new Set(route.filter((p) => p.timestamp).map((p) => p.timestamp))]. *)
Definition existingTimestamps (route : list RouteCoordinate) : list Z :=
  Metrics.truthyTimestamps route.

Definition hasTimestamp (set : list Z) (ts : option Z) : bool :=
  match ts with
  | Some t => existsb (Z.eqb t) set
  | None => false
  end.

Definition isNewPoint (existing : list Z) (point : RouteCoordinate) : bool :=
  negb (hasTimestamp existing (RouteCoordinate.timestamp point)).

(** The body registered by [TaskManager.defineTask]. *)
Definition task (input : TaskInput) (now : Z)
  (bg : t) (store : StorageService.t) : t * StorageService.t :=
  match input with
  | TaskError =>
      let errors := consecutiveErrors bg + 1 in
      let errors' :=
        if errors >=? MAX_CONSECUTIVE_ERRORS then 0 else errors in
      (mk (isTaskDefined bg) (lastProcessedTimestamp bg) errors'
          (registered bg), store)
  | TaskNoData =>
      (mk (isTaskDefined bg) (lastProcessedTimestamp bg) 0 (registered bg),
       store)
  | TaskLocations locations =>
      let bg0 :=
        mk (isTaskDefined bg) (lastProcessedTimestamp bg) 0 (registered bg) in
      match locations with
      | [] => (bg0, store)
      | _ :: _ =>
          match StorageService.getCurrentTrackingData store with
          | None => (bg0, store)
          | Some currentTrackingData =>
              if negb (TrackingData.isTracking currentTrackingData)
                 || TrackingData.isPaused currentTrackingData
              then (bg0, store)
              else
                let filteredLocations :=
                  filter (keepLocation now (lastProcessedTimestamp bg))
                         locations in
                match filteredLocations with
                | [] => (bg0, store)
                | _ :: _ =>
                    let processedPoints :=
                      map (processedPoint now) filteredLocations in
                    let bg1 :=
                      mk (isTaskDefined bg)
                         (advanceLastProcessed now filteredLocations
                            (lastProcessedTimestamp bg))
                         0 (registered bg) in
                    let existing :=
                      existingTimestamps
                        (TrackingData.route currentTrackingData) in
                    let newPoints :=
                      filter (isNewPoint existing) processedPoints in
                    match newPoints with
                    | [] => (bg1, store)
                    | _ :: _ =>
                        let updatedRoute :=
                          TrackingData.route currentTrackingData
                          ++ newPoints in
                        (bg1,
                         StorageService.saveCurrentTrackingData
                           (TrackingData.withRoute currentTrackingData
                              updatedRoute (Some now))
                           store)
                    end
                end
          end
      end
  end.

Definition stopBackgroundLocationTracking (bg : t) : t :=
  mk (isTaskDefined bg) 0 0 false.

Definition startBackgroundLocationTracking (p : Platform) (bg : t)
  : bool * t :=
  let bg1 := mk true (lastProcessedTimestamp bg) (consecutiveErrors bg)
                (registered bg) in
  if negb (Platform.backgroundPermission p) then (false, bg1)
  else
    let bg2 := stopBackgroundLocationTracking bg1 in
    if Platform.startLocationUpdatesThrows p then (false, bg2)
    else (true, mk true 0 0 true).

End BackgroundTask.

(* ------------------------------------------------------------------ *)
(** ** services/locationService.ts *)

Module LocationService.

Record t := mk {
  currentLocationSubscription : bool;
  gpsMonitoringInterval : bool;
  lastLocationTime : Z;
  consecutiveErrors : Z;
  isTrackingActive : bool;
  backgroundTask : BackgroundTask.t
}.

Definition initial : t := mk false false 0 0 false BackgroundTask.initial.

Definition withBackground (sv : t) (bg : BackgroundTask.t) : t :=
  mk (currentLocationSubscription sv) (gpsMonitoringInterval sv)
     (lastLocationTime sv) (consecutiveErrors sv) (isTrackingActive sv) bg.

Definition stopLocationTracking (sv : t) : t :=
  mk false (gpsMonitoringInterval sv) (lastLocationTime sv)
     (consecutiveErrors sv) false (backgroundTask sv).

Definition startLocationTracking (p : Platform) (sv : t) : bool * t :=
  if negb (Platform.foregroundPermission p) then (false, sv)
  else if negb (Platform.servicesEnabled p) then (false, sv)
  else
    if Platform.watchPositionThrows p
    then (false, mk false (gpsMonitoringInterval sv) 0 1 true
                    (backgroundTask sv))
    else (true, mk true (gpsMonitoringInterval sv) 0 0 true
                   (backgroundTask sv)).

(** The callback given to [Location.watchPositionAsync]: the fix that
    reaches [onLocationUpdate], if any. *)
Definition onPosition (location : LocationObject) (now : Z) (sv : t)
  : t * option UserLocation :=
  let timestamp := Js.orZ (Some (LocationObject.timestamp location)) now in
  if timestamp - lastLocationTime sv <? 800 then (sv, None)
  else if poorAccuracy (LocationObject.accuracy location) (25 # 1)
  then (sv, None)
  else if invalidCoordinates (LocationObject.latitude location)
                             (LocationObject.longitude location)
  then (sv, None)
  else
    (mk (currentLocationSubscription sv) (gpsMonitoringInterval sv)
        timestamp 0 (isTrackingActive sv) (backgroundTask sv),
     Some (UserLocation.mk
             (LocationObject.latitude location)
             (LocationObject.longitude location)
             (Js.orUndefinedQ (LocationObject.accuracy location))
             (Js.orUndefinedQ (LocationObject.altitude location))
             (Some timestamp)
             (Js.orUndefinedQ (LocationObject.speed location))
             (Js.orUndefinedQ (LocationObject.heading location)))).

Definition startRunTracking (p : Platform) (sv : t) : bool * t :=
  let sv1 := stopLocationTracking sv in
  let sv2 :=
    withBackground sv1
      (BackgroundTask.stopBackgroundLocationTracking (backgroundTask sv1)) in
  let (backgroundStarted, bg3) :=
    BackgroundTask.startBackgroundLocationTracking p (backgroundTask sv2) in
  let sv3 := withBackground sv2 bg3 in
  let (foregroundStarted, sv4) := startLocationTracking p sv3 in
  if negb foregroundStarted
  then (false,
        withBackground sv4
          (BackgroundTask.stopBackgroundLocationTracking
             (backgroundTask sv4)))
  else (true, sv4).

Definition startGPSMonitoring (sv : t) : t :=
  mk (currentLocationSubscription sv) true (lastLocationTime sv)
     (consecutiveErrors sv) (isTrackingActive sv) (backgroundTask sv).

Definition stopRunTracking (sv : t) : t :=
  let sv1 := stopLocationTracking sv in
  mk false false 0 0 false
     (BackgroundTask.stopBackgroundLocationTracking (backgroundTask sv1)).

Definition hasRunTrackingPermissions (p : Platform) : bool :=
  Platform.foregroundPermission p && Platform.backgroundPermission p.

Definition requestRunTrackingPermissions (p : Platform) : bool :=
  Platform.requestForegroundGrants p && Platform.requestBackgroundGrants p.

End LocationService.

(* ------------------------------------------------------------------ *)
(** ** screens/TrackingScreen.tsx: state, refs and the world around them *)

Inductive MapTrackingMode := follow | manual.

(** The [useState] cells of [TrackingScreen] that the session logic reads
    or writes. *)
Record State := mkState {
  isTracking : bool;
  isPaused : bool;
  startTime : option Z;
  totalPausedTime : Z;
  pauseStartTime : option Z;
  currentRunId : option string;
  route : list RouteCoordinate;
  currentSegmentIndex : Z;
  currentSegmentStartTime : option Z;
  segments : list RouteSegment;
  gpsStatus : GPSStatus;
  userLocation : option UserLocation;
  elapsedTime : Z;
  metricsRefresh : Z;
  showGpsDisabledMessage : bool;
  showRecoveryMessage : bool;
  mapTrackingMode : MapTrackingMode
}.

(** The [useRef] cells. *)
Record Refs := mkRefs {
  isTrackingRef : bool;
  isPausedRef : bool;
  currentRunIdRef : option string;
  startTimeRef : option Z;
  currentSegmentIndexRef : Z;
  currentSegmentStartTimeRef : option Z;
  segmentsRef : list RouteSegment;
  lastLocationTime : Z;
  isLocationUpdateInProgress : bool
}.

Definition set_isTracking (v : bool) (s : State) : State :=
    mkState v (isPaused s) (startTime s) (totalPausedTime s) (pauseStartTime
    s) (currentRunId s) (route s) (currentSegmentIndex s)
    (currentSegmentStartTime s) (segments s) (gpsStatus s) (userLocation s)
    (elapsedTime s) (metricsRefresh s) (showGpsDisabledMessage s)
    (showRecoveryMessage s) (mapTrackingMode s).

Definition set_isPaused (v : bool) (s : State) : State :=
    mkState (isTracking s) v (startTime s) (totalPausedTime s)
    (pauseStartTime s) (currentRunId s) (route s) (currentSegmentIndex s)
    (currentSegmentStartTime s) (segments s) (gpsStatus s) (userLocation s)
    (elapsedTime s) (metricsRefresh s) (showGpsDisabledMessage s)
    (showRecoveryMessage s) (mapTrackingMode s).

Definition set_startTime (v : option Z) (s : State) : State :=
    mkState (isTracking s) (isPaused s) v (totalPausedTime s)
    (pauseStartTime s) (currentRunId s) (route s) (currentSegmentIndex s)
    (currentSegmentStartTime s) (segments s) (gpsStatus s) (userLocation s)
    (elapsedTime s) (metricsRefresh s) (showGpsDisabledMessage s)
    (showRecoveryMessage s) (mapTrackingMode s).

Definition set_totalPausedTime (v : Z) (s : State) : State :=
    mkState (isTracking s) (isPaused s) (startTime s) v (pauseStartTime s)
    (currentRunId s) (route s) (currentSegmentIndex s)
    (currentSegmentStartTime s) (segments s) (gpsStatus s) (userLocation s)
    (elapsedTime s) (metricsRefresh s) (showGpsDisabledMessage s)
    (showRecoveryMessage s) (mapTrackingMode s).

Definition set_pauseStartTime (v : option Z) (s : State) : State :=
    mkState (isTracking s) (isPaused s) (startTime s) (totalPausedTime s) v
    (currentRunId s) (route s) (currentSegmentIndex s)
    (currentSegmentStartTime s) (segments s) (gpsStatus s) (userLocation s)
    (elapsedTime s) (metricsRefresh s) (showGpsDisabledMessage s)
    (showRecoveryMessage s) (mapTrackingMode s).

Definition set_currentRunId (v : option string) (s : State) : State :=
    mkState (isTracking s) (isPaused s) (startTime s) (totalPausedTime s)
    (pauseStartTime s) v (route s) (currentSegmentIndex s)
    (currentSegmentStartTime s) (segments s) (gpsStatus s) (userLocation s)
    (elapsedTime s) (metricsRefresh s) (showGpsDisabledMessage s)
    (showRecoveryMessage s) (mapTrackingMode s).

Definition set_route (v : list RouteCoordinate) (s : State) : State :=
    mkState (isTracking s) (isPaused s) (startTime s) (totalPausedTime s)
    (pauseStartTime s) (currentRunId s) v (currentSegmentIndex s)
    (currentSegmentStartTime s) (segments s) (gpsStatus s) (userLocation s)
    (elapsedTime s) (metricsRefresh s) (showGpsDisabledMessage s)
    (showRecoveryMessage s) (mapTrackingMode s).

Definition set_currentSegmentIndex (v : Z) (s : State) : State :=
    mkState (isTracking s) (isPaused s) (startTime s) (totalPausedTime s)
    (pauseStartTime s) (currentRunId s) (route s) v (currentSegmentStartTime
    s) (segments s) (gpsStatus s) (userLocation s) (elapsedTime s)
    (metricsRefresh s) (showGpsDisabledMessage s) (showRecoveryMessage s)
    (mapTrackingMode s).

Definition set_currentSegmentStartTime (v : option Z) (s : State) : State :=
    mkState (isTracking s) (isPaused s) (startTime s) (totalPausedTime s)
    (pauseStartTime s) (currentRunId s) (route s) (currentSegmentIndex s) v
    (segments s) (gpsStatus s) (userLocation s) (elapsedTime s)
    (metricsRefresh s) (showGpsDisabledMessage s) (showRecoveryMessage s)
    (mapTrackingMode s).

Definition set_segments (v : list RouteSegment) (s : State) : State :=
    mkState (isTracking s) (isPaused s) (startTime s) (totalPausedTime s)
    (pauseStartTime s) (currentRunId s) (route s) (currentSegmentIndex s)
    (currentSegmentStartTime s) v (gpsStatus s) (userLocation s)
    (elapsedTime s) (metricsRefresh s) (showGpsDisabledMessage s)
    (showRecoveryMessage s) (mapTrackingMode s).

Definition set_gpsStatus (v : GPSStatus) (s : State) : State :=
    mkState (isTracking s) (isPaused s) (startTime s) (totalPausedTime s)
    (pauseStartTime s) (currentRunId s) (route s) (currentSegmentIndex s)
    (currentSegmentStartTime s) (segments s) v (userLocation s) (elapsedTime
    s) (metricsRefresh s) (showGpsDisabledMessage s) (showRecoveryMessage s)
    (mapTrackingMode s).

Definition set_userLocation (v : option UserLocation) (s : State) : State :=
    mkState (isTracking s) (isPaused s) (startTime s) (totalPausedTime s)
    (pauseStartTime s) (currentRunId s) (route s) (currentSegmentIndex s)
    (currentSegmentStartTime s) (segments s) (gpsStatus s) v (elapsedTime s)
    (metricsRefresh s) (showGpsDisabledMessage s) (showRecoveryMessage s)
    (mapTrackingMode s).

Definition set_elapsedTime (v : Z) (s : State) : State :=
    mkState (isTracking s) (isPaused s) (startTime s) (totalPausedTime s)
    (pauseStartTime s) (currentRunId s) (route s) (currentSegmentIndex s)
    (currentSegmentStartTime s) (segments s) (gpsStatus s) (userLocation s)
    v (metricsRefresh s) (showGpsDisabledMessage s) (showRecoveryMessage s)
    (mapTrackingMode s).

Definition set_metricsRefresh (v : Z) (s : State) : State :=
    mkState (isTracking s) (isPaused s) (startTime s) (totalPausedTime s)
    (pauseStartTime s) (currentRunId s) (route s) (currentSegmentIndex s)
    (currentSegmentStartTime s) (segments s) (gpsStatus s) (userLocation s)
    (elapsedTime s) v (showGpsDisabledMessage s) (showRecoveryMessage s)
    (mapTrackingMode s).

Definition set_showGpsDisabledMessage (v : bool) (s : State) : State :=
    mkState (isTracking s) (isPaused s) (startTime s) (totalPausedTime s)
    (pauseStartTime s) (currentRunId s) (route s) (currentSegmentIndex s)
    (currentSegmentStartTime s) (segments s) (gpsStatus s) (userLocation s)
    (elapsedTime s) (metricsRefresh s) v (showRecoveryMessage s)
    (mapTrackingMode s).

Definition set_showRecoveryMessage (v : bool) (s : State) : State :=
    mkState (isTracking s) (isPaused s) (startTime s) (totalPausedTime s)
    (pauseStartTime s) (currentRunId s) (route s) (currentSegmentIndex s)
    (currentSegmentStartTime s) (segments s) (gpsStatus s) (userLocation s)
    (elapsedTime s) (metricsRefresh s) (showGpsDisabledMessage s) v
    (mapTrackingMode s).

Definition set_mapTrackingMode (v : MapTrackingMode) (s : State) : State :=
    mkState (isTracking s) (isPaused s) (startTime s) (totalPausedTime s)
    (pauseStartTime s) (currentRunId s) (route s) (currentSegmentIndex s)
    (currentSegmentStartTime s) (segments s) (gpsStatus s) (userLocation s)
    (elapsedTime s) (metricsRefresh s) (showGpsDisabledMessage s)
    (showRecoveryMessage s) v.

Definition set_isTrackingRef (v : bool) (s : Refs) : Refs :=
    mkRefs v (isPausedRef s) (currentRunIdRef s) (startTimeRef s)
    (currentSegmentIndexRef s) (currentSegmentStartTimeRef s) (segmentsRef
    s) (lastLocationTime s) (isLocationUpdateInProgress s).

Definition set_isPausedRef (v : bool) (s : Refs) : Refs :=
    mkRefs (isTrackingRef s) v (currentRunIdRef s) (startTimeRef s)
    (currentSegmentIndexRef s) (currentSegmentStartTimeRef s) (segmentsRef
    s) (lastLocationTime s) (isLocationUpdateInProgress s).

Definition set_currentRunIdRef (v : option string) (s : Refs) : Refs :=
    mkRefs (isTrackingRef s) (isPausedRef s) v (startTimeRef s)
    (currentSegmentIndexRef s) (currentSegmentStartTimeRef s) (segmentsRef
    s) (lastLocationTime s) (isLocationUpdateInProgress s).

Definition set_startTimeRef (v : option Z) (s : Refs) : Refs :=
    mkRefs (isTrackingRef s) (isPausedRef s) (currentRunIdRef s) v
    (currentSegmentIndexRef s) (currentSegmentStartTimeRef s) (segmentsRef
    s) (lastLocationTime s) (isLocationUpdateInProgress s).

Definition set_currentSegmentIndexRef (v : Z) (s : Refs) : Refs :=
    mkRefs (isTrackingRef s) (isPausedRef s) (currentRunIdRef s)
    (startTimeRef s) v (currentSegmentStartTimeRef s) (segmentsRef s)
    (lastLocationTime s) (isLocationUpdateInProgress s).

Definition set_currentSegmentStartTimeRef (v : option Z) (s : Refs) : Refs :=
    mkRefs (isTrackingRef s) (isPausedRef s) (currentRunIdRef s)
    (startTimeRef s) (currentSegmentIndexRef s) v (segmentsRef s)
    (lastLocationTime s) (isLocationUpdateInProgress s).

Definition set_segmentsRef (v : list RouteSegment) (s : Refs) : Refs :=
    mkRefs (isTrackingRef s) (isPausedRef s) (currentRunIdRef s)
    (startTimeRef s) (currentSegmentIndexRef s) (currentSegmentStartTimeRef
    s) v (lastLocationTime s) (isLocationUpdateInProgress s).

Definition set_lastLocationTime (v : Z) (s : Refs) : Refs :=
    mkRefs (isTrackingRef s) (isPausedRef s) (currentRunIdRef s)
    (startTimeRef s) (currentSegmentIndexRef s) (currentSegmentStartTimeRef
    s) (segmentsRef s) v (isLocationUpdateInProgress s).

Definition set_isLocationUpdateInProgress (v : bool) (s : Refs) : Refs :=
    mkRefs (isTrackingRef s) (isPausedRef s) (currentRunIdRef s)
    (startTimeRef s) (currentSegmentIndexRef s) (currentSegmentStartTimeRef
    s) (segmentsRef s) (lastLocationTime s) v.

Record World := mkWorld {
  screen : State;
  refs : Refs;
  service : LocationService.t;
  storage : StorageService.t
}.

Definition withScreen (s : State) (w : World) : World :=
  mkWorld s (refs w) (service w) (storage w).

Definition withRefs (r : Refs) (w : World) : World :=
  mkWorld (screen w) r (service w) (storage w).

Definition withService (sv : LocationService.t) (w : World) : World :=
  mkWorld (screen w) (refs w) sv (storage w).

Definition withStorage (st : StorageService.t) (w : World) : World :=
  mkWorld (screen w) (refs w) (service w) st.

Notation "x |> f" := (f x) (at level 45, left associativity, only parsing).

(** The values of the first render. *)
Definition initialState : State :=
  mkState false false None 0 None None [] 0 None []
          (GPSStatus.mk not_requested false true) None 0 0 false false follow.

Definition initialRefs : Refs :=
  mkRefs false false None None 0 None [] 0 false.

Definition initialWorld (backend : StorageService.Backend) : World :=
  mkWorld initialState initialRefs LocationService.initial
          (StorageService.mk backend None).

(** The seven [useEffect]s [xRef.current = x]. *)
Definition syncRefs (s : State) (r : Refs) : Refs :=
  mkRefs (isTracking s) (isPaused s) (currentRunId s) (startTime s)
         (currentSegmentIndex s) (currentSegmentStartTime s) (segments s)
         (lastLocationTime r) (isLocationUpdateInProgress r).

(** The render and the effects that mirror the state into the refs.  The
    effect on [route.length] and [isTracking] that counts [metricsRefresh]
    up is not part of it: nothing below reads [metricsRefresh]. *)
Definition commit (w : World) : World :=
  withRefs (syncRefs (screen w) (refs w)) w.

(** [gpsStatus.servicesEnabled && gpsStatus.permission === 'granted']. *)
Definition gpsAvailable (g : GPSStatus) : bool :=
  GPSStatus.servicesEnabled g && isGranted (GPSStatus.permission g).

(** *** The elapsed-time interval (every 300 ms) *)

Definition elapsedTimeTick (now : Z) (s : State) : State :=
  if isTracking s && negb (isPaused s) && Js.truthyZ (startTime s) then
    match startTime s with
    | Some start =>
        s |> set_elapsedTime
               (Js.floorSeconds (now - start - totalPausedTime s))
          |> set_metricsRefresh (metricsRefresh s + 1)
    | None => s
    end
  else s.

(** *** The save interval (every 5 s) *)

(** The callback of the interval writes the values of the render that set
    the interval up.  The effect is set up again whenever one of the other
    values written changes, but [elapsedTime] is not in its dependency
    list: the code writes the elapsed time of that render, this definition
    the current one.  Nothing below states the elapsed time that a
    periodic save stores, except as a bound from above. *)
Definition periodicSave (w : World) : World :=
  let s := screen w in
  if isTracking s && negb (isPaused s) && Js.truthyStr (currentRunId s) then
    match currentRunId s with
    | Some runId =>
        w |> withStorage
               (StorageService.saveCurrentTrackingData
                  (TrackingData.mk runId (startTime s) (route s) true false
                     (Some (currentSegmentIndex s))
                     (Some (totalPausedTime s)) None
                     (currentSegmentStartTime s) (Some (elapsedTime s)) None)
                  (storage w))
    | None => w
    end
  else w.

(** *** Recovery on mount *)

Definition loadExistingTrackingData (now : Z) (w : World) : World :=
  match StorageService.getCurrentTrackingData (storage w) with
  | Some existingData =>
      if TrackingData.isTracking existingData then
        w |> withScreen
               (screen w
                |> set_isTracking true
                |> set_isPaused true
                |> set_startTime (TrackingData.startTime existingData)
                |> set_currentRunId (Some (TrackingData.id existingData))
                |> set_route (TrackingData.route existingData)
                |> set_currentSegmentIndex
                     (Js.orZ (TrackingData.currentSegmentIndex existingData) 0)
                |> set_currentSegmentStartTime
                     (Js.orOptZ
                        (TrackingData.currentSegmentStartTime existingData)
                        (TrackingData.startTime existingData))
                |> set_elapsedTime
                     (Js.orZ (TrackingData.elapsedTime existingData) 0)
                |> set_totalPausedTime
                     (Js.orZ (TrackingData.totalPausedTime existingData) 0)
                |> set_pauseStartTime (Some now)
                |> set_showRecoveryMessage true)
      else w
  | None => w
  end.

(** *** The foreground sample handler *)

(** [handleLocationUpdate] is memoised with an empty dependency list: the
    [totalPausedTime] and [elapsedTime] it writes into the snapshot are
    those of the first render. *)
Definition handleLocationUpdate (location : UserLocation) (now : Z)
  (w : World) : World :=
  let r := refs w in
  let tracking := isTrackingRef r in
  let paused := isPausedRef r in
  let runId := currentRunIdRef r in
  let runStartTime := startTimeRef r in
  if isLocationUpdateInProgress r then w
  else if negb tracking || paused then
    w |> withScreen (screen w |> set_userLocation (Some location))
  else
    let timeSinceLastUpdate := now - lastLocationTime r in
    let hasGoodAccuracy :=
      negb (poorAccuracy (UserLocation.accuracy location) (50 # 1)) in
    if (timeSinceLastUpdate <? 500) || negb hasGoodAccuracy then w
    else
      let newPoint :=
        RouteCoordinate.mk
          (UserLocation.latitude location) (UserLocation.longitude location)
          (UserLocation.altitude location) (UserLocation.accuracy location)
          (Some (Js.orZ (UserLocation.timestamp location) now))
          (Some foreground)
          (Some (currentSegmentIndexRef r)) in
      let updatedRoute := route (screen w) ++ [newPoint] in
      let storage' :=
        if Js.truthyStr runId && Js.truthyZ runStartTime then
          match runId with
          | Some id =>
              StorageService.saveCurrentTrackingData
                (TrackingData.mk id runStartTime updatedRoute true false
                   (Some (currentSegmentIndexRef r))
                   (Some (totalPausedTime initialState)) None
                   (currentSegmentStartTimeRef r)
                   (Some (elapsedTime initialState)) None)
                (storage w)
          | None => storage w
          end
        else storage w in
      mkWorld
        (screen w |> set_route updatedRoute
                  |> set_userLocation (Some location))
        (r |> set_lastLocationTime now
           |> set_isLocationUpdateInProgress false)
        (service w)
        storage'.

(** *** Start *)

Definition newRunId (now : Z) : string := ("run_" ++ Js.showZ now)%string.

(** The platform as the rest of [handleStartRun] sees it once a needed
    permission request has been granted. *)
Definition afterGrant (p : Platform) : Platform :=
  Platform.mk true true (Platform.servicesEnabled p) (Platform.canAskAgain p)
    (Platform.requestForegroundGrants p) (Platform.requestBackgroundGrants p)
    (Platform.watchPositionThrows p) (Platform.startLocationUpdatesThrows p).

Definition handleStartRun (p : Platform) (now : Z) (w : World) : World :=
  let hasPermissions := LocationService.hasRunTrackingPermissions p in
  if negb hasPermissions
     && negb (LocationService.requestRunTrackingPermissions p)
  then w
  else
    let p' := if hasPermissions then p else afterGrant p in
    let runId := newRunId now in
    let s1 :=
      screen w
      |> set_isTracking true
      |> set_isPaused false
      |> set_startTime (Some now)
      |> set_currentRunId (Some runId)
      |> set_route []
      |> set_currentSegmentIndex 0
      |> set_currentSegmentStartTime (Some now)
      |> set_segments []
      |> set_elapsedTime 0
      |> set_totalPausedTime 0
      |> set_pauseStartTime None in
    let storage1 :=
      StorageService.saveCurrentTrackingData
        (TrackingData.mk runId (Some now) [] true false (Some 0) (Some 0)
           None (Some now) (Some 0) None)
        (storage w) in
    let r1 :=
      refs w
      |> set_isTrackingRef true
      |> set_isPausedRef false
      |> set_currentRunIdRef (Some runId)
      |> set_startTimeRef (Some now)
      |> set_currentSegmentStartTimeRef (Some now)
      |> set_segmentsRef []
      |> set_lastLocationTime now
      |> set_isLocationUpdateInProgress false in
    let (trackingStarted, sv1) :=
      LocationService.startRunTracking p' (service w) in
    if negb trackingStarted then
      mkWorld
        (s1 |> set_isTracking false
            |> set_isPaused false
            |> set_startTime None
            |> set_currentRunId None
            |> set_route []
            |> set_currentSegmentIndex 0
            |> set_elapsedTime 0
            |> set_totalPausedTime 0
            |> set_pauseStartTime None)
        r1 sv1
        (StorageService.clearCurrentTrackingData storage1)
    else
      mkWorld s1 r1 (LocationService.startGPSMonitoring sv1) storage1.

(** *** Pause / Resume *)

(** [route.filter((coord) => coord.segmentIndex === currentSegmentIndex)]. *)
Definition inSegment (index : Z) (coord : RouteCoordinate) : bool :=
  match RouteCoordinate.segmentIndex coord with
  | Some i => i =? index
  | None => false
  end.

(** The snapshot written at the end of [handlePauseResume], from the
    values of the render the handler belongs to. *)
Definition pauseResumeSnapshot (now : Z) (s : State) (st : StorageService.t)
  : StorageService.t :=
  if Js.truthyStr (currentRunId s) && Js.truthyZ (startTime s) then
    match currentRunId s with
    | Some runId =>
        StorageService.saveCurrentTrackingData
          (TrackingData.mk runId (startTime s) (route s) true
             (negb (isPaused s))
             (Some (currentSegmentIndex s))
             (Some (totalPausedTime s))
             (if negb (isPaused s) then Some now else None)
             (currentSegmentStartTime s) (Some (elapsedTime s)) None)
          st
    | None => st
    end
  else st.

Definition handlePauseResume (p : Platform) (now : Z) (w : World) : World :=
  let s := screen w in
  if isPaused s then
    if negb (GPSStatus.servicesEnabled (gpsStatus s))
       || negb (isGranted (GPSStatus.permission (gpsStatus s)))
    then w
    else
      let s1 :=
        if Js.truthyZ (pauseStartTime s) then
          match pauseStartTime s with
          | Some pauseStart =>
              let timeSpentPaused := now - pauseStart in
              s |> set_totalPausedTime (totalPausedTime s + timeSpentPaused)
                |> set_pauseStartTime None
          | None => s
          end
        else s in
      let newSegmentIndex := currentSegmentIndex s + 1 in
      let s2 :=
        s1 |> set_isPaused false
           |> set_currentSegmentIndex newSegmentIndex
           |> set_currentSegmentStartTime (Some now) in
      let r1 :=
        refs w
        |> set_isPausedRef false
        |> set_lastLocationTime now
        |> set_currentSegmentStartTimeRef (Some now) in
      let (trackingStarted, sv1) :=
        LocationService.startRunTracking p (service w) in
      let sv2 :=
        if trackingStarted then LocationService.startGPSMonitoring sv1
        else sv1 in
      mkWorld s2 r1 sv2 (pauseResumeSnapshot now s (storage w))
  else
    let (s1, r1) :=
      if Js.truthyZ (currentSegmentStartTime s) then
        match currentSegmentStartTime s with
        | Some segmentStart =>
            let currentSegmentCoords :=
              filter (inSegment (currentSegmentIndex s)) (route s) in
            let segmentDistance :=
              Metrics.calculateTotalDistance currentSegmentCoords in
            let segmentDuration := Js.floorSeconds (now - segmentStart) in
            let newSegment :=
              RouteSegment.mk (currentSegmentIndex s) currentSegmentCoords
                segmentDistance segmentDuration segmentStart now in
            (s |> set_segments (segments s ++ [newSegment]),
             refs w |> set_segmentsRef (segmentsRef (refs w) ++ [newSegment]))
        | None => (s, refs w)
        end
      else (s, refs w) in
    mkWorld
      (s1 |> set_pauseStartTime (Some now) |> set_isPaused true)
      (r1 |> set_isPausedRef true)
      (LocationService.stopRunTracking (service w))
      (pauseResumeSnapshot now s (storage w)).

(** *** Stop and review, quit *)

Module Run.
Record t := mk {
  id : option string;
  date : option Z;
  distance : Meters;
  duration : Z;
  route : list RouteCoordinate;
  segments : list RouteSegment
}.
End Run.

(** The [tempRun] handed to the review screen ([calories] is a function of
    [distance] and is left out). *)
Definition tempRun (s : State) : Run.t :=
  let segs := Metrics.coordinatesToSegments (route s) in
  Run.mk (currentRunId s) (startTime s)
         (Metrics.calculateTotalDistanceFromSegments segs)
         (elapsedTime s) (route s) segs.

Definition handleStopAndReview (now : Z) (w : World) : World :=
  let s := screen w in
  if negb (isPaused s) then
    mkWorld
      (s |> set_pauseStartTime (Some now) |> set_isPaused true)
      (refs w |> set_isPausedRef true)
      (LocationService.stopRunTracking (service w))
      (storage w)
  else w.

Definition stopTrackingAndCleanup (w : World) : World :=
  mkWorld
    (screen w
     |> set_isTracking false
     |> set_isPaused false
     |> set_startTime None
     |> set_currentRunId None
     |> set_route []
     |> set_currentSegmentIndex 0
     |> set_elapsedTime 0
     |> set_totalPausedTime 0
     |> set_pauseStartTime None
     |> set_mapTrackingMode follow)
    (refs w
     |> set_isTrackingRef false
     |> set_isPausedRef false
     |> set_currentRunIdRef None)
    (LocationService.stopRunTracking (service w))
    (StorageService.clearCurrentTrackingData (storage w)).

Definition handleQuitRun (w : World) : World := stopTrackingAndCleanup w.

(** *** GPS health *)

Definition handleGpsLost (p : Platform) (now : Z) (w : World) : World :=
  let w1 :=
    w |> withScreen (screen w |> set_showGpsDisabledMessage true) in
  if isTracking (screen w) && negb (isPaused (screen w)) then
    let w2 := handlePauseResume p now w in
    w2 |> withScreen (screen w2 |> set_showGpsDisabledMessage true)
  else w1.

Definition handleGpsDisabled (p : Platform) (now : Z) (w : World) : World :=
  handleGpsLost p now w.

Definition handleGpsRestored (w : World) : World :=
  w |> withScreen (screen w |> set_showGpsDisabledMessage false).

(** [checkGPSStatus] with the values of the current render, as
    [requestLocationPermission] and [handleDismissGpsMessage] call it. *)
Definition checkGPSStatus (p : Platform) (now : Z)
  (current : option UserLocation) (w : World) : World :=
  let servicesEnabled := Platform.servicesEnabled p in
  let permissionGranted := Platform.foregroundPermission p in
  let newGpsStatus :=
    GPSStatus.mk (if permissionGranted then granted else denied)
                 servicesEnabled (Platform.canAskAgain p) in
  let wasGpsGood := gpsAvailable (gpsStatus (screen w)) in
  let isGpsGood := servicesEnabled && permissionGranted in
  let w1 :=
    if wasGpsGood && negb isGpsGood then handleGpsLost p now w
    else if negb wasGpsGood && isGpsGood then handleGpsRestored w
    else w in
  let s2 := screen w1 |> set_gpsStatus newGpsStatus in
  let s3 :=
    if permissionGranted && servicesEnabled then
      match current with
      | Some location => s2 |> set_userLocation (Some location)
      | None => s2
      end
    else s2 in
  w1 |> withScreen s3.

(** [checkGPSStatus] as the polling intervals and the focus effect run
    it: their callback belongs to a render in which the GPS was not
    available ([wasGpsGood] is false), so it can report the GPS restored
    but never lost. *)
Definition pollGPSStatus (p : Platform) (current : option UserLocation)
  (w : World) : World :=
  let servicesEnabled := Platform.servicesEnabled p in
  let permissionGranted := Platform.foregroundPermission p in
  let newGpsStatus :=
    GPSStatus.mk (if permissionGranted then granted else denied)
                 servicesEnabled (Platform.canAskAgain p) in
  let isGpsGood := servicesEnabled && permissionGranted in
  let w1 := if isGpsGood then handleGpsRestored w else w in
  let s2 := screen w1 |> set_gpsStatus newGpsStatus in
  let s3 :=
    if permissionGranted && servicesEnabled then
      match current with
      | Some location => s2 |> set_userLocation (Some location)
      | None => s2
      end
    else s2 in
  w1 |> withScreen s3.

(** The interval of [startGPSMonitoring]: its [handleGpsDisabled] belongs
    to the render in which Start or Resume was pressed, where
    [isTracking && !isPaused] is false, so it raises the message and does
    not pause. *)
Definition gpsMonitorTick (p : Platform) (w : World) : World :=
  if LocationService.gpsMonitoringInterval (service w)
     && negb (Platform.servicesEnabled p)
  then w |> withScreen (screen w |> set_showGpsDisabledMessage true)
  else w.

(* ------------------------------------------------------------------ *)
(** ** components/TrackingControls.tsx *)

Inductive Button :=
| StartButton | PauseButton | StopButton | ResumeButton | CancelButton.

Definition Button_eqb (a b : Button) : bool :=
  match a, b with
  | StartButton, StartButton
  | PauseButton, PauseButton
  | StopButton, StopButton
  | ResumeButton, ResumeButton
  | CancelButton, CancelButton => true
  | _, _ => false
  end.

(** The buttons rendered, each with its [disabled] property. *)
Definition TrackingControls (isTracking isPaused : bool) (g : GPSStatus)
  : list (Button * bool) :=
  let unavailable :=
    negb (GPSStatus.servicesEnabled g)
    || negb (isGranted (GPSStatus.permission g)) in
  if unavailable && negb isTracking then []
  else
    (if negb isTracking then [(StartButton, false)] else [])
    ++ (if isTracking && negb isPaused
        then [(PauseButton, unavailable); (StopButton, false)] else [])
    ++ (if isTracking && isPaused
        then [(ResumeButton, unavailable); (CancelButton, false)] else []).

(** The button is on screen and can be pressed. *)
Definition offered (b : Button) (s : State) : bool :=
  existsb (fun e => Button_eqb (fst e) b && negb (snd e))
          (TrackingControls (isTracking s) (isPaused s) (gpsStatus s)).

(* ------------------------------------------------------------------ *)
(** ** The application as a transition system *)

Inductive Event :=
| PressStart (p : Platform) (now : Z)
| PressPause (p : Platform) (now : Z)
| PressResume (p : Platform) (now : Z)
| PressStop (now : Z)
| ConfirmCancel
| ElapsedTick (now : Z)
| SaveTick
| Position (location : LocationObject) (now : Z)
| BackgroundLocations (input : BackgroundTask.TaskInput) (now : Z)
| CheckGPS (p : Platform) (now : Z) (current : option UserLocation)
| Relaunch (now : Z) (taskRegistered : bool)
| PollGPS (p : Platform) (current : option UserLocation)
| GpsMonitorTick (p : Platform)
| ReviewDone.

(** The process is killed and started again: module variables and React
    state start afresh (the task body is not defined again before the next
    [startBackgroundLocationTracking]), the database survives, the
    in-memory fallback does not, the registration of the task with the
    operating system may survive; the mount effect then runs the
    recovery. *)
Definition relaunch (now : Z) (taskRegistered : bool) (w : World) : World :=
  let storage' :=
    match StorageService.backend (storage w) with
    | StorageService.Fallback =>
        StorageService.mk StorageService.Fallback None
    | StorageService.Watermelon => storage w
    end in
  let service' :=
    LocationService.withBackground LocationService.initial
      (BackgroundTask.mk false 0 0 taskRegistered) in
  loadExistingTrackingData now
    (mkWorld initialState initialRefs service' storage').

Definition deliverPosition (location : LocationObject) (now : Z) (w : World)
  : World :=
  if LocationService.currentLocationSubscription (service w) then
    let (sv, delivered) :=
      LocationService.onPosition location now (service w) in
    match delivered with
    | Some userLocation =>
        handleLocationUpdate userLocation now (withService sv w)
    | None => withService sv w
    end
  else w.

(** The task manager runs the body for a registered task that has been
    defined in this process. *)
Definition runBackgroundTask (input : BackgroundTask.TaskInput) (now : Z)
  (w : World) : World :=
  let bg := LocationService.backgroundTask (service w) in
  if BackgroundTask.isTaskDefined bg && BackgroundTask.registered bg then
    let (bg', storage') := BackgroundTask.task input now bg (storage w) in
    mkWorld (screen w) (refs w)
            (LocationService.withBackground (service w) bg') storage'
  else w.

(** screens/RunReviewScreen.tsx: [handleSave] and [handleCancel] both stop
    the watchers and clear the snapshot; the tracking screen keeps its
    state. *)
Definition reviewDone (w : World) : World :=
  mkWorld (screen w) (refs w)
          (LocationService.stopRunTracking (service w))
          (StorageService.clearCurrentTrackingData (storage w)).

Definition handle (e : Event) (w : World) : World :=
  match e with
  | PressStart p now =>
      if offered StartButton (screen w) then handleStartRun p now w else w
  | PressPause p now =>
      if offered PauseButton (screen w) then handlePauseResume p now w else w
  | PressResume p now =>
      if offered ResumeButton (screen w) then handlePauseResume p now w
      else w
  | PressStop now =>
      if offered StopButton (screen w) then handleStopAndReview now w else w
  | ConfirmCancel =>
      if offered CancelButton (screen w) then handleQuitRun w else w
  | ElapsedTick now => withScreen (elapsedTimeTick now (screen w)) w
  | SaveTick => periodicSave w
  | Position location now => deliverPosition location now w
  | BackgroundLocations input now => runBackgroundTask input now w
  | CheckGPS p now current => checkGPSStatus p now current w
  | Relaunch now taskRegistered => relaunch now taskRegistered w
  | PollGPS p current => pollGPSStatus p current w
  | GpsMonitorTick p => gpsMonitorTick p w
  | ReviewDone => reviewDone w
  end.

(** One event: the handler, then the render and its effects. *)
Definition step (w : World) (e : Event) : World := commit (handle e w).

Definition run (backend : StorageService.Backend) (trace : list Event)
  : World :=
  fold_left step trace (initialWorld backend).

(** Clock readings are positive. *)
Definition eventTime (e : Event) : option Z :=
  match e with
  | PressStart _ now | PressPause _ now | PressResume _ now | PressStop now
  | ElapsedTick now | Position _ now | BackgroundLocations _ now
  | CheckGPS _ now _ | Relaunch now _ => Some now
  | ConfirmCancel | SaveTick | PollGPS _ _ | GpsMonitorTick _
  | ReviewDone => None
  end.

Definition validEvent (e : Event) : bool :=
  match eventTime e with
  | Some now => 0 <? now
  | None => true
  end.

Definition validTrace (trace : list Event) : bool := forallb validEvent trace.

(** The session states of the specification, read off the two flags. *)
Inductive SessionState := Idle | Tracking | Paused.

Definition sessionState (s : State) : SessionState :=
  if isTracking s then (if isPaused s then Paused else Tracking) else Idle.

Definition isPausedSession (s : State) : bool := isTracking s && isPaused s.

Definition isRelaunch (e : Event) : bool :=
  match e with
  | Relaunch _ _ => true
  | _ => false
  end.

(** The process keeps running and the session is Paused after every event
    of the trace. *)
Fixpoint pausedThroughout (w : World) (trace : list Event) : bool :=
  match trace with
  | [] => true
  | e :: rest =>
      negb (isRelaunch e)
      && isPausedSession (screen (step w e))
      && pausedThroughout (step w e) rest
  end.

(** The same reading of the flags the foreground handler sees. *)
Definition pipelineState (r : Refs) : SessionState :=
  if isTrackingRef r then (if isPausedRef r then Paused else Tracking)
  else Idle.

(** The same reading of the persisted snapshot, which is all the
    background task sees of the session. *)
Definition snapshotState (st : StorageService.t) : SessionState :=
  match StorageService.getCurrentTrackingData st with
  | None => Idle
  | Some d =>
      if TrackingData.isTracking d
      then (if TrackingData.isPaused d then Paused else Tracking)
      else Idle
  end.

(** Whether the task manager runs the body of the background task when
    locations arrive: the task is registered and its body has been defined
    in this process (the condition of [runBackgroundTask]). *)
Definition taskRuns (sv : LocationService.t) : bool :=
  BackgroundTask.isTaskDefined (LocationService.backgroundTask sv)
  && BackgroundTask.registered (LocationService.backgroundTask sv).

(* ------------------------------------------------------------------ *)
(** ** Properties stated about the model *)


(** [segments[i].index == i] for all [i]. *)
Definition dense (segs : list RouteSegment) : Prop :=
  forall i, (i < List.length segs)%nat ->
            nth i (Metrics.segmentIndices segs) 0 = Z.of_nat i.

(** Every segment index from 0 up to a recorded one is itself recorded. *)
Definition gapFree (coordinates : list RouteCoordinate) : Prop :=
  forall c, In c coordinates ->
    0 <= Metrics.coordKey c /\
    forall j, 0 <= j <= Metrics.coordKey c ->
              exists c', In c' coordinates /\ Metrics.coordKey c' = j.

Definition keyIs (k : Z) (c : RouteCoordinate) : bool :=
  Metrics.coordKey c =? k.

(** The refs hold what the state holds. *)
Definition refsSynced (w : World) : Prop :=
  refs w = syncRefs (screen w) (refs w).

(** A paused session carries the positive clock reading of its pause. *)
Definition pauseStamped (s : State) : Prop :=
  isPaused s = true -> exists p, pauseStartTime s = Some p /\ 0 < p.

(** A session has the positive clock reading of its start, and so has
    every persisted snapshot. *)
Definition positiveOpt (o : option Z) : Prop :=
  forall v, o = Some v -> 0 < v.

Definition storageStamped (st : StorageService.t) : Prop :=
  forall d, StorageService.currentTracking st = Some d ->
            exists v, TrackingData.startTime d = Some v /\ 0 < v.

Definition startStamped (w : World) : Prop :=
  (isTracking (screen w) = true -> exists st, startTime (screen w) = Some st)
  /\ positiveOpt (startTime (screen w))
  /\ storageStamped (storage w).

(** Segment indices stay between 0 and the index of the segment opened
    last, in the session and in the persisted snapshot. *)
Definition coordinatesWithin (top : Z) (coordinates : list RouteCoordinate)
  : Prop :=
  Forall (fun c => 0 <= Metrics.coordKey c <= top) coordinates.

Definition segmentsWithin (top : Z) (segs : list RouteSegment) : Prop :=
  Forall (fun seg => 0 <= RouteSegment.segmentIndex seg <= top) segs.

Definition snapshotBounded (d : TrackingData) : Prop :=
  0 <= Js.orZ (TrackingData.currentSegmentIndex d) 0
  /\ coordinatesWithin (Js.orZ (TrackingData.currentSegmentIndex d) 0)
                       (TrackingData.route d).

Definition storageBounded (st : StorageService.t) : Prop :=
  forall d, StorageService.currentTracking st = Some d -> snapshotBounded d.

Definition indexBounded (w : World) : Prop :=
  0 <= currentSegmentIndex (screen w)
  /\ coordinatesWithin (currentSegmentIndex (screen w)) (route (screen w))
  /\ (isTracking (screen w) = true ->
      segmentsWithin (currentSegmentIndex (screen w)) (segments (screen w)))
  /\ storageBounded (storage w).

(** The session fields of a state with no session. *)
Definition sessionCleared (s : State) : Prop :=
  isTracking s = false /\ isPaused s = false /\ startTime s = None
  /\ currentRunId s = None /\ route s = [] /\ segments s = []
  /\ currentSegmentIndex s = 0 /\ elapsedTime s = 0
  /\ totalPausedTime s = 0 /\ pauseStartTime s = None.

Definition timestampRecorded (ts : Z) (coordinates : list RouteCoordinate)
  : Prop :=
  exists c, In c coordinates /\ RouteCoordinate.timestamp c = Some ts.

(** Reading the segment map. *)

Definition keys (m : Metrics.SegmentMap) : list Z := map fst m.

(** [m.get(k)]. *)
Fixpoint lookupKey (k : Z) (m : Metrics.SegmentMap)
  : option (list RouteCoordinate) :=
  match m with
  | [] => None
  | (k', cs) :: m' => if k =? k' then Some cs else lookupKey k m'
  end.

(** The entry a key must have once the coordinates [seen] are pushed. *)
Definition expected (seen : list RouteCoordinate) (k : Z)
  : option (list RouteCoordinate) :=
  match filter (keyIs k) seen with
  | [] => None
  | cs => Some cs
  end.


(* ------------------------------------------------------------------ *)
(** ** Concrete inputs used by the examples *)

(** Location permissions granted, services on, nothing throws. *)
Definition platformOk : Platform :=
  Platform.mk true true true true true true false false.

(** Foreground permission granted and services on, but the position
    watcher cannot be started. *)
Definition platformWatchFails : Platform :=
  Platform.mk true true true true true true true false.

(** Location services switched off. *)
Definition platformOff : Platform :=
  Platform.mk true true false true true true false false.

(** A fix near 50N 30E with 10 m accuracy. *)
Definition fixAt (ts : Z) : LocationObject :=
  LocationObject.mk (50 # 1) (30 # 1) None (Some (10 # 1)) None None ts.

Definition userFixAt (ts : Z) : UserLocation :=
  UserLocation.mk (50 # 1) (30 # 1) (Some (10 # 1)) None (Some ts) None None.

(** Start, one sample, pause, resume, pause again with no sample in
    between, resume, one sample. *)
Definition gapTrace : list Event :=
  [ PollGPS platformOk None;
    PressStart platformOk 1000;
    Position (fixAt 2000) 2100;
    PressPause platformOk 4000;
    PressResume platformOk 6000;
    PressPause platformOk 7000;
    PressResume platformOk 8000;
    Position (fixAt 9000) 9100 ].

(** Start at 1000, pause at 4000. *)
Definition pausedTrace : list Event :=
  [ PollGPS platformOk None;
    PressStart platformOk 1000;
    Position (fixAt 2000) 2100;
    PressPause platformOk 4000 ].

(** The same, after the location services have been found switched off. *)
Definition pausedNoGpsTrace : list Event :=
  pausedTrace ++ [ PollGPS platformOff None ].

(** A snapshot persisted while the run was paused at 4000, and one
    persisted while it was being tracked. *)
Definition persistedPaused : TrackingData :=
  TrackingData.mk "run_1000" (Some 1000) [] true true (Some 0) (Some 2000)
    (Some 4000) (Some 1000) (Some 3) None.

Definition persistedTracking : TrackingData :=
  TrackingData.mk "run_1000" (Some 1000) [] true false (Some 0) (Some 2000)
    None (Some 1000) (Some 3) None.

(** The world of a freshly started process that finds [d] in the
    database. *)
Definition coldWorld (d : TrackingData) : World :=
  mkWorld initialState initialRefs LocationService.initial
          (StorageService.mk StorageService.Watermelon (Some d)).

(** What may happen between a recovery and the first Resume. *)
Definition waitingTrace : list Event :=
  [ PollGPS platformOff None;
    ElapsedTick 61000;
    PressPause platformOk 62000;
    SaveTick;
    Position (fixAt 63000) 63100;
    GpsMonitorTick platformOff;
    CheckGPS platformOk 64000 None ].

(** Start at 1000; the session is being tracked. *)
Definition trackingTrace : list Event :=
  [ PollGPS platformOk None;
    PressStart platformOk 1000;
    Position (fixAt 2000) 2100 ].


(** Only the GPS poll has run: no session yet. *)
Definition idleTrace : list Event := [ PollGPS platformOk None ].

(** The background source delivers the fix of timestamp 2000 first, the
    foreground source delivers the same fix afterwards. *)
Definition backgroundFirstTrace : list Event :=
  [ PollGPS platformOk None;
    PressStart platformOk 1000;
    BackgroundLocations (BackgroundTask.TaskLocations [fixAt 2000]) 2100 ].

(** The route coordinate each source builds from [fixAt ts]. *)
Definition foregroundPoint (ts index : Z) : RouteCoordinate :=
  RouteCoordinate.mk (50 # 1) (30 # 1) None (Some (10 # 1)) (Some ts)
    (Some foreground) (Some index).

Definition backgroundPoint (ts : Z) : RouteCoordinate :=
  RouteCoordinate.mk (50 # 1) (30 # 1) None (Some (10 # 1)) (Some ts)
    (Some background) None.

(** The route of the persisted snapshot, empty when there is none. *)
Definition snapshotRoute (st : StorageService.t) : list RouteCoordinate :=
  match StorageService.getCurrentTrackingData st with
  | Some d => TrackingData.route d
  | None => []
  end.

(* ------------------------------------------------------------------ *)
(** ** Further code of the cited files *)

(** *** utils/metrics.ts *)

(** [calculateSegmentMetrics(coordinates, startTime, endTime, index)]. *)
Definition calculateSegmentMetrics (coordinates : list RouteCoordinate)
  (startTime endTime segmentIndex : Z) : RouteSegment :=
  let distance := Metrics.calculateTotalDistance coordinates in
  let duration := Js.floorSeconds (endTime - startTime) in
  RouteSegment.mk segmentIndex coordinates distance duration startTime endTime.

(** The distance of the segment being closed, as [handlePauseResume]
    computes it in place:
    [coords.reduce((dist, coord, i) => i === 0 ? 0
       : dist + calculateDistance(coords[i - 1], coord), 0)].
    The accumulator carries the index [i] and the running sum. *)
Definition reduceStep (coords : list RouteCoordinate)
  (acc : nat * Meters) (coord : RouteCoordinate) : nat * Meters :=
  let (i, dist) := acc in
  (S i,
   match i with
   | O => []
   | S j =>
       match nth_error coords j with
       | Some prev =>
           dist ++ Metrics.calculateDistance
                     (RouteCoordinate.latitude prev)
                     (RouteCoordinate.longitude prev)
                     (RouteCoordinate.latitude coord)
                     (RouteCoordinate.longitude coord)
       | None => dist
       end
   end).

Definition segmentDistanceReduce (coords : list RouteCoordinate) : Meters :=
  snd (fold_left (reduceStep coords) coords (O, [])).

(** All the coordinates of a list of segments, segment after segment. *)
Definition segmentCoordinates (segs : list RouteSegment)
  : list RouteCoordinate :=
  flat_map RouteSegment.coordinates segs.

(** The leg between two coordinates. *)
Definition legBetween (a b : RouteCoordinate) : Leg :=
  ((RouteCoordinate.latitude a, RouteCoordinate.longitude a),
   (RouteCoordinate.latitude b, RouteCoordinate.longitude b)).

(** *** services/backgroundTask.ts *)



(** What the database does to a route written and read back; the fallback
    keeps the route as it is. *)
Definition storedRoute (backend : StorageService.Backend)
  (route : list RouteCoordinate) : list RouteCoordinate :=
  match backend with
  | StorageService.Fallback => route
  | StorageService.Watermelon => map StorageService.writeRouteRow route
  end.

(** A point the background task may append for [location]. *)
Definition backgroundPointOf (now lastProcessed : Z)
  (existing : list RouteCoordinate) (locations : list LocationObject)
  (c : RouteCoordinate) : Prop :=
  exists location,
    In location locations
    /\ c = BackgroundTask.processedPoint now location
    /\ BackgroundTask.keepLocation now lastProcessed location = true
    /\ ~ In (BackgroundTask.processedTimestamp now location)
            (Metrics.truthyTimestamps existing).

(** *** What every recorded coordinate looks like *)

(** A coordinate as the two pipelines record it: not less accurate than
    25 m, valid latitude and longitude, a non-zero timestamp, and a source;
    a background point has no segment index of its own and so falls into
    segment 0. *)
Definition recordedFix (c : RouteCoordinate) : Prop :=
  poorAccuracy (RouteCoordinate.accuracy c) (25 # 1) = false
  /\ invalidCoordinates (RouteCoordinate.latitude c)
       (RouteCoordinate.longitude c) = false
  /\ Js.truthyZ (RouteCoordinate.timestamp c) = true
  /\ (RouteCoordinate.source c = Some foreground
      \/ (RouteCoordinate.source c = Some background
          /\ Metrics.coordKey c = 0)).

Definition storageRecorded (st : StorageService.t) : Prop :=
  forall d, StorageService.currentTracking st = Some d ->
            Forall recordedFix (TrackingData.route d).

Definition routesRecorded (w : World) : Prop :=
  Forall recordedFix (route (screen w)) /\ storageRecorded (storage w).

(** *** The run id of a session *)

(** A session in progress has a non-empty run id, and so has every
    persisted snapshot. *)
Definition storageIdentified (st : StorageService.t) : Prop :=
  forall d, StorageService.currentTracking st = Some d ->
            Js.truthyStr (Some (TrackingData.id d)) = true.

Definition sessionIdentified (w : World) : Prop :=
  (isTracking (screen w) = true ->
   Js.truthyStr (currentRunId (screen w)) = true)
  /\ storageIdentified (storage w).

(** *** A segment whose coordinates are database rows *)

(** The segment with each coordinate as the database stores it and every
    other field as it is. *)
Definition storedSegment (seg : RouteSegment) : RouteSegment :=
  RouteSegment.mk (RouteSegment.segmentIndex seg)
    (map StorageService.writeRouteRow (RouteSegment.coordinates seg))
    (RouteSegment.distance seg) (RouteSegment.duration seg)
    (RouteSegment.startTime seg) (RouteSegment.endTime seg).

(** *** Time accounting along a monotone clock *)

(** The clock readings of the trace never go back, starting from
    [clock]. *)
Fixpoint monotoneFrom (clock : Z) (trace : list Event) : bool :=
  match trace with
  | [] => true
  | e :: rest =>
      match eventTime e with
      | Some now => (clock <=? now) && monotoneFrom now rest
      | None => monotoneFrom clock rest
      end
  end.

(** The last clock reading of the trace, [clock] if it has none. *)
Definition clockAfter (clock : Z) (trace : list Event) : Z :=
  fold_left
    (fun c e => match eventTime e with Some now => now | None => c end)
    trace clock.

(** Elapsed seconds and paused milliseconds are not negative and together
    do not exceed the time from [start] to [clock]. *)
Definition accounted (clock : Z) (start : option Z) (elapsed total : Z)
  : Prop :=
  0 <= total /\ 0 <= elapsed
  /\ forall st, start = Some st -> elapsed * 1000 + total <= clock - st.

Definition storageAccounted (clock : Z) (st : StorageService.t) : Prop :=
  forall d, StorageService.currentTracking st = Some d ->
            accounted clock (TrackingData.startTime d)
              (Js.orZ (TrackingData.elapsedTime d) 0)
              (Js.orZ (TrackingData.totalPausedTime d) 0).

Definition timeBounded (clock : Z) (w : World) : Prop :=
  accounted clock (startTime (screen w)) (elapsedTime (screen w))
    (totalPausedTime (screen w))
  /\ (isPaused (screen w) = true ->
      forall p, pauseStartTime (screen w) = Some p ->
                p <= clock
                /\ accounted p (startTime (screen w))
                     (elapsedTime (screen w)) (totalPausedTime (screen w)))
  /\ storageAccounted clock (storage w).

(** *** services/storageService.ts: a saved run in the database *)

(** The [route_coordinates] rows [saveRun] creates for a run, in
    [order_index] order: segment after segment, each coordinate with the
    index of the segment that holds it. *)
Definition runRows (segments : list RouteSegment) : list RouteCoordinate :=
  flat_map
    (fun segment =>
       map (fun coordinate =>
              RouteCoordinate.mk
                (RouteCoordinate.latitude coordinate)
                (RouteCoordinate.longitude coordinate)
                (RouteCoordinate.altitude coordinate)
                (RouteCoordinate.accuracy coordinate)
                (RouteCoordinate.timestamp coordinate)
                (RouteCoordinate.source coordinate)
                (Some (RouteSegment.segmentIndex segment)))
           (RouteSegment.coordinates segment))
    segments.

Module SegmentData.
(** A value of the [segmentMap] of [getRunById] ([distance] and
    [duration] are set in the second pass). *)
Record t := mk {
  coordinates : list RouteCoordinate;
  startTime : Z;
  endTime : Z
}.
End SegmentData.

(** The entry created for a key the map does not have yet. *)
Definition newSegmentData (coord : RouteCoordinate) : SegmentData.t :=
  SegmentData.mk []
    (Js.orZ (RouteCoordinate.timestamp coord) 0)
    (Js.orZ (RouteCoordinate.timestamp coord) 0).

(** [segment.coordinates.push(coord)] and the update of the start and end
    times. *)
Definition addCoordinate (coord : RouteCoordinate)
  (segment : SegmentData.t) : SegmentData.t :=
  let coordinates := SegmentData.coordinates segment ++ [coord] in
  if Js.truthyZ (RouteCoordinate.timestamp coord) then
    match RouteCoordinate.timestamp coord with
    | Some timestamp =>
        let startTime :=
          if (SegmentData.startTime segment =? 0)
             || (timestamp <? SegmentData.startTime segment)
          then timestamp else SegmentData.startTime segment in
        let endTime :=
          if timestamp >? SegmentData.endTime segment
          then timestamp else SegmentData.endTime segment in
        SegmentData.mk coordinates startTime endTime
    | None =>
        SegmentData.mk coordinates (SegmentData.startTime segment)
          (SegmentData.endTime segment)
    end
  else
    SegmentData.mk coordinates (SegmentData.startTime segment)
      (SegmentData.endTime segment).

(** One round of the first pass, on the map in insertion order. *)
Fixpoint dataPush (k : Z) (coord : RouteCoordinate)
  (m : list (Z * SegmentData.t)) : list (Z * SegmentData.t) :=
  match m with
  | [] => [(k, addCoordinate coord (newSegmentData coord))]
  | (k', segment) :: m' =>
      if k =? k' then (k', addCoordinate coord segment) :: m'
      else (k', segment) :: dataPush k coord m'
  end.

Definition groupRows (route : list RouteCoordinate)
  : list (Z * SegmentData.t) :=
  fold_left (fun m coord => dataPush (Metrics.coordKey coord) coord m)
            route [].

(** The second pass: the distance loop over consecutive pairs and the
    duration. *)
Definition finishSegment (entry : Z * SegmentData.t) : RouteSegment :=
  let (index, segmentData) := entry in
  let distance :=
    match SegmentData.coordinates segmentData with
    | [] => []
    | first :: rest => Metrics.legsFrom first rest
    end in
  let duration :=
    Js.floorSeconds
      (SegmentData.endTime segmentData - SegmentData.startTime segmentData) in
  RouteSegment.mk index (SegmentData.coordinates segmentData) distance
    duration (SegmentData.startTime segmentData)
    (SegmentData.endTime segmentData).

(** The segments [getRunById] rebuilds from the rows of a run. *)
Definition rebuildSegments (route : list RouteCoordinate)
  : list RouteSegment :=
  Metrics.sortSegments (map finishSegment (groupRows route)).

(** The segment data the first pass holds for the coordinates [cs] of one
    key. *)
Definition dataOf (cs : list RouteCoordinate) : SegmentData.t :=
  match cs with
  | [] => SegmentData.mk [] 0 0
  | first :: _ =>
      fold_left (fun segment coord => addCoordinate coord segment) cs
                (newSegmentData first)
  end.


Definition stamped (route : list RouteCoordinate) : Prop :=
  Forall (fun c => Js.truthyZ (RouteCoordinate.timestamp c) = true) route.

(** *** services/storageService.ts: the saved runs of the fallback store *)

Module SavedRun.
(** [Run] of types/run.ts ([calories] is a function of [distance] and is
    left out). *)
Record t := mk {
  id : string;
  date : Z;
  distance : Meters;
  duration : Z;
  name : option string;
  route : list RouteCoordinate;
  segments : list RouteSegment
}.
End SavedRun.

Module FallbackRuns.
(** [fallbackStorage.runs]. *)
Definition t : Type := list SavedRun.t.

Definition hasId (id : string) (run : SavedRun.t) : bool :=
  String.eqb (SavedRun.id run) id.

(** [runs.findIndex((r) => r.id === id)]. *)
Fixpoint findIndex (id : string) (runs : t) : option nat :=
  match runs with
  | [] => None
  | r :: rest =>
      if hasId id r then Some O
      else option_map S (findIndex id rest)
  end.

(** [runs[index] = run] for an index within the array. *)
Fixpoint assign (index : nat) (run : SavedRun.t) (runs : t) : t :=
  match runs, index with
  | [], _ => []
  | _ :: rest, O => run :: rest
  | r :: rest, S index' => r :: assign index' run rest
  end.

Definition saveRun (run : SavedRun.t) (runs : t) : t :=
  match findIndex (SavedRun.id run) runs with
  | Some existingIndex => assign existingIndex run runs
  | None => runs ++ [run]
  end.

Definition withName (newName : string) (run : SavedRun.t) : SavedRun.t :=
  SavedRun.mk (SavedRun.id run) (SavedRun.date run) (SavedRun.distance run)
    (SavedRun.duration run) (Some newName) (SavedRun.route run)
    (SavedRun.segments run).

(** [const run = runs.find(...); if (run) run.name = newName]. *)
Definition updateRunName (id newName : string) (runs : t) : t :=
  match findIndex id runs with
  | Some index =>
      match nth_error runs index with
      | Some run => assign index (withName newName run) runs
      | None => runs
      end
  | None => runs
  end.

(** [runs.find((run) => run.id === id) || null]. *)
Definition getRunById (id : string) (runs : t) : option SavedRun.t :=
  find (hasId id) runs.

Definition deleteRun (id : string) (runs : t) : t :=
  filter (fun r => negb (hasId id r)) runs.

Definition deleteAllRuns (runs : t) : t := [].

Definition getAllRunsWithRoutes (runs : t) : t := runs.

(** [.sort((a, b) => b.date - a.date)]: newest first; what is used of the
    sort is that it yields a permutation in that order. *)
Fixpoint insertByDate (run : SavedRun.t) (sorted : t) : t :=
  match sorted with
  | [] => [run]
  | r :: rest =>
      if SavedRun.date r <=? SavedRun.date run then run :: r :: rest
      else r :: insertByDate run rest
  end.

Definition sortByDate (runs : t) : t := fold_right insertByDate [] runs.

(** [{ ...run, route: [], segments: [] }]. *)
Definition summary (run : SavedRun.t) : SavedRun.t :=
  SavedRun.mk (SavedRun.id run) (SavedRun.date run) (SavedRun.distance run)
    (SavedRun.duration run) (SavedRun.name run) [] [].

Definition getAllRuns (runs : t) : t := map summary (sortByDate runs).

(** [existingIds = new Set(runs.map((r) => r.id))],
    [newRuns = imported.filter((r) => !existingIds.has(r.id))]. *)
Definition importRuns (imported : t) (runs : t) : t :=
  match imported with
  | [] => runs
  | _ :: _ =>
      let existingIds := map SavedRun.id runs in
      let newRuns :=
        filter (fun r => negb (existsb (String.eqb (SavedRun.id r))
                                 existingIds))
               imported in
      runs ++ newRuns
  end.

Definition ids (runs : t) : list string := map SavedRun.id runs.

End FallbackRuns.

(** *** services/storageService.ts: the saved runs of the database *)

Module RouteRow.
(** A record of the table [route_coordinates]: the run it belongs to, its
    [order_index], and the coordinate it stores. *)
Record t := mk {
  runId : string;
  orderIndex : Z;
  coordinate : RouteCoordinate
}.
End RouteRow.

Module RunRecord.
(** A record of the table [runs] ([calories] is left out as in
    [SavedRun]). *)
Record t := mk {
  id : string;
  date : Z;
  distance : Meters;
  duration : Z;
  name : string
}.
End RunRecord.

Module Database.

(** The tables [runs] and [route_coordinates], and the record of
    [current_tracking] if there is one (its route is kept in
    [route_coordinates], under the run id of the record). *)
Record t := mk {
  runs : list RunRecord.t;
  routeCoordinates : list RouteRow.t;
  currentTracking : option TrackingData
}.


Definition ofRun (id : string) (row : RouteRow.t) : bool :=
  String.eqb (RouteRow.runId row) id.

(** The records created for [coordinates], one after the other, with
    [order_index] counting up from [from]. *)
Fixpoint createRows (id : string) (from : Z)
  (coordinates : list RouteCoordinate) : list RouteRow.t :=
  match coordinates with
  | [] => []
  | c :: rest => RouteRow.mk id from c :: createRows id (from + 1) rest
  end.

(** [Q.sortBy('order_index', Q.asc)], as a stable insertion sort.  The
    order the database gives to rows of equal [order_index] is its own:
    what is proved below about rows with equal indices holds up to
    permutation only. *)
Fixpoint insertByOrder (row : RouteRow.t) (sorted : list RouteRow.t)
  : list RouteRow.t :=
  match sorted with
  | [] => [row]
  | r :: rest =>
      if RouteRow.orderIndex row <=? RouteRow.orderIndex r
      then row :: r :: rest
      else r :: insertByOrder row rest
  end.

Definition sortByOrder (rows : list RouteRow.t) : list RouteRow.t :=
  fold_right insertByOrder [] rows.

(** [query(Q.where('run_id', id), Q.sortBy('order_index', Q.asc))] mapped
    to route coordinates. *)
Definition readRoute (id : string) (db : t) : list RouteCoordinate :=
  map RouteRow.coordinate
      (sortByOrder (filter (ofRun id) (routeCoordinates db))).

(** [saveCurrentTrackingData]: the record of [current_tracking] is
    replaced, the rows of the run id are destroyed and one row is created
    for each coordinate of the route. *)
Definition saveCurrentTrackingData (data : TrackingData) (db : t) : t :=
  mk (runs db)
     (filter (fun row => negb (ofRun (TrackingData.id data) row))
             (routeCoordinates db)
      ++ createRows (TrackingData.id data) 0
           (map StorageService.writeRouteRow (TrackingData.route data)))
     (Some (TrackingData.withRoute (StorageService.writeRecord data) []
              None)).

(** [clearCurrentTrackingData] destroys the records of [current_tracking]
    and nothing else. *)
Definition clearCurrentTrackingData (db : t) : t :=
  mk (runs db) (routeCoordinates db) None.

Definition recordOf (run : SavedRun.t) : RunRecord.t :=
  RunRecord.mk (SavedRun.id run) (SavedRun.date run) (SavedRun.distance run)
    (SavedRun.duration run)
    (match SavedRun.name run with
     | Some name => name
     | None => EmptyString
     end).

(** What a successful [saveRun] leaves: the run record, and after the rows
    already in the table one row for each coordinate of each segment. *)
Definition insertRun (run : SavedRun.t) (db : t) : t :=
  mk (runs db ++ [recordOf run])
     (routeCoordinates db
      ++ createRows (SavedRun.id run) 0 (runRows (SavedRun.segments run)))
     (currentTracking db).

(** [saveRun]: the database refuses a second record with the primary key
    of an existing one (it is what [importRuns] avoids by generating a new
    id), and [saveRun] then throws before any row is created. *)
Definition saveRun (run : SavedRun.t) (db : t) : option t :=
  if existsb (fun record => String.eqb (RunRecord.id record)
                                       (SavedRun.id run)) (runs db)
  then None
  else Some (insertRun run db).

(** [getRunById]: the run record, the route read from the rows of the
    run id and the segments rebuilt from it. *)
Definition getRunById (id : string) (db : t) : option SavedRun.t :=
  match find (fun record => String.eqb (RunRecord.id record) id) (runs db)
  with
  | None => None
  | Some record =>
      let route := readRoute id db in
      Some (SavedRun.mk (RunRecord.id record) (RunRecord.date record)
              (RunRecord.distance record) (RunRecord.duration record)
              (Some (RunRecord.name record)) route (rebuildSegments route))
  end.

End Database.




(** *** utils/metrics.ts: the duration shown *)

(** [str.padStart(2, '0')]. *)
Definition padStart2 (str : string) : string :=
  match String.length str with
  | O => "00"%string
  | S O => ("0" ++ str)%string
  | _ => str
  end.

(** [Number.MAX_SAFE_INTEGER], 2^53 - 1: up to it the doubles of the code
    hold every whole number exactly. *)
Definition maxSafeInteger : Z := 9007199254740991.

(** [formatDuration(seconds)] on a whole number of seconds of absolute
    value at most [maxSafeInteger]: there the quotient computed in doubles
    has the floor of the exact quotient, so [Math.floor] of it is [Z.div],
    and [%] is the exact remainder that takes the sign of the dividend.
    Beyond that range the code prints what the rounded doubles give, which
    this definition does not describe. *)
Definition formatDuration (seconds : Z) : string :=
  let hours := seconds / 3600 in
  let minutes := Z.rem seconds 3600 / 60 in
  let remainingSeconds := Z.rem seconds 60 in
  if hours >? 0 then
    (Js.showZ hours ++ ":" ++ padStart2 (Js.showZ minutes) ++ ":"
     ++ padStart2 (Js.showZ remainingSeconds))%string
  else
    (Js.showZ minutes ++ ":" ++ padStart2 (Js.showZ remainingSeconds))%string.

(** *** Who writes the persisted route *)

(** The events with which the tracking screen itself writes the snapshot
    in the world [w]: the periodic save while tracking, a position event
    that records a point, and Pause and Resume when offered. *)
Definition screenWrite (w : World) (e : Event) : Prop :=
  match e with
  | SaveTick => sessionState (screen w) = Tracking
  | Position _ _ => route (screen (step w e)) <> route (screen w)
  | PressPause _ _ => offered PauseButton (screen w) = true
  | PressResume _ _ => offered ResumeButton (screen w) = true
  | _ => False
  end.

(** *** The snapshot and the session *)

(** A persisted snapshot describes the session on screen. *)
Definition snapshotOfSession (w : World) : Prop :=
  forall d, StorageService.currentTracking (storage w) = Some d ->
            isTracking (screen w) = true
            /\ currentRunId (screen w) = Some (TrackingData.id d)
            /\ startTime (screen w) = TrackingData.startTime d
            /\ TrackingData.isTracking d = true.

(** *** The order of the foreground points *)

(** The timestamp of a coordinate as a number. *)
Definition tsOf (c : RouteCoordinate) : Z :=
  Js.orZ (RouteCoordinate.timestamp c) 0.

Definition isForeground (c : RouteCoordinate) : bool :=
  match RouteCoordinate.source c with
  | Some foreground => true
  | _ => false
  end.

(** Two foreground points of the same segment, the first recorded before
    the second, are at least 800 ms apart by their timestamps. *)
Definition spaced (c c' : RouteCoordinate) : Prop :=
  isForeground c = true -> isForeground c' = true ->
  Metrics.coordKey c = Metrics.coordKey c' ->
  tsOf c + 800 <= tsOf c'.

Definition spacedRoute (route : list RouteCoordinate) : Prop :=
  StronglySorted spaced route.

(** While the watcher runs, its last delivered timestamp is not behind any
    foreground point of the segment that is open. *)
Definition watcherAhead (w : World) : Prop :=
  LocationService.currentLocationSubscription (service w) = true ->
  Forall (fun c =>
            isForeground c = true ->
            Metrics.coordKey c = currentSegmentIndex (screen w) ->
            tsOf c <= LocationService.lastLocationTime (service w))
         (route (screen w)).

Definition storageSpaced (st : StorageService.t) : Prop :=
  forall d, StorageService.currentTracking st = Some d ->
            spacedRoute (TrackingData.route d).

Definition fixesOrdered (w : World) : Prop :=
  spacedRoute (route (screen w)) /\ watcherAhead w
  /\ storageSpaced (storage w).

(* ------------------------------------------------------------------ *)
(** ** Lemmas on [coordinatesToSegments] *)

Section SegmentMapFacts.

Import Metrics.

Lemma mapPush_keys_in k c m k' :
  In k' (keys (mapPush k c m)) <-> k' = k \/ In k' (keys m).
Proof.
  induction m as [| [k0 cs] m IH]; simpl.
  - intuition.
  - destruct (Z.eqb_spec k k0) as [-> | Hne]; simpl.
    + intuition.
    + rewrite IH. intuition.
Qed.

Lemma mapPush_NoDup k c m : NoDup (keys m) -> NoDup (keys (mapPush k c m)).
Proof.
  induction m as [| [k0 cs] m IH]; simpl; intros Hnd.
  - constructor; [intros [] | constructor].
  - inversion Hnd as [| ? ? Hnotin Hnd']; subst.
    destruct (Z.eqb_spec k k0) as [-> | Hne]; simpl.
    + constructor; assumption.
    + constructor; [| apply IH; assumption].
      intros Hin. apply mapPush_keys_in in Hin.
      destruct Hin as [-> | Hin]; [congruence | contradiction].
Qed.

Lemma lookupKey_mapPush k c m k' :
  lookupKey k' (mapPush k c m) =
  if k' =? k
  then Some (match lookupKey k m with Some cs => cs ++ [c] | None => [c] end)
  else lookupKey k' m.
Proof.
  induction m as [| [k0 cs] m IH]; simpl.
  - destruct (k' =? k); reflexivity.
  - destruct (Z.eqb_spec k k0) as [-> | Hne]; simpl.
    + destruct (Z.eqb_spec k' k0); reflexivity.
    + rewrite IH.
      destruct (Z.eqb_spec k' k0) as [-> | Hne'].
      * destruct (Z.eqb_spec k0 k); [congruence | reflexivity].
      * reflexivity.
Qed.

Lemma lookupKey_In k cs m : lookupKey k m = Some cs -> In (k, cs) m.
Proof.
  induction m as [| [k0 cs0] m IH]; simpl; [discriminate |].
  destruct (Z.eqb_spec k k0) as [-> | Hne].
  - intros Heq. inversion Heq. left. reflexivity.
  - intros Heq. right. apply IH. assumption.
Qed.

Lemma In_lookupKey k cs m :
  NoDup (keys m) -> In (k, cs) m -> lookupKey k m = Some cs.
Proof.
  induction m as [| [k0 cs0] m IH]; simpl; intros Hnd Hin; [contradiction |].
  inversion Hnd as [| ? ? Hnotin Hnd']; subst.
  destruct Hin as [Heq | Hin].
  - inversion Heq; subst. rewrite Z.eqb_refl. reflexivity.
  - destruct (Z.eqb_spec k k0) as [-> | Hne].
    + exfalso. apply Hnotin. change k0 with (fst (k0, cs)).
      apply in_map. assumption.
    + apply IH; assumption.
Qed.

Lemma keyIs_refl c : keyIs (coordKey c) c = true.
Proof. unfold keyIs. apply Z.eqb_refl. Qed.

Lemma expected_snoc seen c k :
  expected (seen ++ [c]) k =
  if k =? coordKey c
  then Some (match expected seen k with Some cs => cs ++ [c] | None => [c] end)
  else expected seen k.
Proof.
  unfold expected. rewrite filter_app. simpl. unfold keyIs at 2.
  rewrite (Z.eqb_sym (coordKey c) k).
  destruct (k =? coordKey c).
  - destruct (filter (keyIs k) seen) as [| x xs]; reflexivity.
  - rewrite app_nil_r. reflexivity.
Qed.

Lemma fold_mapPush_lookup l : forall seen m,
  (forall k, lookupKey k m = expected seen k) ->
  forall k,
    lookupKey k (fold_left (fun m c => mapPush (coordKey c) c m) l m)
    = expected (seen ++ l) k.
Proof.
  induction l as [| c l IH]; intros seen m Hm k; simpl.
  - rewrite app_nil_r. apply Hm.
  - replace (seen ++ c :: l) with ((seen ++ [c]) ++ l)
      by (rewrite <- app_assoc; reflexivity).
    apply IH. intros k'.
    rewrite lookupKey_mapPush, expected_snoc.
    destruct (Z.eqb_spec k' (coordKey c)) as [-> | Hne].
    + rewrite Hm. reflexivity.
    + apply Hm.
Qed.

Lemma fold_mapPush_NoDup l : forall m,
  NoDup (keys m) ->
  NoDup (keys (fold_left (fun m c => mapPush (coordKey c) c m) l m)).
Proof.
  induction l as [| c l IH]; intros m Hm; simpl; [assumption |].
  apply IH. apply mapPush_NoDup. assumption.
Qed.

Lemma buildSegmentMap_NoDup coordinates :
  NoDup (keys (buildSegmentMap coordinates)).
Proof. apply fold_mapPush_NoDup. constructor. Qed.

Lemma buildSegmentMap_lookup coordinates k :
  lookupKey k (buildSegmentMap coordinates) = expected coordinates k.
Proof.
  unfold buildSegmentMap.
  rewrite (fold_mapPush_lookup coordinates [] []); [reflexivity |].
  intros k'. reflexivity.
Qed.

(** An entry of the map is the non-empty list of the coordinates that
    carry its key, in route order. *)
Lemma buildSegmentMap_entry coordinates k cs :
  In (k, cs) (buildSegmentMap coordinates) <->
  cs = filter (keyIs k) coordinates /\ cs <> [].
Proof.
  split.
  - intros Hin.
    apply In_lookupKey in Hin; [| apply buildSegmentMap_NoDup].
    rewrite buildSegmentMap_lookup in Hin. unfold expected in Hin.
    destruct (filter (keyIs k) coordinates) as [| x xs]; [discriminate |].
    inversion Hin; subst. split; [reflexivity | discriminate].
  - intros [-> Hne]. apply lookupKey_In.
    rewrite buildSegmentMap_lookup. unfold expected.
    destruct (filter (keyIs k) coordinates) as [| x xs]; congruence.
Qed.

Lemma buildSegmentMap_key coordinates k :
  In k (keys (buildSegmentMap coordinates)) <->
  exists c, In c coordinates /\ coordKey c = k.
Proof.
  split.
  - intros Hin. unfold keys in Hin. apply in_map_iff in Hin.
    destruct Hin as [[k' cs] [Hk Hin]]. simpl in Hk. subst k'.
    apply buildSegmentMap_entry in Hin. destruct Hin as [-> Hne].
    destruct (filter (keyIs k) coordinates) as [| c cs'] eqn:Hf;
      [congruence |].
    assert (Hc : In c (filter (keyIs k) coordinates))
      by (rewrite Hf; left; reflexivity).
    apply filter_In in Hc. destruct Hc as [Hc Hk].
    exists c. split; [assumption |]. unfold keyIs in Hk.
    apply Z.eqb_eq. assumption.
  - intros [c [Hc Hk]].
    assert (Hin : In c (filter (keyIs k) coordinates)).
    { apply filter_In. split; [assumption |].
      unfold keyIs. apply Z.eqb_eq. assumption. }
    change k with (fst (k, filter (keyIs k) coordinates)).
    apply in_map. apply buildSegmentMap_entry.
    split; [reflexivity |]. intros Hnil. rewrite Hnil in Hin. exact Hin.
Qed.

Lemma makeSegment_index entry :
  RouteSegment.segmentIndex (makeSegment entry) = fst entry.
Proof.
  destruct entry as [k cs]. unfold makeSegment.
  destruct (truthyTimestamps cs); reflexivity.
Qed.

Lemma makeSegment_coordinates entry :
  RouteSegment.coordinates (makeSegment entry) = snd entry.
Proof.
  destruct entry as [k cs]. unfold makeSegment.
  destruct (truthyTimestamps cs); reflexivity.
Qed.

Lemma insertSegment_perm s l : Permutation (insertSegment s l) (s :: l).
Proof.
  induction l as [| s' l IH]; simpl.
  - apply Permutation_refl.
  - destruct (RouteSegment.segmentIndex s <? RouteSegment.segmentIndex s').
    + apply Permutation_refl.
    + eapply Permutation_trans; [apply perm_skip; exact IH | apply perm_swap].
Qed.

Lemma sortSegments_perm l : Permutation (sortSegments l) l.
Proof.
  induction l as [| s l IH]; simpl.
  - apply Permutation_refl.
  - eapply Permutation_trans; [apply insertSegment_perm |].
    apply perm_skip. exact IH.
Qed.

Lemma insertSegment_sorted s l :
  StronglySorted Z.le (segmentIndices l) ->
  StronglySorted Z.le (segmentIndices (insertSegment s l)).
Proof.
  induction l as [| s' l IH]; simpl; intros Hs.
  - constructor; constructor.
  - inversion Hs as [| ? ? Hs' Hall]; subst.
    destruct (Z.ltb_spec (RouteSegment.segmentIndex s)
                         (RouteSegment.segmentIndex s')) as [Hlt | Hge];
      simpl.
    + constructor; [assumption |].
      constructor; [lia |].
      eapply Forall_impl; [| exact Hall]. simpl. intros; lia.
    + constructor; [apply IH; assumption |].
      assert (Hperm : Permutation (segmentIndices (insertSegment s l))
                                  (segmentIndices (s :: l)))
        by (apply Permutation_map, insertSegment_perm).
      eapply Permutation_Forall; [apply Permutation_sym; exact Hperm |].
      simpl. constructor; assumption.
Qed.

Lemma sortSegments_sorted l :
  StronglySorted Z.le (segmentIndices (sortSegments l)).
Proof.
  induction l as [| s l IH]; simpl.
  - constructor.
  - apply insertSegment_sorted. exact IH.
Qed.

Lemma sorted_NoDup_strict l :
  StronglySorted Z.le l -> NoDup l -> StronglySorted Z.lt l.
Proof.
  induction l as [| x l IH]; intros Hs Hnd.
  - constructor.
  - inversion Hs as [| ? ? Hs' Hall]; subst.
    inversion Hnd as [| ? ? Hnotin Hnd']; subst.
    constructor; [apply IH; assumption |].
    rewrite Forall_forall in *. intros y Hy.
    specialize (Hall y Hy).
    assert (x <> y) by (intros ->; contradiction). lia.
Qed.

Lemma segmentIndices_makeSegment m :
  segmentIndices (map makeSegment m) = keys m.
Proof.
  unfold segmentIndices, keys. rewrite map_map.
  apply map_ext. intros entry. apply makeSegment_index.
Qed.

Lemma coordinatesToSegments_indices_perm coordinates :
  Permutation (segmentIndices (coordinatesToSegments coordinates))
              (keys (buildSegmentMap coordinates)).
Proof.
  unfold coordinatesToSegments.
  rewrite <- segmentIndices_makeSegment.
  apply Permutation_map, sortSegments_perm.
Qed.

Lemma coordinatesToSegments_strict coordinates :
  StronglySorted Z.lt (segmentIndices (coordinatesToSegments coordinates)).
Proof.
  apply sorted_NoDup_strict.
  - apply sortSegments_sorted.
  - eapply Permutation_NoDup.
    + apply Permutation_sym, coordinatesToSegments_indices_perm.
    + apply buildSegmentMap_NoDup.
Qed.

Lemma coordinatesToSegments_index_in coordinates k :
  In k (segmentIndices (coordinatesToSegments coordinates)) <->
  exists c, In c coordinates /\ coordKey c = k.
Proof.
  rewrite <- buildSegmentMap_key.
  split; apply Permutation_in;
    [| apply Permutation_sym]; apply coordinatesToSegments_indices_perm.
Qed.

Lemma coordinatesToSegments_segment coordinates seg :
  In seg (coordinatesToSegments coordinates) ->
  RouteSegment.coordinates seg
  = filter (keyIs (RouteSegment.segmentIndex seg)) coordinates
  /\ RouteSegment.coordinates seg <> [].
Proof.
  intros Hin.
  apply (Permutation_in _ (sortSegments_perm _)) in Hin.
  apply in_map_iff in Hin. destruct Hin as [[k cs] [<- Hin]].
  rewrite makeSegment_index, makeSegment_coordinates. simpl.
  apply buildSegmentMap_entry. assumption.
Qed.

End SegmentMapFacts.

(* ------------------------------------------------------------------ *)
(** ** Density of the derived segment indices *)

Lemma strict_closed_consecutive l : forall a,
  StronglySorted Z.lt l ->
  (forall k, In k l -> a <= k /\ forall j, a <= j <= k -> In j l) ->
  forall i, (i < List.length l)%nat -> nth i l 0 = a + Z.of_nat i.
Proof.
  induction l as [| x l IH]; intros a Hs Hclosed i Hi; simpl in Hi; [lia |].
  inversion Hs as [| ? ? Hs' Hall]; subst.
  rewrite Forall_forall in Hall.
  assert (Hx : x = a).
  { destruct (Hclosed x (or_introl eq_refl)) as [Hle Hdown].
    destruct (Hdown a ltac:(lia)) as [Heq | Hin]; [assumption |].
    specialize (Hall a Hin). lia. }
  subst x. destruct i as [| i]; simpl; [lia |].
  rewrite (IH (a + 1)); [lia | assumption | | lia].
  intros k Hk. specialize (Hall k Hk). split; [lia |].
  intros j Hj.
  destruct (Hclosed k (or_intror Hk)) as [_ Hdown].
  destruct (Hdown j ltac:(lia)) as [Heq | Hin]; [lia | assumption].
Qed.

Lemma gapFree_dense coordinates :
  gapFree coordinates -> dense (Metrics.coordinatesToSegments coordinates).
Proof.
  intros Hgap i Hi.
  rewrite (strict_closed_consecutive _ 0).
  - lia.
  - apply coordinatesToSegments_strict.
  - intros k Hk. apply coordinatesToSegments_index_in in Hk.
    destruct Hk as [c [Hc <-]]. destruct (Hgap c Hc) as [Hpos Hdown].
    split; [assumption |]. intros j Hj.
    apply coordinatesToSegments_index_in. apply Hdown. assumption.
  - unfold Metrics.segmentIndices. rewrite length_map. assumption.
Qed.

Lemma dense_gapFree coordinates :
  dense (Metrics.coordinatesToSegments coordinates) -> gapFree coordinates.
Proof.
  intros Hdense c Hc.
  set (segs := Metrics.coordinatesToSegments coordinates) in *.
  assert (Hlen : List.length (Metrics.segmentIndices segs) = List.length segs)
    by (unfold Metrics.segmentIndices; apply length_map).
  assert (Hk : In (Metrics.coordKey c) (Metrics.segmentIndices segs)).
  { apply coordinatesToSegments_index_in. exists c. split; trivial. }
  destruct (In_nth _ _ 0 Hk) as [i [Hi Hnth]].
  rewrite Hlen in Hi. rewrite (Hdense i Hi) in Hnth.
  split; [lia |]. intros j Hj.
  apply coordinatesToSegments_index_in. fold segs.
  assert (Hj' : (Z.to_nat j < List.length segs)%nat) by lia.
  specialize (Hdense _ Hj'). rewrite Z2Nat.id in Hdense by lia.
  rewrite <- Hdense. apply nth_In. rewrite Hlen. assumption.
Qed.

(* ------------------------------------------------------------------ *)
(** ** Invariants of the transition system *)

Ltac break_if :=
  match goal with
  | |- context [if ?b then _ else _] => destruct b eqn:?
  end.

Ltac break_let :=
  match goal with
  | |- context [let (_, _) := ?e in _] => destruct e eqn:?
  end.

Lemma screen_commit w : screen (commit w) = screen w.
Proof. reflexivity. Qed.

Lemma storage_commit w : storage (commit w) = storage w.
Proof. reflexivity. Qed.

Lemma commit_synced w : refsSynced (commit w).
Proof. reflexivity. Qed.

Lemma commit_idempotent w : refsSynced w -> commit w = w.
Proof.
  unfold refsSynced, commit, withRefs. intros <-. destruct w; reflexivity.
Qed.

Lemma run_snoc backend trace e :
  run backend (trace ++ [e]) = step (run backend trace) e.
Proof. unfold run. rewrite fold_left_app. reflexivity. Qed.

(** An induction principle over the worlds that traces reach. *)
Lemma run_ind (P : World -> Prop) backend :
  P (initialWorld backend) ->
  (forall w e, validEvent e = true -> P w -> P (step w e)) ->
  forall trace, validTrace trace = true -> P (run backend trace).
Proof.
  intros Hinit Hstep trace. induction trace as [| e trace IH] using rev_ind.
  - intros _. exact Hinit.
  - unfold validTrace. rewrite forallb_app. simpl.
    intros Hvalid. apply andb_true_iff in Hvalid.
    destruct Hvalid as [Htr He]. rewrite andb_true_r in He.
    rewrite run_snoc. apply Hstep; [assumption |]. apply IH. exact Htr.
Qed.

Lemma reachable_refsSynced backend trace :
  refsSynced (run backend trace).
Proof.
  induction trace as [| e trace IH] using rev_ind.
  - reflexivity.
  - rewrite run_snoc. apply commit_synced.
Qed.

Lemma synced_pipelineState w :
  refsSynced w -> pipelineState (refs w) = sessionState (screen w).
Proof. unfold refsSynced. intros ->. reflexivity. Qed.

(** The polling handlers touch the GPS status, the user location and the
    message flag only. *)
Lemma pollGPSStatus_session p current w :
  exists s',
    pollGPSStatus p current w = withScreen s' w
    /\ isTracking s' = isTracking (screen w)
    /\ isPaused s' = isPaused (screen w)
    /\ startTime s' = startTime (screen w)
    /\ pauseStartTime s' = pauseStartTime (screen w)
    /\ route s' = route (screen w)
    /\ segments s' = segments (screen w)
    /\ currentSegmentIndex s' = currentSegmentIndex (screen w)
    /\ elapsedTime s' = elapsedTime (screen w)
    /\ totalPausedTime s' = totalPausedTime (screen w).
Proof.
  unfold pollGPSStatus, handleGpsRestored. cbv zeta.
  match goal with
  | |- context [withScreen ?s ?w1] => exists s
  end.
  repeat break_if; destruct current; repeat split; reflexivity.
Qed.

Lemma gpsMonitorTick_session p w :
  exists s',
    gpsMonitorTick p w = withScreen s' w
    /\ isTracking s' = isTracking (screen w)
    /\ isPaused s' = isPaused (screen w)
    /\ startTime s' = startTime (screen w)
    /\ pauseStartTime s' = pauseStartTime (screen w)
    /\ route s' = route (screen w)
    /\ segments s' = segments (screen w)
    /\ currentSegmentIndex s' = currentSegmentIndex (screen w)
    /\ elapsedTime s' = elapsedTime (screen w)
    /\ totalPausedTime s' = totalPausedTime (screen w).
Proof.
  unfold gpsMonitorTick. break_if.
  - eexists. split; [reflexivity |]. repeat split; reflexivity.
  - exists (screen w). split; [destruct w; reflexivity |].
    repeat split; reflexivity.
Qed.

Lemma handlePauseResume_pauseStamped p now w :
  0 < now -> pauseStamped (screen w) ->
  pauseStamped (screen (handlePauseResume p now w)).
Proof.
  intros Hnow Hinv. unfold handlePauseResume.
  destruct (isPaused (screen w)) eqn:Hp.
  - break_if; [exact Hinv |].
    break_let. simpl. intros Habs.
    repeat break_if; simpl in Habs; try discriminate;
      destruct (pauseStartTime (screen w)); simpl in Habs; discriminate.
  - repeat break_if; try break_let; simpl;
      destruct (currentSegmentStartTime (screen w)); simpl;
      intros _; exists now; split; trivial.
Qed.

Lemma handleStartRun_not_paused p now w :
  handleStartRun p now w = w \/
  isPaused (screen (handleStartRun p now w)) = false.
Proof.
  unfold handleStartRun. break_if; [left; reflexivity | right].
  break_let. break_if; reflexivity.
Qed.

Lemma handleGpsLost_pauseStamped p now w :
  0 < now -> pauseStamped (screen w) ->
  pauseStamped (screen (handleGpsLost p now w)).
Proof.
  intros Hnow Hinv. unfold handleGpsLost. break_if.
  - apply (handlePauseResume_pauseStamped p now w Hnow) in Hinv.
    exact Hinv.
  - exact Hinv.
Qed.

Lemma loadExistingTrackingData_pauseStamped now w :
  0 < now -> pauseStamped (screen w) ->
  pauseStamped (screen (loadExistingTrackingData now w)).
Proof.
  intros Hnow Hinv. unfold loadExistingTrackingData.
  destruct (StorageService.getCurrentTrackingData (storage w)) as [d |];
    [| exact Hinv].
  break_if; [| exact Hinv].
  simpl. intros _. exists now. split; trivial.
Qed.

Lemma handleLocationUpdate_flags location now w :
  isPaused (screen (handleLocationUpdate location now w)) = isPaused (screen w)
  /\ pauseStartTime (screen (handleLocationUpdate location now w))
     = pauseStartTime (screen w).
Proof.
  unfold handleLocationUpdate. repeat break_if; split; reflexivity.
Qed.

Lemma checkGPSStatus_flags p now current w :
  exists w1,
    (w1 = handleGpsLost p now w \/ w1 = handleGpsRestored w \/ w1 = w)
    /\ isPaused (screen (checkGPSStatus p now current w))
       = isPaused (screen w1)
    /\ pauseStartTime (screen (checkGPSStatus p now current w))
       = pauseStartTime (screen w1).
Proof.
  unfold checkGPSStatus. cbv zeta.
  match goal with
  | |- context [withScreen _ ?w1] => exists w1
  end.
  split.
  - repeat break_if; auto.
  - repeat break_if; destruct current; split; reflexivity.
Qed.

Lemma step_pauseStamped w e :
  validEvent e = true ->
  pauseStamped (screen w) -> pauseStamped (screen (step w e)).
Proof.
  intros Hvalid Hinv. unfold step. rewrite screen_commit.
  destruct e; unfold validEvent in Hvalid; simpl in Hvalid;
    try apply Z.ltb_lt in Hvalid; cbv beta iota delta [handle].
  - (* PressStart *)
    break_if; [| exact Hinv].
    destruct (handleStartRun_not_paused p now w) as [-> | Hnp];
      [exact Hinv |].
    intros Habs. congruence.
  - break_if; [| exact Hinv].
    apply handlePauseResume_pauseStamped; assumption.
  - break_if; [| exact Hinv].
    apply handlePauseResume_pauseStamped; assumption.
  - (* PressStop *)
    break_if; [| exact Hinv].
    unfold handleStopAndReview. break_if; [| exact Hinv].
    simpl. intros _. exists now. split; trivial.
  - (* ConfirmCancel *)
    break_if; [| exact Hinv]. simpl. intros Habs. discriminate.
  - (* ElapsedTick *)
    unfold elapsedTimeTick. break_if; [| exact Hinv].
    destruct (startTime (screen w)); exact Hinv.
  - (* SaveTick *)
    unfold periodicSave. break_if; [| exact Hinv].
    destruct (currentRunId (screen w)); exact Hinv.
  - (* Position *)
    unfold deliverPosition. break_if; [| exact Hinv].
    break_let. destruct o as [userLocation |]; [| exact Hinv].
    unfold pauseStamped.
    destruct (handleLocationUpdate_flags userLocation now
                (withService t w)) as [-> ->].
    exact Hinv.
  - (* BackgroundLocations *)
    unfold runBackgroundTask. break_if; [| exact Hinv].
    break_let. exact Hinv.
  - (* CheckGPS *)
    destruct (checkGPSStatus_flags p now current w)
      as [w1 [Hw1 [Hpaused Hstart]]].
    unfold pauseStamped. rewrite Hpaused, Hstart.
    destruct Hw1 as [-> | [-> | ->]];
      [apply handleGpsLost_pauseStamped; assumption | exact Hinv | exact Hinv].
  - (* Relaunch *)
    unfold relaunch. apply loadExistingTrackingData_pauseStamped;
      [assumption |]. simpl. intros Habs. discriminate.
  - destruct (pollGPSStatus_session p current w)
      as [s' [-> [_ [Hp [_ [Hs _]]]]]].
    unfold pauseStamped. simpl. rewrite Hp, Hs. exact Hinv.
  - destruct (gpsMonitorTick_session p w) as [s' [-> [_ [Hp [_ [Hs _]]]]]].
    unfold pauseStamped. simpl. rewrite Hp, Hs. exact Hinv.
  - exact Hinv.
Qed.

Lemma reachable_pauseStamped backend trace :
  validTrace trace = true -> pauseStamped (screen (run backend trace)).
Proof.
  apply (run_ind (fun w => pauseStamped (screen w))).
  - intros Habs. discriminate.
  - intros w e Hvalid Hinv. apply step_pauseStamped; assumption.
Qed.

(* ------------------------------------------------------------------ *)
(** ** Resume *)

Lemma sessionState_Paused s :
  sessionState s = Paused <-> isTracking s = true /\ isPaused s = true.
Proof.
  unfold sessionState.
  destruct (isTracking s), (isPaused s); split; intros H;
    try discriminate; try (destruct H; discriminate); auto.
Qed.

Lemma sessionState_Tracking s :
  sessionState s = Tracking <-> isTracking s = true /\ isPaused s = false.
Proof.
  unfold sessionState.
  destruct (isTracking s), (isPaused s); split; intros H;
    try discriminate; try (destruct H; discriminate); auto.
Qed.

Lemma truthyZ_pos p : 0 < p -> Js.truthyZ (Some p) = true.
Proof. destruct p; simpl; intros; try reflexivity; lia. Qed.

Lemma handlePauseResume_resume p now w pauseStart :
  isPaused (screen w) = true ->
  pauseStartTime (screen w) = Some pauseStart ->
  0 < pauseStart ->
  gpsAvailable (gpsStatus (screen w)) = true ->
  let s' := screen (handlePauseResume p now w) in
  totalPausedTime s' = totalPausedTime (screen w) + (now - pauseStart)
  /\ pauseStartTime s' = None
  /\ currentSegmentIndex s' = currentSegmentIndex (screen w) + 1
  /\ currentSegmentStartTime s' = Some now
  /\ isPaused s' = false
  /\ isTracking s' = isTracking (screen w)
  /\ route s' = route (screen w)
  /\ elapsedTime s' = elapsedTime (screen w).
Proof.
  intros Hpaused Hstart Hpos Hgps. unfold gpsAvailable in Hgps.
  apply andb_true_iff in Hgps. destruct Hgps as [Hsvc Hperm].
  unfold handlePauseResume. rewrite Hpaused, Hsvc, Hperm. simpl.
  rewrite Hstart, (truthyZ_pos _ Hpos).
  break_let. simpl. repeat split; reflexivity.
Qed.

Lemma handlePauseResume_refused p now w :
  isPaused (screen w) = true ->
  gpsAvailable (gpsStatus (screen w)) = false ->
  handlePauseResume p now w = w.
Proof.
  intros Hpaused Hgps. unfold gpsAvailable in Hgps.
  unfold handlePauseResume. rewrite Hpaused.
  destruct (GPSStatus.servicesEnabled (gpsStatus (screen w)));
    destruct (isGranted (GPSStatus.permission (gpsStatus (screen w))));
    simpl in *; try reflexivity; discriminate.
Qed.

(* ------------------------------------------------------------------ *)
(** ** Recovery *)

Lemma handleLocationUpdate_not_tracking location now w :
  pipelineState (refs w) <> Tracking ->
  route (screen (handleLocationUpdate location now w)) = route (screen w)
  /\ storage (handleLocationUpdate location now w) = storage w
  /\ refs (handleLocationUpdate location now w) = refs w.
Proof.
  unfold pipelineState, handleLocationUpdate. intros Hstate.
  destruct (isLocationUpdateInProgress (refs w)); [auto |].
  destruct (isTrackingRef (refs w)); simpl; [| auto].
  destruct (isPausedRef (refs w)); simpl; [auto |].
  congruence.
Qed.

(** C1.  Whenever the snapshot read at startup has [isTracking = true],
    whether it was stored as paused or as actively tracking, the session
    rebuilt by [loadExistingTrackingData] is Paused: [isTracking] and
    [isPaused] are both true, the sample handler sees the same once the
    effects have run, and a fix delivered to it is not recorded. *)
Theorem recovery_is_paused (w : World) (existingData : TrackingData)
  (now : Z) :
  StorageService.getCurrentTrackingData (storage w) = Some existingData ->
  TrackingData.isTracking existingData = true ->
  let w' := commit (loadExistingTrackingData now w) in
  sessionState (screen w') = Paused
  /\ isTracking (screen w') = true
  /\ isPaused (screen w') = true
  /\ pipelineState (refs w') = Paused
  /\ forall location t,
       route (screen (handleLocationUpdate location t w')) = route (screen w').
Proof.
  intros Hget Htracking w'.
  assert (Hstate : sessionState (screen w') = Paused).
  { unfold w', loadExistingTrackingData. rewrite Hget, Htracking.
    reflexivity. }
  assert (Hpipe : pipelineState (refs w') = Paused).
  { rewrite synced_pipelineState; [assumption | apply commit_synced]. }
  apply sessionState_Paused in Hstate as Hflags.
  destruct Hflags as [Ht Hp].
  repeat (split; [assumption |]).
  intros location t.
  apply handleLocationUpdate_not_tracking. rewrite Hpipe. discriminate.
Qed.

Lemma recovery_is_paused_witness :
  (let w' := commit (loadExistingTrackingData 60000
                       (coldWorld persistedTracking)) in
   sessionState (screen w') = Paused
   /\ isTracking (screen w') = true
   /\ isPaused (screen w') = true
   /\ pipelineState (refs w') = Paused
   /\ forall location t,
        route (screen (handleLocationUpdate location t w'))
        = route (screen w'))
  /\ TrackingData.isPaused persistedTracking = false.
Proof.
  split; [| reflexivity].
  apply (recovery_is_paused (coldWorld persistedTracking)
           (StorageService.readRecord persistedTracking) 60000);
    reflexivity.
Defined.

Lemma elapsedTimeTick_paused now s :
  isPaused s = true -> elapsedTimeTick now s = s.
Proof.
  intros Hp. unfold elapsedTimeTick. rewrite Hp.
  rewrite andb_false_r. reflexivity.
Qed.

Lemma isPausedSession_true s :
  isPausedSession s = true <-> sessionState s = Paused.
Proof.
  unfold isPausedSession. rewrite sessionState_Paused.
  apply andb_true_iff.
Qed.

Lemma offered_stop_paused s :
  isPaused s = true -> offered StopButton s = false.
Proof.
  intros Hp. unfold offered, TrackingControls. rewrite Hp.
  destruct (gpsStatus s) as [permission servicesEnabled canAskAgain].
  destruct (isTracking s), permission, servicesEnabled; reflexivity.
Qed.

Lemma offered_start_tracking s :
  isTracking s = true -> offered StartButton s = false.
Proof.
  intros Ht. unfold offered, TrackingControls. rewrite Ht.
  destruct (gpsStatus s) as [permission servicesEnabled canAskAgain].
  destruct (isPaused s), permission, servicesEnabled; reflexivity.
Qed.

Lemma offered_pause_when_paused s :
  isPaused s = true -> offered PauseButton s = false.
Proof.
  intros Hp. unfold offered, TrackingControls. rewrite Hp.
  destruct (gpsStatus s) as [permission servicesEnabled canAskAgain].
  destruct (isTracking s), permission, servicesEnabled; reflexivity.
Qed.

Lemma handlePauseResume_paused_cases p now w :
  isPaused (screen w) = true ->
  handlePauseResume p now w = w
  \/ isPaused (screen (handlePauseResume p now w)) = false.
Proof.
  intros Hp. unfold handlePauseResume. rewrite Hp.
  destruct (negb (GPSStatus.servicesEnabled (gpsStatus (screen w)))
            || negb (isGranted
                       (GPSStatus.permission (gpsStatus (screen w)))));
    [left; reflexivity | right].
  break_let. reflexivity.
Qed.

Lemma handleLocationUpdate_pause_fields location now w :
  pauseStartTime (screen (handleLocationUpdate location now w))
  = pauseStartTime (screen w)
  /\ totalPausedTime (screen (handleLocationUpdate location now w))
     = totalPausedTime (screen w).
Proof.
  unfold handleLocationUpdate. repeat break_if; split; reflexivity.
Qed.

Lemma checkGPSStatus_paused_fields p now current w :
  isPaused (screen w) = true ->
  pauseStartTime (screen (checkGPSStatus p now current w))
  = pauseStartTime (screen w)
  /\ totalPausedTime (screen (checkGPSStatus p now current w))
     = totalPausedTime (screen w).
Proof.
  intros Hp. unfold checkGPSStatus, handleGpsLost, handleGpsRestored.
  rewrite Hp, andb_false_r. cbv zeta.
  repeat break_if; destruct current; split; reflexivity.
Qed.

(** While the session stays Paused and the process keeps running, no event
    changes the pause start or the accumulated paused time. *)
Lemma paused_step_pause_fields w e :
  isRelaunch e = false ->
  sessionState (screen w) = Paused ->
  sessionState (screen (step w e)) = Paused ->
  pauseStartTime (screen (step w e)) = pauseStartTime (screen w)
  /\ totalPausedTime (screen (step w e)) = totalPausedTime (screen w).
Proof.
  intros Hnot Hbefore Hafter.
  apply sessionState_Paused in Hbefore. destruct Hbefore as [Ht Hp].
  apply sessionState_Paused in Hafter. destruct Hafter as [Ht' Hp'].
  unfold step in *. rewrite screen_commit in *.
  destruct e; cbv beta iota delta [handle] in *; try discriminate.
  - rewrite (offered_start_tracking _ Ht). split; reflexivity.
  - rewrite (offered_pause_when_paused _ Hp). split; reflexivity.
  - destruct (offered ResumeButton (screen w)); [| split; reflexivity].
    destruct (handlePauseResume_paused_cases p now w Hp) as [Heq | Hnp].
    + rewrite Heq. split; reflexivity.
    + congruence.
  - rewrite (offered_stop_paused _ Hp). split; reflexivity.
  - destruct (offered CancelButton (screen w)); [| split; reflexivity].
    simpl in Ht'. discriminate.
  - simpl. rewrite elapsedTimeTick_paused by assumption. split; reflexivity.
  - unfold periodicSave. cbv zeta. break_if; [| split; reflexivity].
    destruct (currentRunId (screen w)); split; reflexivity.
  - unfold deliverPosition. break_if; [| split; reflexivity].
    break_let. destruct o; [| split; reflexivity].
    apply (handleLocationUpdate_pause_fields _ _ (withService t w)).
  - unfold runBackgroundTask. cbv zeta. break_if; [| split; reflexivity].
    break_let. split; reflexivity.
  - apply checkGPSStatus_paused_fields. assumption.
  - destruct (pollGPSStatus_session p current w)
      as [s' [-> [_ [_ [_ [Hs [_ [_ [_ [_ Htot]]]]]]]]]].
    split; assumption.
  - destruct (gpsMonitorTick_session p w)
      as [s' [-> [_ [_ [_ [Hs [_ [_ [_ [_ Htot]]]]]]]]]].
    split; assumption.
  - split; reflexivity.
Qed.

Lemma pausedThroughout_pause_fields trace : forall w,
  sessionState (screen w) = Paused ->
  pausedThroughout w trace = true ->
  sessionState (screen (fold_left step trace w)) = Paused
  /\ pauseStartTime (screen (fold_left step trace w))
     = pauseStartTime (screen w)
  /\ totalPausedTime (screen (fold_left step trace w))
     = totalPausedTime (screen w).
Proof.
  induction trace as [| e trace IH]; intros w Hpaused Hall; simpl.
  - repeat split; trivial.
  - simpl in Hall. apply andb_true_iff in Hall. destruct Hall as [Hall Hrest].
    apply andb_true_iff in Hall. destruct Hall as [Hnot Hafter].
    apply negb_true_iff in Hnot. apply isPausedSession_true in Hafter.
    destruct (paused_step_pause_fields w e Hnot Hpaused Hafter)
      as [Hstart Htotal].
    destruct (IH (step w e) Hafter Hrest) as [Hp [Hs Htot]].
    rewrite Hs, Htot, Hstart, Htotal. repeat split; trivial.
Qed.

(** C10.  Recovery at time [t0] sets [pauseStartTime] to [t0], whatever
    pause timestamp the snapshot holds, and restores the persisted
    [totalPausedTime]; whatever happens afterwards while the process keeps
    running and the session stays Paused, the first Resume that goes
    through, at time [t1], adds [t1 - t0] to it. *)
Theorem recovery_gap_counts_as_paused (w : World)
  (existingData : TrackingData) (t0 t1 : Z) (between : list Event)
  (p : Platform) :
  StorageService.getCurrentTrackingData (storage w) = Some existingData ->
  TrackingData.isTracking existingData = true ->
  0 < t0 ->
  let w1 := commit (loadExistingTrackingData t0 w) in
  let w2 := fold_left step between w1 in
  let w3 := step w2 (PressResume p t1) in
  pausedThroughout w1 between = true ->
  gpsAvailable (gpsStatus (screen w2)) = true ->
  pauseStartTime (screen w1) = Some t0
  /\ totalPausedTime (screen w1)
     = Js.orZ (TrackingData.totalPausedTime existingData) 0
  /\ totalPausedTime (screen w3)
     = Js.orZ (TrackingData.totalPausedTime existingData) 0 + (t1 - t0)
  /\ sessionState (screen w3) = Tracking.
Proof.
  intros Hget Htracking Hpos w1 w2 w3 Hbetween Hgps2.
  assert (H1 : pauseStartTime (screen w1) = Some t0
               /\ totalPausedTime (screen w1)
                  = Js.orZ (TrackingData.totalPausedTime existingData) 0
               /\ sessionState (screen w1) = Paused).
  { unfold w1, loadExistingTrackingData. rewrite Hget, Htracking.
    repeat split; reflexivity. }
  destruct H1 as [Hstart1 [Htotal1 Hpaused1]].
  destruct (pausedThroughout_pause_fields between w1 Hpaused1 Hbetween)
    as [Hpaused2 [Hstart2 Htotal2]].
  fold w2 in Hpaused2, Hstart2, Htotal2.
  apply sessionState_Paused in Hpaused2. destruct Hpaused2 as [Htr2 Hp2].
  rewrite Hstart1 in Hstart2.
  assert (Hoffered : offered ResumeButton (screen w2) = true).
  { unfold offered, TrackingControls. unfold gpsAvailable in Hgps2.
    apply andb_true_iff in Hgps2. destruct Hgps2 as [Hs Hg].
    rewrite Htr2, Hp2, Hs, Hg. reflexivity. }
  destruct (handlePauseResume_resume p t1 w2 t0 Hp2 Hstart2 Hpos Hgps2)
    as [Htotal3 [_ [_ [_ [Hnp3 [Htr3 _]]]]]].
  assert (Hw3 : screen w3 = screen (handlePauseResume p t1 w2)).
  { unfold w3, step. rewrite screen_commit.
    cbv beta iota delta [handle]. rewrite Hoffered. reflexivity. }
  split; [assumption |]. split; [assumption |].
  rewrite Hw3. split.
  - rewrite Htotal3, Htotal2, Htotal1. reflexivity.
  - apply sessionState_Tracking. split; [| assumption].
    rewrite Htr3. assumption.
Qed.

Lemma recovery_gap_counts_as_paused_witness :
  let w1 := commit (loadExistingTrackingData 60000
                      (coldWorld persistedPaused)) in
  let w2 := fold_left step waitingTrace w1 in
  let w3 := step w2 (PressResume platformOk 90000) in
  pauseStartTime (screen w1) = Some 60000
  /\ totalPausedTime (screen w1) = 2000
  /\ totalPausedTime (screen w3) = 2000 + (90000 - 60000)
  /\ sessionState (screen w3) = Tracking.
Proof.
  apply (recovery_gap_counts_as_paused (coldWorld persistedPaused)
           (StorageService.readRecord persistedPaused)
           60000 90000 waitingTrace platformOk);
    reflexivity.
Defined.

(* ------------------------------------------------------------------ *)
(** ** Start times are positive clock readings *)

Lemma save_startTime data st d :
  StorageService.currentTracking
    (StorageService.saveCurrentTrackingData data st) = Some d ->
  TrackingData.startTime d = TrackingData.startTime data.
Proof.
  unfold StorageService.saveCurrentTrackingData.
  destruct (StorageService.backend st); simpl; intros Heq;
    inversion Heq; reflexivity.
Qed.

Lemma get_startTime st d :
  StorageService.getCurrentTrackingData st = Some d ->
  exists raw, StorageService.currentTracking st = Some raw
              /\ TrackingData.startTime d = TrackingData.startTime raw.
Proof.
  unfold StorageService.getCurrentTrackingData.
  destruct (StorageService.backend st).
  - intros Heq. exists d. split; [assumption | reflexivity].
  - destruct (StorageService.currentTracking st) as [raw |]; simpl;
      [| discriminate].
    intros Heq. inversion Heq. exists raw. split; reflexivity.
Qed.

Lemma save_stamped data st v :
  TrackingData.startTime data = Some v -> 0 < v ->
  storageStamped (StorageService.saveCurrentTrackingData data st).
Proof.
  intros Hs Hv d Hd. apply save_startTime in Hd. exists v.
  rewrite Hd. split; assumption.
Qed.

Lemma truthyZ_Some o : Js.truthyZ o = true -> exists v, o = Some v.
Proof. destruct o as [v |]; [eauto | discriminate]. Qed.

Lemma pauseResumeSnapshot_stamped now s st :
  positiveOpt (startTime s) -> storageStamped st ->
  storageStamped (pauseResumeSnapshot now s st).
Proof.
  intros Hpos Hst. unfold pauseResumeSnapshot.
  break_if; [| assumption].
  destruct (currentRunId s); [| assumption].
  apply andb_true_iff in Heqb. destruct Heqb as [_ Htruthy].
  destruct (truthyZ_Some _ Htruthy) as [v Hv].
  apply (save_stamped _ _ v); [exact Hv | apply Hpos; exact Hv].
Qed.

Lemma handlePauseResume_startStamped p now w :
  startStamped w -> startStamped (handlePauseResume p now w).
Proof.
  intros [Ha [Hb Hc]]. unfold handlePauseResume.
  destruct (isPaused (screen w)).
  - break_if; [repeat split; assumption |].
    break_let.
    assert (Hkeep :
      forall s1, startTime s1 = startTime (screen w) ->
                 isTracking s1 = isTracking (screen w) ->
      startStamped
        (mkWorld
           (s1 |> set_isPaused false
               |> set_currentSegmentIndex (currentSegmentIndex (screen w) + 1)
               |> set_currentSegmentStartTime (Some now))
           (refs w |> set_isPausedRef false |> set_lastLocationTime now
                   |> set_currentSegmentStartTimeRef (Some now))
           (if b then LocationService.startGPSMonitoring t else t)
           (pauseResumeSnapshot now (screen w) (storage w)))).
    { intros s1 H1 H2. unfold startStamped. simpl. rewrite H1, H2.
      repeat split; try assumption.
      apply pauseResumeSnapshot_stamped; assumption. }
    apply Hkeep; break_if; try reflexivity;
      destruct (pauseStartTime (screen w)); reflexivity.
  - assert (Hkeep :
      forall s1 r1, startTime s1 = startTime (screen w) ->
                    isTracking s1 = isTracking (screen w) ->
      startStamped
        (mkWorld
           (s1 |> set_pauseStartTime (Some now) |> set_isPaused true)
           (r1 |> set_isPausedRef true)
           (LocationService.stopRunTracking (service w))
           (pauseResumeSnapshot now (screen w) (storage w)))).
    { intros s1 r1 H1 H2. unfold startStamped. simpl. rewrite H1, H2.
      repeat split; try assumption.
      apply pauseResumeSnapshot_stamped; assumption. }
    break_if; [destruct (currentSegmentStartTime (screen w)) |];
      apply Hkeep; reflexivity.
Qed.

Lemma positiveOpt_Some v : 0 < v -> positiveOpt (Some v).
Proof. intros Hv x Hx. inversion Hx. subst. assumption. Qed.

Lemma positiveOpt_None : positiveOpt None.
Proof. intros x Hx. discriminate. Qed.

Lemma clear_stamped st :
  storageStamped (StorageService.clearCurrentTrackingData st).
Proof. intros d Hd. discriminate. Qed.

Lemma handleStartRun_startStamped p now w :
  0 < now -> startStamped w -> startStamped (handleStartRun p now w).
Proof.
  intros Hnow Hinv. unfold handleStartRun.
  break_if; [assumption |]. break_let. break_if.
  - unfold startStamped. simpl. split; [discriminate |].
    split; [apply positiveOpt_None | apply clear_stamped].
  - unfold startStamped. simpl. split; [eauto |].
    split; [apply positiveOpt_Some; assumption |].
    apply (save_stamped _ _ now); [reflexivity | assumption].
Qed.

Lemma handleGpsLost_startStamped p now w :
  startStamped w -> startStamped (handleGpsLost p now w).
Proof.
  intros Hinv. unfold handleGpsLost. break_if.
  - apply (handlePauseResume_startStamped p now) in Hinv. exact Hinv.
  - exact Hinv.
Qed.

Lemma checkGPSStatus_startStamped p now current w :
  startStamped w -> startStamped (checkGPSStatus p now current w).
Proof.
  intros Hinv. unfold checkGPSStatus. cbv zeta.
  match goal with
  | |- startStamped (withScreen ?s ?w1) =>
      assert (Hw1 : startStamped w1);
      [| assert (Hs : startTime s = startTime (screen w1)
                      /\ isTracking s = isTracking (screen w1))]
  end.
  - repeat break_if;
      [apply handleGpsLost_startStamped; assumption
      | exact Hinv | exact Hinv].
  - repeat break_if; destruct current; split; reflexivity.
  - destruct Hs as [Hs1 Hs2]. destruct Hw1 as [Ha [Hb Hc]].
    unfold startStamped. simpl. rewrite Hs1, Hs2.
    repeat split; assumption.
Qed.

Lemma handleLocationUpdate_startStamped location now w :
  refsSynced w -> startStamped w ->
  startStamped (handleLocationUpdate location now w).
Proof.
  intros Hsync [Ha [Hb Hc]]. unfold handleLocationUpdate. cbv zeta.
  break_if; [repeat split; assumption |].
  break_if; [repeat split; assumption |].
  break_if; [repeat split; assumption |].
  unfold startStamped. simpl. split; [assumption |].
  split; [assumption |].
  break_if; [| assumption].
  destruct (currentRunIdRef (refs w)); [| assumption].
  apply andb_true_iff in Heqb2. destruct Heqb2 as [_ Htruthy].
  destruct (truthyZ_Some _ Htruthy) as [v Hv].
  apply (save_stamped _ _ v); [exact Hv |].
  apply Hb. rewrite <- Hv. unfold refsSynced in Hsync. rewrite Hsync.
  reflexivity.
Qed.

Lemma task_stamped input now bg st :
  storageStamped st ->
  storageStamped (snd (BackgroundTask.task input now bg st)).
Proof.
  intros Hst. unfold BackgroundTask.task.
  destruct input as [| | locations]; try exact Hst.
  destruct locations as [| l ls]; [exact Hst |].
  destruct (StorageService.getCurrentTrackingData st) as [d |] eqn:Hget;
    [| exact Hst].
  break_if; [exact Hst |].
  destruct (filter _ (l :: ls)) as [| f fs]; [exact Hst |].
  destruct (filter _ (map _ (f :: fs))) as [| n ns]; [exact Hst |].
  simpl.
  destruct (get_startTime _ _ Hget) as [raw [Hraw Hstart]].
  destruct (Hst raw Hraw) as [v [Hv Hpos]].
  apply (save_stamped _ _ v); [| assumption].
  simpl. rewrite Hstart. assumption.
Qed.

Lemma loadExistingTrackingData_startStamped now w :
  isTracking (screen w) = false -> startTime (screen w) = None ->
  storageStamped (storage w) ->
  startStamped (loadExistingTrackingData now w).
Proof.
  intros Hidle Hnone Hst.
  assert (Hsame : startStamped w).
  { unfold startStamped. rewrite Hidle, Hnone.
    split; [discriminate |]. split; [apply positiveOpt_None | assumption]. }
  unfold loadExistingTrackingData.
  destruct (StorageService.getCurrentTrackingData (storage w)) as [d |]
    eqn:Hget; [| exact Hsame].
  break_if; [| exact Hsame].
  destruct (get_startTime _ _ Hget) as [raw [Hraw Hstart]].
  destruct (Hst raw Hraw) as [v [Hv Hpos]].
  unfold startStamped. simpl. rewrite Hstart, Hv.
  split; [eauto |]. split; [apply positiveOpt_Some; assumption | assumption].
Qed.

Lemma step_startStamped w e :
  validEvent e = true -> refsSynced w ->
  startStamped w -> startStamped (step w e).
Proof.
  intros Hvalid Hsync Hinv. unfold step.
  assert (Hcommit : forall w1, startStamped w1 -> startStamped (commit w1))
    by (intros w1 H1; exact H1).
  apply Hcommit.
  destruct e; unfold validEvent in Hvalid; simpl in Hvalid;
    try apply Z.ltb_lt in Hvalid; cbv beta iota delta [handle].
  - break_if; [| exact Hinv]. apply handleStartRun_startStamped; assumption.
  - break_if; [| exact Hinv]. apply handlePauseResume_startStamped.
    assumption.
  - break_if; [| exact Hinv]. apply handlePauseResume_startStamped.
    assumption.
  - break_if; [| exact Hinv]. unfold handleStopAndReview.
    break_if; exact Hinv.
  - break_if; [| exact Hinv].
    unfold handleQuitRun, stopTrackingAndCleanup, startStamped. simpl.
    split; [discriminate |].
    split; [apply positiveOpt_None | apply clear_stamped].
  - unfold elapsedTimeTick. break_if; [| destruct w; exact Hinv].
    destruct (startTime (screen w)) eqn:Hs; [| destruct w; exact Hinv].
    destruct Hinv as [Ha [Hb Hc]]. unfold startStamped. simpl.
    rewrite Hs in *. repeat split; assumption.
  - unfold periodicSave. cbv zeta. break_if; [| exact Hinv].
    destruct (currentRunId (screen w)); [| exact Hinv].
    destruct Hinv as [Ha [Hb Hc]].
    apply andb_true_iff in Heqb. destruct Heqb as [Heqb _].
    apply andb_true_iff in Heqb. destruct Heqb as [Htr _].
    destruct (Ha Htr) as [v Hv].
    unfold startStamped. simpl. repeat split; try assumption.
    apply (save_stamped _ _ v); [exact Hv | apply Hb; exact Hv].
  - unfold deliverPosition. break_if; [| exact Hinv].
    break_let. destruct o as [userLocation |]; [| exact Hinv].
    apply handleLocationUpdate_startStamped; [exact Hsync | exact Hinv].
  - unfold runBackgroundTask. cbv zeta. break_if; [| exact Hinv].
    destruct Hinv as [Ha [Hb Hc]].
    pose proof (task_stamped input now
                  (LocationService.backgroundTask (service w))
                  (storage w) Hc) as Htask.
    break_let. unfold startStamped. simpl in *.
    repeat split; assumption.
  - apply checkGPSStatus_startStamped. assumption.
  - unfold relaunch. apply loadExistingTrackingData_startStamped;
      try reflexivity.
    destruct Hinv as [_ [_ Hc]]. simpl.
    destruct (StorageService.backend (storage w)); [| exact Hc].
    intros d Hd. discriminate.
  - destruct (pollGPSStatus_session p current w)
      as [s' [-> [Ht [_ [Hs _]]]]].
    destruct Hinv as [Ha [Hb Hc]]. unfold startStamped. simpl.
    rewrite Ht, Hs. repeat split; assumption.
  - destruct (gpsMonitorTick_session p w) as [s' [-> [Ht [_ [Hs _]]]]].
    destruct Hinv as [Ha [Hb Hc]]. unfold startStamped. simpl.
    rewrite Ht, Hs. repeat split; assumption.
  - destruct Hinv as [Ha [Hb Hc]]. unfold reviewDone, startStamped. simpl.
    split; [assumption |]. split; [assumption | apply clear_stamped].
Qed.

Lemma reachable_startStamped backend trace :
  validTrace trace = true -> startStamped (run backend trace).
Proof.
  intros Hvalid.
  assert (H : refsSynced (run backend trace)
              /\ startStamped (run backend trace));
    [| destruct H; assumption].
  revert Hvalid.
  apply (run_ind (fun w => refsSynced w /\ startStamped w)).
  - split; [reflexivity |]. unfold startStamped. simpl.
    split; [discriminate |].
    split; [apply positiveOpt_None | intros d Hd; discriminate].
  - intros w e Hvalid [Hsync Hinv].
    split; [apply commit_synced | apply step_startStamped; assumption].
Qed.

(* ------------------------------------------------------------------ *)
(** ** Segment indices are bounded by the current segment index *)

Ltac split_conj :=
  repeat match goal with |- _ /\ _ => split end.

Lemma orZ_Some v : Js.orZ (Some v) 0 = v.
Proof. destruct v; reflexivity. Qed.

Lemma coordinatesWithin_weaken top top' coordinates :
  top <= top' ->
  coordinatesWithin top coordinates -> coordinatesWithin top' coordinates.
Proof.
  intros Hle. apply Forall_impl. intros c Hc. lia.
Qed.

Lemma segmentsWithin_weaken top top' segs :
  top <= top' -> segmentsWithin top segs -> segmentsWithin top' segs.
Proof.
  intros Hle. apply Forall_impl. intros c Hc. lia.
Qed.

Lemma coordKey_writeRouteRow c :
  Metrics.coordKey (StorageService.writeRouteRow c) = Metrics.coordKey c.
Proof.
  unfold Metrics.coordKey, StorageService.writeRouteRow.
  cbn [RouteCoordinate.segmentIndex]. apply orZ_Some.
Qed.

Lemma coordinatesWithin_rows top coordinates :
  coordinatesWithin top coordinates ->
  coordinatesWithin top (map StorageService.writeRouteRow coordinates).
Proof.
  unfold coordinatesWithin. intros H. apply Forall_map.
  revert H. apply Forall_impl. intros c Hc.
  rewrite coordKey_writeRouteRow. assumption.
Qed.

Lemma maxSegmentIndex_bounds top coordinates :
  0 <= top -> coordinatesWithin top coordinates ->
  0 <= StorageService.maxSegmentIndex coordinates <= top.
Proof.
  unfold StorageService.maxSegmentIndex, coordinatesWithin.
  intros Htop Hall.
  assert (Hgen : forall acc, 0 <= acc <= top ->
            0 <= fold_left Z.max (map Metrics.coordKey coordinates) acc
            <= top).
  { induction Hall as [| c cs Hc Hcs IH]; intros acc Hacc; simpl.
    - assumption.
    - apply IH. lia. }
  apply Hgen. lia.
Qed.

Lemma maxSegmentIndex_upper coordinates :
  coordinatesWithin (StorageService.maxSegmentIndex coordinates)
    (filter (fun c => 0 <=? Metrics.coordKey c) coordinates).
Proof.
  unfold StorageService.maxSegmentIndex, coordinatesWithin.
  assert (Hmono : forall l acc, acc <= fold_left Z.max l acc).
  { induction l as [| x l IH]; intros acc; simpl; [lia |].
    specialize (IH (Z.max acc x)). lia. }
  assert (Hgen : forall cs acc,
            Forall (fun c => 0 <= Metrics.coordKey c
                             <= fold_left Z.max (map Metrics.coordKey cs) acc)
                   (filter (fun c => 0 <=? Metrics.coordKey c) cs)).
  { induction cs as [| c cs IH]; intros acc; simpl; [constructor |].
    destruct (Z.leb_spec 0 (Metrics.coordKey c)).
    - constructor; [| apply IH].
      specialize (Hmono (map Metrics.coordKey cs)
                        (Z.max acc (Metrics.coordKey c))). lia.
    - apply IH. }
  apply Hgen.
Qed.

Lemma readRecord_bounded raw :
  snapshotBounded raw -> snapshotBounded (StorageService.readRecord raw).
Proof.
  intros [Hpos Hall]. unfold snapshotBounded, StorageService.readRecord.
  cbn [TrackingData.currentSegmentIndex TrackingData.route]. rewrite orZ_Some.
  destruct (TrackingData.currentSegmentIndex raw) as [k |] eqn:Hk.
  - destruct (Z.eq_dec k 0) as [-> | Hnz].
    + simpl in *.
      pose proof (maxSegmentIndex_bounds 0 _ (Z.le_refl 0) Hall) as Hmax.
      replace (StorageService.maxSegmentIndex (TrackingData.route raw))
        with 0 by lia.
      split; [lia | assumption].
    + replace (Js.orZ (Some k) _) with k
        by (destruct k; [contradiction | reflexivity | reflexivity]).
      rewrite orZ_Some in Hpos, Hall. split; assumption.
  - simpl in *.
    pose proof (maxSegmentIndex_bounds 0 _ (Z.le_refl 0) Hall) as Hmax.
    replace (StorageService.maxSegmentIndex (TrackingData.route raw))
      with 0 by lia.
    split; [lia | assumption].
Qed.

Lemma get_bounded st d :
  storageBounded st ->
  StorageService.getCurrentTrackingData st = Some d -> snapshotBounded d.
Proof.
  unfold StorageService.getCurrentTrackingData. intros Hst.
  destruct (StorageService.backend st).
  - apply Hst.
  - destruct (StorageService.currentTracking st) as [raw |] eqn:Hraw;
      simpl; [| discriminate].
    intros Heq. inversion Heq. apply readRecord_bounded. apply Hst.
    assumption.
Qed.

Lemma save_bounded data st :
  snapshotBounded data ->
  storageBounded (StorageService.saveCurrentTrackingData data st).
Proof.
  intros [Hpos Hall] d. unfold StorageService.saveCurrentTrackingData.
  destruct (StorageService.backend st); simpl; intros Heq;
    inversion Heq; subst.
  - split; assumption.
  - unfold snapshotBounded, StorageService.writeRecord.
    cbn [TrackingData.currentSegmentIndex TrackingData.route]. rewrite orZ_Some.
    split; [assumption | apply coordinatesWithin_rows; assumption].
Qed.

Lemma clear_bounded st :
  storageBounded (StorageService.clearCurrentTrackingData st).
Proof. intros d Hd. discriminate. Qed.

Lemma session_snapshot_bounded id start s paused pause elapsed :
  0 <= currentSegmentIndex s ->
  coordinatesWithin (currentSegmentIndex s) (route s) ->
  snapshotBounded
    (TrackingData.mk id start (route s) true paused
       (Some (currentSegmentIndex s)) (Some (totalPausedTime s)) pause
       (currentSegmentStartTime s) elapsed None).
Proof.
  intros Hpos Hall. unfold snapshotBounded.
  cbn [TrackingData.currentSegmentIndex TrackingData.route]. rewrite orZ_Some.
  split; assumption.
Qed.

Lemma pauseResumeSnapshot_bounded now s st :
  0 <= currentSegmentIndex s ->
  coordinatesWithin (currentSegmentIndex s) (route s) ->
  storageBounded st -> storageBounded (pauseResumeSnapshot now s st).
Proof.
  intros Hpos Hall Hst. unfold pauseResumeSnapshot.
  break_if; [| assumption].
  destruct (currentRunId s); [| assumption].
  apply save_bounded. apply session_snapshot_bounded; assumption.
Qed.

Lemma handlePauseResume_indexBounded p now w :
  indexBounded w -> indexBounded (handlePauseResume p now w).
Proof.
  intros [Hpos [Hroute [Hsegs Hst]]]. unfold handlePauseResume. cbv zeta.
  pose proof (pauseResumeSnapshot_bounded now (screen w) (storage w)
                Hpos Hroute Hst) as Hsnap.
  destruct (isPaused (screen w)).
  - destruct (negb (GPSStatus.servicesEnabled (gpsStatus (screen w)))
              || negb (isGranted
                         (GPSStatus.permission (gpsStatus (screen w)))));
      [unfold indexBounded; split_conj; assumption |].
    break_let.
    assert (Hkeep :
      forall s1, route s1 = route (screen w) ->
                 segments s1 = segments (screen w) ->
                 isTracking s1 = isTracking (screen w) ->
      indexBounded
        (mkWorld
           (s1 |> set_isPaused false
               |> set_currentSegmentIndex (currentSegmentIndex (screen w) + 1)
               |> set_currentSegmentStartTime (Some now))
           (refs w |> set_isPausedRef false |> set_lastLocationTime now
                   |> set_currentSegmentStartTimeRef (Some now))
           (if b then LocationService.startGPSMonitoring t else t)
           (pauseResumeSnapshot now (screen w) (storage w)))).
    { intros s1 H1 H2 H3. unfold indexBounded. simpl. rewrite H1, H2, H3.
      split; [lia |].
      split; [eapply coordinatesWithin_weaken; [| eassumption]; lia |].
      split; [| assumption].
      intros Ht. eapply segmentsWithin_weaken; [| apply Hsegs; assumption].
      lia. }
    apply Hkeep;
      (destruct (Js.truthyZ (pauseStartTime (screen w)));
       [destruct (pauseStartTime (screen w)) |]; reflexivity).
  - assert (Hkeep :
      forall s1 r1, route s1 = route (screen w) ->
                    currentSegmentIndex s1 = currentSegmentIndex (screen w) ->
                    isTracking s1 = isTracking (screen w) ->
                    (isTracking (screen w) = true ->
                     segmentsWithin (currentSegmentIndex (screen w))
                                    (segments s1)) ->
      indexBounded
        (mkWorld
           (s1 |> set_pauseStartTime (Some now) |> set_isPaused true)
           (r1 |> set_isPausedRef true)
           (LocationService.stopRunTracking (service w))
           (pauseResumeSnapshot now (screen w) (storage w)))).
    { intros s1 r1 H1 H2 H3 H4. unfold indexBounded. simpl.
      rewrite H1, H2, H3. split_conj; assumption. }
    destruct (Js.truthyZ (currentSegmentStartTime (screen w)));
      [destruct (currentSegmentStartTime (screen w)) |];
      apply Hkeep; try reflexivity; try assumption.
    simpl. intros Ht. apply Forall_app. split; [apply Hsegs; assumption |].
    constructor; [simpl; lia | constructor].
Qed.

Lemma handleStartRun_indexBounded p now w :
  indexBounded w -> indexBounded (handleStartRun p now w).
Proof.
  intros Hinv. unfold handleStartRun.
  break_if; [assumption |]. break_let.
  assert (Hsaved : storageBounded
            (StorageService.saveCurrentTrackingData
               (TrackingData.mk (newRunId now) (Some now) [] true false
                  (Some 0) (Some 0) None (Some now) (Some 0) None)
               (storage w))).
  { apply save_bounded. split; [simpl; lia | constructor]. }
  break_if.
  - unfold indexBounded. simpl. split; [lia |].
    split; [constructor |]. split; [discriminate | apply clear_bounded].
  - unfold indexBounded. simpl. split; [lia |].
    split; [constructor |]. split; [intros _; constructor | exact Hsaved].
Qed.

Lemma handleGpsLost_indexBounded p now w :
  indexBounded w -> indexBounded (handleGpsLost p now w).
Proof.
  intros Hinv. unfold handleGpsLost. break_if.
  - apply (handlePauseResume_indexBounded p now) in Hinv. exact Hinv.
  - exact Hinv.
Qed.

Lemma checkGPSStatus_indexBounded p now current w :
  indexBounded w -> indexBounded (checkGPSStatus p now current w).
Proof.
  intros Hinv. unfold checkGPSStatus. cbv zeta.
  match goal with
  | |- indexBounded (withScreen ?s ?w1) =>
      assert (Hw1 : indexBounded w1);
      [| assert (Hs : route s = route (screen w1)
                      /\ segments s = segments (screen w1)
                      /\ currentSegmentIndex s
                         = currentSegmentIndex (screen w1)
                      /\ isTracking s = isTracking (screen w1))]
  end.
  - repeat break_if;
      [apply handleGpsLost_indexBounded; assumption
      | exact Hinv | exact Hinv].
  - repeat break_if; destruct current; split_conj; reflexivity.
  - destruct Hs as [Hs1 [Hs2 [Hs3 Hs4]]].
    destruct Hw1 as [Ha [Hb [Hc Hd]]].
    unfold indexBounded. simpl. rewrite Hs1, Hs2, Hs3, Hs4.
    split_conj; assumption.
Qed.

Lemma handleLocationUpdate_indexBounded location now w :
  refsSynced w -> indexBounded w ->
  indexBounded (handleLocationUpdate location now w).
Proof.
  intros Hsync [Hpos [Hroute [Hsegs Hst]]].
  assert (Href : currentSegmentIndexRef (refs w)
                 = currentSegmentIndex (screen w)).
  { unfold refsSynced in Hsync. rewrite Hsync. reflexivity. }
  unfold handleLocationUpdate. cbv zeta. rewrite Href.
  break_if; [unfold indexBounded; split_conj; assumption |].
  break_if; [unfold indexBounded; split_conj; assumption |].
  break_if; [unfold indexBounded; split_conj; assumption |].
  assert (Hnew : coordinatesWithin (currentSegmentIndex (screen w))
            (route (screen w)
             ++ [RouteCoordinate.mk
                   (UserLocation.latitude location)
                   (UserLocation.longitude location)
                   (UserLocation.altitude location)
                   (UserLocation.accuracy location)
                   (Some (Js.orZ (UserLocation.timestamp location) now))
                   (Some foreground)
                   (Some (currentSegmentIndex (screen w)))])).
  { apply Forall_app. split; [assumption |].
    constructor; [| constructor].
    unfold Metrics.coordKey. cbn [RouteCoordinate.segmentIndex].
    rewrite orZ_Some. lia. }
  unfold indexBounded. simpl. split; [assumption |].
  split; [assumption |]. split; [assumption |].
  break_if; [| assumption].
  destruct (currentRunIdRef (refs w)); [| assumption].
  apply save_bounded. unfold snapshotBounded.
  cbn [TrackingData.currentSegmentIndex TrackingData.route].
  rewrite orZ_Some. split; assumption.
Qed.

Lemma processedPoint_key now location :
  Metrics.coordKey (BackgroundTask.processedPoint now location) = 0.
Proof. reflexivity. Qed.

Lemma task_bounded input now bg st :
  storageBounded st ->
  storageBounded (snd (BackgroundTask.task input now bg st)).
Proof.
  intros Hst. unfold BackgroundTask.task.
  destruct input as [| | locations]; try exact Hst.
  destruct locations as [| l ls]; [exact Hst |].
  destruct (StorageService.getCurrentTrackingData st) as [d |] eqn:Hget;
    [| exact Hst].
  break_if; [exact Hst |].
  destruct (filter _ (l :: ls)) as [| f fs]; [exact Hst |].
  destruct (filter _ (map _ (f :: fs))) as [| n ns] eqn:Hnew; [exact Hst |].
  simpl.
  destruct (get_bounded _ _ Hst Hget) as [Hpos Hall].
  apply save_bounded. unfold snapshotBounded. simpl.
  split; [assumption |].
  apply Forall_app. split; [assumption |].
  rewrite <- Hnew. apply Forall_forall. intros c Hc.
  apply filter_In in Hc. destruct Hc as [Hc _].
  apply in_map_iff in Hc. destruct Hc as [location [<- _]].
  rewrite processedPoint_key. lia.
Qed.

Lemma loadExistingTrackingData_indexBounded now w :
  segments (screen w) = [] -> indexBounded w ->
  indexBounded (loadExistingTrackingData now w).
Proof.
  intros Hsegs Hinv. unfold loadExistingTrackingData.
  destruct (StorageService.getCurrentTrackingData (storage w)) as [d |]
    eqn:Hget; [| exact Hinv].
  break_if; [| exact Hinv].
  destruct Hinv as [_ [_ [_ Hst]]].
  destruct (get_bounded _ _ Hst Hget) as [Hpos Hall].
  unfold indexBounded. simpl. rewrite Hsegs.
  split; [assumption |]. split; [assumption |].
  split; [intros _; constructor | assumption].
Qed.

Lemma step_indexBounded w e :
  refsSynced w -> indexBounded w -> indexBounded (step w e).
Proof.
  intros Hsync Hinv. unfold step.
  assert (Hcommit : forall w1, indexBounded w1 -> indexBounded (commit w1))
    by (intros w1 H1; exact H1).
  apply Hcommit.
  destruct e; cbv beta iota delta [handle].
  - break_if; [| exact Hinv]. apply handleStartRun_indexBounded; assumption.
  - break_if; [| exact Hinv]. apply handlePauseResume_indexBounded.
    assumption.
  - break_if; [| exact Hinv]. apply handlePauseResume_indexBounded.
    assumption.
  - break_if; [| exact Hinv]. unfold handleStopAndReview.
    break_if; exact Hinv.
  - break_if; [| exact Hinv].
    unfold handleQuitRun, stopTrackingAndCleanup, indexBounded. simpl.
    split; [lia |]. split; [constructor |].
    split; [discriminate | apply clear_bounded].
  - unfold elapsedTimeTick. break_if; [| destruct w; exact Hinv].
    destruct (startTime (screen w)); destruct w; exact Hinv.
  - unfold periodicSave. cbv zeta. break_if; [| exact Hinv].
    destruct (currentRunId (screen w)); [| exact Hinv].
    destruct Hinv as [Ha [Hb [Hc Hd]]].
    unfold indexBounded. simpl. split_conj; try assumption.
    apply save_bounded. apply session_snapshot_bounded; assumption.
  - unfold deliverPosition. break_if; [| exact Hinv].
    break_let. destruct o as [userLocation |]; [| exact Hinv].
    apply handleLocationUpdate_indexBounded; [exact Hsync | exact Hinv].
  - unfold runBackgroundTask. cbv zeta. break_if; [| exact Hinv].
    destruct Hinv as [Ha [Hb [Hc Hd]]].
    pose proof (task_bounded input now
                  (LocationService.backgroundTask (service w))
                  (storage w) Hd) as Htask.
    break_let. unfold indexBounded. simpl in *.
    split_conj; assumption.
  - apply checkGPSStatus_indexBounded. assumption.
  - unfold relaunch. apply loadExistingTrackingData_indexBounded;
      [reflexivity |].
    destruct Hinv as [_ [_ [_ Hd]]]. unfold indexBounded. simpl.
    split; [lia |]. split; [constructor |]. split; [discriminate |].
    destruct (StorageService.backend (storage w)); [| exact Hd].
    intros d Hdd. discriminate.
  - destruct (pollGPSStatus_session p current w)
      as [s' [-> [Ht [_ [_ [_ [Hr [Hg [Hi _]]]]]]]]].
    destruct Hinv as [Ha [Hb [Hc Hd]]]. unfold indexBounded. simpl.
    rewrite Ht, Hr, Hg, Hi. split_conj; assumption.
  - destruct (gpsMonitorTick_session p w)
      as [s' [-> [Ht [_ [_ [_ [Hr [Hg [Hi _]]]]]]]]].
    destruct Hinv as [Ha [Hb [Hc Hd]]]. unfold indexBounded. simpl.
    rewrite Ht, Hr, Hg, Hi. split_conj; assumption.
  - destruct Hinv as [Ha [Hb [Hc Hd]]]. unfold reviewDone, indexBounded.
    simpl. split_conj; try assumption. apply clear_bounded.
Qed.

Lemma reachable_indexBounded backend trace :
  indexBounded (run backend trace).
Proof.
  assert (H : refsSynced (run backend trace)
              /\ indexBounded (run backend trace));
    [| destruct H; assumption].
  induction trace as [| e trace IH] using rev_ind.
  - split; [reflexivity |]. unfold indexBounded. simpl.
    split; [lia |]. split; [constructor |].
    split; [intros _; constructor | intros d Hd; discriminate].
  - rewrite run_snoc. destruct IH as [Hsync Hinv].
    split; [apply commit_synced | apply step_indexBounded; assumption].
Qed.

(* ------------------------------------------------------------------ *)
(** ** The derived segments of a reachable state *)

(** C8, as amended.  In every reachable session state, the segments that
    [coordinatesToSegments] derives from the recorded coordinates have
    strictly increasing indices between 0 and the current segment index,
    which are exactly the segment indices carried by at least one recorded
    coordinate; each derived segment holds, in route order, the coordinates
    that carry its index, and is not empty.  The indices are dense and
    0-based ([segments[i].index == i] for all [i]) exactly when every
    segment index from 0 up to a recorded one is carried by some recorded
    coordinate. *)
Theorem derived_segment_indices backend trace :
  let s := screen (run backend trace) in
  let segs := Metrics.coordinatesToSegments (route s) in
  StronglySorted Z.lt (Metrics.segmentIndices segs)
  /\ (forall k, In k (Metrics.segmentIndices segs) <->
                exists c, In c (route s) /\ Metrics.coordKey c = k)
  /\ Forall (fun k => 0 <= k <= currentSegmentIndex s)
            (Metrics.segmentIndices segs)
  /\ (forall seg, In seg segs ->
        RouteSegment.coordinates seg
        = filter (keyIs (RouteSegment.segmentIndex seg)) (route s)
        /\ RouteSegment.coordinates seg <> [])
  /\ (dense segs <-> gapFree (route s)).
Proof.
  cbv zeta. split; [apply coordinatesToSegments_strict |].
  split; [apply coordinatesToSegments_index_in |].
  split.
  - apply Forall_forall. intros k Hk.
    apply coordinatesToSegments_index_in in Hk.
    destruct Hk as [c [Hc <-]].
    destruct (reachable_indexBounded backend trace) as [_ [Hroute _]].
    unfold coordinatesWithin in Hroute. rewrite Forall_forall in Hroute.
    apply Hroute. assumption.
  - split; [apply coordinatesToSegments_segment |].
    split; [apply dense_gapFree | apply gapFree_dense].
Qed.

(** C8 fails as stated: after a resume followed by a pause with no
    accepted sample, the segments derived from the recorded coordinates
    have the indices 0 and 2. *)
Lemma resume_pause_without_sample_leaves_gap :
  validTrace gapTrace = true
  /\ Metrics.segmentIndices
       (Metrics.coordinatesToSegments
          (route (screen (run StorageService.Fallback gapTrace))))
     = [0; 2]
  /\ ~ dense (Metrics.coordinatesToSegments
                (route (screen (run StorageService.Fallback gapTrace)))).
Proof.
  split; [reflexivity |]. split; [vm_compute; reflexivity |].
  intros Hdense. specialize (Hdense 1%nat).
  vm_compute in Hdense. specialize (Hdense (le_n 2)). discriminate.
Qed.

(* ------------------------------------------------------------------ *)
(** ** Resume opens the next segment *)

(** Resume when the cached status check passes, and when it fails.  In
    every Paused session reached by the application, with
    [pauseStartTime = pauseStart], every segment index recorded so far, in
    the route and in the closed segments, is at most the current segment
    index; Resume at time [now] adds [now - pauseStart] to
    [totalPausedTime], clears [pauseStartTime], makes the session Tracking
    again and opens a new segment whose index is that current index plus
    one and whose start time is [now]; when the check of the cached GPS
    status fails the whole state, snapshot included, is left as it was. *)
Theorem resume_accounting backend trace p now pauseStart :
  validTrace trace = true ->
  sessionState (screen (run backend trace)) = Paused ->
  pauseStartTime (screen (run backend trace)) = Some pauseStart ->
  let w := run backend trace in
  let w' := handlePauseResume p now w in
  coordinatesWithin (currentSegmentIndex (screen w)) (route (screen w))
  /\ segmentsWithin (currentSegmentIndex (screen w)) (segments (screen w))
  /\ (gpsAvailable (gpsStatus (screen w)) = true ->
        totalPausedTime (screen w')
        = totalPausedTime (screen w) + (now - pauseStart)
        /\ pauseStartTime (screen w') = None
        /\ currentSegmentIndex (screen w')
           = currentSegmentIndex (screen w) + 1
        /\ currentSegmentStartTime (screen w') = Some now
        /\ sessionState (screen w') = Tracking)
  /\ (gpsAvailable (gpsStatus (screen w)) = false -> w' = w).
Proof.
  intros Hvalid Hstate Hstart w w'.
  apply sessionState_Paused in Hstate. destruct Hstate as [Htracking Hpaused].
  assert (Hpos : 0 < pauseStart).
  { destruct (reachable_pauseStamped backend trace Hvalid Hpaused)
      as [q [Hq Hqpos]].
    rewrite Hstart in Hq. inversion Hq. subst. assumption. }
  destruct (reachable_indexBounded backend trace) as [_ [Hroute [Hsegs _]]].
  split; [exact Hroute |]. split; [exact (Hsegs Htracking) |]. split.
  - intros Hgps.
    destruct (handlePauseResume_resume p now w pauseStart
                Hpaused Hstart Hpos Hgps)
      as [Htotal [Hclear [Hindex [Hsegstart [Hnp [Htr _]]]]]].
    repeat (split; [assumption |]).
    apply sessionState_Tracking. split; [| assumption].
    unfold w'. rewrite Htr. assumption.
  - intros Hgps. apply handlePauseResume_refused; assumption.
Qed.

Lemma resume_accounting_witness :
  (let w := run StorageService.Fallback pausedTrace in
   let w' := handlePauseResume platformOk 6000 w in
   totalPausedTime (screen w') = totalPausedTime (screen w) + (6000 - 4000)
   /\ pauseStartTime (screen w') = None
   /\ currentSegmentIndex (screen w') = currentSegmentIndex (screen w) + 1
   /\ currentSegmentStartTime (screen w') = Some 6000
   /\ sessionState (screen w') = Tracking)
  /\ (let w := run StorageService.Fallback pausedNoGpsTrace in
      handlePauseResume platformOk 6000 w = w).
Proof.
  split.
  - apply (resume_accounting StorageService.Fallback pausedTrace
             platformOk 6000 4000);
      reflexivity.
  - apply (resume_accounting StorageService.Fallback pausedNoGpsTrace
             platformOk 6000 4000);
      reflexivity.
Defined.

(** C6, the code at the failing input.  The run is paused at 4000.  The
    location services are then switched off, or the position watcher
    cannot be started, and Resume is pressed at 6000 while the cached GPS
    status still says available (the button is offered).  The
    location-availability check of [startRunTracking] fails: it returns
    false.  The state is not left unchanged: the session is Tracking again,
    the paused time has been added, a new segment is open and the snapshot
    says that the run is being tracked, while no watcher and no background
    task is running, so no fix can arrive.  [handleStartRun] on the same
    platform cleans its state up and stays Idle. *)
Theorem resume_with_failed_check_still_tracking :
  let w := run StorageService.Fallback pausedTrace in
  let w' := step w (PressResume platformOff 6000) in
  let w'' := step w (PressResume platformWatchFails 6000) in
  sessionState (screen w) = Paused
  /\ offered ResumeButton (screen w) = true
  /\ fst (LocationService.startRunTracking platformOff (service w)) = false
  /\ fst (LocationService.startRunTracking platformWatchFails (service w))
     = false
  /\ w' <> w
  /\ sessionState (screen w') = Tracking
  /\ totalPausedTime (screen w') = totalPausedTime (screen w) + 2000
  /\ pauseStartTime (screen w') = None
  /\ currentSegmentIndex (screen w') = currentSegmentIndex (screen w) + 1
  /\ currentSegmentStartTime (screen w') = Some 6000
  /\ LocationService.currentLocationSubscription (service w') = false
  /\ taskRuns (service w') = false
  /\ snapshotState (storage w') = Tracking
  /\ sessionState (screen w'') = Tracking
  /\ LocationService.currentLocationSubscription (service w'') = false
  /\ taskRuns (service w'') = false
  /\ sessionState
       (screen (step (run StorageService.Fallback idleTrace)
                     (PressStart platformOff 1000))) = Idle.
Proof.
  cbv zeta. split_conj; try (vm_compute; reflexivity).
  intros Hsame.
  assert (Hstate :
            sessionState
              (screen (step (run StorageService.Fallback pausedTrace)
                            (PressResume platformOff 6000)))
            = sessionState
                (screen (run StorageService.Fallback pausedTrace)))
    by (rewrite Hsame; reflexivity).
  vm_compute in Hstate. discriminate.
Qed.

(* ------------------------------------------------------------------ *)
(** ** Elapsed time *)

Lemma handlePauseResume_elapsedTime p now w :
  elapsedTime (screen (handlePauseResume p now w)) = elapsedTime (screen w).
Proof.
  unfold handlePauseResume. cbv zeta.
  destruct (isPaused (screen w)).
  - break_if; [reflexivity |]. break_let. simpl.
    break_if; [destruct (pauseStartTime (screen w)) |]; reflexivity.
  - break_if; [destruct (currentSegmentStartTime (screen w)) |]; reflexivity.
Qed.

Lemma handleLocationUpdate_elapsedTime location now w :
  elapsedTime (screen (handleLocationUpdate location now w))
  = elapsedTime (screen w).
Proof. unfold handleLocationUpdate. repeat break_if; reflexivity. Qed.

Lemma handleGpsLost_elapsedTime p now w :
  elapsedTime (screen (handleGpsLost p now w)) = elapsedTime (screen w).
Proof.
  unfold handleGpsLost. break_if; simpl; [| reflexivity].
  apply handlePauseResume_elapsedTime.
Qed.

Lemma checkGPSStatus_elapsedTime p now current w :
  elapsedTime (screen (checkGPSStatus p now current w))
  = elapsedTime (screen w).
Proof.
  unfold checkGPSStatus. cbv zeta.
  match goal with
  | |- elapsedTime (screen (withScreen ?s ?w1)) = _ =>
      assert (Hs : elapsedTime s = elapsedTime (screen w1));
      [| assert (Hw1 : elapsedTime (screen w1) = elapsedTime (screen w))]
  end.
  - repeat break_if; destruct current; reflexivity.
  - repeat break_if;
      [apply handleGpsLost_elapsedTime | reflexivity | reflexivity].
  - simpl. rewrite Hs. exact Hw1.
Qed.

Lemma offered_while_paused s :
  isTracking s = true -> isPaused s = true ->
  offered StartButton s = false /\ offered PauseButton s = false
  /\ offered StopButton s = false.
Proof.
  intros Ht Hp. unfold offered, TrackingControls. rewrite Ht, Hp.
  rewrite andb_false_r. simpl.
  repeat split; try reflexivity; apply orb_false_r.
Qed.

(** While the session stays Paused no event of the running application
    changes the elapsed time. *)
Lemma paused_step_elapsedTime w e :
  isRelaunch e = false ->
  sessionState (screen w) = Paused ->
  sessionState (screen (step w e)) = Paused ->
  elapsedTime (screen (step w e)) = elapsedTime (screen w).
Proof.
  intros Hnot Hbefore Hafter.
  apply sessionState_Paused in Hbefore. destruct Hbefore as [Ht Hp].
  destruct (offered_while_paused _ Ht Hp) as [Hstart [Hpause Hstop]].
  unfold step in *. rewrite screen_commit in *.
  destruct e; cbv beta iota delta [handle] in *.
  - rewrite Hstart. reflexivity.
  - rewrite Hpause. reflexivity.
  - break_if; [apply handlePauseResume_elapsedTime | reflexivity].
  - rewrite Hstop. reflexivity.
  - destruct (offered CancelButton (screen w)); [| reflexivity].
    apply sessionState_Paused in Hafter. simpl in Hafter.
    destruct Hafter. discriminate.
  - simpl. rewrite elapsedTimeTick_paused; trivial.
  - unfold periodicSave. cbv zeta. break_if; [| reflexivity].
    destruct (currentRunId (screen w)); reflexivity.
  - unfold deliverPosition. break_if; [| reflexivity].
    break_let. destruct o; [| reflexivity].
    rewrite handleLocationUpdate_elapsedTime. reflexivity.
  - unfold runBackgroundTask. cbv zeta. break_if; [| reflexivity].
    break_let. reflexivity.
  - apply checkGPSStatus_elapsedTime.
  - discriminate.
  - destruct (pollGPSStatus_session p current w)
      as [s' [-> [_ [_ [_ [_ [_ [_ [_ [He _]]]]]]]]]].
    exact He.
  - destruct (gpsMonitorTick_session p w)
      as [s' [-> [_ [_ [_ [_ [_ [_ [_ [He _]]]]]]]]]].
    exact He.
  - reflexivity.
Qed.

Lemma pausedThroughout_elapsedTime trace : forall w,
  sessionState (screen w) = Paused ->
  pausedThroughout w trace = true ->
  elapsedTime (screen (fold_left step trace w)) = elapsedTime (screen w).
Proof.
  induction trace as [| e trace IH]; intros w Hpaused Hall; simpl.
  - reflexivity.
  - simpl in Hall. apply andb_true_iff in Hall. destruct Hall as [Hall Hrest].
    apply andb_true_iff in Hall. destruct Hall as [Hnot Hafter].
    apply negb_true_iff in Hnot. apply isPausedSession_true in Hafter.
    rewrite (IH (step w e) Hafter Hrest).
    apply paused_step_elapsedTime; assumption.
Qed.

(** C7, as amended.  In every reachable state: while the session is
    Tracking, the tick recomputes the elapsed time as the whole seconds of
    [now - startTime - totalPausedTime], that is
    [floor ((now - startTime - totalPausedTime) / 1000)]; while the session
    is Paused the tick leaves the state as it is, and whatever happens while
    the process keeps running and the session stays Paused, the elapsed
    time keeps its value. *)
Theorem elapsed_time_accounting backend trace (now : Z) :
  validTrace trace = true ->
  let w := run backend trace in
  (sessionState (screen w) = Tracking ->
     exists start,
       startTime (screen w) = Some start
       /\ elapsedTime (elapsedTimeTick now (screen w))
          = (now - start - totalPausedTime (screen w)) / 1000)
  /\ (sessionState (screen w) = Paused ->
        elapsedTimeTick now (screen w) = screen w
        /\ forall between,
             pausedThroughout w between = true ->
             elapsedTime (screen (fold_left step between w))
             = elapsedTime (screen w)).
Proof.
  intros Hvalid w. split.
  - intros Hstate. apply sessionState_Tracking in Hstate.
    destruct Hstate as [Ht Hp].
    destruct (reachable_startStamped backend trace Hvalid) as [Ha [Hb _]].
    fold w in Ha, Hb. destruct (Ha Ht) as [start Hstart].
    exists start. split; [assumption |].
    unfold elapsedTimeTick. rewrite Ht, Hp, Hstart.
    rewrite (truthyZ_pos start (Hb start Hstart)). reflexivity.
  - intros Hstate. split.
    + apply elapsedTimeTick_paused.
      apply sessionState_Paused in Hstate. apply Hstate.
    + intros between Hall. apply pausedThroughout_elapsedTime; assumption.
Qed.

Lemma elapsed_time_accounting_witness :
  (exists start,
     startTime (screen (run StorageService.Fallback trackingTrace))
     = Some start
     /\ elapsedTime
          (elapsedTimeTick 3500
             (screen (run StorageService.Fallback trackingTrace)))
        = (3500 - start
           - totalPausedTime
               (screen (run StorageService.Fallback trackingTrace))) / 1000)
  /\ elapsedTimeTick 5000 (screen (run StorageService.Fallback pausedTrace))
     = screen (run StorageService.Fallback pausedTrace)
  /\ elapsedTime
       (screen (fold_left step waitingTrace
                  (run StorageService.Fallback pausedTrace)))
     = elapsedTime (screen (run StorageService.Fallback pausedTrace)).
Proof.
  split; [| split].
  - apply (elapsed_time_accounting StorageService.Fallback trackingTrace 3500);
      reflexivity.
  - apply (elapsed_time_accounting StorageService.Fallback pausedTrace 5000);
      reflexivity.
  - apply (elapsed_time_accounting StorageService.Fallback pausedTrace 5000);
      reflexivity.
Defined.

(** C7 fails as stated: a tick at 3500 of a session started at 1000 and
    never paused sets the elapsed time to 2, not to 3500 - 1000 - 0. *)
Lemma elapsed_is_whole_seconds :
  let s := screen (run StorageService.Fallback trackingTrace) in
  sessionState s = Tracking
  /\ startTime s = Some 1000
  /\ totalPausedTime s = 0
  /\ elapsedTime (elapsedTimeTick 3500 s) = 2
  /\ elapsedTime (elapsedTimeTick 3500 s) <> 3500 - 1000 - 0.
Proof.
  vm_compute. repeat split; try reflexivity. discriminate.
Qed.

(* ------------------------------------------------------------------ *)
(** ** Start: rollback, and the missing guard *)

Lemma startRunTracking_failed p sv sv1 :
  LocationService.startRunTracking p sv = (false, sv1) ->
  LocationService.currentLocationSubscription sv1 = false
  /\ BackgroundTask.registered (LocationService.backgroundTask sv1) = false.
Proof.
  unfold LocationService.startRunTracking. cbv zeta.
  destruct (BackgroundTask.startBackgroundLocationTracking p _)
    as [backgroundStarted bg3].
  destruct (LocationService.startLocationTracking p _)
    as [foregroundStarted sv4] eqn:Hfg.
  destruct foregroundStarted; simpl; intros Heq; inversion Heq; subst.
  split; [| reflexivity].
  revert Hfg. unfold LocationService.startLocationTracking.
  repeat break_if; intros Hfg; inversion Hfg; reflexivity.
Qed.

(** C9.  When the location watchers cannot be started during Start, the
    session just created is rolled back: every session field (flags, run
    id, start time, route, segments, segment index, elapsed and paused
    time, pause start) is back at its idle value, the sample handler sees
    no session once the effects have run, no watcher is left running, and
    the snapshot written by Start is deleted.  (The cell that held the
    start time of the segment being opened keeps the time of the attempt;
    the quit cleanup leaves it too, and the next Start overwrites it.) *)
Theorem failed_start_rolls_back (w : World) (p : Platform) (now : Z) :
  LocationService.hasRunTrackingPermissions p
  || LocationService.requestRunTrackingPermissions p = true ->
  fst (LocationService.startRunTracking
         (if LocationService.hasRunTrackingPermissions p
          then p else afterGrant p)
         (service w)) = false ->
  let w' := commit (handleStartRun p now w) in
  sessionCleared (screen w')
  /\ sessionState (screen w') = Idle
  /\ pipelineState (refs w') = Idle
  /\ StorageService.getCurrentTrackingData (storage w') = None
  /\ StorageService.currentTracking (storage w') = None
  /\ LocationService.currentLocationSubscription (service w') = false
  /\ BackgroundTask.registered
       (LocationService.backgroundTask (service w')) = false.
Proof.
  intros Hperm Hfail. cbv zeta. unfold handleStartRun.
  rewrite <- negb_orb, Hperm. simpl.
  match goal with
  | |- context [LocationService.startRunTracking ?q ?sv] =>
      destruct (LocationService.startRunTracking q sv) as [started sv1]
        eqn:Hstart
  end.
  simpl in Hfail. subst started. simpl.
  destruct (startRunTracking_failed _ _ _ Hstart) as [Hsub Hreg].
  unfold sessionCleared, StorageService.getCurrentTrackingData,
    StorageService.saveCurrentTrackingData.
  simpl. rewrite Hsub, Hreg.
  destruct (StorageService.backend (storage w)); repeat split; reflexivity.
Qed.

Lemma failed_start_rolls_back_witness :
  let w' := commit (handleStartRun platformWatchFails 1000
                      (run StorageService.Watermelon idleTrace)) in
  sessionCleared (screen w')
  /\ sessionState (screen w') = Idle
  /\ pipelineState (refs w') = Idle
  /\ StorageService.getCurrentTrackingData (storage w') = None
  /\ StorageService.currentTracking (storage w') = None
  /\ LocationService.currentLocationSubscription (service w') = false
  /\ BackgroundTask.registered
       (LocationService.backgroundTask (service w')) = false.
Proof.
  apply (failed_start_rolls_back (run StorageService.Watermelon idleTrace)
           platformWatchFails 1000);
    reflexivity.
Defined.

Lemma offered_start_idle s :
  isTracking s = true -> offered StartButton s = false.
Proof.
  intros Ht. unfold offered, TrackingControls. rewrite Ht.
  destruct (gpsStatus s) as [permission servicesEnabled canAskAgain].
  destruct (isPaused s), permission, servicesEnabled; reflexivity.
Qed.

Lemma sessionState_active s :
  sessionState s <> Idle <-> isTracking s = true.
Proof.
  unfold sessionState. destruct (isTracking s), (isPaused s);
    split; intros H; try reflexivity; try discriminate; congruence.
Qed.

(** C2, as amended.  While a session is active (Tracking or Paused) the
    controls do not offer Start, so pressing Start leaves the state as it
    is and cannot replace the session.  [handleStartRun] itself has no
    check of its own: run on any state with the permissions granted and the
    watchers starting, it installs a new session with a new run id, the
    new start time and an empty route. *)
Theorem start_not_offered_while_active (w : World) :
  sessionState (screen w) <> Idle ->
  offered StartButton (screen w) = false
  /\ (forall p now, handle (PressStart p now) w = w)
  /\ (forall p now,
        LocationService.hasRunTrackingPermissions p = true ->
        fst (LocationService.startRunTracking p (service w)) = true ->
        let s' := screen (handleStartRun p now w) in
        currentRunId s' = Some (newRunId now)
        /\ startTime s' = Some now
        /\ route s' = []
        /\ sessionState s' = Tracking).
Proof.
  intros Hactive. apply sessionState_active in Hactive.
  pose proof (offered_start_idle _ Hactive) as Hoff.
  split; [assumption |]. split.
  - intros p now. simpl. rewrite Hoff. reflexivity.
  - intros p now Hperm Hstart. cbv zeta. unfold handleStartRun.
    rewrite Hperm. simpl.
    destruct (LocationService.startRunTracking p (service w))
      as [started sv1].
    simpl in Hstart. subst started. simpl. repeat split; reflexivity.
Qed.

Lemma start_not_offered_while_active_witness :
  let w := run StorageService.Fallback pausedTrace in
  offered StartButton (screen w) = false
  /\ (forall p now, handle (PressStart p now) w = w)
  /\ (forall p now,
        LocationService.hasRunTrackingPermissions p = true ->
        fst (LocationService.startRunTracking p (service w)) = true ->
        let s' := screen (handleStartRun p now w) in
        currentRunId s' = Some (newRunId now)
        /\ startTime s' = Some now
        /\ route s' = []
        /\ sessionState s' = Tracking).
Proof.
  apply (start_not_offered_while_active
           (run StorageService.Fallback pausedTrace)).
  vm_compute. discriminate.
Defined.

(** C2 fails as stated: [handleStartRun], run on the session being tracked
    since 1000 with one recorded coordinate, does not fail; it replaces the
    session by a new one with a new run id and an empty route. *)
Lemma start_handler_replaces_active_session :
  let w := run StorageService.Fallback trackingTrace in
  let w' := handleStartRun platformOk 5000 w in
  sessionState (screen w) = Tracking
  /\ currentRunId (screen w) = Some "run_1000"%string
  /\ route (screen w) = [foregroundPoint 2000 0]
  /\ currentRunId (screen w') = Some "run_5000"%string
  /\ route (screen w') = []
  /\ startTime (screen w') = Some 5000
  /\ w' <> w.
Proof.
  vm_compute. repeat split; try reflexivity. intros Heq. discriminate.
Qed.

(* ------------------------------------------------------------------ *)
(** ** Pause *)

Lemma offered_pause_paused s :
  isPaused s = true -> offered PauseButton s = false.
Proof.
  intros Hp. unfold offered, TrackingControls. rewrite Hp.
  destruct (gpsStatus s) as [permission servicesEnabled canAskAgain].
  destruct (isTracking s), permission, servicesEnabled; reflexivity.
Qed.

Lemma handleGpsLost_idempotent p1 t1 p2 t2 w :
  handleGpsLost p2 t2 (handleGpsLost p1 t1 w) = handleGpsLost p1 t1 w.
Proof.
  unfold handleGpsLost.
  destruct (isTracking (screen w)) eqn:Ht;
    destruct (isPaused (screen w)) eqn:Hp; simpl;
    rewrite ?Ht, ?Hp; simpl; try reflexivity.
  unfold handlePauseResume. rewrite Hp.
  destruct (Js.truthyZ (currentSegmentStartTime (screen w)));
    [destruct (currentSegmentStartTime (screen w)) |];
    simpl; rewrite ?Ht; reflexivity.
Qed.

Lemma press_pause_twice w p1 t1 p2 t2 :
  step (step w (PressPause p1 t1)) (PressPause p2 t2)
  = step w (PressPause p1 t1).
Proof.
  unfold step at 1.
  assert (Hpaused : offered PauseButton
                      (screen (step w (PressPause p1 t1))) = false).
  { unfold step. rewrite screen_commit. cbv beta iota delta [handle].
    destruct (offered PauseButton (screen w)) eqn:Hoff; [| assumption].
    apply offered_pause_paused.
    destruct (isPaused (screen w)) eqn:Hp.
    - rewrite (offered_pause_paused _ Hp) in Hoff. discriminate.
    - unfold handlePauseResume. rewrite Hp.
      break_if; [destruct (currentSegmentStartTime (screen w)) |];
        reflexivity. }
  cbv beta iota delta [handle]. rewrite Hpaused.
  apply commit_idempotent. apply commit_synced.
Qed.

(** C3, as amended.  A pause request is idempotent through its guards: the
    controls offer Pause only while the session is tracking and not paused,
    so pressing Pause twice in a row yields the state that pressing it once
    yields, and pressing it on a paused session changes nothing; the
    GPS-loss pause runs only when [isTracking && !isPaused], so a second
    one leaves the state of the first.  [handlePauseResume] itself is a
    toggle: run on a paused session it is refused, the state unchanged,
    when location is unavailable, and resumes the session otherwise. *)
Theorem pause_idempotent_through_guards (w : World) :
  (forall p1 t1 p2 t2,
     step (step w (PressPause p1 t1)) (PressPause p2 t2)
     = step w (PressPause p1 t1))
  /\ (forall p1 t1 p2 t2,
        handleGpsLost p2 t2 (handleGpsLost p1 t1 w) = handleGpsLost p1 t1 w)
  /\ (isPaused (screen w) = true ->
        offered PauseButton (screen w) = false
        /\ (forall p now, handle (PressPause p now) w = w)
        /\ (forall p now,
              gpsAvailable (gpsStatus (screen w)) = false ->
              handlePauseResume p now w = w)
        /\ (forall p now,
              gpsAvailable (gpsStatus (screen w)) = true ->
              isPaused (screen (handlePauseResume p now w)) = false)).
Proof.
  split; [intros; apply press_pause_twice |].
  split; [intros; apply handleGpsLost_idempotent |].
  intros Hp. pose proof (offered_pause_paused _ Hp) as Hoff.
  split; [assumption |]. split; [| split].
  - intros p now. simpl. rewrite Hoff. reflexivity.
  - intros p now Hgps. apply handlePauseResume_refused; assumption.
  - intros p now Hgps. unfold gpsAvailable in Hgps.
    apply andb_true_iff in Hgps. destruct Hgps as [Hsvc Hperm].
    unfold handlePauseResume. rewrite Hp, Hsvc, Hperm. simpl.
    break_let. reflexivity.
Qed.

Lemma pause_idempotent_through_guards_witness :
  let w := run StorageService.Fallback pausedTrace in
  (forall p1 t1 p2 t2,
     step (step w (PressPause p1 t1)) (PressPause p2 t2)
     = step w (PressPause p1 t1))
  /\ (forall p1 t1 p2 t2,
        handleGpsLost p2 t2 (handleGpsLost p1 t1 w) = handleGpsLost p1 t1 w)
  /\ offered PauseButton (screen w) = false
  /\ (forall p now, handle (PressPause p now) w = w)
  /\ (forall p now,
        gpsAvailable (gpsStatus (screen w)) = false ->
        handlePauseResume p now w = w)
  /\ (forall p now,
        gpsAvailable (gpsStatus (screen w)) = true ->
        isPaused (screen (handlePauseResume p now w)) = false).
Proof.
  destruct (pause_idempotent_through_guards
              (run StorageService.Fallback pausedTrace)) as [H1 [H2 H3]].
  split; [exact H1 |]. split; [exact H2 |].
  apply H3. reflexivity.
Defined.

(** C3 fails as stated: the pause handler run a second time on the session
    it has just paused does not leave it as it is; it resumes it. *)
Lemma pause_handler_toggles :
  let w := run StorageService.Fallback trackingTrace in
  let once := commit (handlePauseResume platformOk 4000 w) in
  let twice := commit (handlePauseResume platformOk 5000 once) in
  sessionState (screen w) = Tracking
  /\ sessionState (screen once) = Paused
  /\ sessionState (screen twice) = Tracking
  /\ currentSegmentIndex (screen once) = 0
  /\ currentSegmentIndex (screen twice) = 1
  /\ twice <> once.
Proof.
  vm_compute. repeat split; try reflexivity. intros Heq. discriminate.
Qed.

(* ------------------------------------------------------------------ *)
(** ** The sample pipeline *)

(** The foreground handler looks at the flags, the time since the last
    accepted update and the accuracy, and at nothing else: a fix that
    passes them is appended whatever timestamps the route already holds. *)
Lemma handleLocationUpdate_accepts location now w :
  pipelineState (refs w) = Tracking ->
  isLocationUpdateInProgress (refs w) = false ->
  500 <= now - lastLocationTime (refs w) ->
  poorAccuracy (UserLocation.accuracy location) (50 # 1) = false ->
  route (screen (handleLocationUpdate location now w))
  = route (screen w)
    ++ [RouteCoordinate.mk
          (UserLocation.latitude location) (UserLocation.longitude location)
          (UserLocation.altitude location) (UserLocation.accuracy location)
          (Some (Js.orZ (UserLocation.timestamp location) now))
          (Some foreground) (Some (currentSegmentIndexRef (refs w)))].
Proof.
  unfold pipelineState, handleLocationUpdate. intros Hstate Hbusy Htime Hacc.
  rewrite Hbusy, Hacc.
  destruct (isTrackingRef (refs w)); [| discriminate].
  destruct (isPausedRef (refs w)); [discriminate |]. simpl.
  destruct (Z.ltb_spec (now - lastLocationTime (refs w)) 500); [lia |].
  reflexivity.
Qed.

Lemma truthyTimestamps_In ts route :
  ts <> 0 -> timestampRecorded ts route ->
  In ts (Metrics.truthyTimestamps route).
Proof.
  intros Hnz [c [Hc Hts]].
  induction route as [| c' route IH]; simpl; [contradiction |].
  destruct Hc as [-> | Hc].
  - rewrite Hts. destruct (Z.eqb_spec ts 0); [contradiction |].
    left. reflexivity.
  - destruct (RouteCoordinate.timestamp c') as [t' |]; [| auto].
    destruct (t' =? 0); [auto | right; auto].
Qed.

(** The background task does look: a batch made of one fix whose
    timestamp the snapshot route already holds leaves the snapshot as it
    is. *)
Lemma background_rejects_recorded_timestamp location now bg st d :
  StorageService.getCurrentTrackingData st = Some d ->
  LocationObject.timestamp location <> 0 ->
  timestampRecorded (LocationObject.timestamp location)
                    (TrackingData.route d) ->
  snd (BackgroundTask.task (BackgroundTask.TaskLocations [location]) now bg st)
  = st.
Proof.
  intros Hget Hnz Hrec. unfold BackgroundTask.task. rewrite Hget.
  destruct (negb (TrackingData.isTracking d) || TrackingData.isPaused d);
    [reflexivity |].
  assert (Hold : BackgroundTask.isNewPoint
                   (BackgroundTask.existingTimestamps (TrackingData.route d))
                   (BackgroundTask.processedPoint now location) = false).
  { unfold BackgroundTask.isNewPoint, BackgroundTask.hasTimestamp,
      BackgroundTask.processedPoint, BackgroundTask.processedTimestamp.
    cbv beta iota delta [RouteCoordinate.timestamp].
    assert (Hts : Js.orZ (Some (LocationObject.timestamp location)) now
                  = LocationObject.timestamp location).
    { simpl. destruct (LocationObject.timestamp location);
        [contradiction Hnz | |]; reflexivity. }
    rewrite Hts. apply negb_false_iff. apply existsb_exists.
    exists (LocationObject.timestamp location).
    split; [| apply Z.eqb_refl].
    apply truthyTimestamps_In; assumption. }
  simpl filter.
  destruct (BackgroundTask.keepLocation now
              (BackgroundTask.lastProcessedTimestamp bg) location);
    [| reflexivity].
  simpl map. simpl filter. rewrite Hold. reflexivity.
Qed.

(** C4, the code at the failing input.  The background task has recorded
    the fix of timestamp 2000 in the snapshot; the foreground source then
    delivers the same fix, and it is accepted: it is appended to the route
    and written to the snapshot, where it replaces the background
    sample. *)
Theorem foreground_accepts_recorded_timestamp :
  let w1 := run StorageService.Fallback backgroundFirstTrace in
  let w2 := step w1 (Position (fixAt 2000) 2200) in
  sessionState (screen w1) = Tracking
  /\ snapshotRoute (storage w1) = [backgroundPoint 2000]
  /\ timestampRecorded 2000 (snapshotRoute (storage w1))
  /\ route (screen w1) = []
  /\ route (screen w2) = [foregroundPoint 2000 0]
  /\ snapshotRoute (storage w2) = [foregroundPoint 2000 0].
Proof.
  vm_compute. repeat split; try reflexivity.
  eexists. split; [left; reflexivity | reflexivity].
Qed.

(** The same defect inside one list: a fix whose timestamp the in-memory
    route already holds is appended a second time. *)
Lemma foreground_duplicates_timestamp :
  let w := run StorageService.Fallback trackingTrace in
  let w' := handleLocationUpdate (userFixAt 2000) 3000 w in
  route (screen w) = [foregroundPoint 2000 0]
  /\ route (screen w') = [foregroundPoint 2000 0; foregroundPoint 2000 0].
Proof. vm_compute. split; reflexivity. Qed.


(** *** The background task is silent outside Tracking *)

















(* ------------------------------------------------------------------ *)
(** ** More on utils/metrics.ts *)

Lemma legsFrom_length prev rest :
  List.length (Metrics.legsFrom prev rest) = List.length rest.
Proof.
  revert prev. induction rest as [| c rest IH]; intros prev; simpl.
  - reflexivity.
  - rewrite IH. reflexivity.
Qed.

Lemma legsFrom_nth rest : forall prev i dl d,
  (i < List.length rest)%nat ->
  nth i (Metrics.legsFrom prev rest) dl
  = legBetween (nth i (prev :: rest) d) (nth i rest d).
Proof.
  induction rest as [| c rest IH]; intros prev i dl d Hi; simpl in Hi;
    [lia |].
  destruct i as [| i]; simpl.
  - reflexivity.
  - rewrite (IH c i dl d) by lia. reflexivity.
Qed.

(** X1.  [calculateTotalDistance] sums one leg per pair of consecutive
    coordinates: fewer than two coordinates give the empty sum, and for a
    list of [n] coordinates the sum has [n - 1] legs, the [i]-th from
    coordinate [i] to coordinate [i + 1]. *)
Theorem calculateTotalDistance_legs (coordinates : list RouteCoordinate)
  (d : RouteCoordinate) :
  List.length (Metrics.calculateTotalDistance coordinates)
  = pred (List.length coordinates)
  /\ ((List.length coordinates < 2)%nat ->
      Metrics.calculateTotalDistance coordinates = [])
  /\ forall i dl, (S i < List.length coordinates)%nat ->
       nth i (Metrics.calculateTotalDistance coordinates) dl
       = legBetween (nth i coordinates d) (nth (S i) coordinates d).
Proof.
  destruct coordinates as [| c rest]; simpl.
  - split; [reflexivity |]. split; [reflexivity |]. intros i dl Hi. lia.
  - split; [apply legsFrom_length |]. split.
    + intros Hlt. destruct rest; [reflexivity | simpl in Hlt; lia].
    + intros i dl Hi. rewrite (legsFrom_nth rest c i dl d) by lia.
      reflexivity.
Qed.

Lemma calculateTotalDistance_legs_witness :
  nth 0 (Metrics.calculateTotalDistance
           [foregroundPoint 1000 0; foregroundPoint 2000 0])
        ((0, 0), (0, 0))%Q
  = legBetween (foregroundPoint 1000 0) (foregroundPoint 2000 0).
Proof.
  apply (calculateTotalDistance_legs
           [foregroundPoint 1000 0; foregroundPoint 2000 0]
           (foregroundPoint 0 0)).
  simpl. lia.
Defined.

Lemma last_cons_indep (A : Type) (l : list A) : forall (x a b : A),
  last (x :: l) a = last (x :: l) b.
Proof.
  induction l as [| y l IH]; intros x a b; [reflexivity |].
  change (last (y :: l) a = last (y :: l) b). apply IH.
Qed.

Lemma legsFrom_snoc rest : forall prev c,
  Metrics.legsFrom prev (rest ++ [c])
  = Metrics.legsFrom prev rest ++ [legBetween (last rest prev) c].
Proof.
  induction rest as [| x rest IH]; intros prev c.
  - reflexivity.
  - simpl. rewrite IH. f_equal. f_equal. f_equal. f_equal.
    destruct rest as [| y rest]; [reflexivity |].
    change (last (x :: y :: rest) prev) with (last (y :: rest) prev).
    apply last_cons_indep.
Qed.

Lemma nth_error_last (A : Type) (l : list A) : forall (p : A),
  nth_error (p :: l) (List.length l) = Some (last l p).
Proof.
  induction l as [| x l IH]; intros p; [reflexivity |].
  simpl List.length. simpl nth_error. rewrite (IH x).
  destruct l as [| y l]; [reflexivity |].
  f_equal. change (last (x :: y :: l) p) with (last (y :: l) p).
  apply last_cons_indep.
Qed.

Lemma reduceStep_snoc coords done c todo :
  coords = done ++ c :: todo ->
  reduceStep coords
    (List.length done, Metrics.calculateTotalDistance done) c
  = (List.length (done ++ [c]),
     Metrics.calculateTotalDistance (done ++ [c])).
Proof.
  intros Heq. unfold reduceStep. rewrite length_app. simpl List.length.
  replace (List.length done + 1)%nat with (S (List.length done)) by lia.
  f_equal.
  destruct done as [| p done]; [reflexivity |].
  assert (Hnth : nth_error coords (List.length done) = Some (last done p)).
  { rewrite Heq. rewrite nth_error_app1 by (simpl; lia).
    apply nth_error_last. }
  simpl. rewrite Hnth, legsFrom_snoc. reflexivity.
Qed.

Lemma reduce_prefix coords : forall todo done,
  coords = done ++ todo ->
  fold_left (reduceStep coords) todo
    (List.length done, Metrics.calculateTotalDistance done)
  = (List.length coords, Metrics.calculateTotalDistance coords).
Proof.
  induction todo as [| c todo IH]; intros done Heq.
  - rewrite app_nil_r in Heq. subst. reflexivity.
  - cbn [fold_left]. rewrite (reduceStep_snoc coords done c todo Heq).
    apply IH. rewrite Heq, <- app_assoc. reflexivity.
Qed.

(** X2.  The distance that [handlePauseResume] computes in place for the
    segment it closes, by a [reduce] over the coordinates with a look-back
    at index [i - 1], is the distance [calculateTotalDistance] gives for
    the same coordinates; so the segment closed by Pause is the one
    [calculateSegmentMetrics] builds. *)
Theorem pause_distance_is_calculateTotalDistance
  (coords : list RouteCoordinate) (startTime endTime index : Z) :
  segmentDistanceReduce coords = Metrics.calculateTotalDistance coords
  /\ RouteSegment.mk index coords (segmentDistanceReduce coords)
       (Js.floorSeconds (endTime - startTime)) startTime endTime
     = calculateSegmentMetrics coords startTime endTime index.
Proof.
  assert (H : segmentDistanceReduce coords
              = Metrics.calculateTotalDistance coords).
  { unfold segmentDistanceReduce.
    change (O, @nil Leg)
      with (List.length (@nil RouteCoordinate),
            Metrics.calculateTotalDistance []).
    rewrite (reduce_prefix coords coords [] eq_refl). reflexivity. }
  split; [exact H |]. unfold calculateSegmentMetrics. rewrite H. reflexivity.
Qed.

Lemma mapPush_coordinates k c m :
  Permutation (flat_map snd (Metrics.mapPush k c m)) (c :: flat_map snd m).
Proof.
  induction m as [| [k0 cs] m IH]; simpl.
  - apply Permutation_refl.
  - destruct (k =? k0); simpl.
    + rewrite <- app_assoc. simpl.
      apply Permutation_sym, Permutation_middle.
    + eapply Permutation_trans.
      * apply Permutation_app_head. exact IH.
      * apply Permutation_sym, Permutation_middle.
Qed.

Lemma fold_mapPush_coordinates l : forall m,
  Permutation
    (flat_map snd
       (fold_left (fun m c => Metrics.mapPush (Metrics.coordKey c) c m) l m))
    (flat_map snd m ++ l).
Proof.
  induction l as [| c l IH]; intros m; simpl.
  - rewrite app_nil_r. apply Permutation_refl.
  - eapply Permutation_trans; [apply IH |].
    eapply Permutation_trans.
    + apply Permutation_app_tail. apply mapPush_coordinates.
    + simpl. apply Permutation_middle.
Qed.

Lemma flat_map_coordinates_makeSegment m :
  flat_map RouteSegment.coordinates (map Metrics.makeSegment m)
  = flat_map snd m.
Proof.
  induction m as [| entry m IH]; simpl; [reflexivity |].
  rewrite makeSegment_coordinates, IH. reflexivity.
Qed.

Lemma coordinatesToSegments_partition coordinates :
  Permutation
    (segmentCoordinates (Metrics.coordinatesToSegments coordinates))
    coordinates.
Proof.
  unfold segmentCoordinates, Metrics.coordinatesToSegments.
  eapply Permutation_trans.
  - apply Permutation_flat_map. apply sortSegments_perm.
  - rewrite flat_map_coordinates_makeSegment.
    apply (fold_mapPush_coordinates coordinates []).
Qed.

Lemma segment_count_le (segs : list RouteSegment) :
  (forall seg, In seg segs -> RouteSegment.coordinates seg <> []) ->
  (List.length segs <= List.length (segmentCoordinates segs))%nat.
Proof.
  unfold segmentCoordinates.
  induction segs as [| seg segs IH]; intros Hne; simpl; [lia |].
  rewrite length_app.
  assert (H1 : (1 <= List.length (RouteSegment.coordinates seg))%nat).
  { destruct (RouteSegment.coordinates seg) eqn:Hc.
    - exfalso. apply (Hne seg); [left; reflexivity | assumption].
    - simpl. lia. }
  assert (H2 : (List.length segs
                <= List.length
                     (flat_map RouteSegment.coordinates segs))%nat).
  { apply IH. intros s Hs. apply Hne. right. assumption. }
  lia.
Qed.

(** X3.  [coordinatesToSegments] neither loses nor invents coordinates:
    the coordinates of the derived segments, taken together, are the given
    coordinates, each exactly once; there are at most as many segments as
    coordinates, and there is no segment exactly when there is no
    coordinate. *)
Theorem coordinatesToSegments_partitions (coordinates : list RouteCoordinate) :
  let segs := Metrics.coordinatesToSegments coordinates in
  Permutation (segmentCoordinates segs) coordinates
  /\ List.length (segmentCoordinates segs) = List.length coordinates
  /\ (List.length segs <= List.length coordinates)%nat
  /\ (segs = [] <-> coordinates = []).
Proof.
  cbv zeta.
  pose proof (coordinatesToSegments_partition coordinates) as Hperm.
  pose proof (Permutation_length Hperm) as Hlen.
  split; [exact Hperm |]. split; [exact Hlen |]. split.
  - rewrite <- Hlen. apply segment_count_le.
    intros seg Hseg. apply (coordinatesToSegments_segment coordinates seg).
    assumption.
  - split.
    + intros Hnil. rewrite Hnil in Hperm. simpl in Hperm.
      apply Permutation_nil in Hperm. assumption.
    + intros ->. reflexivity.
Qed.

Lemma legs_from_segments_acc segs : forall acc,
  fold_left
    (fun total seg =>
       total ++ Metrics.calculateTotalDistance (RouteSegment.coordinates seg))
    segs acc
  = acc ++ flat_map
             (fun seg =>
                Metrics.calculateTotalDistance (RouteSegment.coordinates seg))
             segs.
Proof.
  induction segs as [| seg segs IH]; intros acc; simpl.
  - rewrite app_nil_r. reflexivity.
  - rewrite IH, <- app_assoc. reflexivity.
Qed.

Lemma legs_plus_segments segs :
  (forall seg, In seg segs -> RouteSegment.coordinates seg <> []) ->
  (List.length (Metrics.calculateTotalDistanceFromSegments segs)
   + List.length segs
   = List.length (segmentCoordinates segs))%nat.
Proof.
  unfold Metrics.calculateTotalDistanceFromSegments, segmentCoordinates.
  rewrite legs_from_segments_acc. simpl.
  induction segs as [| seg segs IH]; intros Hne; simpl; [reflexivity |].
  rewrite !length_app.
  destruct (calculateTotalDistance_legs (RouteSegment.coordinates seg)
              (foregroundPoint 0 0)) as [Hlegs _].
  rewrite Hlegs.
  assert (H1 : (1 <= List.length (RouteSegment.coordinates seg))%nat).
  { destruct (RouteSegment.coordinates seg) eqn:Hc.
    - exfalso. apply (Hne seg); [left; reflexivity | assumption].
    - simpl. lia. }
  assert (H2 := IH (fun s Hs => Hne s (or_intror Hs))).
  lia.
Qed.

(** X4.  The distance shown during a run,
    [calculateTotalDistanceFromSegments (coordinatesToSegments route)],
    sums one leg per recorded coordinate except the first coordinate of
    each segment: no leg joins the last sample before a pause to the first
    sample after the resume.  A route whose coordinates all carry one
    segment index gives the distance of the whole route. *)
Theorem distance_skips_segment_joins (route : list RouteCoordinate) :
  let segs := Metrics.coordinatesToSegments route in
  (List.length (Metrics.calculateTotalDistanceFromSegments segs)
   + List.length segs = List.length route)%nat
  /\ ((forall c c', In c route -> In c' route ->
                    Metrics.coordKey c = Metrics.coordKey c') ->
      Metrics.calculateTotalDistanceFromSegments segs
      = Metrics.calculateTotalDistance route).
Proof.
  cbv zeta. split.
  - rewrite legs_plus_segments.
    + apply Permutation_length, coordinatesToSegments_partition.
    + intros seg Hseg. apply (coordinatesToSegments_segment route seg).
      assumption.
  - intros Hsame. destruct route as [| c0 route]; [reflexivity |].
    assert (Hall : filter (keyIs (Metrics.coordKey c0)) (c0 :: route)
                   = c0 :: route).
    { apply forallb_filter_id. apply forallb_forall. intros c Hc.
      unfold keyIs. apply Z.eqb_eq. apply Hsame; [assumption |].
      left. reflexivity. }
    assert (Hmap : Metrics.buildSegmentMap (c0 :: route)
                   = [(Metrics.coordKey c0, c0 :: route)]).
    { pose proof (buildSegmentMap_NoDup (c0 :: route)) as Hnd.
      destruct (Metrics.buildSegmentMap (c0 :: route)) as [| [k cs] m]
        eqn:Hm.
      - pose proof (buildSegmentMap_key (c0 :: route) (Metrics.coordKey c0))
          as [_ Hin].
        rewrite Hm in Hin. exfalso. apply Hin.
        exists c0. split; [left; reflexivity | reflexivity].
      - assert (Hk : forall k' cs', In (k', cs') ((k, cs) :: m) ->
                       k' = Metrics.coordKey c0 /\ cs' = c0 :: route).
        { intros k' cs' Hin. rewrite <- Hm in Hin.
          apply buildSegmentMap_entry in Hin. destruct Hin as [Hcs Hne].
          assert (Hk' : k' = Metrics.coordKey c0).
          { destruct (filter (keyIs k') (c0 :: route)) as [| x xs] eqn:Hf;
              [congruence |].
            assert (Hx : In x (filter (keyIs k') (c0 :: route)))
              by (rewrite Hf; left; reflexivity).
            apply filter_In in Hx. destruct Hx as [Hx Hkx].
            unfold keyIs in Hkx. apply Z.eqb_eq in Hkx. rewrite <- Hkx.
            apply Hsame; [assumption | left; reflexivity]. }
          split; [assumption |]. rewrite Hcs, Hk'. assumption. }
        destruct (Hk k cs (or_introl eq_refl)) as [-> ->].
        destruct m as [| [k2 cs2] m]; [reflexivity |].
        destruct (Hk k2 cs2 (or_intror (or_introl eq_refl))) as [-> _].
        simpl in Hnd. inversion Hnd as [| ? ? Hnotin _]; subst.
        exfalso. apply Hnotin. left. reflexivity. }
    unfold Metrics.coordinatesToSegments. rewrite Hmap.
    change (Metrics.sortSegments
              (map Metrics.makeSegment [(Metrics.coordKey c0, c0 :: route)]))
      with [Metrics.makeSegment (Metrics.coordKey c0, c0 :: route)].
    unfold Metrics.calculateTotalDistanceFromSegments.
    cbn [fold_left app]. rewrite makeSegment_coordinates. reflexivity.
Qed.

Lemma distance_skips_segment_joins_witness :
  Metrics.calculateTotalDistanceFromSegments
    (Metrics.coordinatesToSegments
       [foregroundPoint 1000 0; foregroundPoint 2000 0])
  = Metrics.calculateTotalDistance
      [foregroundPoint 1000 0; foregroundPoint 2000 0].
Proof.
  apply (distance_skips_segment_joins
           [foregroundPoint 1000 0; foregroundPoint 2000 0]).
  intros c c' [<- | [<- | []]] [<- | [<- | []]]; reflexivity.
Defined.

Lemma fold_min_spec xs : forall x,
  (fold_left Z.min xs x <= x
   /\ Forall (fun t => fold_left Z.min xs x <= t) xs)
  /\ In (fold_left Z.min xs x) (x :: xs).
Proof.
  induction xs as [| y xs IH]; intros x; simpl.
  - split; [split; [lia | constructor] | left; reflexivity].
  - destruct (IH (Z.min x y)) as [[Hle Hall] Hin].
    split; [split; [lia | constructor; [lia | assumption]] |].
    destruct Hin as [Heq | Hin]; [| right; right; assumption].
    destruct (Z.min_spec x y) as [[_ Hm] | [_ Hm]].
    + left. rewrite <- Heq. symmetry. exact Hm.
    + right. left. rewrite <- Heq. symmetry. exact Hm.
Qed.

Lemma fold_max_spec xs : forall x,
  (x <= fold_left Z.max xs x
   /\ Forall (fun t => t <= fold_left Z.max xs x) xs)
  /\ In (fold_left Z.max xs x) (x :: xs).
Proof.
  induction xs as [| y xs IH]; intros x; simpl.
  - split; [split; [lia | constructor] | left; reflexivity].
  - destruct (IH (Z.max x y)) as [[Hle Hall] Hin].
    split; [split; [lia | constructor; [lia | assumption]] |].
    destruct Hin as [Heq | Hin]; [| right; right; assumption].
    destruct (Z.max_spec x y) as [[_ Hm] | [_ Hm]].
    + right. left. rewrite <- Heq. symmetry. exact Hm.
    + left. rewrite <- Heq. symmetry. exact Hm.
Qed.

Lemma truthyTimestamps_spec cs t :
  In t (Metrics.truthyTimestamps cs) <->
  t <> 0 /\ timestampRecorded t cs.
Proof.
  unfold timestampRecorded.
  induction cs as [| c cs IH]; simpl.
  - split; [contradiction | intros [_ [c [[] _]]]].
  - destruct (RouteCoordinate.timestamp c) as [ts |] eqn:Hts.
    + destruct (Z.eqb_spec ts 0) as [-> | Hnz].
      * rewrite IH. split.
        -- intros [Hnz [c' [Hc' Ht]]]. split; [assumption |].
           exists c'. split; [right; assumption | assumption].
        -- intros [Hnz [c' [[<- | Hc'] Ht]]].
           ++ congruence.
           ++ split; [assumption |]. exists c'. split; assumption.
      * simpl. rewrite IH. split.
        -- intros [<- | [Hnz' [c' [Hc' Ht]]]].
           ++ split; [assumption |]. exists c.
              split; [left; reflexivity | assumption].
           ++ split; [assumption |]. exists c'.
              split; [right; assumption | assumption].
        -- intros [Hnz' [c' [[<- | Hc'] Ht]]].
           ++ left. congruence.
           ++ right. split; [assumption |]. exists c'. split; assumption.
    + rewrite IH. split.
      * intros [Hnz [c' [Hc' Ht]]]. split; [assumption |].
        exists c'. split; [right; assumption | assumption].
      * intros [Hnz [c' [[<- | Hc'] Ht]]].
        -- congruence.
        -- split; [assumption |]. exists c'. split; assumption.
Qed.

Lemma makeSegment_timing k cs :
  let seg := Metrics.makeSegment (k, cs) in
  RouteSegment.duration seg
  = (RouteSegment.endTime seg - RouteSegment.startTime seg) / 1000
  /\ RouteSegment.startTime seg <= RouteSegment.endTime seg
  /\ 0 <= RouteSegment.duration seg
  /\ (forall t, t <> 0 -> timestampRecorded t cs ->
        RouteSegment.startTime seg <= t <= RouteSegment.endTime seg)
  /\ ((exists t, t <> 0 /\ timestampRecorded t cs) ->
        RouteSegment.startTime seg <> 0
        /\ timestampRecorded (RouteSegment.startTime seg) cs
        /\ RouteSegment.endTime seg <> 0
        /\ timestampRecorded (RouteSegment.endTime seg) cs)
  /\ ((forall t, t <> 0 -> ~ timestampRecorded t cs) ->
        RouteSegment.startTime seg = 0 /\ RouteSegment.endTime seg = 0
        /\ RouteSegment.duration seg = 0).
Proof.
  cbv zeta. unfold Metrics.makeSegment.
  destruct (Metrics.truthyTimestamps cs) as [| ts tss] eqn:Hts.
  - simpl. split; [reflexivity |]. split; [lia |]. split; [lia |].
    split; [| split].
    + intros t Hnz Hrec.
      assert (Hin : In t (Metrics.truthyTimestamps cs))
        by (apply truthyTimestamps_spec; split; assumption).
      rewrite Hts in Hin. contradiction.
    + intros [t [Hnz Hrec]].
      assert (Hin : In t (Metrics.truthyTimestamps cs))
        by (apply truthyTimestamps_spec; split; assumption).
      rewrite Hts in Hin. contradiction.
    + intros _. repeat split; reflexivity.
  - cbv zeta. unfold Metrics.minOf, Metrics.maxOf, Js.floorSeconds.
    cbn [RouteSegment.duration RouteSegment.startTime RouteSegment.endTime].
    destruct (fold_min_spec tss ts) as [[Hmin Hminall] Hminin].
    destruct (fold_max_spec tss ts) as [[Hmax Hmaxall] Hmaxin].
    rewrite Forall_forall in Hminall, Hmaxall.
    split; [reflexivity |]. split; [lia |].
    split; [apply Z.div_pos; lia |].
    split; [| split].
    + intros t Hnz Hrec.
      assert (Hin : In t (Metrics.truthyTimestamps cs))
        by (apply truthyTimestamps_spec; split; assumption).
      rewrite Hts in Hin. destruct Hin as [<- | Hin].
      * lia.
      * specialize (Hminall t Hin). specialize (Hmaxall t Hin). lia.
    + intros _. rewrite <- Hts in Hminin, Hmaxin.
      apply truthyTimestamps_spec in Hminin.
      apply truthyTimestamps_spec in Hmaxin.
      destruct Hminin as [H1 H2]. destruct Hmaxin as [H3 H4].
      repeat split; assumption.
    + intros Hnone. exfalso. apply (Hnone ts).
      * assert (Hin : In ts (Metrics.truthyTimestamps cs))
          by (rewrite Hts; left; reflexivity).
        apply truthyTimestamps_spec in Hin. apply Hin.
      * assert (Hin : In ts (Metrics.truthyTimestamps cs))
          by (rewrite Hts; left; reflexivity).
        apply truthyTimestamps_spec in Hin. apply Hin.
Qed.

(** X5.  The times of a derived segment come from its samples, not from
    the pause and resume instants: [startTime] and [endTime] are the
    smallest and the largest non-zero timestamp among the segment's
    coordinates, [duration] is the whole seconds between them, never
    negative; a segment none of whose coordinates has a non-zero timestamp
    has all three at 0. *)
Theorem derived_segment_times (route : list RouteCoordinate)
  (seg : RouteSegment) :
  In seg (Metrics.coordinatesToSegments route) ->
  RouteSegment.duration seg
  = (RouteSegment.endTime seg - RouteSegment.startTime seg) / 1000
  /\ RouteSegment.startTime seg <= RouteSegment.endTime seg
  /\ 0 <= RouteSegment.duration seg
  /\ (forall t, t <> 0 ->
        timestampRecorded t (RouteSegment.coordinates seg) ->
        RouteSegment.startTime seg <= t <= RouteSegment.endTime seg)
  /\ ((exists t, t <> 0
                 /\ timestampRecorded t (RouteSegment.coordinates seg)) ->
        RouteSegment.startTime seg <> 0
        /\ timestampRecorded (RouteSegment.startTime seg)
                             (RouteSegment.coordinates seg)
        /\ RouteSegment.endTime seg <> 0
        /\ timestampRecorded (RouteSegment.endTime seg)
                             (RouteSegment.coordinates seg))
  /\ ((forall t, t <> 0 ->
         ~ timestampRecorded t (RouteSegment.coordinates seg)) ->
        RouteSegment.startTime seg = 0 /\ RouteSegment.endTime seg = 0
        /\ RouteSegment.duration seg = 0).
Proof.
  intros Hin.
  apply (Permutation_in _ (sortSegments_perm _)) in Hin.
  apply in_map_iff in Hin. destruct Hin as [[k cs] [<- _]].
  rewrite makeSegment_coordinates. simpl snd.
  apply makeSegment_timing.
Qed.

Lemma derived_segment_times_witness :
  let seg :=
    Metrics.makeSegment (0, [foregroundPoint 3000 0; foregroundPoint 1000 0])
  in
  RouteSegment.duration seg
  = (RouteSegment.endTime seg - RouteSegment.startTime seg) / 1000
  /\ RouteSegment.startTime seg <= RouteSegment.endTime seg
  /\ 0 <= RouteSegment.duration seg.
Proof.
  cbv zeta.
  destruct (derived_segment_times
              [foregroundPoint 3000 0; foregroundPoint 1000 0]
              (Metrics.makeSegment
                 (0, [foregroundPoint 3000 0; foregroundPoint 1000 0])))
    as [H1 [H2 [H3 _]]].
  - left. reflexivity.
  - repeat split; assumption.
Defined.

(* ------------------------------------------------------------------ *)
(** ** The snapshot slot of the storage service *)

Lemma orZ_orZ o d : Js.orZ (Some (Js.orZ o d)) d = Js.orZ o d.
Proof.
  destruct o as [v |]; simpl.
  - destruct v; simpl; try reflexivity. destruct d; reflexivity.
  - destruct d; reflexivity.
Qed.

Lemma orOptZ_idem a b : Js.orOptZ (Js.orOptZ a b) b = Js.orOptZ a b.
Proof.
  unfold Js.orOptZ. destruct (Js.truthyZ a) eqn:Ha.
  - rewrite Ha. reflexivity.
  - destruct (Js.truthyZ b); reflexivity.
Qed.

Lemma writeRouteRow_idem c :
  StorageService.writeRouteRow (StorageService.writeRouteRow c)
  = StorageService.writeRouteRow c.
Proof.
  unfold StorageService.writeRouteRow.
  cbn [RouteCoordinate.latitude RouteCoordinate.longitude
       RouteCoordinate.altitude RouteCoordinate.accuracy
       RouteCoordinate.timestamp RouteCoordinate.source
       RouteCoordinate.segmentIndex].
  rewrite orZ_Some. reflexivity.
Qed.

Lemma maxSegmentIndex_rows route :
  StorageService.maxSegmentIndex (map StorageService.writeRouteRow route)
  = StorageService.maxSegmentIndex route.
Proof.
  unfold StorageService.maxSegmentIndex. rewrite map_map.
  f_equal. apply map_ext. intros c. apply coordKey_writeRouteRow.
Qed.

Lemma readWrite_idem d :
  StorageService.readRecord
    (StorageService.writeRecord
       (StorageService.readRecord (StorageService.writeRecord d)))
  = StorageService.readRecord (StorageService.writeRecord d).
Proof.
  unfold StorageService.readRecord, StorageService.writeRecord.
  cbn [TrackingData.id TrackingData.startTime TrackingData.route
       TrackingData.isTracking TrackingData.isPaused
       TrackingData.currentSegmentIndex TrackingData.totalPausedTime
       TrackingData.pauseStartTime TrackingData.currentSegmentStartTime
       TrackingData.elapsedTime].
  rewrite map_map.
  rewrite (map_ext _ _ writeRouteRow_idem).
  rewrite !orZ_Some, !orOptZ_idem.
  f_equal.
  - f_equal. apply orZ_orZ.
  - destruct (Js.orZ (TrackingData.pauseStartTime d) 0 >? 0) eqn:Hp.
    + rewrite orZ_Some, Hp. reflexivity.
    + reflexivity.
Qed.

(** X6.  Saving a snapshot and reading it back.  With the in-memory
    fallback the snapshot read is the snapshot saved.  With the database
    the snapshot read keeps the run id, the start time, the two flags and,
    coordinate by coordinate, the position, the timestamp, the source and
    the effective segment index; missing counters are read back as 0 and a
    missing segment start time as the start time; and what has been read
    survives a further save and read unchanged. *)
Theorem snapshot_round_trip (d : TrackingData) (st : StorageService.t) :
  let st' := StorageService.saveCurrentTrackingData d st in
  (StorageService.backend st = StorageService.Fallback ->
     StorageService.getCurrentTrackingData st' = Some d)
  /\ (StorageService.backend st = StorageService.Watermelon ->
      exists d',
        StorageService.getCurrentTrackingData st' = Some d'
        /\ TrackingData.id d' = TrackingData.id d
        /\ TrackingData.startTime d' = TrackingData.startTime d
        /\ TrackingData.isTracking d' = TrackingData.isTracking d
        /\ TrackingData.isPaused d' = TrackingData.isPaused d
        /\ TrackingData.route d'
           = map StorageService.writeRouteRow (TrackingData.route d)
        /\ map Metrics.coordKey (TrackingData.route d')
           = map Metrics.coordKey (TrackingData.route d)
        /\ map RouteCoordinate.timestamp (TrackingData.route d')
           = map RouteCoordinate.timestamp (TrackingData.route d)
        /\ TrackingData.totalPausedTime d'
           = Some (Js.orZ (TrackingData.totalPausedTime d) 0)
        /\ TrackingData.elapsedTime d'
           = Some (Js.orZ (TrackingData.elapsedTime d) 0)
        /\ TrackingData.currentSegmentStartTime d'
           = Js.orOptZ (TrackingData.currentSegmentStartTime d)
                       (TrackingData.startTime d)
        /\ StorageService.getCurrentTrackingData
             (StorageService.saveCurrentTrackingData d' st')
           = Some d').
Proof.
  cbv zeta. unfold StorageService.saveCurrentTrackingData,
    StorageService.getCurrentTrackingData.
  split; intros Hb; rewrite Hb;
    cbn [StorageService.backend StorageService.currentTracking option_map];
    [reflexivity |].
  exists (StorageService.readRecord (StorageService.writeRecord d)).
  split; [reflexivity |].
  cbn [StorageService.readRecord StorageService.writeRecord
       TrackingData.id TrackingData.startTime TrackingData.route
       TrackingData.isTracking TrackingData.isPaused
       TrackingData.currentSegmentIndex TrackingData.totalPausedTime
       TrackingData.pauseStartTime TrackingData.currentSegmentStartTime
       TrackingData.elapsedTime].
  repeat (split; [reflexivity |]).
  split; [rewrite map_map; apply map_ext; intros c;
          apply coordKey_writeRouteRow |].
  split; [rewrite map_map; reflexivity |].
  split; [rewrite orZ_Some; reflexivity |].
  split; [rewrite orZ_Some; reflexivity |].
  split; [apply orOptZ_idem |].
  f_equal. apply readWrite_idem.
Qed.

Lemma snapshot_round_trip_witness :
  StorageService.getCurrentTrackingData
    (StorageService.saveCurrentTrackingData persistedPaused
       (StorageService.mk StorageService.Fallback None))
  = Some persistedPaused
  /\ exists d',
       StorageService.getCurrentTrackingData
         (StorageService.saveCurrentTrackingData persistedPaused
            (StorageService.mk StorageService.Watermelon None))
       = Some d'
       /\ TrackingData.id d' = TrackingData.id persistedPaused.
Proof.
  split.
  - apply (snapshot_round_trip persistedPaused
             (StorageService.mk StorageService.Fallback None)).
    reflexivity.
  - destruct (snapshot_round_trip persistedPaused
                (StorageService.mk StorageService.Watermelon None))
      as [_ Hdb].
    destruct (Hdb eq_refl) as [d' [Hget [Hid _]]].
    exists d'. split; assumption.
Defined.

(* ------------------------------------------------------------------ *)
(** ** The background task *)











Lemma poorAccuracy_orUndefinedQ accuracy limit :
  poorAccuracy (Js.orUndefinedQ accuracy) limit = poorAccuracy accuracy limit.
Proof.
  destruct accuracy as [a |]; [| reflexivity].
  unfold Js.orUndefinedQ, Js.truthyQ, poorAccuracy.
  destruct (Js.isZeroQ a) eqn:Hz; simpl; [reflexivity |].
  rewrite Hz. reflexivity.
Qed.

Lemma keepLocation_true now lastProcessed location :
  BackgroundTask.keepLocation now lastProcessed location = true ->
  poorAccuracy (LocationObject.accuracy location) (25 # 1) = false
  /\ invalidCoordinates (LocationObject.latitude location)
                        (LocationObject.longitude location) = false
  /\ (LocationObject.timestamp location <> 0 ->
      now - LocationObject.timestamp location <= 15000
      /\ lastProcessed < LocationObject.timestamp location).
Proof.
  unfold BackgroundTask.keepLocation. cbv zeta. intros H.
  destruct (poorAccuracy _ _); [discriminate |].
  destruct (negb (LocationObject.timestamp location =? 0)
            && (now - LocationObject.timestamp location >? 15000)) eqn:Hold;
    [discriminate |].
  destruct (negb (LocationObject.timestamp location =? 0)
            && (LocationObject.timestamp location <=? lastProcessed))
    eqn:Hdup; [discriminate |].
  destruct (invalidCoordinates _ _); [discriminate |].
  split; [reflexivity |]. split; [reflexivity |].
  intros Hnz. apply Z.eqb_neq in Hnz. rewrite Hnz in Hold, Hdup.
  simpl in Hold, Hdup. split.
  - destruct (Z.gtb_spec (now - LocationObject.timestamp location) 15000);
      [discriminate | lia].
  - apply Z.leb_gt. exact Hdup.
Qed.

Lemma newPoints_spec now lastProcessed existing locations c :
  In c (filter (BackgroundTask.isNewPoint
                  (BackgroundTask.existingTimestamps existing))
          (map (BackgroundTask.processedPoint now)
             (filter (BackgroundTask.keepLocation now lastProcessed)
                locations))) ->
  backgroundPointOf now lastProcessed existing locations c.
Proof.
  intros Hin. apply filter_In in Hin. destruct Hin as [Hmap Hnew].
  apply in_map_iff in Hmap. destruct Hmap as [location [Hc Hkept]].
  apply filter_In in Hkept. destruct Hkept as [Hloc Hkeep].
  exists location. split_conj; try assumption.
  - symmetry. exact Hc.
  - subst c. unfold BackgroundTask.isNewPoint, BackgroundTask.hasTimestamp,
      BackgroundTask.processedPoint in Hnew.
    cbn [RouteCoordinate.timestamp] in Hnew.
    unfold BackgroundTask.existingTimestamps in Hnew.
    intros Hexisting.
    assert (Hex : existsb
                    (Z.eqb (BackgroundTask.processedTimestamp now location))
                    (Metrics.truthyTimestamps existing) = true).
    { apply existsb_exists.
      exists (BackgroundTask.processedTimestamp now location).
      split; [assumption | apply Z.eqb_refl]. }
    rewrite Hex in Hnew. discriminate.
Qed.

(** X8.  The background task only ever appends to the persisted route.
    A delivery of locations either leaves the storage as it is, or the
    snapshot was being tracked and stays so, keeps its run id and start
    time, and its route becomes the old route followed by at least one new
    point (each stored as the backend stores it).  Every new point comes
    from a location of the delivery that passed the filter, is tagged
    [background], carries no segment index, has no accuracy worse than
    25 m, valid coordinates, and a timestamp that the old route did not
    hold. *)
Theorem background_task_appends
  (locations : list LocationObject) (now : Z)
  (bg : BackgroundTask.t) (st : StorageService.t) :
  let st' :=
    snd (BackgroundTask.task (BackgroundTask.TaskLocations locations)
           now bg st) in
  st' = st
  \/ (snapshotState st = Tracking
      /\ snapshotState st' = Tracking
      /\ option_map TrackingData.id
           (StorageService.getCurrentTrackingData st')
         = option_map TrackingData.id
             (StorageService.getCurrentTrackingData st)
      /\ option_map TrackingData.startTime
           (StorageService.getCurrentTrackingData st')
         = option_map TrackingData.startTime
             (StorageService.getCurrentTrackingData st)
      /\ exists newPoints,
           newPoints <> []
           /\ snapshotRoute st'
              = storedRoute (StorageService.backend st)
                  (snapshotRoute st ++ newPoints)
           /\ Forall
                (fun c =>
                   backgroundPointOf now
                     (BackgroundTask.lastProcessedTimestamp bg)
                     (snapshotRoute st) locations c
                   /\ RouteCoordinate.source c = Some background
                   /\ RouteCoordinate.segmentIndex c = None
                   /\ poorAccuracy (RouteCoordinate.accuracy c) (25 # 1)
                      = false
                   /\ invalidCoordinates (RouteCoordinate.latitude c)
                        (RouteCoordinate.longitude c) = false)
                newPoints).
Proof.
  cbv zeta. unfold BackgroundTask.task.
  destruct locations as [| l ls]; [left; reflexivity |].
  unfold snapshotState, snapshotRoute.
  destruct (StorageService.getCurrentTrackingData st) as [d |] eqn:Hget;
    [| left; reflexivity].
  destruct (TrackingData.isTracking d) eqn:Htracking;
    [| left; reflexivity].
  destruct (TrackingData.isPaused d) eqn:Hpaused; [left; reflexivity |].
  cbn [negb orb]. cbv zeta.
  remember (filter (BackgroundTask.keepLocation now
                      (BackgroundTask.lastProcessedTimestamp bg)) (l :: ls))
    as filtered eqn:Hfiltered.
  destruct filtered as [| f fs]; [left; reflexivity |].
  remember (filter (BackgroundTask.isNewPoint
                      (BackgroundTask.existingTimestamps
                         (TrackingData.route d)))
              (map (BackgroundTask.processedPoint now) (f :: fs)))
    as newPoints eqn:HnewPoints.
  destruct newPoints as [| n ns]; [left; reflexivity |].
  right. cbn [snd].
  assert (Hpoints : Forall
            (backgroundPointOf now (BackgroundTask.lastProcessedTimestamp bg)
               (TrackingData.route d) (l :: ls)) (n :: ns)).
  { apply Forall_forall. intros c Hc. apply newPoints_spec.
    rewrite <- Hfiltered, <- HnewPoints. exact Hc. }
  assert (Hfacts : Forall
            (fun c =>
               backgroundPointOf now
                 (BackgroundTask.lastProcessedTimestamp bg)
                 (TrackingData.route d) (l :: ls) c
               /\ RouteCoordinate.source c = Some background
               /\ RouteCoordinate.segmentIndex c = None
               /\ poorAccuracy (RouteCoordinate.accuracy c) (25 # 1) = false
               /\ invalidCoordinates (RouteCoordinate.latitude c)
                    (RouteCoordinate.longitude c) = false)
            (n :: ns)).
  { eapply Forall_impl; [| exact Hpoints].
    intros c Hc. split; [exact Hc |].
    destruct Hc as [location [_ [Hc [Hkeep _]]]]. subst c.
    apply keepLocation_true in Hkeep. destruct Hkeep as [Hacc [Hvalid _]].
    unfold BackgroundTask.processedPoint.
    cbn [RouteCoordinate.source RouteCoordinate.segmentIndex
         RouteCoordinate.accuracy RouteCoordinate.latitude
         RouteCoordinate.longitude].
    rewrite poorAccuracy_orUndefinedQ.
    split_conj; try reflexivity; assumption. }
  unfold StorageService.getCurrentTrackingData,
    StorageService.saveCurrentTrackingData in *.
  destruct (StorageService.backend st) eqn:Hbackend;
    cbn [StorageService.backend StorageService.currentTracking option_map
         StorageService.readRecord StorageService.writeRecord
         TrackingData.withRoute TrackingData.isTracking TrackingData.isPaused
         TrackingData.route TrackingData.id TrackingData.startTime
         storedRoute].
  - rewrite Htracking, Hpaused.
    split_conj; try reflexivity.
    exists (n :: ns). split_conj; [discriminate | reflexivity | exact Hfacts].
  - destruct (StorageService.currentTracking st) as [raw |];
      [| discriminate].
    cbn [option_map] in Hget. injection Hget as Hd.
    rewrite Htracking, Hpaused.
    split_conj; try reflexivity.
    exists (n :: ns). split_conj; [discriminate | reflexivity | exact Hfacts].
Qed.

(* ------------------------------------------------------------------ *)
(** ** The location service *)

Lemma poorAccuracy_weaken accuracy (limit limit' : Q) :
  (limit <= limit')%Q ->
  poorAccuracy accuracy limit = false ->
  poorAccuracy accuracy limit' = false.
Proof.
  intros Hle. destruct accuracy as [a |]; [| reflexivity].
  unfold poorAccuracy, Js.gtQ.
  destruct (Js.isZeroQ a); [reflexivity |]. simpl.
  intros H. apply Bool.negb_false_iff in H. apply Bool.negb_false_iff.
  apply Qle_bool_iff. apply Qle_bool_iff in H.
  eapply Qle_trans; eassumption.
Qed.

Lemma onPosition_delivered location now sv sv' delivered :
  LocationService.onPosition location now sv = (sv', Some delivered) ->
  let timestamp := Js.orZ (Some (LocationObject.timestamp location)) now in
  800 <= timestamp - LocationService.lastLocationTime sv
  /\ LocationService.lastLocationTime sv' = timestamp
  /\ UserLocation.timestamp delivered = Some timestamp
  /\ poorAccuracy (UserLocation.accuracy delivered) (25 # 1) = false
  /\ invalidCoordinates (UserLocation.latitude delivered)
       (UserLocation.longitude delivered) = false.
Proof.
  unfold LocationService.onPosition. cbv zeta.
  destruct (Z.ltb_spec
              (Js.orZ (Some (LocationObject.timestamp location)) now
               - LocationService.lastLocationTime sv) 800) as [| Hgap];
    [discriminate |].
  destruct (poorAccuracy (LocationObject.accuracy location) (25 # 1))
    eqn:Hacc; [discriminate |].
  destruct (invalidCoordinates _ _) eqn:Hvalid; [discriminate |].
  intros H. injection H as Hsv Hdelivered. subst sv' delivered.
  cbn [LocationService.lastLocationTime UserLocation.timestamp
       UserLocation.accuracy UserLocation.latitude UserLocation.longitude].
  rewrite poorAccuracy_orUndefinedQ.
  split_conj; try reflexivity; assumption.
Qed.

(** X9.  The foreground watcher's callback.  A fix it drops leaves the
    service as it was.  A fix it hands to the screen is at least 800 ms
    after the last one handed over (by the fixes' own timestamps, the clock
    standing in for a missing one), has no accuracy worse than 25 m and
    valid coordinates, so the screen's own 50 m accuracy check never
    rejects it; and the next fix handed over after it is again at least
    800 ms later. *)
Theorem watcher_spaces_delivered_fixes
  (location : LocationObject) (now : Z) (sv sv' : LocationService.t)
  (delivered : option UserLocation) :
  LocationService.onPosition location now sv = (sv', delivered) ->
  match delivered with
  | None => sv' = sv
  | Some handed =>
      exists timestamp,
        UserLocation.timestamp handed = Some timestamp
        /\ timestamp = Js.orZ (Some (LocationObject.timestamp location)) now
        /\ 800 <= timestamp - LocationService.lastLocationTime sv
        /\ poorAccuracy (UserLocation.accuracy handed) (25 # 1) = false
        /\ poorAccuracy (UserLocation.accuracy handed) (50 # 1) = false
        /\ invalidCoordinates (UserLocation.latitude handed)
             (UserLocation.longitude handed) = false
        /\ forall location2 now2 sv2 handed2,
             LocationService.onPosition location2 now2 sv'
             = (sv2, Some handed2) ->
             exists timestamp2,
               UserLocation.timestamp handed2 = Some timestamp2
               /\ 800 <= timestamp2 - timestamp
  end.
Proof.
  intros H. destruct delivered as [handed |].
  - pose proof (onPosition_delivered _ _ _ _ _ H) as Hd. cbv zeta in Hd.
    destruct Hd as [Hgap [Hlast [Hts [Hacc Hvalid]]]].
    exists (Js.orZ (Some (LocationObject.timestamp location)) now).
    split_conj; try assumption; try reflexivity.
    + eapply poorAccuracy_weaken; [| exact Hacc].
      unfold Qle; simpl; lia.
    + intros location2 now2 sv2 handed2 H2.
      pose proof (onPosition_delivered _ _ _ _ _ H2) as Hd2. cbv zeta in Hd2.
      destruct Hd2 as [Hgap2 [_ [Hts2 _]]].
      exists (Js.orZ (Some (LocationObject.timestamp location2)) now2).
      split; [assumption |]. rewrite Hlast in Hgap2. exact Hgap2.
  - unfold LocationService.onPosition in H. cbv zeta in H.
    destruct (_ <? 800) in H; [inversion H; reflexivity |].
    destruct (poorAccuracy _ _) in H; [inversion H; reflexivity |].
    destruct (invalidCoordinates _ _) in H; [inversion H; reflexivity |].
    discriminate.
Qed.

Lemma watcher_spaces_delivered_fixes_witness :
  exists timestamp,
    UserLocation.timestamp (userFixAt 2000) = Some timestamp
    /\ timestamp = 2000
    /\ 800 <= timestamp - 0.
Proof.
  pose proof (watcher_spaces_delivered_fixes (fixAt 2000) 2000
                LocationService.initial
                (fst (LocationService.onPosition (fixAt 2000) 2000
                        LocationService.initial))
                (Some (userFixAt 2000)) eq_refl) as H.
  destruct H as [timestamp [Hts [Heq [Hgap _]]]].
  exists timestamp. split_conj; assumption.
Defined.

(** X10.  [startRunTracking] succeeds exactly when the foreground watcher
    starts: permission granted, location services on, and the watch call
    not failing.  A background failure alone does not fail the start: the
    task is then merely not registered.  On failure neither the watcher
    nor the task is left running.  Either way the background task has been
    defined and its cursor and error counter are zero. *)
Theorem startRunTracking_outcome (p : Platform) (sv : LocationService.t) :
  let started := fst (LocationService.startRunTracking p sv) in
  let sv' := snd (LocationService.startRunTracking p sv) in
  let bg' := LocationService.backgroundTask sv' in
  started
  = (Platform.foregroundPermission p && Platform.servicesEnabled p
     && negb (Platform.watchPositionThrows p))
  /\ LocationService.currentLocationSubscription sv' = started
  /\ BackgroundTask.registered bg'
     = (started && Platform.backgroundPermission p
        && negb (Platform.startLocationUpdatesThrows p))
  /\ BackgroundTask.isTaskDefined bg' = true
  /\ BackgroundTask.lastProcessedTimestamp bg' = 0
  /\ BackgroundTask.consecutiveErrors bg' = 0
  /\ (started = true -> LocationService.lastLocationTime sv' = 0)
  /\ LocationService.gpsMonitoringInterval sv'
     = LocationService.gpsMonitoringInterval sv.
Proof.
  destruct p as [fg bgp en ask rf rb wt st].
  destruct sv as [sub mon last errs active bg].
  unfold LocationService.startRunTracking,
    BackgroundTask.startBackgroundLocationTracking,
    LocationService.startLocationTracking,
    LocationService.stopLocationTracking,
    BackgroundTask.stopBackgroundLocationTracking,
    LocationService.withBackground.
  cbn [Platform.foregroundPermission Platform.backgroundPermission
       Platform.servicesEnabled Platform.watchPositionThrows
       Platform.startLocationUpdatesThrows
       LocationService.backgroundTask
       LocationService.currentLocationSubscription
       LocationService.gpsMonitoringInterval
       LocationService.lastLocationTime LocationService.consecutiveErrors
       LocationService.isTrackingActive].
  destruct fg, bgp, en, wt, st; cbn; split_conj; try reflexivity;
    try discriminate.
Qed.

Lemma startRunTracking_outcome_witness :
  fst (LocationService.startRunTracking platformOk LocationService.initial)
  = true
  /\ LocationService.lastLocationTime
       (snd (LocationService.startRunTracking platformOk
               LocationService.initial)) = 0.
Proof.
  pose proof (startRunTracking_outcome platformOk LocationService.initial)
    as H.
  cbv zeta in H. destruct H as [H1 [_ [_ [_ [_ [_ [H2 _]]]]]]].
  split; [exact H1 | apply H2; exact H1].
Defined.

(* ------------------------------------------------------------------ *)
(** ** Every recorded coordinate is a usable fix *)

Lemma recordedFix_row c :
  recordedFix c -> recordedFix (StorageService.writeRouteRow c).
Proof.
  intros [Hacc [Hvalid [Hts Hsrc]]]. unfold recordedFix.
  rewrite coordKey_writeRouteRow.
  unfold StorageService.writeRouteRow.
  cbn [RouteCoordinate.accuracy RouteCoordinate.latitude
       RouteCoordinate.longitude RouteCoordinate.timestamp
       RouteCoordinate.source].
  split_conj; assumption.
Qed.

Lemma save_recorded data st :
  Forall recordedFix (TrackingData.route data) ->
  storageRecorded (StorageService.saveCurrentTrackingData data st).
Proof.
  intros Hall d. unfold StorageService.saveCurrentTrackingData.
  destruct (StorageService.backend st); simpl; intros Heq;
    inversion Heq; subst.
  - assumption.
  - cbn [StorageService.writeRecord TrackingData.route].
    apply Forall_map. revert Hall. apply Forall_impl.
    intros c. apply recordedFix_row.
Qed.

Lemma get_recorded st d :
  storageRecorded st ->
  StorageService.getCurrentTrackingData st = Some d ->
  Forall recordedFix (TrackingData.route d).
Proof.
  unfold StorageService.getCurrentTrackingData. intros Hst.
  destruct (StorageService.backend st).
  - apply Hst.
  - destruct (StorageService.currentTracking st) as [raw |] eqn:Hraw;
      simpl; [| discriminate].
    intros Heq. inversion Heq.
    unfold StorageService.readRecord. cbn [TrackingData.route].
    apply Hst. assumption.
Qed.

Lemma clear_recorded st :
  storageRecorded (StorageService.clearCurrentTrackingData st).
Proof. intros d Hd. discriminate. Qed.

Lemma pauseResumeSnapshot_recorded now s st :
  Forall recordedFix (route s) -> storageRecorded st ->
  storageRecorded (pauseResumeSnapshot now s st).
Proof.
  intros Hall Hst. unfold pauseResumeSnapshot.
  break_if; [| assumption].
  destruct (currentRunId s); [| assumption].
  apply save_recorded. exact Hall.
Qed.

Lemma handlePauseResume_route p now w :
  route (screen (handlePauseResume p now w)) = route (screen w).
Proof.
  unfold handlePauseResume. cbv zeta.
  destruct (isPaused (screen w)).
  - break_if; [reflexivity |]. break_let.
    destruct (Js.truthyZ (pauseStartTime (screen w)));
      [destruct (pauseStartTime (screen w)) |]; reflexivity.
  - destruct (Js.truthyZ (currentSegmentStartTime (screen w)));
      [destruct (currentSegmentStartTime (screen w)) |]; reflexivity.
Qed.

Lemma handlePauseResume_storage p now w :
  storage (handlePauseResume p now w) = storage w
  \/ storage (handlePauseResume p now w)
     = pauseResumeSnapshot now (screen w) (storage w).
Proof.
  unfold handlePauseResume. cbv zeta.
  destruct (isPaused (screen w)).
  - break_if; [left; reflexivity |]. break_let. right. reflexivity.
  - right.
    destruct (Js.truthyZ (currentSegmentStartTime (screen w)));
      [destruct (currentSegmentStartTime (screen w)) |]; reflexivity.
Qed.

Lemma handlePauseResume_recorded p now w :
  routesRecorded w -> routesRecorded (handlePauseResume p now w).
Proof.
  intros [Hroute Hst]. unfold routesRecorded.
  rewrite handlePauseResume_route. split; [assumption |].
  destruct (handlePauseResume_storage p now w) as [-> | ->];
    [assumption | apply pauseResumeSnapshot_recorded; assumption].
Qed.

Lemma handleStartRun_recorded p now w :
  routesRecorded w -> routesRecorded (handleStartRun p now w).
Proof.
  intros Hinv. unfold handleStartRun.
  break_if; [assumption |]. break_let.
  break_if; unfold routesRecorded; simpl.
  - split; [constructor | apply clear_recorded].
  - split; [constructor | apply save_recorded; constructor].
Qed.

Lemma handleGpsLost_recorded p now w :
  routesRecorded w -> routesRecorded (handleGpsLost p now w).
Proof.
  intros Hinv. unfold handleGpsLost. break_if.
  - apply (handlePauseResume_recorded p now) in Hinv. exact Hinv.
  - exact Hinv.
Qed.

Lemma checkGPSStatus_recorded p now current w :
  routesRecorded w -> routesRecorded (checkGPSStatus p now current w).
Proof.
  intros Hinv. unfold checkGPSStatus. cbv zeta.
  match goal with
  | |- routesRecorded (withScreen ?s ?w1) =>
      assert (Hw1 : routesRecorded w1);
      [| assert (Hs : route s = route (screen w1))]
  end.
  - repeat break_if;
      [apply handleGpsLost_recorded; assumption
      | exact Hinv | exact Hinv].
  - repeat break_if; destruct current; reflexivity.
  - destruct Hw1 as [Ha Hb]. unfold routesRecorded. simpl. rewrite Hs.
    split; assumption.
Qed.

Lemma truthy_orZ o now :
  now <> 0 -> Js.truthyZ (Some (Js.orZ o now)) = true.
Proof.
  intros Hnow. destruct o as [[| v | v] |]; simpl; try reflexivity;
    destruct now; try reflexivity; contradiction.
Qed.

Lemma handleLocationUpdate_recorded location now w :
  0 < now ->
  poorAccuracy (UserLocation.accuracy location) (25 # 1) = false ->
  invalidCoordinates (UserLocation.latitude location)
    (UserLocation.longitude location) = false ->
  routesRecorded w ->
  routesRecorded (handleLocationUpdate location now w).
Proof.
  intros Hnow Hacc Hvalid [Hroute Hst].
  unfold handleLocationUpdate. cbv zeta.
  break_if; [split; assumption |].
  break_if; [split; assumption |].
  break_if; [split; assumption |].
  assert (Hnew : Forall recordedFix
            (route (screen w)
             ++ [RouteCoordinate.mk
                   (UserLocation.latitude location)
                   (UserLocation.longitude location)
                   (UserLocation.altitude location)
                   (UserLocation.accuracy location)
                   (Some (Js.orZ (UserLocation.timestamp location) now))
                   (Some foreground)
                   (Some (currentSegmentIndexRef (refs w)))])).
  { apply Forall_app. split; [assumption |].
    constructor; [| constructor].
    unfold recordedFix.
    cbn [RouteCoordinate.accuracy RouteCoordinate.latitude
         RouteCoordinate.longitude RouteCoordinate.timestamp
         RouteCoordinate.source].
    split_conj; try assumption.
    - apply truthy_orZ. lia.
    - left. reflexivity. }
  unfold routesRecorded. simpl. split; [assumption |].
  break_if; [| assumption].
  destruct (currentRunIdRef (refs w)); [| assumption].
  apply save_recorded. exact Hnew.
Qed.

Lemma task_recorded input now bg st :
  0 < now -> storageRecorded st ->
  storageRecorded (snd (BackgroundTask.task input now bg st)).
Proof.
  intros Hnow Hst. unfold BackgroundTask.task.
  destruct input as [| | locations]; try exact Hst.
  destruct locations as [| l ls]; [exact Hst |].
  destruct (StorageService.getCurrentTrackingData st) as [d |] eqn:Hget;
    [| exact Hst].
  break_if; [exact Hst |]. cbv zeta.
  remember (filter (BackgroundTask.keepLocation now
                      (BackgroundTask.lastProcessedTimestamp bg)) (l :: ls))
    as filtered eqn:Hfiltered.
  destruct filtered as [| f fs]; [exact Hst |].
  remember (filter (BackgroundTask.isNewPoint
                      (BackgroundTask.existingTimestamps
                         (TrackingData.route d)))
              (map (BackgroundTask.processedPoint now) (f :: fs)))
    as newPoints eqn:HnewPoints.
  destruct newPoints as [| n ns]; [exact Hst |].
  cbn [snd]. apply save_recorded. cbn [TrackingData.withRoute
                                       TrackingData.route].
  apply Forall_app. split; [eapply get_recorded; eassumption |].
  apply Forall_forall. intros c Hc.
  assert (Hpoint : backgroundPointOf now
                     (BackgroundTask.lastProcessedTimestamp bg)
                     (TrackingData.route d) (l :: ls) c).
  { apply newPoints_spec. rewrite <- Hfiltered, <- HnewPoints. exact Hc. }
  destruct Hpoint as [location [_ [-> [Hkeep _]]]].
  apply keepLocation_true in Hkeep. destruct Hkeep as [Hacc [Hvalid _]].
  unfold recordedFix, BackgroundTask.processedPoint,
    BackgroundTask.processedTimestamp, Metrics.coordKey.
  cbn [RouteCoordinate.accuracy RouteCoordinate.latitude
       RouteCoordinate.longitude RouteCoordinate.timestamp
       RouteCoordinate.source RouteCoordinate.segmentIndex].
  rewrite poorAccuracy_orUndefinedQ.
  split_conj; try assumption.
  - apply truthy_orZ. lia.
  - right. split; reflexivity.
Qed.

Lemma loadExistingTrackingData_recorded now w :
  routesRecorded w -> routesRecorded (loadExistingTrackingData now w).
Proof.
  intros Hinv. unfold loadExistingTrackingData.
  destruct (StorageService.getCurrentTrackingData (storage w)) as [d |]
    eqn:Hget; [| exact Hinv].
  break_if; [| exact Hinv].
  destruct Hinv as [_ Hst].
  unfold routesRecorded. simpl.
  split; [eapply get_recorded; eassumption | assumption].
Qed.

Lemma step_recorded w e :
  validEvent e = true -> routesRecorded w -> routesRecorded (step w e).
Proof.
  intros Hvalid Hinv. unfold step.
  assert (Hcommit : forall w1, routesRecorded w1 -> routesRecorded (commit w1))
    by (intros w1 H1; exact H1).
  apply Hcommit.
  destruct e; unfold validEvent in Hvalid; simpl in Hvalid;
    try apply Z.ltb_lt in Hvalid; cbv beta iota delta [handle].
  - break_if; [| exact Hinv]. apply handleStartRun_recorded; assumption.
  - break_if; [| exact Hinv]. apply handlePauseResume_recorded. assumption.
  - break_if; [| exact Hinv]. apply handlePauseResume_recorded. assumption.
  - break_if; [| exact Hinv]. unfold handleStopAndReview.
    break_if; exact Hinv.
  - break_if; [| exact Hinv].
    unfold handleQuitRun, stopTrackingAndCleanup, routesRecorded. simpl.
    split; [constructor | apply clear_recorded].
  - unfold elapsedTimeTick. break_if; [| destruct w; exact Hinv].
    destruct (startTime (screen w)); destruct w; exact Hinv.
  - unfold periodicSave. cbv zeta. break_if; [| exact Hinv].
    destruct (currentRunId (screen w)); [| exact Hinv].
    destruct Hinv as [Ha Hb].
    unfold routesRecorded. simpl. split; [assumption |].
    apply save_recorded. exact Ha.
  - unfold deliverPosition. break_if; [| exact Hinv].
    destruct (LocationService.onPosition location now (service w))
      as [sv delivered] eqn:Hon.
    destruct delivered as [userLocation |]; [| exact Hinv].
    pose proof (onPosition_delivered _ _ _ _ _ Hon) as Hd. cbv zeta in Hd.
    destruct Hd as [_ [_ [_ [Hacc Hcoords]]]].
    apply handleLocationUpdate_recorded; try assumption.
  - unfold runBackgroundTask. cbv zeta. break_if; [| exact Hinv].
    destruct Hinv as [Ha Hb].
    pose proof (task_recorded input now
                  (LocationService.backgroundTask (service w))
                  (storage w) Hvalid Hb) as Htask.
    break_let. unfold routesRecorded. simpl in *.
    split; assumption.
  - apply checkGPSStatus_recorded. assumption.
  - unfold relaunch. apply loadExistingTrackingData_recorded.
    destruct Hinv as [_ Hd]. unfold routesRecorded. simpl.
    split; [constructor |].
    destruct (StorageService.backend (storage w)); [| exact Hd].
    intros d Hdd. discriminate.
  - destruct (pollGPSStatus_session p current w)
      as [s' [-> [_ [_ [_ [_ [Hr _]]]]]]].
    destruct Hinv as [Ha Hb]. unfold routesRecorded. simpl.
    rewrite Hr. split; assumption.
  - destruct (gpsMonitorTick_session p w)
      as [s' [-> [_ [_ [_ [_ [Hr _]]]]]]].
    destruct Hinv as [Ha Hb]. unfold routesRecorded. simpl.
    rewrite Hr. split; assumption.
  - destruct Hinv as [Ha Hb]. unfold reviewDone, routesRecorded.
    simpl. split; [assumption | apply clear_recorded].
Qed.

(** X11.  In every state the application reaches, every coordinate of the
    route in memory, of the persisted snapshot, and so of the run handed
    to the review screen, is a usable fix: its accuracy is missing or at
    most 25 m, its latitude and longitude are non-zero and in range, its
    timestamp is non-zero, and it is tagged foreground or background;
    background points belong to segment 0 whatever segment was open when
    they were recorded. *)
Theorem recorded_coordinates_are_usable_fixes
  (backend : StorageService.Backend) (trace : list Event) :
  validTrace trace = true ->
  let w := run backend trace in
  Forall recordedFix (route (screen w))
  /\ Forall recordedFix (snapshotRoute (storage w))
  /\ Forall recordedFix (Run.route (tempRun (screen w))).
Proof.
  intros Hvalid. cbv zeta.
  assert (H : routesRecorded (run backend trace)).
  { revert Hvalid. apply (run_ind routesRecorded).
    - split; [constructor | intros d Hd; discriminate].
    - intros w e He Hw. apply step_recorded; assumption. }
  destruct H as [Hroute Hst]. split; [assumption |].
  split; [| exact Hroute].
  unfold snapshotRoute.
  destruct (StorageService.getCurrentTrackingData
              (storage (run backend trace))) as [d |] eqn:Hget;
    [| constructor].
  eapply get_recorded; eassumption.
Qed.

Lemma recorded_coordinates_are_usable_fixes_witness :
  let w := run StorageService.Watermelon backgroundFirstTrace in
  Forall recordedFix (route (screen w))
  /\ Forall recordedFix (snapshotRoute (storage w))
  /\ Forall recordedFix (Run.route (tempRun (screen w))).
Proof.
  apply (recorded_coordinates_are_usable_fixes StorageService.Watermelon
           backgroundFirstTrace).
  reflexivity.
Defined.

(* ------------------------------------------------------------------ *)
(** ** Recovery after the process is killed *)

(* ------------------------------------------------------------------ *)
(** ** Recovery after the process is killed *)

Lemma save_identified data st :
  Js.truthyStr (Some (TrackingData.id data)) = true ->
  storageIdentified (StorageService.saveCurrentTrackingData data st).
Proof.
  intros Hid d. unfold StorageService.saveCurrentTrackingData.
  destruct (StorageService.backend st); simpl; intros Heq;
    inversion Heq; subst; assumption.
Qed.

Lemma get_identified st d :
  storageIdentified st ->
  StorageService.getCurrentTrackingData st = Some d ->
  Js.truthyStr (Some (TrackingData.id d)) = true.
Proof.
  unfold StorageService.getCurrentTrackingData. intros Hst.
  destruct (StorageService.backend st).
  - apply Hst.
  - destruct (StorageService.currentTracking st) as [raw |] eqn:Hraw;
      simpl; [| discriminate].
    intros Heq. inversion Heq.
    unfold StorageService.readRecord. cbn [TrackingData.id].
    apply Hst. assumption.
Qed.

Lemma clear_identified st :
  storageIdentified (StorageService.clearCurrentTrackingData st).
Proof. intros d Hd. discriminate. Qed.

Lemma pauseResumeSnapshot_identified now s st :
  storageIdentified st -> storageIdentified (pauseResumeSnapshot now s st).
Proof.
  intros Hst. unfold pauseResumeSnapshot.
  break_if; [| assumption].
  apply andb_true_iff in Heqb. destruct Heqb as [Hid _].
  destruct (currentRunId s); [| assumption].
  apply save_identified. exact Hid.
Qed.

Lemma handlePauseResume_identity p now w :
  isTracking (screen (handlePauseResume p now w)) = isTracking (screen w)
  /\ currentRunId (screen (handlePauseResume p now w))
     = currentRunId (screen w).
Proof.
  unfold handlePauseResume. cbv zeta.
  destruct (isPaused (screen w)).
  - break_if; [split; reflexivity |]. break_let.
    destruct (Js.truthyZ (pauseStartTime (screen w)));
      [destruct (pauseStartTime (screen w)) |]; split; reflexivity.
  - destruct (Js.truthyZ (currentSegmentStartTime (screen w)));
      [destruct (currentSegmentStartTime (screen w)) |]; split; reflexivity.
Qed.

Lemma handlePauseResume_identified p now w :
  sessionIdentified w -> sessionIdentified (handlePauseResume p now w).
Proof.
  intros [Hid Hst]. unfold sessionIdentified.
  destruct (handlePauseResume_identity p now w) as [-> ->].
  split; [assumption |].
  destruct (handlePauseResume_storage p now w) as [-> | ->];
    [assumption | apply pauseResumeSnapshot_identified; assumption].
Qed.

Lemma newRunId_truthy now : Js.truthyStr (Some (newRunId now)) = true.
Proof. reflexivity. Qed.

Lemma handleStartRun_identified p now w :
  sessionIdentified w -> sessionIdentified (handleStartRun p now w).
Proof.
  intros Hinv. unfold handleStartRun.
  break_if; [assumption |]. break_let.
  break_if; unfold sessionIdentified; simpl.
  - split; [discriminate | apply clear_identified].
  - split; [intros _; reflexivity |].
    apply save_identified. apply newRunId_truthy.
Qed.

Lemma handleGpsLost_identified p now w :
  sessionIdentified w -> sessionIdentified (handleGpsLost p now w).
Proof.
  intros Hinv. unfold handleGpsLost. break_if.
  - apply (handlePauseResume_identified p now) in Hinv. exact Hinv.
  - exact Hinv.
Qed.

Lemma checkGPSStatus_identified p now current w :
  sessionIdentified w -> sessionIdentified (checkGPSStatus p now current w).
Proof.
  intros Hinv. unfold checkGPSStatus. cbv zeta.
  match goal with
  | |- sessionIdentified (withScreen ?s ?w1) =>
      assert (Hw1 : sessionIdentified w1);
      [| assert (Hs : isTracking s = isTracking (screen w1)
                      /\ currentRunId s = currentRunId (screen w1))]
  end.
  - repeat break_if;
      [apply handleGpsLost_identified; assumption
      | exact Hinv | exact Hinv].
  - repeat break_if; destruct current; split; reflexivity.
  - destruct Hw1 as [Ha Hb]. destruct Hs as [Hs1 Hs2].
    unfold sessionIdentified. simpl. rewrite Hs1, Hs2.
    split; assumption.
Qed.

Lemma pollGPSStatus_identity p current w :
  exists s',
    pollGPSStatus p current w = withScreen s' w
    /\ isTracking s' = isTracking (screen w)
    /\ currentRunId s' = currentRunId (screen w).
Proof.
  unfold pollGPSStatus, handleGpsRestored. cbv zeta.
  match goal with
  | |- context [withScreen ?s ?w1] => exists s
  end.
  repeat break_if; destruct current; repeat split; reflexivity.
Qed.

Lemma gpsMonitorTick_identity p w :
  exists s',
    gpsMonitorTick p w = withScreen s' w
    /\ isTracking s' = isTracking (screen w)
    /\ currentRunId s' = currentRunId (screen w).
Proof.
  unfold gpsMonitorTick. break_if.
  - eexists. split; [reflexivity |]. split; reflexivity.
  - exists (screen w). split; [destruct w; reflexivity |].
    split; reflexivity.
Qed.

Lemma handleLocationUpdate_identified location now w :
  sessionIdentified w ->
  sessionIdentified (handleLocationUpdate location now w).
Proof.
  intros [Hid Hst]. unfold handleLocationUpdate. cbv zeta.
  break_if; [split; assumption |].
  break_if; [split; assumption |].
  break_if; [split; assumption |].
  unfold sessionIdentified. simpl. split; [assumption |].
  break_if; [| assumption].
  apply andb_true_iff in Heqb2. destruct Heqb2 as [Hrun _].
  destruct (currentRunIdRef (refs w)); [| assumption].
  apply save_identified. exact Hrun.
Qed.

Lemma task_identified input now bg st :
  storageIdentified st ->
  storageIdentified (snd (BackgroundTask.task input now bg st)).
Proof.
  intros Hst. unfold BackgroundTask.task.
  destruct input as [| | locations]; try exact Hst.
  destruct locations as [| l ls]; [exact Hst |].
  destruct (StorageService.getCurrentTrackingData st) as [d |] eqn:Hget;
    [| exact Hst].
  break_if; [exact Hst |]. cbv zeta.
  repeat match goal with
         | |- context [match ?x with [] => _ | _ :: _ => _ end] =>
             destruct x; [exact Hst |]
         end.
  cbn [snd]. apply save_identified. cbn [TrackingData.withRoute
                                         TrackingData.id].
  eapply get_identified; eassumption.
Qed.

Lemma step_identified w e :
  sessionIdentified w -> sessionIdentified (step w e).
Proof.
  intros Hinv. unfold step.
  assert (Hcommit :
            forall w1, sessionIdentified w1 -> sessionIdentified (commit w1))
    by (intros w1 H1; exact H1).
  apply Hcommit.
  destruct e; cbv beta iota delta [handle].
  - break_if; [| exact Hinv]. apply handleStartRun_identified; assumption.
  - break_if; [| exact Hinv]. apply handlePauseResume_identified.
    assumption.
  - break_if; [| exact Hinv]. apply handlePauseResume_identified.
    assumption.
  - break_if; [| exact Hinv]. unfold handleStopAndReview.
    break_if; exact Hinv.
  - break_if; [| exact Hinv].
    unfold handleQuitRun, stopTrackingAndCleanup, sessionIdentified. simpl.
    split; [discriminate | apply clear_identified].
  - unfold elapsedTimeTick. break_if; [| destruct w; exact Hinv].
    destruct (startTime (screen w)); destruct w; exact Hinv.
  - unfold periodicSave. cbv zeta. break_if; [| exact Hinv].
    apply andb_true_iff in Heqb. destruct Heqb as [_ Hrun].
    destruct (currentRunId (screen w)); [| exact Hinv].
    destruct Hinv as [Ha Hb].
    unfold sessionIdentified. simpl. split; [assumption |].
    apply save_identified. exact Hrun.
  - unfold deliverPosition. break_if; [| exact Hinv].
    break_let. destruct o as [userLocation |]; [| exact Hinv].
    apply handleLocationUpdate_identified. exact Hinv.
  - unfold runBackgroundTask. cbv zeta. break_if; [| exact Hinv].
    destruct Hinv as [Ha Hb].
    pose proof (task_identified input now
                  (LocationService.backgroundTask (service w))
                  (storage w) Hb) as Htask.
    break_let. unfold sessionIdentified. simpl in *.
    split; assumption.
  - apply checkGPSStatus_identified. assumption.
  - unfold relaunch, loadExistingTrackingData.
    cbn [storage screen].
    assert (Hst : storageIdentified
              (match StorageService.backend (storage w) with
               | StorageService.Fallback =>
                   StorageService.mk StorageService.Fallback None
               | StorageService.Watermelon => storage w
               end)).
    { destruct Hinv as [_ Hd].
      destruct (StorageService.backend (storage w)); [| exact Hd].
      intros d Hdd. discriminate. }
    destruct (StorageService.getCurrentTrackingData _) as [d |] eqn:Hget.
    + break_if.
      * unfold sessionIdentified. simpl. split; [| exact Hst].
        intros _. eapply get_identified; eassumption.
      * split; [discriminate | exact Hst].
    + split; [discriminate | exact Hst].
  - destruct (pollGPSStatus_identity p current w) as [s' [-> [Ht Hr]]].
    destruct Hinv as [Ha Hb]. unfold sessionIdentified. simpl.
    rewrite Ht, Hr. split; assumption.
  - destruct (gpsMonitorTick_identity p w) as [s' [-> [Ht Hr]]].
    destruct Hinv as [Ha Hb]. unfold sessionIdentified. simpl.
    rewrite Ht, Hr. split; assumption.
  - destruct Hinv as [Ha Hb]. unfold reviewDone, sessionIdentified.
    simpl. split; [assumption | apply clear_identified].
Qed.

Lemma reachable_identified backend trace :
  sessionIdentified (run backend trace).
Proof.
  induction trace as [| e trace IH] using rev_ind.
  - split; [discriminate | intros d Hd; discriminate].
  - rewrite run_snoc. apply step_identified. exact IH.
Qed.

Lemma recovered_index idx route :
  0 <= idx -> coordinatesWithin idx route ->
  Js.orZ
    (Some
       (Js.orZ (Some (Js.orZ (Some idx) 0))
          (StorageService.maxSegmentIndex
             (map StorageService.writeRouteRow route)))) 0
  = idx.
Proof.
  intros Hpos Hall. rewrite !orZ_Some, maxSegmentIndex_rows.
  pose proof (maxSegmentIndex_bounds idx route Hpos Hall) as Hmax.
  destruct idx; simpl; try reflexivity. lia.
Qed.

(** X12.  A crash right after a periodic save.  From any reachable state
    in which a run is being tracked, let the save interval fire and the
    process be killed and started again.  With the database the session
    comes back, Paused at the time of the relaunch, with the same run id,
    start time, segment index and paused time, and with the same route as
    the database stores it; the list of closed segments comes back empty.
    With the in-memory fallback nothing comes back.  (The elapsed time is
    left out: the interval's callback writes the value of the render that
    set the interval up.) *)
Theorem crash_after_save_recovers_session
  (backend : StorageService.Backend) (trace : list Event)
  (now : Z) (taskRegistered : bool) :
  let w := run backend trace in
  sessionState (screen w) = Tracking ->
  let w' := step (step w SaveTick) (Relaunch now taskRegistered) in
  match StorageService.backend (storage w) with
  | StorageService.Fallback =>
      sessionState (screen w') = Idle
      /\ route (screen w') = []
      /\ currentRunId (screen w') = None
  | StorageService.Watermelon =>
      sessionState (screen w') = Paused
      /\ pipelineState (refs w') = Paused
      /\ pauseStartTime (screen w') = Some now
      /\ currentRunId (screen w') = currentRunId (screen w)
      /\ startTime (screen w') = startTime (screen w)
      /\ route (screen w')
         = map StorageService.writeRouteRow (route (screen w))
      /\ currentSegmentIndex (screen w') = currentSegmentIndex (screen w)
      /\ totalPausedTime (screen w') = totalPausedTime (screen w)
      /\ currentSegmentStartTime (screen w')
         = Js.orOptZ (currentSegmentStartTime (screen w))
             (startTime (screen w))
      /\ segments (screen w') = []
  end.
Proof.
  cbv zeta. intros Htracking.
  pose proof (reachable_indexBounded backend trace) as [Hpos [Hroute _]].
  pose proof (reachable_identified backend trace) as [Hid _].
  apply sessionState_Tracking in Htracking. destruct Htracking as [Ht Hp].
  specialize (Hid Ht).
  set (w := run backend trace) in *.
  unfold step. cbv beta iota delta [handle].
  unfold periodicSave. cbv zeta. rewrite Ht, Hp, Hid. cbn [negb andb].
  destruct (currentRunId (screen w)) as [runId |] eqn:Hrun;
    [| discriminate].
  unfold relaunch, commit, withStorage, withRefs,
    StorageService.saveCurrentTrackingData.
  cbn [storage screen refs service].
  destruct (StorageService.backend (storage w)) eqn:Hbackend;
    cbn [StorageService.backend].
  - unfold loadExistingTrackingData. cbn. split_conj; reflexivity.
  - unfold loadExistingTrackingData, StorageService.getCurrentTrackingData.
    cbn [storage screen StorageService.backend
         StorageService.currentTracking option_map].
    unfold StorageService.readRecord, StorageService.writeRecord.
    cbn [TrackingData.id TrackingData.startTime TrackingData.route
         TrackingData.isTracking TrackingData.isPaused
         TrackingData.currentSegmentIndex TrackingData.totalPausedTime
         TrackingData.pauseStartTime TrackingData.currentSegmentStartTime
         TrackingData.elapsedTime].
    rewrite (recovered_index _ _ Hpos Hroute).
    rewrite !orZ_Some, !orOptZ_idem.
    split_conj; reflexivity.
Qed.

Lemma crash_after_save_recovers_session_witness :
  let w := run StorageService.Watermelon trackingTrace in
  let w' := step (step w SaveTick) (Relaunch 9000 false) in
  sessionState (screen w') = Paused
  /\ route (screen w')
     = map StorageService.writeRouteRow (route (screen w)).
Proof.
  pose proof (crash_after_save_recovers_session StorageService.Watermelon
                trackingTrace 9000 false eq_refl) as H.
  cbv zeta in H. destruct H as [H1 [_ [_ [_ [_ [H2 _]]]]]].
  split; assumption.
Defined.

(* ------------------------------------------------------------------ *)
(** ** The snapshot written with a foreground fix *)

Lemma handleLocationUpdate_snapshot location now w runId :
  currentRunIdRef (refs w) = Some runId ->
  Js.truthyStr (Some runId) = true ->
  Js.truthyZ (startTimeRef (refs w)) = true ->
  route (screen (handleLocationUpdate location now w)) <> route (screen w) ->
  storage (handleLocationUpdate location now w)
  = StorageService.saveCurrentTrackingData
      (TrackingData.mk runId (startTimeRef (refs w))
         (route (screen (handleLocationUpdate location now w))) true false
         (Some (currentSegmentIndexRef (refs w))) (Some 0) None
         (currentSegmentStartTimeRef (refs w)) (Some 0) None)
      (storage w).
Proof.
  intros Hrun Hid Hstart. unfold handleLocationUpdate. cbv zeta.
  rewrite Hrun, Hid, Hstart.
  break_if; [intros H; contradiction H; reflexivity |].
  break_if; [intros H; contradiction H; reflexivity |].
  break_if; [intros H; contradiction H; reflexivity |].
  intros _. reflexivity.
Qed.

Lemma deliverPosition_recorded_by location now w :
  route (screen (deliverPosition location now w)) <> route (screen w) ->
  exists sv userLocation,
    deliverPosition location now w
    = handleLocationUpdate userLocation now (withService sv w).
Proof.
  unfold deliverPosition.
  break_if; [| intros H; contradiction H; reflexivity].
  break_let. destruct o as [userLocation |];
    [| intros H; contradiction H; reflexivity].
  intros _. exists t, userLocation. reflexivity.
Qed.

(** X13.  The snapshot written when a foreground fix is recorded.  The
    sample handler is created once, with the values of the first render,
    so whenever a position event adds a point to the route, the snapshot
    it persists holds the new route but an elapsed time of 0 and a paused
    time of 0, whatever the session's counters are; if the process is
    killed at that moment, the session recovered from the database is
    Paused with elapsed time 0 and paused time 0. *)
Theorem foreground_snapshot_resets_counters
  (backend : StorageService.Backend) (trace : list Event)
  (location : LocationObject) (now : Z) :
  validTrace trace = true ->
  let w := run backend trace in
  let w1 := step w (Position location now) in
  route (screen w1) <> route (screen w) ->
  (exists d,
      StorageService.getCurrentTrackingData (storage w1) = Some d
      /\ TrackingData.elapsedTime d = Some 0
      /\ TrackingData.totalPausedTime d = Some 0
      /\ TrackingData.isTracking d = true
      /\ TrackingData.isPaused d = false
      /\ TrackingData.route d
         = storedRoute (StorageService.backend (storage w))
             (route (screen w1)))
  /\ (StorageService.backend (storage w) = StorageService.Watermelon ->
      forall now' taskRegistered,
        let w2 := step w1 (Relaunch now' taskRegistered) in
        sessionState (screen w2) = Paused
        /\ elapsedTime (screen w2) = 0
        /\ totalPausedTime (screen w2) = 0
        /\ route (screen w2)
           = map StorageService.writeRouteRow (route (screen w1))).
Proof.
  cbv zeta. intros Hvalid.
  pose proof (reachable_refsSynced backend trace) as Hsync.
  pose proof (reachable_identified backend trace) as [Hid _].
  pose proof (reachable_startStamped backend trace Hvalid)
    as [Hstart [Hpositive _]].
  set (w := run backend trace) in *.
  assert (Hstep : step w (Position location now)
                  = commit (deliverPosition location now w))
    by reflexivity.
  rewrite Hstep. rewrite !screen_commit, !storage_commit.
  intros Hchanged.
  destruct (deliverPosition_recorded_by _ _ _ Hchanged)
    as [sv [userLocation Hdeliver]].
  rewrite Hdeliver in *.
  assert (Htracking : pipelineState (refs (withService sv w)) = Tracking).
  { destruct (pipelineState (refs (withService sv w))) eqn:Hstate;
      [| reflexivity |];
      destruct (handleLocationUpdate_not_tracking userLocation now
                  (withService sv w)) as [Hroute _];
      try (rewrite Hstate; discriminate);
      contradiction Hchanged. }
  assert (Hrefs : isTrackingRef (refs w) = isTracking (screen w)
                  /\ currentRunIdRef (refs w) = currentRunId (screen w)
                  /\ startTimeRef (refs w) = startTime (screen w))
    by (unfold refsSynced in Hsync; rewrite Hsync; split_conj; reflexivity).
  destruct Hrefs as [HrefT [HrefId HrefStart]].
  assert (Ht : isTracking (screen w) = true).
  { rewrite <- HrefT. unfold pipelineState in Htracking.
    cbn [refs withService] in Htracking.
    destruct (isTrackingRef (refs w)); [reflexivity | discriminate]. }
  specialize (Hid Ht). destruct (Hstart Ht) as [start Hstarted].
  pose proof (Hpositive _ Hstarted) as Hpos.
  destruct (currentRunId (screen w)) as [runId |] eqn:Hrun;
    [| discriminate].
  assert (Hsaved := handleLocationUpdate_snapshot userLocation now
                      (withService sv w) runId).
  cbn [refs withService screen storage] in Hsaved.
  rewrite HrefId, HrefStart, Hstarted in Hsaved.
  specialize (Hsaved eq_refl Hid (truthyZ_pos _ Hpos) Hchanged).
  split.
  - rewrite Hsaved.
    unfold StorageService.saveCurrentTrackingData,
      StorageService.getCurrentTrackingData.
    destruct (StorageService.backend (storage w));
      cbn [StorageService.backend StorageService.currentTracking option_map
           storedRoute];
      eexists; (split; [reflexivity |]); split_conj; reflexivity.
  - intros Hbackend now' taskRegistered.
    unfold step. cbv beta iota delta [handle]. rewrite screen_commit.
    unfold relaunch. rewrite storage_commit, Hsaved.
    unfold StorageService.saveCurrentTrackingData. rewrite Hbackend.
    cbn [StorageService.backend].
    unfold loadExistingTrackingData, StorageService.getCurrentTrackingData.
    cbn [storage screen StorageService.backend
         StorageService.currentTracking option_map].
    unfold StorageService.readRecord, StorageService.writeRecord.
    cbn [TrackingData.id TrackingData.startTime TrackingData.route
         TrackingData.isTracking TrackingData.isPaused
         TrackingData.currentSegmentIndex TrackingData.totalPausedTime
         TrackingData.pauseStartTime TrackingData.currentSegmentStartTime
         TrackingData.elapsedTime].
    split_conj; reflexivity.
Qed.

Lemma foreground_snapshot_resets_counters_witness :
  let w := run StorageService.Watermelon trackingTrace in
  let w1 := step w (Position (fixAt 9000) 9000) in
  let w2 := step w1 (Relaunch 9500 false) in
  sessionState (screen w2) = Paused
  /\ elapsedTime (screen w2) = 0
  /\ totalPausedTime (screen w2) = 0
  /\ route (screen w2)
     = map StorageService.writeRouteRow (route (screen w1)).
Proof.
  cbv zeta.
  assert (Hchanged :
            route (screen (step (run StorageService.Watermelon trackingTrace)
                             (Position (fixAt 9000) 9000)))
            <> route (screen (run StorageService.Watermelon trackingTrace)))
    by (vm_compute; discriminate).
  destruct (foreground_snapshot_resets_counters StorageService.Watermelon
              trackingTrace (fixAt 9000) 9000 eq_refl Hchanged)
    as [_ Hrelaunch].
  apply Hrelaunch. reflexivity.
Defined.

(* ------------------------------------------------------------------ *)
(** ** The session as a state machine *)

Lemma handleStartRun_sessionState p now w :
  handleStartRun p now w = w
  \/ sessionState (screen (handleStartRun p now w)) = Idle
  \/ sessionState (screen (handleStartRun p now w)) = Tracking.
Proof.
  unfold handleStartRun. break_if; [left; reflexivity | right].
  break_let. break_if; [left | right]; reflexivity.
Qed.

Lemma handlePauseResume_sessionState p now w :
  isTracking (screen (handlePauseResume p now w)) = isTracking (screen w)
  /\ (if isPaused (screen w)
      then handlePauseResume p now w = w
           \/ (gpsAvailable (gpsStatus (screen w)) = true
               /\ isPaused (screen (handlePauseResume p now w)) = false)
      else isPaused (screen (handlePauseResume p now w)) = true).
Proof.
  split; [apply handlePauseResume_identity |].
  unfold handlePauseResume, gpsAvailable. cbv zeta.
  destruct (isPaused (screen w)).
  - destruct (GPSStatus.servicesEnabled (gpsStatus (screen w)));
      destruct (isGranted (GPSStatus.permission (gpsStatus (screen w))));
      cbn [negb orb andb]; try (left; reflexivity).
    right. split; [reflexivity |]. break_let. reflexivity.
  - destruct (Js.truthyZ (currentSegmentStartTime (screen w)));
      [destruct (currentSegmentStartTime (screen w)) |]; reflexivity.
Qed.

Lemma handleGpsLost_sessionState p now w :
  sessionState (screen (handleGpsLost p now w))
  = match sessionState (screen w) with
    | Tracking => Paused
    | state => state
    end.
Proof.
  unfold handleGpsLost, sessionState.
  destruct (handlePauseResume_sessionState p now w) as [Ht Hp].
  destruct (isTracking (screen w)) eqn:Htracking;
    destruct (isPaused (screen w)) eqn:Hpaused;
    cbn [negb andb withScreen screen set_showGpsDisabledMessage
         isTracking isPaused];
    rewrite ?Htracking, ?Hpaused; try reflexivity.
  rewrite Ht, Hp. reflexivity.
Qed.

Lemma checkGPSStatus_sessionState p now current w :
  sessionState (screen (checkGPSStatus p now current w))
  = if gpsAvailable (gpsStatus (screen w))
       && negb (Platform.servicesEnabled p && Platform.foregroundPermission p)
    then match sessionState (screen w) with
         | Tracking => Paused
         | state => state
         end
    else sessionState (screen w).
Proof.
  pose proof (handleGpsLost_sessionState p now w) as Hlost.
  unfold checkGPSStatus. cbv zeta.
  match goal with
  | |- sessionState (screen (withScreen ?s ?w1)) = _ =>
      assert (Hs : sessionState s = sessionState (screen w1))
  end.
  { repeat break_if; destruct current; reflexivity. }
  cbn [screen withScreen]. rewrite Hs.
  destruct (gpsAvailable (gpsStatus (screen w)));
    destruct (Platform.servicesEnabled p && Platform.foregroundPermission p);
    cbn [negb andb]; try reflexivity.
  exact Hlost.
Qed.

Lemma relaunch_sessionState now taskRegistered w :
  sessionState (screen (relaunch now taskRegistered w)) = Idle
  \/ sessionState (screen (relaunch now taskRegistered w)) = Paused.
Proof.
  unfold relaunch, loadExistingTrackingData.
  destruct (StorageService.getCurrentTrackingData _) as [d |];
    [| left; reflexivity].
  break_if; [right | left]; reflexivity.
Qed.

Lemma handleLocationUpdate_sessionState location now w :
  sessionState (screen (handleLocationUpdate location now w))
  = sessionState (screen w).
Proof.
  unfold handleLocationUpdate. cbv zeta. repeat break_if; reflexivity.
Qed.

(** The events that are neither a button nor a GPS check nor a relaunch
    leave the session state alone. *)
Lemma passive_step_sessionState w e :
  match e with
  | ElapsedTick _ | SaveTick | Position _ _ | BackgroundLocations _ _
  | PollGPS _ _ | GpsMonitorTick _ | ReviewDone =>
      sessionState (screen (step w e)) = sessionState (screen w)
  | _ => True
  end.
Proof.
  destruct e; try exact I; unfold step; rewrite screen_commit;
    cbv beta iota delta [handle].
  - unfold elapsedTimeTick. break_if; [| reflexivity].
    destruct (startTime (screen w)); reflexivity.
  - unfold periodicSave. cbv zeta. break_if; [| reflexivity].
    destruct (currentRunId (screen w)); reflexivity.
  - unfold deliverPosition. break_if; [| reflexivity].
    break_let. destruct o; [| reflexivity].
    rewrite handleLocationUpdate_sessionState. reflexivity.
  - unfold runBackgroundTask. cbv zeta. break_if; [| reflexivity].
    break_let. reflexivity.
  - destruct (pollGPSStatus_session p current w)
      as [s' [-> [Ht [Hp _]]]].
    unfold sessionState. cbn [screen withScreen]. rewrite Ht, Hp.
    reflexivity.
  - destruct (gpsMonitorTick_session p w) as [s' [-> [Ht [Hp _]]]].
    unfold sessionState. cbn [screen withScreen]. rewrite Ht, Hp.
    reflexivity.
  - reflexivity.
Qed.

Lemma offered_resume s :
  offered ResumeButton s = true ->
  sessionState s = Paused /\ gpsAvailable (gpsStatus s) = true.
Proof.
  unfold offered, TrackingControls, sessionState, gpsAvailable.
  destruct (gpsStatus s) as [permission servicesEnabled canAskAgain].
  destruct (isTracking s), (isPaused s), permission, servicesEnabled;
    cbn; intros H; try discriminate; split; reflexivity.
Qed.

Lemma offered_pause s :
  offered PauseButton s = true ->
  sessionState s = Tracking /\ gpsAvailable (gpsStatus s) = true.
Proof.
  unfold offered, TrackingControls, sessionState, gpsAvailable.
  destruct (gpsStatus s) as [permission servicesEnabled canAskAgain].
  destruct (isTracking s), (isPaused s), permission, servicesEnabled;
    cbn; intros H; try discriminate; split; reflexivity.
Qed.

Lemma offered_stop s :
  offered StopButton s = true -> sessionState s = Tracking.
Proof.
  unfold offered, TrackingControls, sessionState.
  destruct (gpsStatus s) as [permission servicesEnabled canAskAgain].
  destruct (isTracking s), (isPaused s), permission, servicesEnabled;
    cbn; intros H; try discriminate; reflexivity.
Qed.

Lemma offered_cancel s :
  offered CancelButton s = true -> sessionState s = Paused.
Proof.
  unfold offered, TrackingControls, sessionState.
  destruct (gpsStatus s) as [permission servicesEnabled canAskAgain].
  destruct (isTracking s), (isPaused s), permission, servicesEnabled;
    cbn; intros H; try discriminate; reflexivity.
Qed.

Lemma offered_start s :
  offered StartButton s = true ->
  sessionState s = Idle /\ gpsAvailable (gpsStatus s) = true.
Proof.
  unfold offered, TrackingControls, sessionState, gpsAvailable.
  destruct (gpsStatus s) as [permission servicesEnabled canAskAgain].
  destruct (isTracking s), (isPaused s), permission, servicesEnabled;
    cbn; intros H; try discriminate; split; reflexivity.
Qed.

(** What one event can do to the session state, whatever the world. *)
Lemma step_sessionState w e :
  let before := sessionState (screen w) in
  let after := sessionState (screen (step w e)) in
  match e with
  | PressStart _ _ =>
      after = before
      \/ (before = Idle /\ gpsAvailable (gpsStatus (screen w)) = true
          /\ after = Tracking)
  | PressPause _ _ =>
      after = before
      \/ (before = Tracking /\ gpsAvailable (gpsStatus (screen w)) = true
          /\ after = Paused)
  | PressResume _ _ =>
      after = before
      \/ (before = Paused /\ gpsAvailable (gpsStatus (screen w)) = true
          /\ after = Tracking)
  | PressStop _ => after = before \/ (before = Tracking /\ after = Paused)
  | ConfirmCancel => after = before \/ (before = Paused /\ after = Idle)
  | CheckGPS p _ _ =>
      after = before
      \/ (before = Tracking /\ gpsAvailable (gpsStatus (screen w)) = true
          /\ Platform.servicesEnabled p && Platform.foregroundPermission p
             = false
          /\ after = Paused)
  | Relaunch _ _ => after = Idle \/ after = Paused
  | _ => after = before
  end.
Proof.
  cbv zeta.
  pose proof (passive_step_sessionState w e) as Hpassive.
  destruct e; try exact Hpassive; clear Hpassive;
    unfold step; rewrite screen_commit; cbv beta iota delta [handle].
  - destruct (offered StartButton (screen w)) eqn:Hoffered;
      [| left; reflexivity].
    destruct (offered_start _ Hoffered) as [Hidle Hgps].
    destruct (handleStartRun_sessionState p now w) as [-> | [H | H]];
      [left; reflexivity | left; congruence | right; auto].
  - destruct (offered PauseButton (screen w)) eqn:Hoffered;
      [| left; reflexivity].
    destruct (offered_pause _ Hoffered) as [Hstate Hgps].
    apply sessionState_Tracking in Hstate. destruct Hstate as [Ht Hp].
    destruct (handlePauseResume_sessionState p now w) as [Ht' Hp'].
    rewrite Hp in Hp'. right.
    split; [apply sessionState_Tracking; auto |]. split; [assumption |].
    apply sessionState_Paused. split; congruence.
  - destruct (offered ResumeButton (screen w)) eqn:Hoffered;
      [| left; reflexivity].
    destruct (offered_resume _ Hoffered) as [Hstate Hgps].
    pose proof Hstate as Hstate'.
    apply sessionState_Paused in Hstate. destruct Hstate as [Ht Hp].
    destruct (handlePauseResume_sessionState p now w) as [Ht' Hp'].
    rewrite Hp in Hp'. destruct Hp' as [-> | [_ Hresumed]];
      [left; reflexivity | right].
    split; [assumption |]. split; [assumption |].
    apply sessionState_Tracking. split; congruence.
  - destruct (offered StopButton (screen w)) eqn:Hoffered;
      [| left; reflexivity].
    pose proof (offered_stop _ Hoffered) as Hstate. pose proof Hstate as Hs.
    apply sessionState_Tracking in Hstate. destruct Hstate as [Ht Hp].
    unfold handleStopAndReview. rewrite Hp. cbn [negb]. right.
    split; [assumption |]. unfold sessionState. cbn. rewrite Ht.
    reflexivity.
  - destruct (offered CancelButton (screen w)) eqn:Hoffered;
      [| left; reflexivity].
    right. split; [apply offered_cancel; assumption | reflexivity].
  - rewrite checkGPSStatus_sessionState.
    destruct (gpsAvailable (gpsStatus (screen w)));
      cbn [andb]; [| left; reflexivity].
    destruct (Platform.servicesEnabled p && Platform.foregroundPermission p);
      cbn [negb]; [left; reflexivity |].
    destruct (sessionState (screen w)); auto.
  - apply relaunch_sessionState.
Qed.

(** X14.  The session as a state machine.  Whatever the world, one event
    changes the session state only along these edges: Idle to Tracking by
    pressing Start with the GPS available; Tracking to Paused by pressing
    Pause or Stop, by a GPS check that finds the GPS lost, or by a
    relaunch; Paused to Tracking only by pressing Resume with the GPS
    available; Paused to Idle by confirming Cancel or by a relaunch;
    Idle to Paused and Tracking to Idle only by a relaunch.  In
    particular no timer, fix, background delivery or GPS poll changes the
    state, and nothing but the Resume button resumes a paused session. *)
Theorem session_state_machine (w : World) (e : Event) :
  match sessionState (screen w), sessionState (screen (step w e)) with
  | Idle, Idle | Tracking, Tracking | Paused, Paused => True
  | Idle, Tracking =>
      gpsAvailable (gpsStatus (screen w)) = true
      /\ exists p now, e = PressStart p now
  | Tracking, Paused =>
      (exists p now, e = PressPause p now)
      \/ (exists now, e = PressStop now)
      \/ (exists p now current,
             e = CheckGPS p now current
             /\ gpsAvailable (gpsStatus (screen w)) = true
             /\ Platform.servicesEnabled p && Platform.foregroundPermission p
                = false)
      \/ (exists now taskRegistered, e = Relaunch now taskRegistered)
  | Paused, Tracking =>
      gpsAvailable (gpsStatus (screen w)) = true
      /\ exists p now, e = PressResume p now
  | Paused, Idle =>
      e = ConfirmCancel
      \/ (exists now taskRegistered, e = Relaunch now taskRegistered)
  | Idle, Paused | Tracking, Idle =>
      exists now taskRegistered, e = Relaunch now taskRegistered
  end.
Proof.
  pose proof (step_sessionState w e) as Hstep. cbv zeta in Hstep.
  destruct (sessionState (screen w)) eqn:Hbefore;
    destruct (sessionState (screen (step w e))) eqn:Hafter;
    try exact I;
    destruct e;
    repeat match goal with
           | H : _ \/ _ |- _ => destruct H
           | H : _ /\ _ |- _ => destruct H
           end;
    try discriminate; eauto 10.
Qed.

(* ------------------------------------------------------------------ *)
(** ** The end of a run *)

Lemma stopped_world_ignores_fixes w :
  refsSynced w ->
  LocationService.currentLocationSubscription (service w) = false ->
  BackgroundTask.registered (LocationService.backgroundTask (service w))
  = false ->
  (forall location now, step w (Position location now) = w)
  /\ (forall input now, step w (BackgroundLocations input now) = w).
Proof.
  intros Hsync Hsub Hreg. split; intros; unfold step;
    cbv beta iota delta [handle].
  - unfold deliverPosition. rewrite Hsub. apply commit_idempotent.
    exact Hsync.
  - unfold runBackgroundTask. cbv zeta. rewrite Hreg, andb_false_r.
    apply commit_idempotent. exact Hsync.
Qed.

Lemma relaunch_without_snapshot now taskRegistered w :
  StorageService.currentTracking (storage w) = None ->
  screen (step w (Relaunch now taskRegistered)) = initialState.
Proof.
  intros Hnone. unfold step. rewrite screen_commit.
  cbv beta iota delta [handle]. unfold relaunch, loadExistingTrackingData,
    StorageService.getCurrentTrackingData.
  cbn [storage].
  destruct (StorageService.backend (storage w)) eqn:Hbackend;
    cbn [StorageService.backend StorageService.currentTracking];
    [reflexivity |].
  rewrite Hbackend, Hnone. reflexivity.
Qed.

(** X15.  The end of a run.  When the review screen is left (run saved or
    discarded), or Cancel is confirmed on the tracking screen, the
    snapshot is deleted and both watchers are stopped: from then on a
    position or a background delivery changes nothing at all, and a
    relaunch finds no session to recover.  Cancel also returns the session
    fields of the tracking screen to their idle values. *)
Theorem run_end_discards_snapshot (w : World) (e : Event) :
  e = ReviewDone
  \/ (e = ConfirmCancel /\ offered CancelButton (screen w) = true) ->
  let w' := step w e in
  StorageService.getCurrentTrackingData (storage w') = None
  /\ service w' = LocationService.stopRunTracking (service w)
  /\ (forall location now, step w' (Position location now) = w')
  /\ (forall input now, step w' (BackgroundLocations input now) = w')
  /\ (forall now taskRegistered,
        screen (step w' (Relaunch now taskRegistered)) = initialState)
  /\ (e = ConfirmCancel ->
      sessionState (screen w') = Idle
      /\ pipelineState (refs w') = Idle
      /\ route (screen w') = []
      /\ currentRunId (screen w') = None
      /\ startTime (screen w') = None
      /\ elapsedTime (screen w') = 0
      /\ totalPausedTime (screen w') = 0
      /\ pauseStartTime (screen w') = None).
Proof.
  intros He. cbv zeta.
  assert (Hworld :
            storage (step w e)
            = StorageService.clearCurrentTrackingData (storage w)
            /\ service (step w e)
               = LocationService.stopRunTracking (service w)).
  { destruct He as [-> | [-> Hoffered]]; unfold step;
      cbv beta iota delta [handle]; rewrite ?Hoffered; split; reflexivity. }
  destruct Hworld as [Hstorage Hservice].
  assert (Hignore := stopped_world_ignores_fixes (step w e)
                       (commit_synced _)).
  rewrite Hservice in Hignore. specialize (Hignore eq_refl eq_refl).
  destruct Hignore as [Hposition Hbackground].
  split_conj; try assumption.
  - rewrite Hstorage.
    unfold StorageService.getCurrentTrackingData,
      StorageService.clearCurrentTrackingData.
    cbn [StorageService.backend StorageService.currentTracking].
    destruct (StorageService.backend (storage w)); reflexivity.
  - intros now taskRegistered. apply relaunch_without_snapshot.
    rewrite Hstorage. reflexivity.
  - intros Heq. destruct He as [-> | [-> Hoffered]]; [discriminate |].
    unfold step. cbv beta iota delta [handle]. rewrite Hoffered.
    split_conj; reflexivity.
Qed.

Lemma run_end_discards_snapshot_witness :
  let w := run StorageService.Watermelon pausedTrace in
  let w' := step w ConfirmCancel in
  StorageService.getCurrentTrackingData (storage w') = None
  /\ forall now taskRegistered,
       screen (step w' (Relaunch now taskRegistered)) = initialState.
Proof.
  assert (Hoffered :
            offered CancelButton
              (screen (run StorageService.Watermelon pausedTrace)) = true)
    by reflexivity.
  pose proof (run_end_discards_snapshot
                (run StorageService.Watermelon pausedTrace) ConfirmCancel
                (or_intror (conj eq_refl Hoffered))) as H.
  cbv zeta in H. destruct H as [H1 [_ [_ [_ [H2 _]]]]].
  split; assumption.
Defined.

(* ------------------------------------------------------------------ *)
(** ** Start *)

Lemma startRunTracking_started p sv :
  Platform.foregroundPermission p = true ->
  Platform.servicesEnabled p = true ->
  Platform.watchPositionThrows p = false ->
  exists sv1,
    LocationService.startRunTracking p sv = (true, sv1)
    /\ LocationService.currentLocationSubscription sv1 = true.
Proof.
  destruct p as [fg bgp en ask rf rb wt st].
  destruct sv as [sub mon last errs active bg].
  cbn [Platform.foregroundPermission Platform.servicesEnabled
       Platform.watchPositionThrows].
  intros -> -> ->.
  unfold LocationService.startRunTracking,
    BackgroundTask.startBackgroundLocationTracking,
    LocationService.startLocationTracking,
    LocationService.stopLocationTracking,
    BackgroundTask.stopBackgroundLocationTracking,
    LocationService.withBackground.
  destruct bgp, st; cbn; eexists; split; reflexivity.
Qed.

(** X16.  Pressing Start.  If the permissions are missing and the request
    is refused, nothing changes.  If they are held or granted, the location
    services are on and the watcher starts, a new empty session is
    Tracking: run id [run_<now>], start time and segment start [now],
    segment 0, no route, no closed segment, zero counters, the foreground
    watcher and the GPS monitor running.  The session is persisted at once:
    the snapshot is Tracking with an empty route, so that with the database
    a relaunch before the first periodic save still recovers the run, as
    Paused. *)
Theorem start_outcomes (w : World) (p : Platform) (now : Z) :
  refsSynced w ->
  offered StartButton (screen w) = true ->
  let w1 := step w (PressStart p now) in
  (LocationService.hasRunTrackingPermissions p = false ->
   LocationService.requestRunTrackingPermissions p = false ->
   w1 = w)
  /\ (LocationService.hasRunTrackingPermissions p
      || LocationService.requestRunTrackingPermissions p = true ->
      Platform.servicesEnabled p = true ->
      Platform.watchPositionThrows p = false ->
      sessionState (screen w1) = Tracking
      /\ pipelineState (refs w1) = Tracking
      /\ currentRunId (screen w1) = Some (newRunId now)
      /\ startTime (screen w1) = Some now
      /\ currentSegmentStartTime (screen w1) = Some now
      /\ currentSegmentIndex (screen w1) = 0
      /\ route (screen w1) = []
      /\ segments (screen w1) = []
      /\ elapsedTime (screen w1) = 0
      /\ totalPausedTime (screen w1) = 0
      /\ pauseStartTime (screen w1) = None
      /\ LocationService.currentLocationSubscription (service w1) = true
      /\ LocationService.gpsMonitoringInterval (service w1) = true
      /\ snapshotState (storage w1) = Tracking
      /\ snapshotRoute (storage w1) = []
      /\ (StorageService.backend (storage w) = StorageService.Watermelon ->
          forall now' taskRegistered,
            let w2 := step w1 (Relaunch now' taskRegistered) in
            sessionState (screen w2) = Paused
            /\ currentRunId (screen w2) = Some (newRunId now)
            /\ startTime (screen w2) = Some now
            /\ pauseStartTime (screen w2) = Some now'
            /\ route (screen w2) = []
            /\ elapsedTime (screen w2) = 0)).
Proof.
  intros Hsync Hoffered. cbv zeta.
  assert (Hstep : step w (PressStart p now) = commit (handleStartRun p now w)).
  { unfold step. cbv beta iota delta [handle]. rewrite Hoffered.
    reflexivity. }
  rewrite Hstep. clear Hstep. split.
  - intros Hhas Hrequest. unfold handleStartRun. rewrite Hhas, Hrequest.
    cbn [negb andb]. apply commit_idempotent. exact Hsync.
  - intros Hgranted Henabled Hwatch.
    unfold handleStartRun. cbv zeta.
    assert (Hrefused :
              negb (LocationService.hasRunTrackingPermissions p)
              && negb (LocationService.requestRunTrackingPermissions p)
              = false).
    { destruct (LocationService.hasRunTrackingPermissions p),
        (LocationService.requestRunTrackingPermissions p);
        try reflexivity; discriminate. }
    rewrite Hrefused.
    set (p' := if LocationService.hasRunTrackingPermissions p
               then p else afterGrant p).
    assert (Hp' : Platform.foregroundPermission p' = true
                  /\ Platform.servicesEnabled p' = true
                  /\ Platform.watchPositionThrows p' = false).
    { subst p'. unfold LocationService.hasRunTrackingPermissions.
      destruct (Platform.foregroundPermission p) eqn:Hfg;
        destruct (Platform.backgroundPermission p);
        cbn [andb afterGrant Platform.foregroundPermission
             Platform.servicesEnabled Platform.watchPositionThrows];
        split_conj; try assumption; reflexivity. }
    destruct Hp' as [Hfg [Hen Hwt]].
    destruct (startRunTracking_started p' (service w) Hfg Hen Hwt)
      as [sv1 [Hstarted Hsub]].
    rewrite Hstarted. cbn [negb].
    unfold snapshotState, snapshotRoute,
      StorageService.getCurrentTrackingData,
      StorageService.saveCurrentTrackingData.
    rewrite !screen_commit, !storage_commit.
    cbn [storage service screen refs commit withRefs].
    split_conj; try reflexivity.
    + exact Hsub.
    + destruct (StorageService.backend (storage w)); reflexivity.
    + destruct (StorageService.backend (storage w)); reflexivity.
    + intros Hbackend now' taskRegistered. rewrite Hbackend.
      unfold step. cbv beta iota delta [handle]. rewrite screen_commit.
      unfold relaunch. cbn [storage StorageService.backend].
      unfold loadExistingTrackingData, StorageService.getCurrentTrackingData.
      cbn [storage StorageService.backend StorageService.currentTracking
           option_map].
      split_conj; reflexivity.
Qed.

Lemma start_outcomes_witness :
  let w := run StorageService.Watermelon idleTrace in
  let w1 := step w (PressStart platformOk 1000) in
  sessionState (screen w1) = Tracking
  /\ snapshotState (storage w1) = Tracking
  /\ forall now' taskRegistered,
       sessionState (screen (step w1 (Relaunch now' taskRegistered)))
       = Paused.
Proof.
  destruct (start_outcomes (run StorageService.Watermelon idleTrace)
              platformOk 1000 eq_refl eq_refl) as [_ H].
  specialize (H eq_refl eq_refl eq_refl).
  destruct H as [H1 [_ [_ [_ [_ [_ [_ [_ [_ [_ [_ [_ [_ [H2 [_ H3]]]]]]]]]]]]]]].
  split; [exact H1 |]. split; [exact H2 |].
  intros now' taskRegistered.
  destruct (H3 eq_refl now' taskRegistered) as [H4 _]. exact H4.
Defined.

(* ------------------------------------------------------------------ *)
(** ** The metrics of a stored route *)

Lemma legsFrom_rows prev rest :
  Metrics.legsFrom (StorageService.writeRouteRow prev)
    (map StorageService.writeRouteRow rest)
  = Metrics.legsFrom prev rest.
Proof.
  revert prev. induction rest as [| c rest IH]; intros prev;
    [reflexivity |].
  cbn [map Metrics.legsFrom]. rewrite IH. reflexivity.
Qed.

Lemma calculateTotalDistance_rows coordinates :
  Metrics.calculateTotalDistance
    (map StorageService.writeRouteRow coordinates)
  = Metrics.calculateTotalDistance coordinates.
Proof.
  destruct coordinates as [| c rest]; [reflexivity |].
  apply legsFrom_rows.
Qed.

Lemma truthyTimestamps_rows coordinates :
  Metrics.truthyTimestamps (map StorageService.writeRouteRow coordinates)
  = Metrics.truthyTimestamps coordinates.
Proof.
  induction coordinates as [| c rest IH]; [reflexivity |].
  cbn [map Metrics.truthyTimestamps StorageService.writeRouteRow
       RouteCoordinate.timestamp].
  rewrite IH. reflexivity.
Qed.

Lemma mapPush_rows k c m :
  Metrics.mapPush k (StorageService.writeRouteRow c)
    (map (fun entry => (fst entry,
                        map StorageService.writeRouteRow (snd entry))) m)
  = map (fun entry => (fst entry,
                       map StorageService.writeRouteRow (snd entry)))
        (Metrics.mapPush k c m).
Proof.
  induction m as [| [k' cs] m IH]; [reflexivity |].
  cbn [map Metrics.mapPush fst snd].
  destruct (k =? k').
  - cbn [map fst snd]. rewrite map_app. reflexivity.
  - cbn [map fst snd]. rewrite IH. reflexivity.
Qed.

Lemma buildSegmentMap_rows coordinates :
  Metrics.buildSegmentMap (map StorageService.writeRouteRow coordinates)
  = map (fun entry => (fst entry,
                       map StorageService.writeRouteRow (snd entry)))
        (Metrics.buildSegmentMap coordinates).
Proof.
  unfold Metrics.buildSegmentMap.
  change (@nil (Z * list RouteCoordinate))
    with (map (fun entry : Z * list RouteCoordinate =>
                 (fst entry, map StorageService.writeRouteRow (snd entry)))
              []) at 1.
  generalize (@nil (Z * list RouteCoordinate)).
  induction coordinates as [| c rest IH]; intros m; [reflexivity |].
  cbn [map fold_left]. rewrite coordKey_writeRouteRow, mapPush_rows.
  apply IH.
Qed.

Lemma makeSegment_rows entry :
  Metrics.makeSegment
    (fst entry, map StorageService.writeRouteRow (snd entry))
  = storedSegment (Metrics.makeSegment entry).
Proof.
  destruct entry as [k cs]. cbn [fst snd]. unfold Metrics.makeSegment.
  cbv zeta.
  rewrite truthyTimestamps_rows, calculateTotalDistance_rows.
  destruct (Metrics.truthyTimestamps cs); reflexivity.
Qed.

Lemma insertSegment_rows seg segs :
  Metrics.insertSegment (storedSegment seg) (map storedSegment segs)
  = map storedSegment (Metrics.insertSegment seg segs).
Proof.
  induction segs as [| s segs IH]; [reflexivity |].
  cbn [map Metrics.insertSegment storedSegment RouteSegment.segmentIndex].
  destruct (RouteSegment.segmentIndex seg <? RouteSegment.segmentIndex s).
  - reflexivity.
  - cbn [map]. f_equal. exact IH.
Qed.

Lemma sortSegments_rows segs :
  Metrics.sortSegments (map storedSegment segs)
  = map storedSegment (Metrics.sortSegments segs).
Proof.
  induction segs as [| s segs IH]; [reflexivity |].
  cbn [map Metrics.sortSegments fold_right].
  change (fold_right Metrics.insertSegment [] (map storedSegment segs))
    with (Metrics.sortSegments (map storedSegment segs)).
  rewrite IH. apply insertSegment_rows.
Qed.

Lemma coordinatesToSegments_rows coordinates :
  Metrics.coordinatesToSegments
    (map StorageService.writeRouteRow coordinates)
  = map storedSegment (Metrics.coordinatesToSegments coordinates).
Proof.
  unfold Metrics.coordinatesToSegments.
  rewrite buildSegmentMap_rows, map_map.
  rewrite (map_ext _ (fun entry => storedSegment (Metrics.makeSegment entry))
             makeSegment_rows).
  rewrite <- (map_map Metrics.makeSegment storedSegment).
  apply sortSegments_rows.
Qed.

Lemma distanceFromSegments_rows segs : forall total,
  fold_left
    (fun total seg =>
       total ++ Metrics.calculateTotalDistance (RouteSegment.coordinates seg))
    (map storedSegment segs) total
  = fold_left
      (fun total seg =>
         total
         ++ Metrics.calculateTotalDistance (RouteSegment.coordinates seg))
      segs total.
Proof.
  induction segs as [| s segs IH]; intros total; [reflexivity |].
  cbn [map fold_left storedSegment RouteSegment.coordinates].
  rewrite calculateTotalDistance_rows. apply IH.
Qed.

(** X17.  Storing a route in the database does not change what the
    metrics derive from it.  The segments derived from the stored rows are
    the segments derived from the route, each with its coordinates
    replaced by their rows: same indices in the same order, same distances,
    durations, start and end times; and the total distance over the
    segments is the same.  So a run recovered from the database shows the
    distance it showed before. *)
Theorem stored_route_keeps_metrics (coordinates : list RouteCoordinate) :
  let rows := map StorageService.writeRouteRow coordinates in
  let segs := Metrics.coordinatesToSegments coordinates in
  let segs' := Metrics.coordinatesToSegments rows in
  segs' = map storedSegment segs
  /\ Metrics.segmentIndices segs' = Metrics.segmentIndices segs
  /\ map RouteSegment.distance segs' = map RouteSegment.distance segs
  /\ map RouteSegment.duration segs' = map RouteSegment.duration segs
  /\ map RouteSegment.startTime segs' = map RouteSegment.startTime segs
  /\ map RouteSegment.endTime segs' = map RouteSegment.endTime segs
  /\ Metrics.calculateTotalDistanceFromSegments segs'
     = Metrics.calculateTotalDistanceFromSegments segs
  /\ Metrics.calculateTotalDistance rows
     = Metrics.calculateTotalDistance coordinates.
Proof.
  cbv zeta. rewrite coordinatesToSegments_rows.
  unfold Metrics.segmentIndices. rewrite !map_map.
  split_conj; try reflexivity.
  - apply distanceFromSegments_rows.
  - apply calculateTotalDistance_rows.
Qed.

(* ------------------------------------------------------------------ *)
(** ** The snapshot written by Resume *)

Lemma handlePauseResume_resume_storage p now w :
  isPaused (screen w) = true ->
  gpsAvailable (gpsStatus (screen w)) = true ->
  storage (handlePauseResume p now w)
  = pauseResumeSnapshot now (screen w) (storage w).
Proof.
  intros Hpaused Hgps. unfold gpsAvailable in Hgps.
  apply andb_true_iff in Hgps. destruct Hgps as [Hsvc Hperm].
  unfold handlePauseResume. rewrite Hpaused, Hsvc, Hperm. cbn [negb orb].
  cbv zeta. break_let. reflexivity.
Qed.

Lemma read_written_index idx route :
  0 <= idx -> coordinatesWithin idx route ->
  Js.orZ (Some (Js.orZ (Some idx) 0))
    (StorageService.maxSegmentIndex
       (map StorageService.writeRouteRow route))
  = idx.
Proof.
  intros Hpos Hall. rewrite orZ_Some, maxSegmentIndex_rows.
  pose proof (maxSegmentIndex_bounds idx route Hpos Hall) as Hmax.
  destruct idx; simpl; try reflexivity. lia.
Qed.

(** X18.  The snapshot written by Resume is one transition behind.  From
    any reachable state in which Resume is offered, pressing it opens the
    next segment and adds the pause just ended to the paused time, but the
    snapshot it persists is built from the values of the render the press
    belongs to: it is marked as tracking with the old segment index and the
    old paused time.  So if the process is killed before the next fix or
    periodic save, the session recovered from the database has the segment
    index and the paused time of before the pause. *)
Theorem resume_snapshot_lags_behind
  (backend : StorageService.Backend) (trace : list Event)
  (p : Platform) (now : Z) :
  validTrace trace = true ->
  let w := run backend trace in
  offered ResumeButton (screen w) = true ->
  let w1 := step w (PressResume p now) in
  (exists pauseStart,
      pauseStartTime (screen w) = Some pauseStart
      /\ totalPausedTime (screen w1)
         = totalPausedTime (screen w) + (now - pauseStart))
  /\ currentSegmentIndex (screen w1) = currentSegmentIndex (screen w) + 1
  /\ (exists d,
         StorageService.getCurrentTrackingData (storage w1) = Some d
         /\ TrackingData.isTracking d = true
         /\ TrackingData.isPaused d = false
         /\ TrackingData.currentSegmentIndex d
            = Some (currentSegmentIndex (screen w))
         /\ TrackingData.totalPausedTime d
            = Some (totalPausedTime (screen w))
         /\ TrackingData.route d
            = storedRoute (StorageService.backend (storage w))
                (route (screen w)))
  /\ (StorageService.backend (storage w) = StorageService.Watermelon ->
      forall now' taskRegistered,
        let w2 := step w1 (Relaunch now' taskRegistered) in
        sessionState (screen w2) = Paused
        /\ currentSegmentIndex (screen w2) = currentSegmentIndex (screen w)
        /\ totalPausedTime (screen w2) = totalPausedTime (screen w)).
Proof.
  cbv zeta. intros Hvalid Hoffered.
  pose proof (reachable_indexBounded backend trace) as [Hpos [Hroute _]].
  pose proof (reachable_identified backend trace) as [Hid _].
  pose proof (reachable_startStamped backend trace Hvalid)
    as [Hstart [Hpositive _]].
  pose proof (reachable_pauseStamped backend trace Hvalid) as Hstamped.
  set (w := run backend trace) in *.
  destruct (offered_resume _ Hoffered) as [Hstate Hgps].
  apply sessionState_Paused in Hstate. destruct Hstate as [Ht Hp].
  specialize (Hid Ht). destruct (Hstart Ht) as [start Hstarted].
  pose proof (Hpositive _ Hstarted) as Hstartpos.
  destruct (Hstamped Hp) as [pauseStart [Hpause Hpausepos]].
  assert (Hstep : step w (PressResume p now)
                  = commit (handlePauseResume p now w)).
  { unfold step. cbv beta iota delta [handle]. rewrite Hoffered.
    reflexivity. }
  rewrite Hstep. clear Hstep. rewrite !screen_commit, !storage_commit.
  pose proof (handlePauseResume_resume p now w pauseStart Hp Hpause
                Hpausepos Hgps) as Hlive.
  cbv zeta in Hlive. destruct Hlive as [Htotal [_ [Hindex _]]].
  destruct (currentRunId (screen w)) as [runId |] eqn:Hrun;
    [| discriminate].
  assert (Hstorage :
            storage (handlePauseResume p now w)
            = StorageService.saveCurrentTrackingData
                (TrackingData.mk runId (Some start) (route (screen w)) true
                   false (Some (currentSegmentIndex (screen w)))
                   (Some (totalPausedTime (screen w))) None
                   (currentSegmentStartTime (screen w))
                   (Some (elapsedTime (screen w))) None)
                (storage w)).
  { rewrite (handlePauseResume_resume_storage p now w Hp Hgps).
    unfold pauseResumeSnapshot.
    rewrite Hrun, Hid, Hstarted, (truthyZ_pos _ Hstartpos), Hp.
    reflexivity. }
  split; [exists pauseStart; split; assumption |].
  split; [exact Hindex |].
  split.
  - rewrite Hstorage.
    unfold StorageService.saveCurrentTrackingData,
      StorageService.getCurrentTrackingData.
    destruct (StorageService.backend (storage w));
      cbn [StorageService.backend StorageService.currentTracking option_map
           storedRoute].
    + eexists. split; [reflexivity |]. split_conj; reflexivity.
    + eexists. split; [reflexivity |].
      unfold StorageService.readRecord, StorageService.writeRecord.
      cbn [TrackingData.id TrackingData.startTime TrackingData.route
           TrackingData.isTracking TrackingData.isPaused
           TrackingData.currentSegmentIndex TrackingData.totalPausedTime
           TrackingData.pauseStartTime TrackingData.currentSegmentStartTime
           TrackingData.elapsedTime].
      rewrite (read_written_index _ _ Hpos Hroute), !orZ_Some.
      split_conj; reflexivity.
  - intros Hbackend now' taskRegistered.
    unfold step. cbv beta iota delta [handle]. rewrite screen_commit.
    unfold relaunch. rewrite storage_commit, Hstorage.
    unfold StorageService.saveCurrentTrackingData. rewrite Hbackend.
    cbn [StorageService.backend].
    unfold loadExistingTrackingData, StorageService.getCurrentTrackingData.
    cbn [storage screen StorageService.backend
         StorageService.currentTracking option_map].
    unfold StorageService.readRecord, StorageService.writeRecord.
    cbn [TrackingData.id TrackingData.startTime TrackingData.route
         TrackingData.isTracking TrackingData.isPaused
         TrackingData.currentSegmentIndex TrackingData.totalPausedTime
         TrackingData.pauseStartTime TrackingData.currentSegmentStartTime
         TrackingData.elapsedTime].
    rewrite (recovered_index _ _ Hpos Hroute), !orZ_Some.
    split_conj; reflexivity.
Qed.

Lemma resume_snapshot_lags_behind_witness :
  let w := run StorageService.Watermelon pausedTrace in
  let w1 := step w (PressResume platformOk 6000) in
  let w2 := step w1 (Relaunch 7000 false) in
  currentSegmentIndex (screen w1) = currentSegmentIndex (screen w) + 1
  /\ currentSegmentIndex (screen w2) = currentSegmentIndex (screen w)
  /\ totalPausedTime (screen w2) = totalPausedTime (screen w).
Proof.
  destruct (resume_snapshot_lags_behind StorageService.Watermelon
              pausedTrace platformOk 6000 eq_refl eq_refl)
    as [_ [H1 [_ H2]]].
  destruct (H2 eq_refl 7000 false) as [_ [H3 H4]].
  split; [exact H1 |]. split; [exact H3 | exact H4].
Defined.

(* ------------------------------------------------------------------ *)
(** ** Time accounting along a monotone clock *)

Lemma accounted_mono clock clock' start elapsed total :
  clock <= clock' ->
  accounted clock start elapsed total ->
  accounted clock' start elapsed total.
Proof.
  intros Hle [Ht [He Hb]]. unfold accounted. split_conj; try assumption.
  intros st Hst. specialize (Hb st Hst). lia.
Qed.

Lemma storageAccounted_mono clock clock' st :
  clock <= clock' -> storageAccounted clock st -> storageAccounted clock' st.
Proof.
  intros Hle Hst d Hd. eapply accounted_mono; [exact Hle | apply Hst, Hd].
Qed.

Lemma timeBounded_mono clock clock' w :
  clock <= clock' -> timeBounded clock w -> timeBounded clock' w.
Proof.
  intros Hle [Hs [Hp Hst]]. unfold timeBounded. split_conj.
  - eapply accounted_mono; eassumption.
  - intros Hpaused p Hpause. destruct (Hp Hpaused p Hpause) as [Hpc Hacc].
    split; [lia | exact Hacc].
  - eapply storageAccounted_mono; eassumption.
Qed.

Lemma accounted_started clock start elapsed total st :
  accounted clock start elapsed total -> start = Some st -> st <= clock.
Proof. intros [Ht [He Hb]] Hst. specialize (Hb st Hst). nia. Qed.

Lemma save_accounted clock data st :
  accounted clock (TrackingData.startTime data)
    (Js.orZ (TrackingData.elapsedTime data) 0)
    (Js.orZ (TrackingData.totalPausedTime data) 0) ->
  storageAccounted clock (StorageService.saveCurrentTrackingData data st).
Proof.
  intros Hacc d. unfold StorageService.saveCurrentTrackingData.
  destruct (StorageService.backend st); simpl; intros Heq;
    inversion Heq; subst.
  - assumption.
  - unfold StorageService.writeRecord.
    cbn [TrackingData.startTime TrackingData.elapsedTime
         TrackingData.totalPausedTime].
    rewrite !orZ_orZ. assumption.
Qed.

Lemma get_accounted clock st d :
  storageAccounted clock st ->
  StorageService.getCurrentTrackingData st = Some d ->
  accounted clock (TrackingData.startTime d)
    (Js.orZ (TrackingData.elapsedTime d) 0)
    (Js.orZ (TrackingData.totalPausedTime d) 0).
Proof.
  unfold StorageService.getCurrentTrackingData. intros Hst.
  destruct (StorageService.backend st).
  - apply Hst.
  - destruct (StorageService.currentTracking st) as [raw |] eqn:Hraw;
      simpl; [| discriminate].
    intros Heq. inversion Heq.
    unfold StorageService.readRecord.
    cbn [TrackingData.startTime TrackingData.elapsedTime
         TrackingData.totalPausedTime].
    rewrite !orZ_orZ. apply Hst. assumption.
Qed.

Lemma clear_accounted clock st :
  storageAccounted clock (StorageService.clearCurrentTrackingData st).
Proof. intros d Hd. discriminate. Qed.

Lemma pauseResumeSnapshot_accounted clock now s st :
  accounted clock (startTime s) (elapsedTime s) (totalPausedTime s) ->
  storageAccounted clock st ->
  storageAccounted clock (pauseResumeSnapshot now s st).
Proof.
  intros Hs Hst. unfold pauseResumeSnapshot.
  break_if; [| assumption].
  destruct (currentRunId s); [| assumption].
  apply save_accounted.
  cbn [TrackingData.startTime TrackingData.elapsedTime
       TrackingData.totalPausedTime].
  rewrite !orZ_Some. exact Hs.
Qed.

(** What [handlePauseResume] does to the fields of the accounting. *)
Lemma handlePauseResume_times p now w :
  let s := screen w in
  let s' := screen (handlePauseResume p now w) in
  startTime s' = startTime s
  /\ elapsedTime s' = elapsedTime s
  /\ (handlePauseResume p now w = w
      \/ (isPaused s = true /\ isPaused s' = false
          /\ ((exists pauseStart,
                  pauseStartTime s = Some pauseStart
                  /\ totalPausedTime s'
                     = totalPausedTime s + (now - pauseStart))
              \/ totalPausedTime s' = totalPausedTime s))
      \/ (isPaused s = false /\ isPaused s' = true
          /\ pauseStartTime s' = Some now
          /\ totalPausedTime s' = totalPausedTime s)).
Proof.
  cbv zeta. unfold handlePauseResume. cbv zeta.
  destruct (isPaused (screen w)) eqn:Hpaused.
  - break_if; [split_conj; try reflexivity; left; reflexivity |].
    break_let.
    destruct (Js.truthyZ (pauseStartTime (screen w))) eqn:Htruthy;
      [destruct (pauseStartTime (screen w)) as [pauseStart |] eqn:Hpause |];
      cbn; split_conj; try reflexivity; right; left;
      split_conj; try reflexivity.
    + left. exists pauseStart. split; reflexivity.
    + right. reflexivity.
    + right. reflexivity.
  - destruct (Js.truthyZ (currentSegmentStartTime (screen w)));
      [destruct (currentSegmentStartTime (screen w)) |];
      cbn; split_conj; try reflexivity; right; right;
      split_conj; reflexivity.
Qed.

Lemma handlePauseResume_timeBounded p clock now w :
  clock <= now -> timeBounded clock w ->
  timeBounded now (handlePauseResume p now w).
Proof.
  intros Hle Hinv.
  pose proof (timeBounded_mono clock now w Hle Hinv) as Hnow.
  destruct Hinv as [Hs [Hp Hst]].
  destruct (handlePauseResume_times p now w)
    as [Hstart [Helapsed [Hsame | [Hresume | Hpause]]]].
  - rewrite Hsame. exact Hnow.
  - destruct Hresume as [Hpaused [Hresumed Htotal]].
    unfold timeBounded. rewrite Hstart, Helapsed, Hresumed.
    split_conj.
    + destruct Htotal as [[pauseStart [Hpause Htotal]] | Htotal];
        rewrite Htotal.
      * destruct (Hp Hpaused pauseStart Hpause) as [Hpc [Ht [He Hb]]].
        unfold accounted. split_conj; try lia.
        intros st Hstarted. specialize (Hb st Hstarted). lia.
      * destruct Hnow as [Hacc _]. exact Hacc.
    + discriminate.
    + destruct (handlePauseResume_storage p now w) as [-> | ->].
      * destruct Hnow as [_ [_ Hstorage]]. exact Hstorage.
      * apply pauseResumeSnapshot_accounted.
        -- destruct Hnow as [Hacc _]. exact Hacc.
        -- destruct Hnow as [_ [_ Hstorage]]. exact Hstorage.
  - destruct Hpause as [Hrunning [Hpaused [Hpause Htotal]]].
    unfold timeBounded. rewrite Hstart, Helapsed, Htotal, Hpause.
    destruct Hnow as [Hacc [_ Hstorage]].
    split_conj.
    + exact Hacc.
    + intros _ p0 Hp0. injection Hp0 as <-. split; [lia | exact Hacc].
    + destruct (handlePauseResume_storage p now w) as [-> | ->];
        [exact Hstorage |].
      apply pauseResumeSnapshot_accounted; assumption.
Qed.

Lemma handleStartRun_timeBounded p clock now w :
  clock <= now -> timeBounded clock w ->
  timeBounded now (handleStartRun p now w).
Proof.
  intros Hle Hinv.
  pose proof (timeBounded_mono clock now w Hle Hinv) as Hnow.
  unfold handleStartRun.
  break_if; [assumption |]. break_let.
  break_if; unfold timeBounded, accounted; simpl.
  - split_conj; try lia; try discriminate.
  - split_conj; try lia; try discriminate;
      try (intros st Hst; injection Hst as <-; lia).
    apply save_accounted. unfold accounted. simpl.
    split_conj; try lia. intros st Hst. injection Hst as <-. lia.
Qed.

Lemma handleGpsLost_timeBounded p clock now w :
  clock <= now -> timeBounded clock w ->
  timeBounded now (handleGpsLost p now w).
Proof.
  intros Hle Hinv. unfold handleGpsLost. break_if.
  - apply (handlePauseResume_timeBounded p clock now w Hle) in Hinv.
    exact Hinv.
  - apply (timeBounded_mono clock now); assumption.
Qed.

Lemma checkGPSStatus_timeBounded p clock now current w :
  clock <= now -> timeBounded clock w ->
  timeBounded now (checkGPSStatus p now current w).
Proof.
  intros Hle Hinv. unfold checkGPSStatus. cbv zeta.
  match goal with
  | |- timeBounded _ (withScreen ?s ?w1) =>
      assert (Hw1 : timeBounded now w1);
      [| assert (Hs : startTime s = startTime (screen w1)
                      /\ elapsedTime s = elapsedTime (screen w1)
                      /\ totalPausedTime s = totalPausedTime (screen w1)
                      /\ isPaused s = isPaused (screen w1)
                      /\ pauseStartTime s = pauseStartTime (screen w1))]
  end.
  - repeat break_if;
      [eapply handleGpsLost_timeBounded; eassumption
      | eapply timeBounded_mono; eassumption
      | eapply timeBounded_mono; eassumption].
  - repeat break_if; destruct current; split_conj; reflexivity.
  - destruct Hs as [Hs1 [Hs2 [Hs3 [Hs4 Hs5]]]].
    destruct Hw1 as [Ha [Hb Hc]].
    unfold timeBounded. cbn [screen storage withScreen].
    rewrite Hs1, Hs2, Hs3, Hs4, Hs5. split_conj; assumption.
Qed.

Lemma handleLocationUpdate_timeBounded location clock now w :
  refsSynced w -> timeBounded clock w ->
  timeBounded clock (handleLocationUpdate location now w).
Proof.
  intros Hsync [Hs [Hp Hst]].
  assert (Href : startTimeRef (refs w) = startTime (screen w)).
  { unfold refsSynced in Hsync. rewrite Hsync. reflexivity. }
  unfold handleLocationUpdate. cbv zeta. rewrite Href.
  break_if; [unfold timeBounded; split_conj; assumption |].
  break_if; [unfold timeBounded; simpl; split_conj; assumption |].
  break_if; [unfold timeBounded; split_conj; assumption |].
  unfold timeBounded. simpl. split_conj; try assumption.
  break_if; [| assumption].
  destruct (currentRunIdRef (refs w)); [| assumption].
  apply save_accounted. unfold accounted. simpl.
  split_conj; try lia.
  intros st Hstarted.
  pose proof (accounted_started _ _ _ _ _ Hs Hstarted). lia.
Qed.

Lemma task_accounted clock input now bg st :
  storageAccounted clock st ->
  storageAccounted clock (snd (BackgroundTask.task input now bg st)).
Proof.
  intros Hst. unfold BackgroundTask.task.
  destruct input as [| | locations]; try exact Hst.
  destruct locations as [| l ls]; [exact Hst |].
  destruct (StorageService.getCurrentTrackingData st) as [d |] eqn:Hget;
    [| exact Hst].
  break_if; [exact Hst |]. cbv zeta.
  repeat match goal with
         | |- context [match ?x with [] => _ | _ :: _ => _ end] =>
             destruct x; [exact Hst |]
         end.
  cbn [snd]. apply save_accounted.
  cbn [TrackingData.withRoute TrackingData.startTime
       TrackingData.elapsedTime TrackingData.totalPausedTime].
  eapply get_accounted; eassumption.
Qed.

Lemma elapsed_floor_bounds now st total :
  0 <= total -> total <= now - st ->
  0 <= Js.floorSeconds (now - st - total)
  /\ Js.floorSeconds (now - st - total) * 1000 + total <= now - st.
Proof.
  intros Ht Hb. unfold Js.floorSeconds. split.
  - apply Z.div_pos; lia.
  - pose proof (Z.mul_div_le (now - st - total) 1000 ltac:(lia)). lia.
Qed.

Lemma step_timeBounded clock w e :
  validEvent e = true -> refsSynced w ->
  match eventTime e with
  | Some now => clock <= now
  | None => True
  end ->
  timeBounded clock w ->
  timeBounded
    (match eventTime e with Some now => now | None => clock end)
    (step w e).
Proof.
  intros Hvalid Hsync Hclock Hinv. unfold step.
  assert (Hcommit :
            forall c w1, timeBounded c w1 -> timeBounded c (commit w1))
    by (intros c w1 H1; exact H1).
  apply Hcommit.
  destruct e; unfold validEvent in Hvalid; simpl in Hvalid;
    try apply Z.ltb_lt in Hvalid; cbn [eventTime] in Hclock |- *;
    cbv beta iota delta [handle].
  - break_if; [| eapply timeBounded_mono; eassumption].
    eapply handleStartRun_timeBounded; eassumption.
  - break_if; [| eapply timeBounded_mono; eassumption].
    eapply handlePauseResume_timeBounded; eassumption.
  - break_if; [| eapply timeBounded_mono; eassumption].
    eapply handlePauseResume_timeBounded; eassumption.
  - pose proof (timeBounded_mono clock now w Hclock Hinv) as Hnow.
    break_if; [| exact Hnow]. unfold handleStopAndReview.
    break_if; [| exact Hnow].
    destruct Hnow as [Hacc [_ Hst]].
    unfold timeBounded. simpl. split_conj; try assumption.
    intros _ p Hp. injection Hp as <-. split; [lia | exact Hacc].
  - break_if; [| exact Hinv].
    unfold handleQuitRun, stopTrackingAndCleanup, timeBounded, accounted.
    simpl. split_conj; try lia; try discriminate.
  - pose proof (timeBounded_mono clock now w Hclock Hinv) as Hnow.
    unfold elapsedTimeTick.
    destruct (isTracking (screen w) && negb (isPaused (screen w))
              && Js.truthyZ (startTime (screen w))) eqn:Hguard;
      [| destruct w; exact Hnow].
    destruct (startTime (screen w)) as [start |] eqn:Hstart;
      [| destruct w; exact Hnow].
    apply andb_true_iff in Hguard. destruct Hguard as [Hguard _].
    apply andb_true_iff in Hguard. destruct Hguard as [_ Hrunning].
    apply Bool.negb_true_iff in Hrunning.
    destruct Hnow as [[Ht [He Hb]] [_ Hst]].
    specialize (Hb start Hstart).
    destruct (elapsed_floor_bounds now start (totalPausedTime (screen w)))
      as [Hfloor Hsum]; [lia | nia |].
    unfold timeBounded, accounted. simpl. rewrite Hstart, Hrunning.
    split_conj; try assumption.
    + intros st Hst'. injection Hst' as <-. exact Hsum.
    + intros Habs. discriminate.
  - unfold periodicSave. cbv zeta. break_if; [| exact Hinv].
    destruct (currentRunId (screen w)); [| exact Hinv].
    destruct Hinv as [Ha [Hb Hc]].
    unfold timeBounded. cbn [screen storage withStorage].
    split_conj; try assumption.
    apply save_accounted.
    cbn [TrackingData.startTime TrackingData.elapsedTime
         TrackingData.totalPausedTime].
    rewrite !orZ_Some. exact Ha.
  - pose proof (timeBounded_mono clock now w Hclock Hinv) as Hnow.
    unfold deliverPosition. break_if; [| exact Hnow].
    break_let. destruct o as [userLocation |]; [| exact Hnow].
    apply handleLocationUpdate_timeBounded; [exact Hsync | exact Hnow].
  - pose proof (timeBounded_mono clock now w Hclock Hinv) as Hnow.
    unfold runBackgroundTask. cbv zeta. break_if; [| exact Hnow].
    destruct Hnow as [Ha [Hb Hc]].
    pose proof (task_accounted now input now
                  (LocationService.backgroundTask (service w))
                  (storage w) Hc) as Htask.
    break_let. unfold timeBounded. simpl in *.
    split_conj; assumption.
  - eapply checkGPSStatus_timeBounded; eassumption.
  - pose proof (timeBounded_mono clock now w Hclock Hinv) as Hnow.
    destruct Hnow as [_ [_ Hst]].
    unfold relaunch, loadExistingTrackingData.
    cbn [storage screen].
    assert (Hst' : storageAccounted now
              (match StorageService.backend (storage w) with
               | StorageService.Fallback =>
                   StorageService.mk StorageService.Fallback None
               | StorageService.Watermelon => storage w
               end)).
    { destruct (StorageService.backend (storage w)); [| exact Hst].
      intros d Hdd. discriminate. }
    assert (Hidle : accounted now None 0 0).
    { unfold accounted. split_conj; try lia. intros st Habs.
      discriminate. }
    destruct (StorageService.getCurrentTrackingData _) as [d |] eqn:Hget.
    + break_if.
      * pose proof (get_accounted _ _ _ Hst' Hget) as Hd.
        unfold timeBounded. simpl. split_conj; try assumption.
        intros _ p Hp. injection Hp as <-. split; [lia | exact Hd].
      * unfold timeBounded. simpl. split_conj; try assumption.
        intros Habs. discriminate.
    + unfold timeBounded. simpl. split_conj; try assumption.
      intros Habs. discriminate.
  - destruct (pollGPSStatus_session p current w)
      as [s' [-> [_ [Hp [Hs [Hps [_ [_ [_ [He Ht]]]]]]]]]].
    destruct Hinv as [Ha [Hb Hc]]. unfold timeBounded.
    cbn [screen storage withScreen]. rewrite Hp, Hs, Hps, He, Ht.
    split_conj; assumption.
  - destruct (gpsMonitorTick_session p w)
      as [s' [-> [_ [Hp [Hs [Hps [_ [_ [_ [He Ht]]]]]]]]]].
    destruct Hinv as [Ha [Hb Hc]]. unfold timeBounded.
    cbn [screen storage withScreen]. rewrite Hp, Hs, Hps, He, Ht.
    split_conj; assumption.
  - destruct Hinv as [Ha [Hb Hc]]. unfold reviewDone, timeBounded.
    simpl. split_conj; try assumption. apply clear_accounted.
Qed.

Lemma fold_step_timeBounded trace : forall clock w,
  validTrace trace = true -> monotoneFrom clock trace = true ->
  refsSynced w -> timeBounded clock w ->
  timeBounded (clockAfter clock trace) (fold_left step trace w).
Proof.
  induction trace as [| e trace IH]; intros clock w Hvalid Hmono Hsync Hinv.
  - exact Hinv.
  - unfold validTrace in Hvalid. cbn [forallb] in Hvalid.
    apply andb_true_iff in Hvalid. destruct Hvalid as [He Hvalid].
    cbn [monotoneFrom] in Hmono.
    unfold clockAfter. cbn [fold_left].
    pose proof (step_timeBounded clock w e He Hsync) as Hstep.
    destruct (eventTime e) as [now |].
    + apply andb_true_iff in Hmono. destruct Hmono as [Hle Hmono].
      apply Z.leb_le in Hle.
      apply IH; try assumption; [apply commit_synced | apply Hstep];
        assumption.
    + apply IH; try assumption; [apply commit_synced | apply Hstep];
        [exact I | assumption].
Qed.

(** X19.  Time accounting along a clock that does not go back.  In every
    state reached by a trace whose clock readings are positive and never
    decrease, the elapsed time and the paused time are not negative, the
    start time is not in the future, and the elapsed seconds plus the
    paused milliseconds do not exceed the time since the start, so the
    duration shown never counts paused time and never runs ahead of the
    clock; while the session is paused the same bound holds up to the
    moment of the pause.  The counters of the persisted snapshot obey the
    same bound. *)
Theorem elapsed_and_paused_within_wall_clock
  (backend : StorageService.Backend) (trace : list Event) :
  validTrace trace = true ->
  monotoneFrom 0 trace = true ->
  let w := run backend trace in
  let s := screen w in
  let clock := clockAfter 0 trace in
  0 <= totalPausedTime s
  /\ 0 <= elapsedTime s
  /\ (forall start, startTime s = Some start ->
        start <= clock
        /\ elapsedTime s * 1000 + totalPausedTime s <= clock - start
        /\ (isPaused s = true ->
            forall pauseStart, pauseStartTime s = Some pauseStart ->
              start <= pauseStart <= clock
              /\ elapsedTime s * 1000 + totalPausedTime s
                 <= pauseStart - start))
  /\ (forall d, StorageService.getCurrentTrackingData (storage w) = Some d ->
        0 <= Js.orZ (TrackingData.totalPausedTime d) 0
        /\ 0 <= Js.orZ (TrackingData.elapsedTime d) 0
        /\ forall start, TrackingData.startTime d = Some start ->
             Js.orZ (TrackingData.elapsedTime d) 0 * 1000
             + Js.orZ (TrackingData.totalPausedTime d) 0
             <= clock - start).
Proof.
  intros Hvalid Hmono. cbv zeta.
  assert (Hinv : timeBounded (clockAfter 0 trace) (run backend trace)).
  { unfold run. apply fold_step_timeBounded; try assumption.
    - reflexivity.
    - unfold timeBounded, accounted. simpl.
      split_conj; try lia; try discriminate. }
  destruct Hinv as [[Ht [He Hb]] [Hp Hst]].
  split; [exact Ht |]. split; [exact He |]. split.
  - intros start Hstart. specialize (Hb start Hstart).
    split; [nia |]. split; [exact Hb |].
    intros Hpaused pauseStart Hpause.
    destruct (Hp Hpaused pauseStart Hpause) as [Hpc [_ [_ Hpb]]].
    specialize (Hpb start Hstart). split; [nia | exact Hpb].
  - intros d Hget. exact (get_accounted _ _ _ Hst Hget).
Qed.

Lemma elapsed_and_paused_within_wall_clock_witness :
  let s := screen (run StorageService.Watermelon pausedTrace) in
  0 <= totalPausedTime s
  /\ 0 <= elapsedTime s
  /\ elapsedTime s * 1000 + totalPausedTime s <= 4000 - 1000.
Proof.
  destruct (elapsed_and_paused_within_wall_clock StorageService.Watermelon
              pausedTrace eq_refl eq_refl) as [H1 [H2 [H3 _]]].
  destruct (H3 1000 eq_refl) as [_ [H4 _]].
  split; [exact H1 |]. split; [exact H2 | exact H4].
Defined.

(* ------------------------------------------------------------------ *)
(** ** A saved run read back from the database *)

Lemma dataOf_snoc cs c :
  cs <> [] -> dataOf (cs ++ [c]) = addCoordinate c (dataOf cs).
Proof.
  destruct cs as [| first rest]; [congruence |]. intros _.
  unfold dataOf. cbn [app].
  change (first :: rest ++ [c]) with ((first :: rest) ++ [c]).
  rewrite fold_left_app. reflexivity.
Qed.

Lemma dataPush_mapPush k c m :
  Forall (fun entry => snd entry <> []) m ->
  dataPush k c (map (fun entry => (fst entry, dataOf (snd entry))) m)
  = map (fun entry => (fst entry, dataOf (snd entry)))
        (Metrics.mapPush k c m).
Proof.
  induction m as [| [k' cs] m IH]; intros Hne; [reflexivity |].
  inversion Hne as [| ? ? Hcs Hm]; subst. cbn [snd] in Hcs.
  cbn [map Metrics.mapPush dataPush fst snd].
  destruct (k =? k').
  - cbn [map fst snd]. rewrite dataOf_snoc by assumption. reflexivity.
  - cbn [map fst snd]. rewrite IH by assumption. reflexivity.
Qed.

Lemma mapPush_nonempty k c m :
  Forall (fun entry => snd entry <> []) m ->
  Forall (fun entry => snd entry <> []) (Metrics.mapPush k c m).
Proof.
  induction m as [| [k' cs] m IH]; intros Hne.
  - constructor; [discriminate | constructor].
  - inversion Hne as [| ? ? Hcs Hm]; subst. cbn [Metrics.mapPush].
    destruct (k =? k').
    + constructor; [| assumption]. cbn [snd].
      destruct cs; discriminate.
    + constructor; [assumption | apply IH; assumption].
Qed.

Lemma groupRows_buildSegmentMap route :
  groupRows route
  = map (fun entry => (fst entry, dataOf (snd entry)))
        (Metrics.buildSegmentMap route).
Proof.
  unfold groupRows, Metrics.buildSegmentMap.
  assert (Hgen : forall m,
    Forall (fun entry : Z * list RouteCoordinate => snd entry <> []) m ->
    fold_left (fun m0 coord => dataPush (Metrics.coordKey coord) coord m0)
      route (map (fun entry => (fst entry, dataOf (snd entry))) m)
    = map (fun entry => (fst entry, dataOf (snd entry)))
        (fold_left (fun m0 c => Metrics.mapPush (Metrics.coordKey c) c m0)
           route m)).
  { induction route as [| c route IH]; intros m Hne; [reflexivity |].
    cbn [fold_left]. rewrite dataPush_mapPush by assumption.
    apply IH. apply mapPush_nonempty. assumption. }
  apply (Hgen []). constructor.
Qed.

Lemma addCoordinate_stamped c segment ts :
  RouteCoordinate.timestamp c = Some ts -> ts <> 0 ->
  SegmentData.startTime segment <> 0 ->
  addCoordinate c segment
  = SegmentData.mk (SegmentData.coordinates segment ++ [c])
      (Z.min (SegmentData.startTime segment) ts)
      (Z.max (SegmentData.endTime segment) ts).
Proof.
  intros Hts Hnz Hstart. unfold addCoordinate. rewrite Hts. cbv zeta.
  assert (Htruthy : Js.truthyZ (Some ts) = true)
    by (destruct ts; [contradiction | |]; reflexivity).
  rewrite Htruthy.
  assert (Hz : (SegmentData.startTime segment =? 0) = false)
    by (apply Z.eqb_neq; assumption).
  rewrite Hz. cbn [orb]. f_equal.
  - destruct (Z.ltb_spec ts (SegmentData.startTime segment)); lia.
  - destruct (Z.gtb_spec ts (SegmentData.endTime segment)); lia.
Qed.

Lemma stamped_timestamp c :
  Js.truthyZ (RouteCoordinate.timestamp c) = true ->
  exists ts, RouteCoordinate.timestamp c = Some ts /\ ts <> 0.
Proof.
  destruct (RouteCoordinate.timestamp c) as [[| ts | ts] |];
    intros H; try discriminate; eexists; split; try reflexivity; lia.
Qed.

Lemma fold_addCoordinate_stamped cs : forall segment,
  stamped cs -> SegmentData.startTime segment <> 0 ->
  fold_left (fun segment coord => addCoordinate coord segment) cs segment
  = SegmentData.mk (SegmentData.coordinates segment ++ cs)
      (fold_left Z.min (Metrics.truthyTimestamps cs)
         (SegmentData.startTime segment))
      (fold_left Z.max (Metrics.truthyTimestamps cs)
         (SegmentData.endTime segment)).
Proof.
  induction cs as [| c cs IH]; intros segment Hall Hstart.
  - cbn. rewrite app_nil_r. destruct segment; reflexivity.
  - inversion Hall as [| ? ? Hc Hcs]; subst.
    destruct (stamped_timestamp c Hc) as [ts [Hts Hnz]].
    cbn [fold_left Metrics.truthyTimestamps]. rewrite Hts.
    assert (Hz : (ts =? 0) = false) by (apply Z.eqb_neq; assumption).
    rewrite Hz. cbn [fold_left].
    rewrite (addCoordinate_stamped c segment ts Hts Hnz Hstart).
    rewrite IH; [| assumption | cbn [SegmentData.startTime]; lia].
    cbn [SegmentData.coordinates SegmentData.startTime SegmentData.endTime].
    rewrite <- app_assoc. reflexivity.
Qed.

Lemma finishSegment_makeSegment k cs :
  cs <> [] -> stamped cs ->
  finishSegment (k, dataOf cs) = Metrics.makeSegment (k, cs).
Proof.
  destruct cs as [| first rest]; [congruence |]. intros _ Hall.
  inversion Hall as [| ? ? Hfirst Hrest]; subst.
  destruct (stamped_timestamp first Hfirst) as [ts [Hts Hnz]].
  unfold dataOf. cbn [fold_left].
  assert (Hnew : addCoordinate first (newSegmentData first)
                 = SegmentData.mk [first] ts ts).
  { rewrite (addCoordinate_stamped first (newSegmentData first) ts Hts Hnz).
    - unfold newSegmentData. rewrite Hts.
      cbn [SegmentData.coordinates SegmentData.startTime
           SegmentData.endTime app].
      assert (Hor : Js.orZ (Some ts) 0 = ts) by apply orZ_Some.
      rewrite Hor, Z.min_id, Z.max_id. reflexivity.
    - unfold newSegmentData. rewrite Hts. cbn [SegmentData.startTime].
      rewrite orZ_Some. exact Hnz. }
  rewrite Hnew.
  rewrite fold_addCoordinate_stamped;
    [| assumption | cbn [SegmentData.startTime]; exact Hnz].
  cbn [SegmentData.coordinates SegmentData.startTime SegmentData.endTime
       app].
  unfold finishSegment, Metrics.makeSegment. cbv zeta.
  cbn [SegmentData.coordinates SegmentData.startTime SegmentData.endTime
       Metrics.truthyTimestamps Metrics.calculateTotalDistance].
  rewrite Hts.
  assert (Hz : (ts =? 0) = false) by (apply Z.eqb_neq; assumption).
  rewrite Hz. reflexivity.
Qed.

Lemma stamped_filter f route : stamped route -> stamped (filter f route).
Proof.
  unfold stamped. rewrite !Forall_forall. intros Hall c Hc.
  apply filter_In in Hc. destruct Hc as [Hc _]. apply Hall. exact Hc.
Qed.


(** Regrouping the coordinates of the derived segments. *)















(** X20.  Two derivations of the segments agree.  [getRunById] rebuilds
    the segments of a saved run from its rows with its own two passes
    (group by segment index while tracking the least and greatest
    timestamp, then sum the legs and floor the duration).  On every route
    whose coordinates all carry a non-zero timestamp, as every recorded
    route does, it yields exactly the segments [coordinatesToSegments]
    derives. *)
Theorem getRunById_segments_agree (route : list RouteCoordinate) :
  stamped route ->
  rebuildSegments route = Metrics.coordinatesToSegments route.
Proof.
  intros Hall. unfold rebuildSegments, Metrics.coordinatesToSegments.
  rewrite groupRows_buildSegmentMap, map_map. f_equal.
  apply map_ext_in. intros [k cs] Hin. cbn [fst snd].
  apply buildSegmentMap_entry in Hin. destruct Hin as [-> Hne].
  apply finishSegment_makeSegment; [assumption |].
  apply stamped_filter. exact Hall.
Qed.

Lemma getRunById_segments_agree_witness :
  rebuildSegments [foregroundPoint 3000 1; foregroundPoint 1000 0;
                   foregroundPoint 2000 1]
  = Metrics.coordinatesToSegments
      [foregroundPoint 3000 1; foregroundPoint 1000 0;
       foregroundPoint 2000 1].
Proof.
  apply (getRunById_segments_agree
           [foregroundPoint 3000 1; foregroundPoint 1000 0;
            foregroundPoint 2000 1]).
  repeat constructor.
Defined.

Section DatabaseFacts.

Import Database.












End DatabaseFacts.



(* ------------------------------------------------------------------ *)
(** ** The saved runs of the fallback store *)

Section FallbackRunsFacts.

Import FallbackRuns.

Lemma hasId_true id run : hasId id run = true <-> SavedRun.id run = id.
Proof. unfold hasId. apply String.eqb_eq. Qed.

Lemma hasId_false id run : hasId id run = false <-> SavedRun.id run <> id.
Proof. unfold hasId. apply String.eqb_neq. Qed.

Lemma findIndex_None id runs :
  findIndex id runs = None <-> ~ In id (ids runs).
Proof.
  induction runs as [| r runs IH]; cbn [findIndex ids map].
  - split; [intros _ [] | reflexivity].
  - destruct (hasId id r) eqn:Hr.
    + apply hasId_true in Hr. split; [discriminate |].
      intros Hnotin. exfalso. apply Hnotin. left. exact Hr.
    + apply hasId_false in Hr.
      destruct (findIndex id runs) as [i |]; cbn [option_map].
      * split; [discriminate |]. intros Hnotin. exfalso.
        assert (Hin : In id (ids runs)).
        { destruct (in_dec string_dec id (ids runs)) as [Hin | Hout];
            [exact Hin |].
          apply IH in Hout. discriminate. }
        apply Hnotin. right. exact Hin.
      * split; [| reflexivity]. intros _ [Heq | Hin]; [contradiction |].
        apply IH in Hin; [exact Hin | reflexivity].
Qed.

Lemma getRunById_None id runs :
  getRunById id runs = None <-> ~ In id (ids runs).
Proof.
  unfold getRunById.
  induction runs as [| r runs IH]; cbn [find ids map].
  - split; [intros _ [] | reflexivity].
  - destruct (hasId id r) eqn:Hr.
    + apply hasId_true in Hr. split; [discriminate |].
      intros Hnotin. exfalso. apply Hnotin. left. exact Hr.
    + apply hasId_false in Hr. rewrite IH. unfold ids.
      split; [intros Hnotin [Heq | Hin]; contradiction |].
      intros Hnotin Hin. apply Hnotin. right. exact Hin.
Qed.

Lemma getRunById_id id runs run :
  getRunById id runs = Some run -> SavedRun.id run = id /\ In run runs.
Proof.
  unfold getRunById. intros Hfind. apply find_some in Hfind.
  destruct Hfind as [Hin Hid]. apply hasId_true in Hid.
  split; assumption.
Qed.

Lemma getRunById_app id runs more :
  getRunById id (runs ++ more)
  = match getRunById id runs with
    | Some run => Some run
    | None => getRunById id more
    end.
Proof.
  unfold getRunById. induction runs as [| r runs IH]; [reflexivity |].
  cbn [app find]. destruct (hasId id r); [reflexivity | exact IH].
Qed.

Lemma saveRun_cases run runs :
  forall id,
    getRunById id (saveRun run runs)
    = if String.eqb (SavedRun.id run) id then Some run
      else getRunById id runs.
Proof.
  unfold saveRun, getRunById.
  induction runs as [| r runs IH]; intros id.
  - cbn. unfold hasId. destruct (String.eqb (SavedRun.id run) id);
      reflexivity.
  - cbn [findIndex].
    destruct (hasId (SavedRun.id run) r) eqn:Hr.
    + apply hasId_true in Hr. cbn [assign find]. unfold hasId at 1 3.
      rewrite Hr. destruct (String.eqb (SavedRun.id run) id); reflexivity.
    + specialize (IH id).
      destruct (findIndex (SavedRun.id run) runs) as [i |];
        cbn [option_map assign app find] in *.
      * destruct (hasId id r) eqn:Hidr; [| exact IH].
        apply hasId_true in Hidr. apply hasId_false in Hr.
        destruct (String.eqb_spec (SavedRun.id run) id) as [Heq | Hne];
          [congruence | reflexivity].
      * destruct (hasId id r) eqn:Hidr; [| exact IH].
        apply hasId_true in Hidr. apply hasId_false in Hr.
        destruct (String.eqb_spec (SavedRun.id run) id) as [Heq | Hne];
          [congruence | reflexivity].
Qed.

Lemma saveRun_ids run runs :
  ids (saveRun run runs)
  = if existsb (String.eqb (SavedRun.id run)) (ids runs) then ids runs
    else ids runs ++ [SavedRun.id run].
Proof.
  unfold saveRun, ids.
  induction runs as [| r runs IH]; [reflexivity |].
  cbn [findIndex map existsb]. unfold hasId at 1.
  rewrite (String.eqb_sym (SavedRun.id run) (SavedRun.id r)).
  destruct (String.eqb_spec (SavedRun.id r) (SavedRun.id run))
    as [Heq | Hne]; cbn [orb].
  - cbn [assign map]. rewrite Heq. reflexivity.
  - destruct (findIndex (SavedRun.id run) runs) as [i |];
      cbn [option_map assign map app] in *.
    + rewrite IH.
      destruct (existsb (String.eqb (SavedRun.id run))
                  (map SavedRun.id runs)); reflexivity.
    + rewrite IH.
      destruct (existsb (String.eqb (SavedRun.id run))
                  (map SavedRun.id runs)); reflexivity.
Qed.

Lemma existsb_eqb_In id l :
  existsb (String.eqb id) l = true <-> In id l.
Proof.
  rewrite existsb_exists. split.
  - intros [x [Hin Heq]]. apply String.eqb_eq in Heq. subst. exact Hin.
  - intros Hin. exists id. split; [exact Hin | apply String.eqb_refl].
Qed.

(** X22.  The fallback store as a map from run ids to runs.  After
    [saveRun run], [getRunById] on the run's id returns that run, whether
    the id was new or already present (then the stored run is replaced in
    place), and the answer for every other id is unchanged.  The list of
    ids keeps its order, growing by the new id at the end only when it was
    absent; so ids stay distinct if they were. *)
Theorem saved_run_is_found (run : SavedRun.t) (runs : FallbackRuns.t) :
  getRunById (SavedRun.id run) (saveRun run runs) = Some run
  /\ (forall id, id <> SavedRun.id run ->
        getRunById id (saveRun run runs) = getRunById id runs)
  /\ ids (saveRun run runs)
     = (if existsb (String.eqb (SavedRun.id run)) (ids runs) then ids runs
        else ids runs ++ [SavedRun.id run])
  /\ (NoDup (ids runs) -> NoDup (ids (saveRun run runs))).
Proof.
  split_conj.
  - rewrite saveRun_cases, String.eqb_refl. reflexivity.
  - intros id Hne. rewrite saveRun_cases.
    destruct (String.eqb_spec (SavedRun.id run) id); congruence.
  - apply saveRun_ids.
  - intros Hnd. rewrite saveRun_ids.
    destruct (existsb (String.eqb (SavedRun.id run)) (ids runs)) eqn:Hex;
      [exact Hnd |].
    apply NoDup_app_remove_l with (l := []).
    cbn [app]. apply Permutation_NoDup with (l := SavedRun.id run :: ids runs).
    + apply Permutation_cons_append.
    + constructor; [| exact Hnd]. intros Hin.
      apply existsb_eqb_In in Hin. congruence.
Qed.

Lemma saved_run_is_found_witness :
  let run := SavedRun.mk "run_1000"%string 1000 [] 60 None [] [] in
  let newer := SavedRun.mk "run_1000"%string 1000 [] 90 (Some "Morning"%string) [] [] in
  NoDup (ids (saveRun newer (saveRun run []))).
Proof.
  cbv zeta.
  apply (saved_run_is_found
           (SavedRun.mk "run_1000"%string 1000 [] 90 (Some "Morning"%string) [] [])
           (saveRun (SavedRun.mk "run_1000"%string 1000 [] 60 None [] []) [])).
  repeat constructor. intros [].
Defined.

Lemma deleteRun_cases id runs :
  forall id',
    getRunById id' (deleteRun id runs)
    = if String.eqb id id' then None else getRunById id' runs.
Proof.
  unfold deleteRun, getRunById.
  induction runs as [| r runs IH]; intros id'.
  - cbn. destruct (String.eqb id id'); reflexivity.
  - cbn [filter find].
    destruct (hasId id r) eqn:Hr; cbn [negb find].
    + rewrite IH. apply hasId_true in Hr.
      destruct (String.eqb_spec id id') as [Heq | Hne]; [reflexivity |].
      assert (Hidr : hasId id' r = false)
        by (apply hasId_false; congruence).
      rewrite Hidr. reflexivity.
    + destruct (hasId id' r) eqn:Hidr.
      * apply hasId_true in Hidr. apply hasId_false in Hr.
        destruct (String.eqb_spec id id') as [Heq | Hne];
          [congruence | reflexivity].
      * apply IH.
Qed.

Lemma deleteRun_absent id runs :
  ~ In id (ids runs) -> deleteRun id runs = runs.
Proof.
  unfold deleteRun. induction runs as [| r runs IH]; intros Hnotin;
    [reflexivity |].
  cbn [filter].
  assert (Hr : hasId id r = false).
  { apply hasId_false. intros Heq. apply Hnotin. left. exact Heq. }
  rewrite Hr. cbn [negb]. f_equal. apply IH.
  intros Hin. apply Hnotin. right. exact Hin.
Qed.

(** X23.  Deleting a run from the fallback store.  After [deleteRun id]
    the id is not found any more, every other id gives what it gave
    before, the remaining runs keep their order and stay distinct if they
    were; deleting an id that is not stored changes nothing; and a run
    saved after its id was deleted is appended as a new one. *)
Theorem deleted_run_is_gone (id : string) (runs : FallbackRuns.t) :
  getRunById id (deleteRun id runs) = None
  /\ (forall id', id' <> id ->
        getRunById id' (deleteRun id runs) = getRunById id' runs)
  /\ ids (deleteRun id runs)
     = filter (fun id' => negb (String.eqb id' id)) (ids runs)
  /\ (NoDup (ids runs) -> NoDup (ids (deleteRun id runs)))
  /\ (getRunById id runs = None -> deleteRun id runs = runs)
  /\ (forall run, SavedRun.id run = id ->
        saveRun run (deleteRun id runs) = deleteRun id runs ++ [run]).
Proof.
  assert (Hids : ids (deleteRun id runs)
                 = filter (fun id' => negb (String.eqb id' id)) (ids runs)).
  { unfold deleteRun, ids. induction runs as [| r runs IH]; [reflexivity |].
    cbn [filter map]. unfold hasId at 1.
    destruct (String.eqb (SavedRun.id r) id); cbn [negb map];
      rewrite IH; reflexivity. }
  assert (Hgone : getRunById id (deleteRun id runs) = None)
    by (rewrite deleteRun_cases, String.eqb_refl; reflexivity).
  split_conj.
  - exact Hgone.
  - intros id' Hne. rewrite deleteRun_cases.
    destruct (String.eqb_spec id id'); congruence.
  - exact Hids.
  - intros Hnd. rewrite Hids. apply NoDup_filter. exact Hnd.
  - intros Hnone. apply getRunById_None in Hnone.
    apply deleteRun_absent. exact Hnone.
  - intros run Hrun. unfold saveRun. rewrite Hrun.
    apply getRunById_None in Hgone. apply findIndex_None in Hgone.
    rewrite Hgone. reflexivity.
Qed.

Lemma deleted_run_is_gone_witness :
  let run := SavedRun.mk "run_1000"%string 1000 [] 60 None [] [] in
  let other := SavedRun.mk "run_2000"%string 2000 [] 90 None [] [] in
  deleteRun "run_3000"%string [run; other] = [run; other]
  /\ NoDup (ids (deleteRun "run_1000"%string [run; other])).
Proof.
  cbv zeta.
  destruct (deleted_run_is_gone "run_3000"%string
              [SavedRun.mk "run_1000"%string 1000 [] 60 None [] [];
               SavedRun.mk "run_2000"%string 2000 [] 90 None [] []])
    as [_ [_ [_ [_ [H1 _]]]]].
  destruct (deleted_run_is_gone "run_1000"%string
              [SavedRun.mk "run_1000"%string 1000 [] 60 None [] [];
               SavedRun.mk "run_2000"%string 2000 [] 90 None [] []])
    as [_ [_ [_ [H2 _]]]].
  split.
  - apply H1. reflexivity.
  - apply H2. repeat constructor; cbn; intuition discriminate.
Defined.

Lemma find_filter (A : Type) (p q : A -> bool) (l : list A) :
  (forall x, p x = true -> q x = true) ->
  find p (filter q l) = find p l.
Proof.
  intros Himp. induction l as [| x l IH]; [reflexivity |].
  cbn [filter find]. destruct (p x) eqn:Hp.
  - rewrite (Himp x Hp). cbn [find]. rewrite Hp. reflexivity.
  - destruct (q x); [cbn [find]; rewrite Hp |]; exact IH.
Qed.

Lemma importRuns_added imported runs :
  importRuns imported runs
  = runs ++ filter (fun r => negb (existsb (String.eqb (SavedRun.id r))
                                     (ids runs))) imported.
Proof.
  unfold importRuns. destruct imported; [| reflexivity].
  cbn [filter]. rewrite app_nil_r. reflexivity.
Qed.

Lemma ids_app runs more : ids (runs ++ more) = ids runs ++ ids more.
Proof. unfold ids. apply map_app. Qed.

(** X24.  Importing runs into the fallback store never overwrites.  A run
    that was stored is still returned for its id after the import; an id
    that was not stored gives the first run of the batch that carries it;
    the stored runs stay in front, in their order; distinct ids stay
    distinct when the batch itself has distinct ids; and importing the
    same batch again changes nothing. *)
Theorem import_keeps_existing_runs (imported runs : FallbackRuns.t) :
  (forall id run, getRunById id runs = Some run ->
     getRunById id (importRuns imported runs) = Some run)
  /\ (forall id, getRunById id runs = None ->
        getRunById id (importRuns imported runs) = getRunById id imported)
  /\ firstn (List.length runs) (importRuns imported runs) = runs
  /\ (NoDup (ids runs) -> NoDup (ids imported) ->
      NoDup (ids (importRuns imported runs)))
  /\ importRuns imported (importRuns imported runs)
     = importRuns imported runs.
Proof.
  rewrite !importRuns_added. split_conj.
  - intros id run Hfound. rewrite getRunById_app, Hfound. reflexivity.
  - intros id Hnone. rewrite getRunById_app, Hnone.
    unfold getRunById. apply find_filter. intros r Hr.
    apply hasId_true in Hr. apply getRunById_None in Hnone.
    apply Bool.negb_true_iff.
    destruct (existsb (String.eqb (SavedRun.id r)) (ids runs)) eqn:Hex;
      [| reflexivity].
    apply existsb_eqb_In in Hex. congruence.
  - rewrite firstn_app, Nat.sub_diag, firstn_all. cbn [firstn].
    apply app_nil_r.
  - intros Hruns Himported. rewrite ids_app.
    apply NoDup_app.
    + exact Hruns.
    + unfold ids.
      assert (Hsub : forall l,
                NoDup (map SavedRun.id l) ->
                NoDup (map SavedRun.id
                         (filter (fun r =>
                                    negb (existsb
                                            (String.eqb (SavedRun.id r))
                                            (map SavedRun.id runs))) l))).
      { induction l as [| r l IH]; intros Hnd; [constructor |].
        cbn [map] in Hnd. inversion Hnd as [| ? ? Hnotin Hnd']; subst.
        cbn [filter].
        destruct (negb (existsb (String.eqb (SavedRun.id r))
                          (map SavedRun.id runs)));
          [| apply IH; assumption].
        cbn [map]. constructor; [| apply IH; assumption].
        intros Hin. apply Hnotin. apply in_map_iff in Hin.
        destruct Hin as [x [Hx Hin]]. apply filter_In in Hin.
        destruct Hin as [Hin _]. apply in_map_iff. exists x.
        split; assumption. }
      apply Hsub. exact Himported.
    + intros id Hin Hin'. unfold ids in Hin'. apply in_map_iff in Hin'.
      destruct Hin' as [r [Hr Hfiltered]]. apply filter_In in Hfiltered.
      destruct Hfiltered as [_ Hnew]. apply Bool.negb_true_iff in Hnew.
      assert (Hex : existsb (String.eqb (SavedRun.id r)) (ids runs) = true)
        by (apply existsb_eqb_In; rewrite Hr; exact Hin).
      unfold ids in Hex. congruence.
  - rewrite ids_app.
    assert (Hgen : forall l,
              incl l imported ->
              filter (fun r =>
                        negb (existsb (String.eqb (SavedRun.id r))
                                (ids runs
                                 ++ ids (filter
                                           (fun r0 =>
                                              negb (existsb
                                                      (String.eqb
                                                         (SavedRun.id r0))
                                                      (ids runs)))
                                           imported)))) l = []).
    { induction l as [| r l IH]; intros Hincl; [reflexivity |].
      cbn [filter].
      assert (Hex : existsb (String.eqb (SavedRun.id r))
                      (ids runs
                       ++ ids (filter
                                 (fun r0 =>
                                    negb (existsb
                                            (String.eqb (SavedRun.id r0))
                                            (ids runs)))
                                 imported)) = true).
      { apply existsb_eqb_In. apply in_or_app.
        destruct (existsb (String.eqb (SavedRun.id r)) (ids runs))
          eqn:Hold.
        - left. apply existsb_eqb_In. exact Hold.
        - right. unfold ids at 1. apply in_map. apply filter_In.
          split; [apply Hincl; left; reflexivity |].
          rewrite Hold. reflexivity. }
      rewrite Hex. cbn [negb]. apply IH.
      intros x Hx. apply Hincl. right. exact Hx. }
    rewrite (Hgen imported (incl_refl _)). apply app_nil_r.
Qed.

Lemma import_keeps_existing_runs_witness :
  let stored := SavedRun.mk "run_1000"%string 1000 [] 60 None [] [] in
  let clash :=
    SavedRun.mk "run_1000"%string 5000 [] 10 None [] [] in
  let fresh := SavedRun.mk "run_2000"%string 2000 [] 90 None [] [] in
  getRunById "run_1000"%string (importRuns [clash; fresh] [stored])
  = Some stored
  /\ NoDup (ids (importRuns [fresh] [stored])).
Proof.
  cbv zeta.
  destruct (import_keeps_existing_runs
              [SavedRun.mk "run_1000"%string 5000 [] 10 None [] [];
               SavedRun.mk "run_2000"%string 2000 [] 90 None [] []]
              [SavedRun.mk "run_1000"%string 1000 [] 60 None [] []])
    as [H1 _].
  destruct (import_keeps_existing_runs
              [SavedRun.mk "run_2000"%string 2000 [] 90 None [] []]
              [SavedRun.mk "run_1000"%string 1000 [] 60 None [] []])
    as [_ [_ [_ [H2 _]]]].
  split.
  - apply H1. reflexivity.
  - apply H2; repeat constructor; intros [].
Defined.

Lemma insertByDate_perm run sorted :
  Permutation (insertByDate run sorted) (run :: sorted).
Proof.
  induction sorted as [| r rest IH]; cbn [insertByDate].
  - apply Permutation_refl.
  - destruct (SavedRun.date r <=? SavedRun.date run).
    + apply Permutation_refl.
    + eapply Permutation_trans; [apply perm_skip, IH | apply perm_swap].
Qed.

Lemma sortByDate_perm runs : Permutation (sortByDate runs) runs.
Proof.
  induction runs as [| r runs IH]; [apply Permutation_refl |].
  cbn [sortByDate fold_right].
  eapply Permutation_trans; [apply insertByDate_perm |].
  apply perm_skip. exact IH.
Qed.

Lemma insertByDate_sorted run sorted :
  StronglySorted (fun a b => SavedRun.date b <= SavedRun.date a) sorted ->
  StronglySorted (fun a b => SavedRun.date b <= SavedRun.date a)
    (insertByDate run sorted).
Proof.
  induction sorted as [| r rest IH]; cbn [insertByDate]; intros Hs.
  - constructor; constructor.
  - inversion Hs as [| ? ? Hs' Hall]; subst.
    destruct (Z.leb_spec (SavedRun.date r) (SavedRun.date run))
      as [Hle | Hgt].
    + constructor; [assumption |].
      constructor; [exact Hle |].
      eapply Forall_impl; [| exact Hall]. cbn beta. intros x Hx. lia.
    + constructor; [apply IH; assumption |].
      apply Forall_forall. intros x Hx.
      apply (Permutation_in _ (insertByDate_perm run rest)) in Hx.
      destruct Hx as [<- | Hx]; [lia |].
      rewrite Forall_forall in Hall. apply Hall. exact Hx.
Qed.

Lemma sortByDate_sorted runs :
  StronglySorted (fun a b => SavedRun.date b <= SavedRun.date a)
    (sortByDate runs).
Proof.
  induction runs as [| r runs IH]; [constructor |].
  cbn [sortByDate fold_right]. apply insertByDate_sorted. exact IH.
Qed.

Lemma StronglySorted_map (A B : Type) (f : A -> B)
  (R : B -> B -> Prop) (l : list A) :
  StronglySorted (fun a b => R (f a) (f b)) l ->
  StronglySorted R (map f l).
Proof.
  induction 1 as [| a l Hs IH Hall]; cbn [map]; constructor;
    [exact IH |].
  apply Forall_map. exact Hall.
Qed.

(** X25.  The run list of the history screen, from the fallback store.
    [getAllRuns] returns one summary per stored run, newest first: the
    summaries are the stored runs without their routes and segments,
    rearranged in descending order of date. *)
Theorem run_summaries_newest_first (runs : FallbackRuns.t) :
  let summaries := getAllRuns runs in
  StronglySorted (fun a b => SavedRun.date b <= SavedRun.date a) summaries
  /\ Permutation summaries (map summary runs)
  /\ List.length summaries = List.length runs
  /\ Forall (fun run => SavedRun.route run = []
                        /\ SavedRun.segments run = []) summaries
  /\ (forall id, In id (ids summaries) <-> In id (ids runs)).
Proof.
  cbv zeta. unfold getAllRuns.
  pose proof (sortByDate_perm runs) as Hperm.
  split_conj.
  - apply StronglySorted_map. cbn [summary SavedRun.date].
    apply sortByDate_sorted.
  - apply Permutation_map. exact Hperm.
  - rewrite length_map. apply Permutation_length. exact Hperm.
  - apply Forall_map. apply Forall_forall. intros r _. split; reflexivity.
  - intros id. unfold ids. rewrite map_map. cbn [summary SavedRun.id].
    split; intros Hin; apply in_map_iff in Hin;
      destruct Hin as [r [Hr Hin]]; apply in_map_iff; exists r;
      (split; [exact Hr |]).
    + apply (Permutation_in _ Hperm). exact Hin.
    + apply (Permutation_in _ (Permutation_sym Hperm)). exact Hin.
Qed.

Lemma assign_ids index run runs r :
  nth_error runs index = Some r -> SavedRun.id run = SavedRun.id r ->
  ids (assign index run runs) = ids runs.
Proof.
  revert index. induction runs as [| r0 runs IH]; intros index Hnth Hid.
  - destruct index; discriminate.
  - destruct index as [| index]; cbn [assign ids map nth_error] in *.
    + injection Hnth as ->. rewrite Hid. reflexivity.
    + f_equal. apply (IH index); assumption.
Qed.

Lemma findIndex_found id runs index :
  findIndex id runs = Some index ->
  exists run,
    nth_error runs index = Some run
    /\ getRunById id runs = Some run
    /\ forall replacement id',
         getRunById id' (assign index replacement runs)
         = if hasId id' run
           then (if hasId id' replacement then Some replacement
                 else getRunById id' (skipn (S index) runs))
           else match getRunById id' (firstn index runs) with
                | Some found => Some found
                | None =>
                    if hasId id' replacement then Some replacement
                    else getRunById id' (skipn (S index) runs)
                end.
Proof.
  revert index. induction runs as [| r runs IH]; intros index Hfound;
    [discriminate |].
  cbn [findIndex] in Hfound. unfold getRunById. cbn [find].
  destruct (hasId id r) eqn:Hr.
  - injection Hfound as <-. exists r. split_conj; try reflexivity.
    intros replacement id'. cbn [assign find firstn skipn].
    destruct (hasId id' r); destruct (hasId id' replacement); reflexivity.
  - destruct (findIndex id runs) as [i |]; [| discriminate].
    cbn [option_map] in Hfound. injection Hfound as <-.
    destruct (IH i eq_refl) as [run [Hnth [Hget Hassign]]].
    exists run. split_conj; [exact Hnth | exact Hget |].
    intros replacement id'. cbn [assign find firstn skipn].
    specialize (Hassign replacement id'). unfold getRunById in Hassign.
    destruct (hasId id' r) eqn:Hidr.
    + apply hasId_true in Hidr. apply hasId_false in Hr.
      apply getRunById_id in Hget. destruct Hget as [Hrun _].
      assert (Hne : hasId id' run = false)
        by (apply hasId_false; congruence).
      rewrite Hne. reflexivity.
    + exact Hassign.
Qed.

(** X26.  Renaming a run in the fallback store.  [updateRunName] changes
    the name of the run found for the id and nothing else: the ids and
    their order are unchanged, the run returned for the id afterwards is
    the old one with the new name, every other id gives what it gave
    before, and an id that is not stored leaves the store as it is. *)
Theorem renamed_run_keeps_the_rest (id newName : string)
  (runs : FallbackRuns.t) :
  ids (updateRunName id newName runs) = ids runs
  /\ getRunById id (updateRunName id newName runs)
     = option_map (withName newName) (getRunById id runs)
  /\ (forall id', id' <> id ->
        NoDup (ids runs) ->
        getRunById id' (updateRunName id newName runs)
        = getRunById id' runs)
  /\ (getRunById id runs = None -> updateRunName id newName runs = runs).
Proof.
  unfold updateRunName.
  destruct (findIndex id runs) as [index |] eqn:Hfound.
  - destruct (findIndex_found id runs index Hfound)
      as [run [Hnth [Hget Hassign]]].
    rewrite Hnth, Hget. cbn [option_map].
    pose proof (getRunById_id _ _ _ Hget) as [Hrun _].
    split_conj.
    + apply (assign_ids index _ runs run); [exact Hnth | reflexivity].
    + rewrite Hassign.
      assert (Hid : hasId id run = true) by (apply hasId_true; exact Hrun).
      assert (Hid' : hasId id (withName newName run) = true)
        by (apply hasId_true; exact Hrun).
      rewrite Hid, Hid'. reflexivity.
    + intros id' Hne _. rewrite Hassign.
      assert (Hid : hasId id' run = false)
        by (apply hasId_false; congruence).
      assert (Hid' : hasId id' (withName newName run) = false)
        by (apply hasId_false; cbn [withName SavedRun.id]; congruence).
      rewrite Hid, Hid'.
      transitivity (getRunById id' (firstn index runs ++ skipn index runs));
        [| rewrite firstn_skipn; reflexivity].
      rewrite getRunById_app.
      destruct (getRunById id' (firstn index runs)); [reflexivity |].
      assert (Hskip : skipn index runs = run :: skipn (S index) runs).
      { clear - Hnth. revert index Hnth.
        induction runs as [| r runs IH]; intros index Hnth.
        - destruct index; discriminate.
        - destruct index as [| index]; cbn [nth_error skipn] in *.
          + injection Hnth as ->. reflexivity.
          + apply IH. exact Hnth. }
      rewrite Hskip. unfold getRunById. cbn [find]. rewrite Hid.
      reflexivity.
    + intros Hnone. discriminate.
  - apply findIndex_None in Hfound. apply getRunById_None in Hfound.
    rewrite Hfound. split_conj; reflexivity.
Qed.

Lemma renamed_run_keeps_the_rest_witness :
  let run := SavedRun.mk "run_1000"%string 1000 [] 60 None [] [] in
  let other := SavedRun.mk "run_2000"%string 2000 [] 90 None [] [] in
  getRunById "run_2000"%string
    (updateRunName "run_1000"%string "Morning"%string [run; other])
  = Some other
  /\ updateRunName "run_3000"%string "Morning"%string [run; other]
     = [run; other].
Proof.
  cbv zeta.
  destruct (renamed_run_keeps_the_rest "run_1000"%string "Morning"%string
              [SavedRun.mk "run_1000"%string 1000 [] 60 None [] [];
               SavedRun.mk "run_2000"%string 2000 [] 90 None [] []])
    as [_ [_ [H1 _]]].
  destruct (renamed_run_keeps_the_rest "run_3000"%string "Morning"%string
              [SavedRun.mk "run_1000"%string 1000 [] 60 None [] [];
               SavedRun.mk "run_2000"%string 2000 [] 90 None [] []])
    as [_ [_ [_ H2]]].
  split.
  - apply H1; [discriminate |].
    repeat constructor; cbn; intuition discriminate.
  - apply H2. reflexivity.
Defined.

End FallbackRunsFacts.

(* ------------------------------------------------------------------ *)
(** ** The duration shown *)

Lemma padStart2_two_digits v :
  0 <= v < 60 -> String.length (padStart2 (Js.showZ v)) = 2%nat.
Proof.
  intros Hv.
  assert (Hnat : forall n : nat,
            (n < 60)%nat ->
            String.length (padStart2 (Js.showZ (Z.of_nat n))) = 2%nat).
  { intros n Hn.
    do 60 (destruct n as [| n]; [reflexivity |]). lia. }
  rewrite <- (Z2Nat.id v) by lia. apply Hnat. lia.
Qed.

(** X27.  The duration shown is the duration.  For a whole, non-negative
    number of seconds up to [maxSafeInteger] (2^53 - 1, the range in which
    the doubles of the code are exact), [formatDuration] prints hours,
    minutes and seconds that recombine to exactly that number, with minutes
    and seconds below 60 and printed on two digits; the hours field appears
    only when the duration reaches one hour, and below that the minutes are
    printed unpadded. *)
Theorem formatDuration_shows_the_duration (seconds : Z) :
  0 <= seconds <= maxSafeInteger ->
  exists hours minutes remainingSeconds,
    seconds = hours * 3600 + minutes * 60 + remainingSeconds
    /\ 0 <= hours /\ 0 <= minutes < 60 /\ 0 <= remainingSeconds < 60
    /\ String.length (padStart2 (Js.showZ minutes)) = 2%nat
    /\ String.length (padStart2 (Js.showZ remainingSeconds)) = 2%nat
    /\ formatDuration seconds
       = (if 3600 <=? seconds
          then (Js.showZ hours ++ ":" ++ padStart2 (Js.showZ minutes) ++ ":"
                ++ padStart2 (Js.showZ remainingSeconds))%string
          else (Js.showZ minutes ++ ":"
                ++ padStart2 (Js.showZ remainingSeconds))%string).
Proof.
  intros [Hpos _].
  exists (seconds / 3600), (Z.rem seconds 3600 / 60), (Z.rem seconds 60).
  rewrite !Z.rem_mod_nonneg by lia.
  pose proof (Z.div_mod seconds 3600 ltac:(lia)) as Hdiv.
  pose proof (Z.mod_pos_bound seconds 3600 ltac:(lia)) as Hmod.
  pose proof (Z.div_mod (seconds mod 3600) 60 ltac:(lia)) as Hdiv'.
  pose proof (Z.mod_pos_bound (seconds mod 3600) 60 ltac:(lia)) as Hmod'.
  assert (Hsec : (seconds mod 3600) mod 60 = seconds mod 60).
  { symmetry. rewrite (Z.div_mod seconds 3600) at 1 by lia.
    replace (3600 * (seconds / 3600) + seconds mod 3600)
      with (seconds mod 3600 + (60 * (seconds / 3600)) * 60) by lia.
    apply Z.mod_add. lia. }
  assert (Hminutes : 0 <= seconds mod 3600 / 60 < 60).
  { split; [apply Z.div_pos; lia |].
    apply Z.div_lt_upper_bound; lia. }
  assert (Hseconds : 0 <= seconds mod 60 < 60)
    by (apply Z.mod_pos_bound; lia).
  split_conj; try lia.
  - apply padStart2_two_digits. exact Hminutes.
  - apply padStart2_two_digits. exact Hseconds.
  - unfold formatDuration. cbv zeta. rewrite !Z.rem_mod_nonneg by lia.
    destruct (Z.leb_spec 3600 seconds) as [Hhour | Hshort].
    + assert (Hgt : (seconds / 3600 >? 0) = true).
      { apply Z.gtb_lt. apply Z.div_str_pos. lia. }
      rewrite Hgt. reflexivity.
    + rewrite (Z.div_small seconds 3600) by lia. reflexivity.
Qed.

Lemma formatDuration_shows_the_duration_witness :
  exists hours minutes remainingSeconds,
    3725 = hours * 3600 + minutes * 60 + remainingSeconds
    /\ 0 <= hours /\ 0 <= minutes < 60 /\ 0 <= remainingSeconds < 60
    /\ String.length (padStart2 (Js.showZ minutes)) = 2%nat
    /\ String.length (padStart2 (Js.showZ remainingSeconds)) = 2%nat
    /\ formatDuration 3725
       = (if 3600 <=? 3725
          then (Js.showZ hours ++ ":" ++ padStart2 (Js.showZ minutes) ++ ":"
                ++ padStart2 (Js.showZ remainingSeconds))%string
          else (Js.showZ minutes ++ ":"
                ++ padStart2 (Js.showZ remainingSeconds))%string).
Proof.
  apply (formatDuration_shows_the_duration 3725).
  unfold maxSafeInteger. lia.
Defined.

(* ------------------------------------------------------------------ *)
(** ** Background points and the screen *)

Lemma handleGpsLost_route p now w :
  route (screen (handleGpsLost p now w)) = route (screen w).
Proof.
  unfold handleGpsLost. break_if; [| reflexivity].
  cbn [screen withScreen set_showGpsDisabledMessage route].
  apply handlePauseResume_route.
Qed.

Lemma checkGPSStatus_route p now current w :
  route (screen (checkGPSStatus p now current w)) = route (screen w).
Proof.
  unfold checkGPSStatus. cbv zeta.
  match goal with
  | |- route (screen (withScreen ?s ?w1)) = _ =>
      assert (Hw1 : route (screen w1) = route (screen w));
      [| assert (Hs : route s = route (screen w1))]
  end.
  - repeat break_if;
      [apply handleGpsLost_route | reflexivity | reflexivity].
  - repeat break_if; destruct current; reflexivity.
  - cbn [screen withScreen]. rewrite Hs. exact Hw1.
Qed.

Lemma handleLocationUpdate_route location now w :
  route (screen (handleLocationUpdate location now w)) = route (screen w)
  \/ exists c,
       RouteCoordinate.source c = Some foreground
       /\ route (screen (handleLocationUpdate location now w))
          = route (screen w) ++ [c].
Proof.
  unfold handleLocationUpdate. cbv zeta.
  break_if; [left; reflexivity |].
  break_if; [left; reflexivity |].
  break_if; [left; reflexivity |].
  right. eexists. split; [| reflexivity]. reflexivity.
Qed.

(** What one event of the running application does to the route in
    memory. *)
Lemma step_route w e :
  isRelaunch e = false ->
  route (screen (step w e)) = route (screen w)
  \/ route (screen (step w e)) = []
  \/ exists c,
       RouteCoordinate.source c = Some foreground
       /\ route (screen (step w e)) = route (screen w) ++ [c].
Proof.
  intros Hrunning. unfold step. rewrite screen_commit.
  destruct e; try discriminate; cbv beta iota delta [handle].
  - break_if; [| left; reflexivity].
    unfold handleStartRun. break_if; [left; reflexivity |].
    break_let. break_if; right; left; reflexivity.
  - break_if; left; [apply handlePauseResume_route | reflexivity].
  - break_if; left; [apply handlePauseResume_route | reflexivity].
  - break_if; [| left; reflexivity]. unfold handleStopAndReview.
    break_if; left; reflexivity.
  - break_if; [right; left | left]; reflexivity.
  - left. unfold elapsedTimeTick. break_if; [| reflexivity].
    destruct (startTime (screen w)); reflexivity.
  - left. unfold periodicSave. cbv zeta. break_if; [| reflexivity].
    destruct (currentRunId (screen w)); reflexivity.
  - unfold deliverPosition. break_if; [| left; reflexivity].
    break_let. destruct o as [userLocation |]; [| left; reflexivity].
    destruct (handleLocationUpdate_route userLocation now (withService t w))
      as [Hsame | [c [Hsource Hadded]]].
    + left. exact Hsame.
    + right. right. exists c. split; assumption.
  - left. unfold runBackgroundTask. cbv zeta. break_if; [| reflexivity].
    break_let. reflexivity.
  - left. apply checkGPSStatus_route.
  - left. destruct (pollGPSStatus_session p current w)
      as [s' [-> [_ [_ [_ [_ [Hr _]]]]]]]. exact Hr.
  - left. destruct (gpsMonitorTick_session p w)
      as [s' [-> [_ [_ [_ [_ [Hr _]]]]]]]. exact Hr.
  - left. reflexivity.
Qed.

(** X28.  Background points and the screen.  While the process runs, the
    route in memory never gains a background point: an event other than a
    relaunch leaves the route, empties it, or appends one foreground
    point.  And every write of the snapshot by the screen itself (the
    periodic save while tracking, a position event that records a point,
    Pause, Resume) replaces the persisted route by the route in memory.
    So the points the background task has appended to the snapshot reach
    the screen only through a relaunch, and are dropped from the snapshot
    by the next write of the screen. *)
Theorem screen_writes_replace_persisted_route
  (backend : StorageService.Backend) (trace : list Event) (e : Event) :
  validTrace trace = true ->
  let w := run backend trace in
  let w' := step w e in
  (isRelaunch e = false ->
   forall c, In c (route (screen w')) ->
             RouteCoordinate.source c = Some background ->
             In c (route (screen w)))
  /\ (screenWrite w e ->
      snapshotRoute (storage w')
      = storedRoute (StorageService.backend (storage w))
          (route (screen w'))).
Proof.
  cbv zeta. intros Hvalid. split.
  - intros Hrunning c Hin Hsource.
    destruct (step_route (run backend trace) e Hrunning)
      as [Hsame | [Hempty | [c' [Hforeground Hadded]]]].
    + rewrite Hsame in Hin. exact Hin.
    + rewrite Hempty in Hin. contradiction.
    + rewrite Hadded in Hin. apply in_app_or in Hin.
      destruct Hin as [Hin | [<- | []]]; [exact Hin | congruence].
  - pose proof (reachable_refsSynced backend trace) as Hsync.
    pose proof (reachable_identified backend trace) as [Hid _].
    pose proof (reachable_startStamped backend trace Hvalid)
      as [Hstart [Hpositive _]].
    set (w := run backend trace) in *.
    assert (Hsaved : forall data,
              snapshotRoute
                (StorageService.saveCurrentTrackingData data (storage w))
              = storedRoute (StorageService.backend (storage w))
                  (TrackingData.route data)).
    { intros data. unfold snapshotRoute,
        StorageService.saveCurrentTrackingData,
        StorageService.getCurrentTrackingData.
      destruct (StorageService.backend (storage w)); reflexivity. }
    assert (Hsession : isTracking (screen w) = true ->
              exists runId start,
                currentRunId (screen w) = Some runId
                /\ Js.truthyStr (Some runId) = true
                /\ startTime (screen w) = Some start
                /\ Js.truthyZ (Some start) = true).
    { intros Ht. specialize (Hid Ht). destruct (Hstart Ht) as [start Hs].
      destruct (currentRunId (screen w)) as [runId |]; [| discriminate].
      exists runId, start. split_conj; try reflexivity; try assumption.
      apply truthyZ_pos. apply Hpositive. exact Hs. }
    assert (HpauseResume : forall p now,
              isTracking (screen w) = true ->
              (isPaused (screen w) = true ->
               gpsAvailable (gpsStatus (screen w)) = true) ->
              snapshotRoute (storage (commit (handlePauseResume p now w)))
              = storedRoute (StorageService.backend (storage w))
                  (route (screen (commit (handlePauseResume p now w))))).
    { intros p now Ht Hgps.
      rewrite screen_commit, storage_commit, handlePauseResume_route.
      destruct (Hsession Ht) as [runId [start [Hrun [Htruthy [Hs Hst]]]]].
      assert (Hstorage : storage (handlePauseResume p now w)
                         = pauseResumeSnapshot now (screen w) (storage w)).
      { destruct (isPaused (screen w)) eqn:Hp.
        - apply handlePauseResume_resume_storage; [exact Hp | auto].
        - unfold handlePauseResume. rewrite Hp.
          destruct (Js.truthyZ (currentSegmentStartTime (screen w)));
            [destruct (currentSegmentStartTime (screen w)) |];
            reflexivity. }
      rewrite Hstorage. unfold pauseResumeSnapshot.
      rewrite Hrun, Htruthy, Hs, Hst. cbn [andb]. apply Hsaved. }
    destruct e; cbn [screenWrite]; try contradiction; intros Hwrite.
    + destruct (offered_pause _ Hwrite) as [Hstate _].
      apply sessionState_Tracking in Hstate. destruct Hstate as [Ht Hp].
      unfold step. cbv beta iota delta [handle]. rewrite Hwrite.
      apply HpauseResume; [exact Ht | congruence].
    + destruct (offered_resume _ Hwrite) as [Hstate Hgps].
      apply sessionState_Paused in Hstate. destruct Hstate as [Ht Hp].
      unfold step. cbv beta iota delta [handle]. rewrite Hwrite.
      apply HpauseResume; [exact Ht | intros _; exact Hgps].
    + apply sessionState_Tracking in Hwrite. destruct Hwrite as [Ht Hp].
      destruct (Hsession Ht) as [runId [start [Hrun [Htruthy _]]]].
      unfold step. cbv beta iota delta [handle].
      rewrite screen_commit, storage_commit.
      unfold periodicSave. cbv zeta. rewrite Ht, Hp, Hrun, Htruthy.
      cbn [negb andb withStorage storage screen]. apply Hsaved.
    + assert (Hstep : step w (Position location now)
                      = commit (deliverPosition location now w))
        by reflexivity.
      rewrite Hstep in *. rewrite screen_commit in *.
      rewrite storage_commit.
      destruct (deliverPosition_recorded_by _ _ _ Hwrite)
        as [sv [userLocation Hdeliver]].
      rewrite Hdeliver in *.
      assert (Htracking :
                pipelineState (refs (withService sv w)) = Tracking).
      { destruct (pipelineState (refs (withService sv w))) eqn:Hstate;
          [| reflexivity |];
          destruct (handleLocationUpdate_not_tracking userLocation now
                      (withService sv w)) as [Hroute _];
          try (rewrite Hstate; discriminate);
          contradiction Hwrite. }
      assert (Hrefs : isTrackingRef (refs w) = isTracking (screen w)
                      /\ currentRunIdRef (refs w) = currentRunId (screen w)
                      /\ startTimeRef (refs w) = startTime (screen w))
        by (unfold refsSynced in Hsync; rewrite Hsync; split_conj;
            reflexivity).
      destruct Hrefs as [HrefT [HrefId HrefStart]].
      assert (Ht : isTracking (screen w) = true).
      { rewrite <- HrefT. unfold pipelineState in Htracking.
        cbn [refs withService] in Htracking.
        destruct (isTrackingRef (refs w)); [reflexivity | discriminate]. }
      destruct (Hsession Ht) as [runId [start [Hrun [Htruthy [Hs Hst]]]]].
      assert (Hsnapshot := handleLocationUpdate_snapshot userLocation now
                             (withService sv w) runId).
      cbn [refs withService screen storage] in Hsnapshot.
      rewrite HrefId, HrefStart, Hrun, Hs in Hsnapshot.
      specialize (Hsnapshot eq_refl Htruthy Hst Hwrite).
      rewrite Hsnapshot. apply Hsaved.
Qed.

Lemma screen_writes_replace_persisted_route_witness :
  let w := run StorageService.Fallback backgroundFirstTrace in
  let w' := step w SaveTick in
  snapshotRoute (storage w) = [backgroundPoint 2000]
  /\ route (screen w') = []
  /\ snapshotRoute (storage w') = [].
Proof.
  cbv zeta.
  destruct (screen_writes_replace_persisted_route StorageService.Fallback
              backgroundFirstTrace SaveTick eq_refl) as [_ Hwrite].
  split; [reflexivity |]. split; [reflexivity |].
  rewrite (Hwrite eq_refl). reflexivity.
Defined.

(* ------------------------------------------------------------------ *)
(** ** The snapshot describes the session on screen *)

Lemma save_ofSession data st (tracking : bool) (runId : option string)
  (start : option Z) :
  tracking = true ->
  runId = Some (TrackingData.id data) ->
  start = TrackingData.startTime data ->
  TrackingData.isTracking data = true ->
  forall d,
    StorageService.currentTracking
      (StorageService.saveCurrentTrackingData data st) = Some d ->
    tracking = true
    /\ runId = Some (TrackingData.id d)
    /\ start = TrackingData.startTime d
    /\ TrackingData.isTracking d = true.
Proof.
  intros Ht Hid Hstart Hd d. unfold StorageService.saveCurrentTrackingData.
  destruct (StorageService.backend st); simpl; intros Heq;
    inversion Heq; subst; split_conj; try assumption; reflexivity.
Qed.

Lemma get_ofSession st d :
  StorageService.getCurrentTrackingData st = Some d ->
  exists raw,
    StorageService.currentTracking st = Some raw
    /\ TrackingData.id d = TrackingData.id raw
    /\ TrackingData.startTime d = TrackingData.startTime raw
    /\ TrackingData.isTracking d = TrackingData.isTracking raw.
Proof.
  unfold StorageService.getCurrentTrackingData.
  destruct (StorageService.backend st).
  - intros Hd. exists d. split_conj; try reflexivity. exact Hd.
  - destruct (StorageService.currentTracking st) as [raw |];
      simpl; [| discriminate].
    intros Heq. inversion Heq. exists raw. split_conj; reflexivity.
Qed.

Lemma handlePauseResume_ofSession p now w :
  isTracking (screen w) = true ->
  snapshotOfSession w -> snapshotOfSession (handlePauseResume p now w).
Proof.
  intros Ht Hinv. unfold snapshotOfSession.
  destruct (handlePauseResume_identity p now w) as [-> ->].
  assert (Hstart : startTime (screen (handlePauseResume p now w))
                   = startTime (screen w))
    by (destruct (handlePauseResume_times p now w) as [H _]; exact H).
  rewrite Hstart.
  destruct (handlePauseResume_storage p now w) as [-> | ->];
    [exact Hinv |].
  unfold pauseResumeSnapshot. break_if; [| exact Hinv].
  destruct (currentRunId (screen w)) as [runId |] eqn:Hrun;
    [| cbn in Heqb; discriminate].
  apply save_ofSession; try reflexivity. exact Ht.
Qed.

Lemma handleLocationUpdate_ofSession location now w :
  refsSynced w -> snapshotOfSession w ->
  snapshotOfSession (handleLocationUpdate location now w).
Proof.
  intros Hsync Hinv.
  assert (Hrefs : isTrackingRef (refs w) = isTracking (screen w)
                  /\ currentRunIdRef (refs w) = currentRunId (screen w)
                  /\ startTimeRef (refs w) = startTime (screen w))
    by (unfold refsSynced in Hsync; rewrite Hsync; split_conj;
        reflexivity).
  destruct Hrefs as [HrefT [HrefId HrefStart]].
  unfold handleLocationUpdate. cbv zeta.
  rewrite HrefT, HrefId, HrefStart.
  break_if; [exact Hinv |].
  destruct (isTracking (screen w)) eqn:Ht; cbn [negb orb].
  - break_if; [exact Hinv |].
    break_if; [exact Hinv |].
    unfold snapshotOfSession. cbn [screen storage].
    destruct (Js.truthyStr (currentRunId (screen w))
              && Js.truthyZ (startTime (screen w))) eqn:Hguard.
    + destruct (currentRunId (screen w)) as [runId |] eqn:Hrun;
        [| cbn in Hguard; discriminate].
      apply save_ofSession; cbn; rewrite ?Ht, ?Hrun; reflexivity.
    + intros d Hd. destruct (Hinv d Hd) as [H1 [H2 [H3 H4]]].
      cbn. rewrite Ht. split_conj; try reflexivity; assumption.
  - exact Hinv.
Qed.

Lemma task_ofSession input now bg st s :
  (forall d, StorageService.currentTracking st = Some d ->
             isTracking s = true
             /\ currentRunId s = Some (TrackingData.id d)
             /\ startTime s = TrackingData.startTime d
             /\ TrackingData.isTracking d = true) ->
  forall d,
    StorageService.currentTracking
      (snd (BackgroundTask.task input now bg st)) = Some d ->
    isTracking s = true
    /\ currentRunId s = Some (TrackingData.id d)
    /\ startTime s = TrackingData.startTime d
    /\ TrackingData.isTracking d = true.
Proof.
  intros Hst. unfold BackgroundTask.task.
  destruct input as [| | locations]; try exact Hst.
  destruct locations as [| l ls]; [exact Hst |].
  destruct (StorageService.getCurrentTrackingData st) as [d0 |] eqn:Hget;
    [| exact Hst].
  break_if; [exact Hst |]. cbv zeta.
  repeat match goal with
         | |- context [match ?x with [] => _ | _ :: _ => _ end] =>
             destruct x; [exact Hst |]
         end.
  cbn [snd].
  destruct (get_ofSession st d0 Hget) as [raw [Hraw [Hid [Hstart Htr]]]].
  destruct (Hst raw Hraw) as [Ht [Hrun [Hs Hd]]].
  apply save_ofSession;
    cbn [TrackingData.withRoute TrackingData.id TrackingData.startTime
         TrackingData.isTracking]; congruence.
Qed.

Lemma step_ofSession w e :
  refsSynced w -> snapshotOfSession w -> snapshotOfSession (step w e).
Proof.
  intros Hsync Hinv. unfold step.
  assert (Hcommit :
            forall w1, snapshotOfSession w1 -> snapshotOfSession (commit w1))
    by (intros w1 H1; exact H1).
  apply Hcommit.
  destruct e; cbv beta iota delta [handle].
  - break_if; [| exact Hinv]. unfold handleStartRun.
    break_if; [exact Hinv |]. break_let.
    break_if; unfold snapshotOfSession; cbn [screen storage].
    + intros d Hd. discriminate.
    + apply save_ofSession; reflexivity.
  - destruct (offered PauseButton (screen w)) eqn:Hoffered;
      [| exact Hinv].
    destruct (offered_pause _ Hoffered) as [Hstate _].
    apply sessionState_Tracking in Hstate. destruct Hstate as [Ht _].
    apply handlePauseResume_ofSession; assumption.
  - destruct (offered ResumeButton (screen w)) eqn:Hoffered;
      [| exact Hinv].
    destruct (offered_resume _ Hoffered) as [Hstate _].
    apply sessionState_Paused in Hstate. destruct Hstate as [Ht _].
    apply handlePauseResume_ofSession; assumption.
  - break_if; [| exact Hinv]. unfold handleStopAndReview.
    break_if; exact Hinv.
  - break_if; [| exact Hinv]. intros d Hd. discriminate.
  - unfold elapsedTimeTick. break_if; [| destruct w; exact Hinv].
    destruct (startTime (screen w)); destruct w; exact Hinv.
  - unfold periodicSave. cbv zeta.
    destruct (isTracking (screen w) && negb (isPaused (screen w))
              && Js.truthyStr (currentRunId (screen w))) eqn:Hguard;
      [| exact Hinv].
    destruct (currentRunId (screen w)) as [runId |] eqn:Hrun;
      [| exact Hinv].
    apply andb_true_iff in Hguard. destruct Hguard as [Hguard _].
    apply andb_true_iff in Hguard. destruct Hguard as [Ht _].
    unfold snapshotOfSession. cbn [screen storage withStorage].
    apply save_ofSession; try reflexivity; assumption.
  - unfold deliverPosition. break_if; [| exact Hinv].
    break_let. destruct o as [userLocation |]; [| exact Hinv].
    apply handleLocationUpdate_ofSession; [exact Hsync | exact Hinv].
  - unfold runBackgroundTask. cbv zeta. break_if; [| exact Hinv].
    pose proof (task_ofSession input now
                  (LocationService.backgroundTask (service w))
                  (storage w) (screen w) Hinv) as Htask.
    break_let. unfold snapshotOfSession. cbn [screen storage snd] in *.
    exact Htask.
  - unfold checkGPSStatus. cbv zeta.
    match goal with
    | |- snapshotOfSession (withScreen ?s ?w1) =>
        assert (Hw1 : snapshotOfSession w1);
        [| assert (Hs : isTracking s = isTracking (screen w1)
                        /\ currentRunId s = currentRunId (screen w1)
                        /\ startTime s = startTime (screen w1))]
    end.
    + repeat break_if; try exact Hinv.
      unfold handleGpsLost.
      destruct (isTracking (screen w) && negb (isPaused (screen w)))
        eqn:Hguard; [| exact Hinv].
      apply andb_true_iff in Hguard. destruct Hguard as [Ht _].
      apply (handlePauseResume_ofSession p now w Ht) in Hinv.
      exact Hinv.
    + repeat break_if; destruct current; split_conj; reflexivity.
    + destruct Hs as [Hs1 [Hs2 Hs3]]. unfold snapshotOfSession.
      cbn [screen storage withScreen]. rewrite Hs1, Hs2, Hs3. exact Hw1.
  - unfold relaunch, loadExistingTrackingData. cbn [storage screen].
    destruct (StorageService.backend (storage w)) eqn:Hbackend.
    + cbn. intros d Hd. discriminate.
    + destruct (StorageService.getCurrentTrackingData (storage w))
        as [d0 |] eqn:Hget.
      * destruct (get_ofSession _ _ Hget)
          as [raw [Hraw [Hid [Hstart Htr]]]].
        destruct (Hinv raw Hraw) as [_ [_ [_ Hd]]].
        rewrite Htr, Hd. unfold snapshotOfSession.
        cbn [screen storage withScreen]. intros d Hdd.
        rewrite Hraw in Hdd. injection Hdd as <-.
        cbn. split_conj; try reflexivity; congruence.
      * unfold snapshotOfSession. cbn [screen storage]. intros d Hd.
        unfold StorageService.getCurrentTrackingData in Hget.
        rewrite Hbackend, Hd in Hget. discriminate.
  - destruct (pollGPSStatus_session p current w)
      as [s' [Heq [Ht [_ [Hs _]]]]].
    destruct (pollGPSStatus_identity p current w) as [s'' [Heq' [_ Hr]]].
    rewrite Heq in Heq'.
    assert (Hss : s' = s'') by (inversion Heq'; reflexivity).
    subst s''. rewrite Heq. unfold snapshotOfSession.
    cbn [screen storage withScreen]. rewrite Ht, Hs, Hr. exact Hinv.
  - destruct (gpsMonitorTick_session p w) as [s' [Heq [Ht [_ [Hs _]]]]].
    destruct (gpsMonitorTick_identity p w) as [s'' [Heq' [_ Hr]]].
    rewrite Heq in Heq'.
    assert (Hss : s' = s'') by (inversion Heq'; reflexivity).
    subst s''. rewrite Heq. unfold snapshotOfSession.
    cbn [screen storage withScreen]. rewrite Ht, Hs, Hr. exact Hinv.
  - intros d Hd. discriminate.
Qed.

(** X29.  The snapshot describes the session on screen.  In every state
    the application reaches, if a snapshot is persisted then the screen has
    a session (Tracking or Paused) with the snapshot's run id and start
    time, and the snapshot is marked as tracking.  So while the screen is
    Idle nothing is persisted, and a relaunch then recovers nothing. *)
Theorem snapshot_describes_session
  (backend : StorageService.Backend) (trace : list Event) :
  let w := run backend trace in
  (forall d, StorageService.getCurrentTrackingData (storage w) = Some d ->
     sessionState (screen w) <> Idle
     /\ currentRunId (screen w) = Some (TrackingData.id d)
     /\ startTime (screen w) = TrackingData.startTime d
     /\ TrackingData.isTracking d = true)
  /\ (sessionState (screen w) = Idle ->
      StorageService.getCurrentTrackingData (storage w) = None
      /\ forall now taskRegistered,
           screen (step w (Relaunch now taskRegistered)) = initialState).
Proof.
  cbv zeta.
  assert (H : refsSynced (run backend trace)
              /\ snapshotOfSession (run backend trace)).
  { induction trace as [| e trace IH] using rev_ind.
    - split; [reflexivity | intros d Hd; discriminate].
    - rewrite run_snoc. destruct IH as [Hsync Hinv].
      split; [apply commit_synced | apply step_ofSession; assumption]. }
  destruct H as [_ Hinv]. set (w := run backend trace) in *.
  assert (Hpresent :
            forall d,
              StorageService.getCurrentTrackingData (storage w) = Some d ->
              sessionState (screen w) <> Idle
              /\ currentRunId (screen w) = Some (TrackingData.id d)
              /\ startTime (screen w) = TrackingData.startTime d
              /\ TrackingData.isTracking d = true).
  { intros d Hget.
    destruct (get_ofSession _ _ Hget) as [raw [Hraw [Hid [Hstart Htr]]]].
    destruct (Hinv raw Hraw) as [Ht [Hrun [Hs Hd]]].
    split_conj; try congruence.
    apply sessionState_active. exact Ht. }
  split; [exact Hpresent |].
  intros Hidle.
  assert (Hnone : StorageService.currentTracking (storage w) = None).
  { destruct (StorageService.currentTracking (storage w)) as [raw |]
      eqn:Hraw; [| reflexivity].
    destruct (Hinv raw Hraw) as [Ht _]. unfold sessionState in Hidle.
    rewrite Ht in Hidle. destruct (isPaused (screen w)); discriminate. }
  split.
  - unfold StorageService.getCurrentTrackingData. rewrite Hnone.
    destruct (StorageService.backend (storage w)); reflexivity.
  - intros now taskRegistered. apply relaunch_without_snapshot.
    exact Hnone.
Qed.

Lemma snapshot_describes_session_witness :
  let w := run StorageService.Watermelon idleTrace in
  StorageService.getCurrentTrackingData (storage w) = None
  /\ screen (step w (Relaunch 5000 true)) = initialState.
Proof.
  cbv zeta.
  destruct (snapshot_describes_session StorageService.Watermelon idleTrace)
    as [_ H].
  destruct (H eq_refl) as [H1 H2]. split; [exact H1 | apply H2].
Defined.

(* ------------------------------------------------------------------ *)
(** ** The order of the foreground points within a segment *)

Lemma spaced_row c c' :
  spaced c c' ->
  spaced (StorageService.writeRouteRow c) (StorageService.writeRouteRow c').
Proof.
  unfold spaced. rewrite !coordKey_writeRouteRow. intros H. exact H.
Qed.

Lemma spacedRoute_rows route :
  spacedRoute route -> spacedRoute (map StorageService.writeRouteRow route).
Proof.
  unfold spacedRoute. induction 1 as [| c l Hs IH Hall]; cbn [map].
  - constructor.
  - constructor; [exact IH |]. apply Forall_map.
    revert Hall. apply Forall_impl. intros c'. apply spaced_row.
Qed.

Lemma spacedRoute_snoc route c :
  spacedRoute route -> Forall (fun c' => spaced c' c) route ->
  spacedRoute (route ++ [c]).
Proof.
  unfold spacedRoute. induction 1 as [| x l Hs IH Hall]; intros Hlast.
  - constructor; constructor.
  - inversion Hlast as [| ? ? Hx Hl]; subst. cbn [app].
    constructor; [apply IH; exact Hl |].
    apply Forall_app. split; [exact Hall |].
    constructor; [exact Hx | constructor].
Qed.

Lemma spacedRoute_app_background route points :
  spacedRoute route ->
  Forall (fun c => isForeground c = false) points ->
  spacedRoute (route ++ points).
Proof.
  intros Hroute Hpoints. revert route Hroute.
  induction Hpoints as [| c points Hc Hpoints IH]; intros route Hroute.
  - rewrite app_nil_r. exact Hroute.
  - replace (route ++ c :: points) with ((route ++ [c]) ++ points)
      by (rewrite <- app_assoc; reflexivity).
    apply IH. apply spacedRoute_snoc; [exact Hroute |].
    apply Forall_forall. intros c' _ _ Hfg. congruence.
Qed.

Lemma save_spaced data st :
  spacedRoute (TrackingData.route data) ->
  storageSpaced (StorageService.saveCurrentTrackingData data st).
Proof.
  intros Hall d. unfold StorageService.saveCurrentTrackingData.
  destruct (StorageService.backend st); simpl; intros Heq;
    inversion Heq; subst.
  - assumption.
  - cbn [StorageService.writeRecord TrackingData.route].
    apply spacedRoute_rows. exact Hall.
Qed.

Lemma get_spaced st d :
  storageSpaced st ->
  StorageService.getCurrentTrackingData st = Some d ->
  spacedRoute (TrackingData.route d).
Proof.
  unfold StorageService.getCurrentTrackingData. intros Hst.
  destruct (StorageService.backend st).
  - apply Hst.
  - destruct (StorageService.currentTracking st) as [raw |] eqn:Hraw;
      simpl; [| discriminate].
    intros Heq. inversion Heq.
    unfold StorageService.readRecord. cbn [TrackingData.route].
    apply Hst. assumption.
Qed.

Lemma clear_spaced st :
  storageSpaced (StorageService.clearCurrentTrackingData st).
Proof. intros d Hd. discriminate. Qed.

Lemma pauseResumeSnapshot_spaced now s st :
  spacedRoute (route s) -> storageSpaced st ->
  storageSpaced (pauseResumeSnapshot now s st).
Proof.
  intros Hall Hst. unfold pauseResumeSnapshot.
  break_if; [| assumption].
  destruct (currentRunId s); [| assumption].
  apply save_spaced. exact Hall.
Qed.

(** After [handlePauseResume] either nothing has changed, or a new
    segment is open, or the watcher is stopped. *)
Lemma handlePauseResume_watcher p now w :
  handlePauseResume p now w = w
  \/ currentSegmentIndex (screen (handlePauseResume p now w))
     = currentSegmentIndex (screen w) + 1
  \/ LocationService.currentLocationSubscription
       (service (handlePauseResume p now w)) = false.
Proof.
  unfold handlePauseResume. cbv zeta.
  destruct (isPaused (screen w)).
  - break_if; [left; reflexivity |]. right. left. break_let.
    destruct (Js.truthyZ (pauseStartTime (screen w)));
      [destruct (pauseStartTime (screen w)) |]; reflexivity.
  - right. right.
    destruct (Js.truthyZ (currentSegmentStartTime (screen w)));
      [destruct (currentSegmentStartTime (screen w)) |]; reflexivity.
Qed.

Lemma fresh_segment_ahead top route (last : Z) :
  coordinatesWithin top route ->
  Forall (fun c =>
            isForeground c = true -> Metrics.coordKey c = top + 1 ->
            tsOf c <= last) route.
Proof.
  unfold coordinatesWithin. apply Forall_impl. intros c Hc _ Hkey. lia.
Qed.

Lemma handlePauseResume_ordered p now w :
  indexBounded w -> fixesOrdered w ->
  fixesOrdered (handlePauseResume p now w).
Proof.
  intros [_ [Hwithin _]] [Hroute [Hahead Hst]]. unfold fixesOrdered.
  rewrite handlePauseResume_route. split; [exact Hroute |]. split.
  - unfold watcherAhead. rewrite handlePauseResume_route.
    destruct (handlePauseResume_watcher p now w) as [-> | [-> | ->]].
    + exact Hahead.
    + intros _. apply fresh_segment_ahead. exact Hwithin.
    + discriminate.
  - destruct (handlePauseResume_storage p now w) as [-> | ->];
      [assumption | apply pauseResumeSnapshot_spaced; assumption].
Qed.

Lemma handleStartRun_ordered p now w :
  fixesOrdered w -> fixesOrdered (handleStartRun p now w).
Proof.
  intros Hinv. unfold handleStartRun.
  break_if; [assumption |]. break_let.
  break_if; unfold fixesOrdered, watcherAhead, spacedRoute; simpl.
  - split; [constructor |]. split; [intros _; constructor |].
    apply clear_spaced.
  - split; [constructor |]. split; [intros _; constructor |].
    apply save_spaced. constructor.
Qed.

Lemma handleGpsLost_ordered p now w :
  indexBounded w -> fixesOrdered w -> fixesOrdered (handleGpsLost p now w).
Proof.
  intros Hbounded Hinv. unfold handleGpsLost. break_if.
  - apply (handlePauseResume_ordered p now w Hbounded) in Hinv.
    exact Hinv.
  - exact Hinv.
Qed.

Lemma checkGPSStatus_ordered p now current w :
  indexBounded w -> fixesOrdered w ->
  fixesOrdered (checkGPSStatus p now current w).
Proof.
  intros Hbounded Hinv. unfold checkGPSStatus. cbv zeta.
  match goal with
  | |- fixesOrdered (withScreen ?s ?w1) =>
      assert (Hw1 : fixesOrdered w1);
      [| assert (Hs : route s = route (screen w1)
                      /\ currentSegmentIndex s
                         = currentSegmentIndex (screen w1))]
  end.
  - repeat break_if;
      [apply handleGpsLost_ordered; assumption
      | exact Hinv | exact Hinv].
  - repeat break_if; destruct current; split; reflexivity.
  - destruct Hs as [Hs1 Hs2]. destruct Hw1 as [Ha [Hb Hc]].
    unfold fixesOrdered, watcherAhead.
    cbn [screen storage service withScreen]. rewrite Hs1, Hs2.
    split_conj; assumption.
Qed.

Lemma tsOf_recorded ts now :
  ts <> 0 -> Js.orZ (Some (Js.orZ (Some ts) now)) 0 = ts.
Proof. intros Hnz. destruct ts; [contradiction | |]; reflexivity. Qed.

Lemma handleLocationUpdate_ordered location now w ts :
  refsSynced w ->
  UserLocation.timestamp location = Some ts -> ts <> 0 ->
  spacedRoute (route (screen w)) ->
  Forall (fun c =>
            isForeground c = true ->
            Metrics.coordKey c = currentSegmentIndex (screen w) ->
            tsOf c + 800 <= ts) (route (screen w)) ->
  storageSpaced (storage w) ->
  let w' := handleLocationUpdate location now w in
  spacedRoute (route (screen w'))
  /\ Forall (fun c =>
               isForeground c = true ->
               Metrics.coordKey c = currentSegmentIndex (screen w') ->
               tsOf c <= ts) (route (screen w'))
  /\ storageSpaced (storage w')
  /\ service w' = service w.
Proof.
  intros Hsync Hts Hnz Hroute Hgap Hst. cbv zeta.
  assert (Href : currentSegmentIndexRef (refs w)
                 = currentSegmentIndex (screen w)).
  { unfold refsSynced in Hsync. rewrite Hsync. reflexivity. }
  assert (Hbehind : Forall (fun c =>
            isForeground c = true ->
            Metrics.coordKey c = currentSegmentIndex (screen w) ->
            tsOf c <= ts) (route (screen w))).
  { revert Hgap. apply Forall_impl. intros c Hc Hfg Hkey.
    specialize (Hc Hfg Hkey). lia. }
  unfold handleLocationUpdate. cbv zeta. rewrite Href, Hts.
  break_if; [split_conj; try assumption; reflexivity |].
  break_if; [split_conj; try assumption; reflexivity |].
  break_if; [split_conj; try assumption; reflexivity |].
  cbn [screen storage service route currentSegmentIndex set_route
       set_userLocation].
  assert (Hnew : spacedRoute
            (route (screen w)
             ++ [RouteCoordinate.mk
                   (UserLocation.latitude location)
                   (UserLocation.longitude location)
                   (UserLocation.altitude location)
                   (UserLocation.accuracy location)
                   (Some (Js.orZ (Some ts) now))
                   (Some foreground)
                   (Some (currentSegmentIndex (screen w)))])).
  { apply spacedRoute_snoc; [exact Hroute |].
    revert Hgap. apply Forall_impl. intros c Hc Hfg _ Hkey.
    unfold tsOf at 2. cbn [RouteCoordinate.timestamp].
    rewrite (tsOf_recorded ts now Hnz). apply Hc; [exact Hfg |].
    rewrite Hkey. unfold Metrics.coordKey.
    cbn [RouteCoordinate.segmentIndex]. apply orZ_Some. }
  split_conj.
  - exact Hnew.
  - apply Forall_app. split; [exact Hbehind |].
    constructor; [| constructor]. intros _ _. unfold tsOf.
    cbn [RouteCoordinate.timestamp].
    rewrite (tsOf_recorded ts now Hnz). lia.
  - break_if; [| assumption].
    destruct (currentRunIdRef (refs w)); [| assumption].
    apply save_spaced. exact Hnew.
  - reflexivity.
Qed.

Lemma onPosition_service location now sv sv' delivered :
  LocationService.onPosition location now sv = (sv', delivered) ->
  LocationService.currentLocationSubscription sv'
  = LocationService.currentLocationSubscription sv
  /\ (delivered = None -> sv' = sv).
Proof.
  unfold LocationService.onPosition. cbv zeta.
  repeat break_if; intros H; inversion H; subst;
    split; try reflexivity; try discriminate.
Qed.

Lemma task_spaced input now bg st :
  storageSpaced st ->
  storageSpaced (snd (BackgroundTask.task input now bg st)).
Proof.
  intros Hst. unfold BackgroundTask.task.
  destruct input as [| | locations]; try exact Hst.
  destruct locations as [| l ls]; [exact Hst |].
  destruct (StorageService.getCurrentTrackingData st) as [d |] eqn:Hget;
    [| exact Hst].
  break_if; [exact Hst |]. cbv zeta.
  remember (filter (BackgroundTask.keepLocation now
                      (BackgroundTask.lastProcessedTimestamp bg)) (l :: ls))
    as filtered eqn:Hfiltered.
  destruct filtered as [| f fs]; [exact Hst |].
  remember (filter (BackgroundTask.isNewPoint
                      (BackgroundTask.existingTimestamps
                         (TrackingData.route d)))
              (map (BackgroundTask.processedPoint now) (f :: fs)))
    as newPoints eqn:HnewPoints.
  destruct newPoints as [| n ns]; [exact Hst |].
  cbn [snd]. apply save_spaced.
  cbn [TrackingData.withRoute TrackingData.route].
  apply spacedRoute_app_background; [eapply get_spaced; eassumption |].
  apply Forall_forall. intros c Hc. rewrite HnewPoints in Hc.
  apply filter_In in Hc. destruct Hc as [Hc _].
  apply in_map_iff in Hc. destruct Hc as [location [<- _]].
  reflexivity.
Qed.

Lemma step_ordered w e :
  validEvent e = true -> refsSynced w -> indexBounded w ->
  fixesOrdered w -> fixesOrdered (step w e).
Proof.
  intros Hvalid Hsync Hbounded Hinv. unfold step.
  assert (Hcommit : forall w1, fixesOrdered w1 -> fixesOrdered (commit w1))
    by (intros w1 H1; exact H1).
  apply Hcommit.
  destruct e; unfold validEvent in Hvalid; simpl in Hvalid;
    try apply Z.ltb_lt in Hvalid; cbv beta iota delta [handle].
  - break_if; [| exact Hinv]. apply handleStartRun_ordered; assumption.
  - break_if; [| exact Hinv]. apply handlePauseResume_ordered; assumption.
  - break_if; [| exact Hinv]. apply handlePauseResume_ordered; assumption.
  - break_if; [| exact Hinv]. unfold handleStopAndReview.
    break_if; [| exact Hinv].
    destruct Hinv as [Ha [_ Hc]].
    unfold fixesOrdered, watcherAhead. simpl.
    split_conj; try assumption. discriminate.
  - break_if; [| exact Hinv].
    unfold handleQuitRun, stopTrackingAndCleanup, fixesOrdered,
      watcherAhead, spacedRoute. simpl.
    split; [constructor |]. split; [discriminate | apply clear_spaced].
  - unfold elapsedTimeTick. break_if; [| destruct w; exact Hinv].
    destruct (startTime (screen w)); destruct w; exact Hinv.
  - unfold periodicSave. cbv zeta. break_if; [| exact Hinv].
    destruct (currentRunId (screen w)); [| exact Hinv].
    destruct Hinv as [Ha [Hb Hc]].
    unfold fixesOrdered, watcherAhead.
    cbn [screen storage service withStorage].
    split_conj; try assumption. apply save_spaced. exact Ha.
  - unfold deliverPosition.
    destruct (LocationService.currentLocationSubscription (service w))
      eqn:Hsub; [| exact Hinv].
    destruct (LocationService.onPosition location now (service w))
      as [sv delivered] eqn:Hon.
    destruct (onPosition_service _ _ _ _ _ Hon) as [Hsame Hdropped].
    destruct delivered as [userLocation |].
    + pose proof (onPosition_delivered _ _ _ _ _ Hon) as Hd.
      cbv zeta in Hd. destruct Hd as [Hgap [Hlast [Hts _]]].
      destruct Hinv as [Ha [Hb Hc]].
      assert (Hnz : Js.orZ (Some (LocationObject.timestamp location)) now
                    <> 0).
      { simpl. destruct (LocationObject.timestamp location); lia. }
      assert (Hspaced : Forall (fun c =>
                isForeground c = true ->
                Metrics.coordKey c = currentSegmentIndex (screen w) ->
                tsOf c + 800
                <= Js.orZ (Some (LocationObject.timestamp location)) now)
                (route (screen w))).
      { specialize (Hb Hsub). revert Hb. apply Forall_impl.
        intros c Hc' Hfg Hkey. specialize (Hc' Hfg Hkey). lia. }
      destruct (handleLocationUpdate_ordered userLocation now
                  (withService sv w) _ Hsync Hts Hnz Ha Hspaced Hc)
        as [Hroute' [Hahead' [Hst' Hsv']]].
      unfold fixesOrdered, watcherAhead.
      split; [exact Hroute' |]. split; [| exact Hst'].
      intros _. rewrite Hsv'. cbn [service withService].
      rewrite Hlast. exact Hahead'.
    + rewrite (Hdropped eq_refl). destruct w; exact Hinv.
  - unfold runBackgroundTask. cbv zeta. break_if; [| exact Hinv].
    destruct Hinv as [Ha [Hb Hc]].
    pose proof (task_spaced input now
                  (LocationService.backgroundTask (service w))
                  (storage w) Hc) as Htask.
    break_let. unfold fixesOrdered, watcherAhead.
    cbn [screen storage service LocationService.withBackground
         LocationService.currentLocationSubscription
         LocationService.lastLocationTime snd] in *.
    split_conj; assumption.
  - apply checkGPSStatus_ordered; assumption.
  - unfold relaunch, loadExistingTrackingData. cbn [storage screen].
    destruct Hinv as [_ [_ Hc]].
    assert (Hst : storageSpaced
              (match StorageService.backend (storage w) with
               | StorageService.Fallback =>
                   StorageService.mk StorageService.Fallback None
               | StorageService.Watermelon => storage w
               end)).
    { destruct (StorageService.backend (storage w)); [| exact Hc].
      intros d Hdd. discriminate. }
    destruct (StorageService.getCurrentTrackingData _) as [d |] eqn:Hget.
    + break_if; unfold fixesOrdered, watcherAhead; simpl.
      * split; [eapply get_spaced; eassumption |].
        split; [discriminate | exact Hst].
      * split; [constructor |]. split; [discriminate | exact Hst].
    + unfold fixesOrdered, watcherAhead; simpl.
      split; [constructor |]. split; [discriminate | exact Hst].
  - destruct (pollGPSStatus_session p current w)
      as [s' [-> [_ [_ [_ [_ [Hr [_ [Hi _]]]]]]]]].
    destruct Hinv as [Ha [Hb Hc]]. unfold fixesOrdered, watcherAhead.
    cbn [screen storage service withScreen]. rewrite Hr, Hi.
    split_conj; assumption.
  - destruct (gpsMonitorTick_session p w)
      as [s' [-> [_ [_ [_ [_ [Hr [_ [Hi _]]]]]]]]].
    destruct Hinv as [Ha [Hb Hc]]. unfold fixesOrdered, watcherAhead.
    cbn [screen storage service withScreen]. rewrite Hr, Hi.
    split_conj; assumption.
  - destruct Hinv as [Ha [_ Hc]]. unfold reviewDone, fixesOrdered,
      watcherAhead. simpl.
    split; [exact Ha |]. split; [discriminate | apply clear_spaced].
Qed.

Lemma StronglySorted_filter (A : Type) (R : A -> A -> Prop)
  (f : A -> bool) (l : list A) :
  StronglySorted R l -> StronglySorted R (filter f l).
Proof.
  induction 1 as [| a l Hs IH Hall]; cbn [filter]; [constructor |].
  destruct (f a); [| exact IH].
  constructor; [exact IH |].
  apply Forall_forall. intros x Hx. apply filter_In in Hx.
  destruct Hx as [Hx _]. rewrite Forall_forall in Hall. apply Hall.
  exact Hx.
Qed.

Lemma spaced_segment k route :
  spacedRoute route ->
  StronglySorted (fun c c' => tsOf c + 800 <= tsOf c')
    (filter isForeground (filter (keyIs k) route)).
Proof.
  unfold spacedRoute. intros Hs.
  apply (StronglySorted_filter _ _ (keyIs k)) in Hs.
  apply (StronglySorted_filter _ _ isForeground) in Hs.
  assert (Hall : Forall (fun c => isForeground c = true
                                  /\ Metrics.coordKey c = k)
                   (filter isForeground (filter (keyIs k) route))).
  { apply Forall_forall. intros c Hc. apply filter_In in Hc.
    destruct Hc as [Hc Hfg]. apply filter_In in Hc.
    destruct Hc as [_ Hkey]. unfold keyIs in Hkey.
    apply Z.eqb_eq in Hkey. split; assumption. }
  induction Hs as [| c l Hs IH Hrest]; [constructor |].
  inversion Hall as [| ? ? [Hfg Hkey] Hall']; subst.
  constructor; [apply IH; exact Hall' |].
  rewrite Forall_forall in *. intros c' Hc'.
  destruct (Hall' c' Hc') as [Hfg' Hkey'].
  apply (Hrest c' Hc'); congruence.
Qed.

(** X30.  The order of the foreground points.  In every state reached by
    a trace with positive clock readings, two foreground points of the
    same segment of the route in memory, or of the persisted route, are
    at least 800 ms apart by their timestamps, the one recorded first
    being the earlier.  So in every segment derived for display or for the
    review screen, the foreground points are in strictly increasing order
    of time. *)
Theorem foreground_points_ordered_within_segment
  (backend : StorageService.Backend) (trace : list Event) :
  validTrace trace = true ->
  let w := run backend trace in
  StronglySorted spaced (route (screen w))
  /\ StronglySorted spaced (snapshotRoute (storage w))
  /\ forall seg,
       In seg (Metrics.coordinatesToSegments (route (screen w))) ->
       StronglySorted (fun c c' => tsOf c + 800 <= tsOf c')
         (filter isForeground (RouteSegment.coordinates seg)).
Proof.
  intros Hvalid. cbv zeta.
  assert (H : refsSynced (run backend trace)
              /\ indexBounded (run backend trace)
              /\ fixesOrdered (run backend trace)).
  { revert Hvalid.
    apply (run_ind (fun w => refsSynced w /\ indexBounded w
                             /\ fixesOrdered w)).
    - split; [reflexivity |]. split.
      + unfold indexBounded. simpl. split; [lia |].
        split; [constructor |].
        split; [intros _; constructor | intros d Hd; discriminate].
      + unfold fixesOrdered, watcherAhead, spacedRoute. simpl.
        split; [constructor |].
        split; [discriminate | intros d Hd; discriminate].
    - intros w e He [Hsync [Hbounded Hinv]].
      split; [apply commit_synced |].
      split; [apply step_indexBounded; assumption |].
      apply step_ordered; assumption. }
  destruct H as [_ [_ [Hroute [_ Hst]]]].
  split; [exact Hroute |]. split.
  - unfold snapshotRoute.
    destruct (StorageService.getCurrentTrackingData
                (storage (run backend trace))) as [d |] eqn:Hget;
      [| constructor].
    eapply get_spaced; eassumption.
  - intros seg Hin.
    destruct (coordinatesToSegments_segment _ _ Hin) as [-> _].
    apply spaced_segment. exact Hroute.
Qed.

Lemma foreground_points_ordered_within_segment_witness :
  let w := step (run StorageService.Watermelon trackingTrace)
                (Position (fixAt 9000) 9000) in
  StronglySorted spaced (route (screen w))
  /\ StronglySorted spaced (snapshotRoute (storage w)).
Proof.
  cbv zeta.
  destruct (foreground_points_ordered_within_segment
              StorageService.Watermelon
              (trackingTrace ++ [Position (fixAt 9000) 9000]) eq_refl)
    as [H1 [H2 _]].
  rewrite run_snoc in H1, H2. split; assumption.
Defined.
